(* ===== verification/_CoqProject ===== *)
-Q . S2P
Prelude.v
Image.v
BBox.v
Crop.v
Canvas.v
Frames.v
Folder.v
Batch.v
Machine.v
Extract.v
Sheets.v
Paths.v
FileSystem.v
Effects.v
OnDisk.v
HurtOnDisk.v
SheetsOnDisk.v
Pipeline.v
