(* ===== verification/Prelude.v ===== *)
(** * QuizBattle sprite tooling: a verification development

    The repository is a set of nine one-shot Python scripts that prepare the
    sprite art of a mobile game with the Pillow imaging library: they crop
    sprites to their content, paste them on uniform transparent canvases and
    cut frames out of sprite sheets.  The scripts share no code, but they
    share three algorithms (bounding box of the non-transparent pixels, crop,
    masked paste at an offset) and one batch shape (list a folder, filter the
    names, handle every file inside a [try], print a line per file).

    ** Files

    - [Prelude] (this file): Python integers as [Z] with [//] for floor
      division, the [result] type that stands for a Python exception, the
      loop combinators ([for_range], [for_each]) that the [for] loops are
      translated with, the shared lemmas on running minima and maxima, the
      hint databases [img] and [imgrw] and the tactics [zdiv] and
      [split_guards].
    - [Image]: the part of Pillow the scripts call, modelled from its
      documentation since Pillow is not part of the repository: pixels,
      modes, images as rows of pixels, [Image.new], [getpixel], pixel
      access, [crop], [paste] with a mask (Pillow's integer blend),
      [convert], and the well-formedness invariant [image_wf] that every
      operation preserves.
    - [BBox]: the bounding box of the non-transparent pixels.  The abstract
      specification [is_bbox], Pillow's [getbbox] and the hand-written scan
      of src/crop_goblin_sprites.py ([scan_bounds], [found_content]), both
      proved against the specification; the classes [BBoxFinder] and
      [BBoxComplete] are the interface the cropping code is verified
      against.
    - [Crop]: the body of the [try] of src/crop_goblin_tight.py
      ([crop_tight]) and of src/crop_goblin_sprites.py ([crop_padded]),
      and the interface between a body and the loop that runs it: the
      classes [BodyTyped] (what is written is a well-formed RGBA image),
      [BodyTotal] and [BodyIdempotent], with their instances.
    - [Canvas]: pasting a sprite on a transparent canvas ([place]), as done
      by src/align_goblin_bottom.py ([align_bottom]),
      src/resize_goblin_uniform.py ([resize_uniform]),
      src/uniform_goblin_bottom.py ([uniform_bottom]) and the two extract
      scripts ([hurt_frame]), and the batch maximum [max_dimensions].
    - [Frames]: the first-frame crops of src/prepare_knight_sprites.py
      ([first_frame] and its four instances) and the fixed crop of
      src/crop_sprite.py ([avatar_crop]).
    - [Folder]: folders as finite maps from names to files, [Image_open],
      [save], [listdir], [remove], [startswith] and [endswith], the
      invariant [folder_wf] and the preorder [typed_update] between a
      folder and what a script may leave of it.
    - [Batch]: the name filter [is_goblin_png], one iteration of a loop
      ([process]), and the five goblin scripts as functions on folders:
      [crop_goblin_tight_main], [crop_goblin_sprites_main],
      [align_goblin_bottom_main], [resize_goblin_uniform_main],
      [uniform_goblin_bottom_main], with their first pass [first_pass].
      The lemmas on a loop are proved once, in a section over any body
      that meets the classes of [Crop].
    - [Machine]: the same five scripts statement by statement.  A
      [config] is the folder, the listing, the point the script is at
      ([phase]: before the listing, in the first pass, in the loop,
      finished, or dead of an exception outside a [try]) and the console
      ([output]); [next] runs one statement, [step] is the same as an
      inductive relation, [exec] runs a script to its end.  A [script]
      record holds what tells the five scripts apart.  The abstract
      machine [astep] works on a folder and a set of pending names and
      visits any pending file.
    - [Extract]: src/extract_goblin_hurt.py ([extract_goblin_hurt_main])
      and src/extract_goblin_hurt_full.py
      ([extract_goblin_hurt_full_main]): the selection of the frames
      ([atk2_files], [hurt_files]), the output names ([dest_filename]), the
      deletion of old frames ([remove_old]) and the loop ([extract_frame]),
      with Python's [sorted], [enumerate], [int] and the format [04d].
    - [Sheets]: src/prepare_knight_sprites.py ([prepare_knight_sprites])
      and src/crop_sprite.py ([crop_sprite]), written once against the
      class [Runtime] of what they ask of a system (open, save, print,
      sequencing) and run on a disk keyed by path
      ([prepare_knight_sprites_main], [crop_sprite_main]).  These
      scripts have no [try]; the disk is the small monad [io] of
      statements that return or raise and leave a disk and a console.
    - [Paths]: the Windows paths of the scripts.  [join] is
      [os.path.join], [resolve] what the file system makes of a path:
      the folder, as components in lower case, and the name.
    - [FileSystem]: a file system as a finite map from folders to the
      folders of [Folder]; [fs_listdir], [fs_open], [fs_save] and
      [fs_remove] work on paths and raise when the folder is missing;
      the invariant [fs_wf] and the footprint [within]: a file system
      that differs from another in the files a script may write at
      most.
    - [Effects]: the monad [py] of statements on a file system and a
      console, with [py_try] for [try]/[except] and [py_fold] for
      loops, the rules [keeps_bind], [keeps_try], ... for an invariant
      of the file system and [appends_bind], ... for the console.
    - [OnDisk]: the five goblin scripts as programs of [py], with
      [goblin_folder] and the paths they join ([goblin_py],
      [process_py], [first_pass_py], [crop_goblin_tight_py], ...).
    - [HurtOnDisk]: the two hurt scripts as programs of [py], with
      [source_folder] and [dest_folder] ([extract_goblin_hurt_py],
      [extract_goblin_hurt_full_py], [extract_frame_py]).
    - [SheetsOnDisk]: the two sheet scripts on the file system, as the
      instance [py_runtime] of [Runtime] ([prepare_knight_sprites_py],
      [crop_sprite_py]), and the simulation [agree] between the disk of
      [Sheets] and the file system.
    - [Pipeline]: one script run on the file system another has left.

    ** Correspondence with the code

    Every definition that translates code names its script, or quotes
    the statements it translates, in the comment before it.  A [for] loop is a left fold over [range] or over the
    list it iterates; a loop whose body can raise outside a [try] is
    [for_each]; a [try]/[except Exception] is a [match] on a [result];
    [print] is a log entry that records the kind of the line and the names
    and sizes it speaks of, not its text.  A script that works on a folder
    is a function from the folder (two folders for the extract scripts, of
    which the source is only read) to the folder it leaves and the log; a
    script that can die outside a [try] returns a [result].  Where the
    order of the statements matters the script is modelled a second time
    with its effects explicit: the goblin scripts as the state machine of
    [Machine], which is proved to give what the functions of [Batch] give
    ([exec_agrees_with_mains]), and the sheet scripts in the monad of
    [Sheets], in which an exception keeps what was saved and printed
    before it.  Where the paths matter all nine scripts are modelled once
    more, as programs of [py] on a file system ([OnDisk], [HurtOnDisk],
    [SheetsOnDisk]): there a script starts with the folder constants of
    its lines 5 and 6, lists with [os.listdir], which can fail, joins
    every name to its folder and opens and saves by path.  These programs
    are proved to do to their folder what the functions on folders and
    the state machine do ([goblin_py_refines], [hurt_py_refine],
    [sheet_scripts_on_disk]), so every theorem about a folder is a theorem
    about the folder of the file system.  Integers are unbounded, as in
    Python.

    ** What the theorems show

    - [Image]: each operation yields a well-formed image of the stated size
      and mode, and its pixels are given by a closed formula
      ([getpixel_crop], [getpixel_paste_inside], [getpixel_paste_outside]);
      two well-formed images with the same pixels are equal ([image_ext]);
      Pillow's shift-based [div255] is division by 255 rounded to nearest.
    - [BBox]: [getbbox] returns exactly the tightest box or [None] on a
      blank image; the scan of crop_goblin_sprites.py never raises and
      ends with the bounds of that box; its guard rejects content that is
      one pixel wide or one pixel high.
    - [Crop]: cropping keeps every pixel of the content, touches all four
      edges, never raises on a decodable sprite and is idempotent, for any
      box finder that meets [BBoxFinder]; the padded crop leaves a margin
      of at most two pixels.  Both bodies meet [BodyTyped], [BodyTotal]
      and [BodyIdempotent].
    - [Canvas]: the sprite lands at x = (C - W) // 2, y = C - H and
      everything else is transparent; opaque pixels are kept,
      half-transparent ones fade because the sprite is its own mask, an RGB
      sprite makes the paste raise, and a sprite taller than the fixed
      canvas of align_goblin_bottom.py is clipped; the batch maximum is an
      upper bound that is attained.
    - [Frames]: the first frame is the columns [0, W // F) of the sheet,
      with the division rounded down, and the fixed 100 x 100 crop pads
      a smaller sheet with zero bytes.
    - [Folder]: [typed_update] is a preorder, preserves [folder_wf], and
      holds for [save] of a well-formed RGBA image and for [remove].
    - [Batch]: the selected files are the names goblin_... .png of the
      folder; after a crop script every selected file holds what the body
      makes of it and no other file is touched, one line is printed per
      file and an error line only for a file that does not decode, and a
      second run changes nothing; a loop over a [BodyTyped] body is a
      [typed_update] of the folder;
      the align and resize scripts stop in their first pass when a
      selected file does not decode; the canvas of
      uniform_goblin_bottom.py is the same on the next run while the one
      of resize_goblin_uniform.py grows by 20; none of this depends on the
      order of the listing.
    - [Machine]: [step] is deterministic and is the relation of [next];
      every step lowers [weight], so every run ends ([step_sn]) within
      2n + 3 statements for n selected files, and [exec] is where every
      run ends ([script_reaches_end]); nothing is written before the
      loop, and a script dies only in a first pass, with the folder
      untouched ([no_write_before_loop]); every reachable configuration
      is one the abstract machine reaches ([scripts_refine_astep], by the
      invariant [consistent] and rule induction); the abstract machine
      is confluent and ends, whatever the order of the visits, in the
      folder in which every selected file was visited once
      ([astep_confluent], [astep_sn]).
    - [Extract]: which frames each script selects, that different frame
      numbers give different output names that [int] reads back, that the
      second script leaves no frame of an earlier run while the first one
      does, and that a name without a number ends the second script with
      [ValueError]; what the two scripts print, line by line, and that
      the closing line counts the frames selected, not the frames
      created ([extract_mains_console]); and, for all seven folder
      scripts, that every file is afterwards the file that was there,
      gone, or a well-formed RGBA image ([scripts_typed_update]).
    - [Sheets]: [io] is a monad up to pointwise equality, and bind
      respects that equality; each script is the sequence [cuts] of its
      blocks followed by its closing line; when every sheet opens the
      script saves every frame, and at the first sheet that does not
      open it dies with the frames before it saved
      ([sheet_scripts_stop]); both scripts save player_avatar.png, so
      the one that runs last decides it ([sheet_scripts_last_wins]).
    - [Paths]: the components of a joined path are those of the folder
      and the name, so [resolve] undoes [join] ([resolve_join_key],
      [join_resolve]); lower case commutes with splitting, so two
      spellings of a folder resolve alike ([same_folder_lower]).
    - [FileSystem]: on the paths joined from one folder the four
      operations are those of [Folder] on that folder (section
      [one_folder]); [save] and [os.remove] change the file of their
      path and nothing else ([fs_file_save], [fs_file_remove]), keep
      [fs_wf], and stay [within] a footprint that allows the path.
    - [Effects]: one rule per construct for programs that keep an
      invariant of the file system ([keeps]), the rules of the four
      operations for the invariant [confined] (well formed, and within
      a footprint of the file system the program started on), and the
      rules for programs that only append to the console ([appends]).
    - [OnDisk], [HurtOnDisk], [SheetsOnDisk]: the refinement theorems
      named above; a script whose folder is missing ends at its first
      listing with nothing printed ([goblin_py_missing],
      [hurt_py_missing]); the names the hurt scripts write are names,
      for every frame number ([is_name_dest_filename]).
    - [Pipeline]: the goblin scripts, the hurt scripts and the outputs
      of the sheet scripts meet in one folder ([one_sprite_folder]);
      every script, however it ends, keeps the file system well formed
      and writes no file but its own, the goblin sprites, the hurt
      frames or the five outputs of the sprite folder
      ([scripts_write_own_files]); a sheet script and a goblin script
      commute ([sheet_and_goblin_scripts_commute]); the
      long hurt script undoes the short one ([full_after_short]); the
      frames the short hurt script creates are visited by a crop script
      run next ([hurt_frames_visited_next]).

    ** Bounds and what is left out

    Every loop of the scripts is a [for] over a finite range or list and
    is translated to a structural fold, so every definition is total and
    evaluates by [vm_compute].  The one definition with fuel is [run] of
    [Machine], which iterates [next]: [exec] gives it the [weight] of the
    initial configuration, 2n + 3 for n selected files (one statement
    for the listing, at most n + 1 for the first pass, n + 1 for the
    loop and the closing line), and [run_halted] shows that this is
    enough to reach a configuration no statement follows, while
    [run_fuel] shows that more fuel changes nothing.  Frame numbers are
    not bounded: [int] reads back what the format [04d] writes for every
    integer ([int_format_04d]), so the output names are distinct
    whatever the number of frames; only that the number is the four
    characters after the prefix is stated for numbers below 10000, where
    it is true.  Pixels are four bands
    in 0..255 and the modes are RGBA, RGB and L; palette and 16-bit modes
    are not modelled.  PNG encoding and decoding are taken to be lossless
    inverse functions, and a file is an image, decoded in full, or it is
    rejected by [Image.open]: Pillow decodes when the pixels are first
    read, so a file with a sound header and broken data would pass the
    first pass of a paste script and fail inside the [try] of its loop,
    which the model does not show.  [getbbox] of an RGBA image is the
    box of the pixels with positive alpha, as in current Pillow.
    [paste] checks the mode of its mask before it clips, Pillow after:
    the two differ on a sprite without columns or rows, which no PNG
    decodes to.  [listdir] gives the names in the order of the finite
    map, [os.listdir] in any order: the folder a script leaves does not
    depend on it ([astep_confluent]), the order of the lines printed
    does.  File names are ASCII strings.  A folder of
    [Folder] and a disk of [Sheets] know nothing of paths: a disk of
    [Sheets] is keyed by the path as the script writes it, so two
    spellings of one path are two keys.  The file system of [FileSystem]
    resolves paths: folders are compared without regard to case and to
    the separator used, and [os.listdir], [save] and [os.remove] raise
    when the folder is missing.  Not modelled there: the case of the
    letters of a file name (names are compared as written, where Windows
    would not), the components [.] and [..], a second argument of
    [os.path.join] with a drive or a leading separator (the scripts join
    names), permissions and full disks, and a folder inside a folder
    other than as a name that does not open.  Of the exceptions only
    those of [os.listdir], [Image.open], [save], [os.remove], [crop],
    [paste] and [int] are modelled; [KeyboardInterrupt], [MemoryError]
    and failures of [print] are not.
    The text that [print] writes is not modelled: a line is its kind and
    the values it shows.  Every statement of the nine scripts is
    modelled but their [import] lines; what is left out is behaviour of
    Pillow, of Python and of the file system that the scripts rely on
    and the repository does not contain. *)

From Stdlib Require Import ZArith Lia.
From stdpp Require Import base tactics option list numbers.

#[global] Open Scope Z_scope.

(** ** Python integers *)

Declare Scope py_scope.
Delimit Scope py_scope with py.
(** Python's [//] rounds towards minus infinity, as [Z.div] does. *)
Notation "a // b" := (Z.div a b) (at level 40, left associativity) : py_scope.
#[global] Open Scope py_scope.

(** [lia] extended with the defining equations of [/] and [mod]. *)
Ltac zdiv := Z.div_mod_to_equations; lia.

(** Case analysis on the guard of an [if decide] or [bool_decide] of the goal
    or of a hypothesis, closing the branches arithmetic refutes. *)
Ltac split_guards :=
  repeat first [ case_decide | case_bool_decide ]; try lia; try done.

Create HintDb img discriminated.
Create Rewrite HintDb imgrw.

(** ** Exceptions

    A Python call either returns or raises; [result] keeps the two apart.
    The exception carries only its class, which is all an
    [except Exception as e] handler of the scripts can observe besides the
    message text. *)

Inductive exn : Set :=
  | IndexError
  | ValueError
  | OSError.

#[global] Instance exn_eq_dec : EqDecision exn.
Proof. solve_decision. Defined.

Inductive result (A : Type) : Type :=
  | Ok (a : A)
  | Raise (e : exn).
Arguments Ok {A} a.
Arguments Raise {A} e.

#[global] Instance result_ret : MRet result := λ A a, Ok a.
#[global] Instance result_bind : MBind result := λ A B f r,
  match r with Ok a => f a | Raise e => Raise e end.
#[global] Instance result_fmap : FMap result := λ A B f r,
  match r with Ok a => Ok (f a) | Raise e => Raise e end.

Definition is_ok {A} (r : result A) : Prop :=
  match r with Ok _ => True | Raise _ => False end.

#[global] Instance is_ok_dec {A} (r : result A) : Decision (is_ok r).
Proof. destruct r; simpl; apply _. Defined.

Definition of_option {A} (e : exn) (o : option A) : result A :=
  match o with Some a => Ok a | None => Raise e end.

(** ** Loops

    [for x in range(n): body] threads the variables the body assigns through
    a left fold; [for_each] is the variant whose body may raise. *)

Definition range (n : Z) : list Z := seqZ 0 n.

Definition for_range {S : Type} (n : Z) (body : S → Z → S) (s : S) : S :=
  foldl body s (range n).

Fixpoint for_each {S X : Type} (body : S → X → result S) (s : S) (l : list X)
  : result S :=
  match l with
  | [] => Ok s
  | x :: l' => s' ← body s x; for_each body s' l'
  end.

(** ** Lemmas shared by the components *)

Lemma result_bind_ok {A B} (f : A → result B) (a : A) : (Ok a ≫= f) = f a.
Proof. reflexivity. Qed.

Lemma is_ok_Ok {A} (r : result A) : is_ok r ↔ ∃ a, r = Ok a.
Proof. destruct r; simpl; split; try done; [eauto|by intros [? ?]]. Qed.

Lemma elem_of_range (n k : Z) : k ∈ range n ↔ 0 ≤ k < n.
Proof. unfold range. rewrite elem_of_seqZ. lia. Qed.

Lemma range_nonpos (n : Z) : n ≤ 0 → range n = [].
Proof.
  intros Hn. unfold range, seqZ.
  replace (Z.to_nat n) with 0%nat by lia. reflexivity.
Qed.

Lemma range_succ (n : Z) : 0 ≤ n → range (n + 1) = range n ++ [n].
Proof.
  intros Hn. unfold range. rewrite seqZ_app by lia. reflexivity.
Qed.

Lemma NoDup_range (n : Z) : NoDup (range n).
Proof. apply NoDup_seqZ. Qed.

(** A body that never raises turns [for_each] into a plain fold. *)
Lemma for_each_pure {S X} (body : S → X → result S) (f : S → X → S) l :
  ∀ s, Forall (λ x, ∀ s', body s' x = Ok (f s' x)) l →
       for_each body s l = Ok (foldl f s l).
Proof.
  induction l as [|x l IH]; intros s Hl; [done|].
  apply Forall_cons_1 in Hl as [Hx Hl]. simpl. rewrite (Hx s).
  rewrite result_bind_ok. by apply IH.
Qed.

Lemma for_each_pure_in {S X} (body : S → X → result S) (f : S → X → S) l s :
  (∀ x s', x ∈ l → body s' x = Ok (f s' x)) →
  for_each body s l = Ok (foldl f s l).
Proof.
  intros Hl. apply for_each_pure. apply Forall_forall.
  intros x Hx%list_elem_of_In s'. by apply Hl.
Qed.

(** A fold over a flattened nested loop is the nested fold. *)
Lemma foldl_bind {A B S} (f : S → B → S) (g : A → list B) l :
  ∀ s, foldl f s (l ≫= g) = foldl (λ s a, foldl f s (g a)) s l.
Proof.
  induction l as [|a l IH]; intros s; [done|].
  rewrite bind_cons, foldl_app. apply IH.
Qed.

(** A loop body guarded by an [if] is a fold over the elements that pass. *)
Lemma foldl_bind_if {A B S} (f : S → B → S) (c : A → bool) (h : A → B) l :
  ∀ s, foldl f s (l ≫= λ x, if c x then [h x] else []) =
       foldl (λ s x, if c x then f s (h x) else s) s l.
Proof.
  induction l as [|a l IH]; intros s; [done|].
  rewrite bind_cons, foldl_app, IH. simpl. by destruct (c a).
Qed.

(** Running minimum and maximum of a fold, the shape of every "find the
    bounds" loop of the scripts. *)
Section running_bounds.
Context {X : Type} (key : X → Z).

Definition run_min (m : Z) (l : list X) : Z :=
  foldl (λ acc x, Z.min acc (key x)) m l.
Definition run_max (m : Z) (l : list X) : Z :=
  foldl (λ acc x, Z.max acc (key x)) m l.

Lemma run_min_le_init m l : run_min m l ≤ m.
Proof.
  revert m. induction l as [|x l IH]; intros m; simpl; [lia|].
  etrans; [apply IH|lia].
Qed.

Lemma run_min_lower m l x : x ∈ l → run_min m l ≤ key x.
Proof.
  revert m. induction l as [|y l IH]; intros m Hx; [by inversion Hx|].
  apply elem_of_cons in Hx as [->|Hx]; simpl.
  - etrans; [apply run_min_le_init|lia].
  - by apply IH.
Qed.

Lemma run_min_attained m l : run_min m l = m ∨ ∃ x, x ∈ l ∧ run_min m l = key x.
Proof.
  revert m. induction l as [|y l IH]; intros m; simpl; [by left|].
  destruct (IH (Z.min m (key y))) as [->|(x & Hx & ->)].
  - destruct (Z.min_spec m (key y)) as [[_ ->]|[_ ->]]; [by left|].
    right. exists y. split; [left|done].
  - right. exists x. split; [by right|done].
Qed.

Lemma run_max_ge_init m l : m ≤ run_max m l.
Proof.
  revert m. induction l as [|x l IH]; intros m; simpl; [lia|].
  etrans; [|apply IH]. lia.
Qed.

Lemma run_max_upper m l x : x ∈ l → key x ≤ run_max m l.
Proof.
  revert m. induction l as [|y l IH]; intros m Hx; [by inversion Hx|].
  apply elem_of_cons in Hx as [->|Hx]; simpl.
  - etrans; [|apply run_max_ge_init]. lia.
  - by apply IH.
Qed.

Lemma run_max_attained m l : run_max m l = m ∨ ∃ x, x ∈ l ∧ run_max m l = key x.
Proof.
  revert m. induction l as [|y l IH]; intros m; simpl; [by left|].
  destruct (IH (Z.max m (key y))) as [->|(x & Hx & ->)].
  - destruct (Z.max_spec m (key y)) as [[_ ->]|[_ ->]]; [|by left].
    right. exists y. split; [left|done].
  - right. exists x. split; [by right|done].
Qed.
End running_bounds.

#[export] Hint Resolve run_min_le_init run_max_ge_init : img.
#[export] Hint Rewrite @result_bind_ok : imgrw.
