(* ===== verification/Image.v ===== *)
(** * Image: the operations of the Pillow library that the scripts call

    Pillow is not part of the repository, so this file is written from its
    documented behaviour.  An image is its mode, its size and its rows of
    pixels; whatever the mode, a pixel is kept as the four bands that
    [convert('RGBA')] would give, and [mode_ok] says which of those
    quadruples a mode can hold.  Every operation builds its result with
    [make], pixel by pixel, so that its pixels are read back by
    [getpixel_make] and two images are compared with [image_ext]. *)

From Stdlib Require Import ZArith Lia.
From stdpp Require Import base tactics option list numbers.
From S2P Require Import Prelude.

(** ** Data *)

Record pixel : Set := Px { red : Z; green : Z; blue : Z; alpha : Z }.

Inductive mode : Set := RGBA | RGB | L.

Record image : Set := Image {
  im_mode : mode;
  im_w : nat;
  im_h : nat;
  im_rows : list (list pixel)
}.

(** A box is (left, upper, right, lower), the right and lower edges
    excluded, as in Pillow. *)
Record box : Set := Box { b_left : Z; b_upper : Z; b_right : Z; b_lower : Z }.

#[global] Instance pixel_eq_dec : EqDecision pixel.
Proof. solve_decision. Defined.
#[global] Instance mode_eq_dec : EqDecision mode.
Proof. solve_decision. Defined.
#[global] Instance image_eq_dec : EqDecision image.
Proof. solve_decision. Defined.
#[global] Instance box_eq_dec : EqDecision box.
Proof. solve_decision. Defined.

(** The colour (0, 0, 0, 0) the scripts give to [Image.new]. *)
Definition transparent : pixel := Px 0 0 0 0.

Definition band (v : Z) : Prop := 0 ≤ v ≤ 255.

Definition pixel_wf (p : pixel) : Prop :=
  band (red p) ∧ band (green p) ∧ band (blue p) ∧ band (alpha p).

(** What a mode can store: RGB has no alpha band, L has one grey band. *)
Definition mode_ok (m : mode) (p : pixel) : Prop :=
  match m with
  | RGBA => True
  | RGB => alpha p = 255
  | L => alpha p = 255 ∧ green p = red p ∧ blue p = red p
  end.

Definition image_wf (i : image) : Prop :=
  length (im_rows i) = im_h i ∧
  Forall (λ r, length r = im_w i ∧
               Forall (λ p, pixel_wf p ∧ mode_ok (im_mode i) p) r) (im_rows i).

(** ** Observations *)

Definition width (i : image) : Z := Z.of_nat (im_w i).
Definition height (i : image) : Z := Z.of_nat (im_h i).
Definition size (i : image) : Z * Z := (width i, height i).

Definition in_bounds (i : image) (x y : Z) : Prop :=
  0 ≤ x < width i ∧ 0 ≤ y < height i.

(** The pixel at column [x] of row [y], [None] outside the buffer. *)
Definition getpixel (i : image) (x y : Z) : option pixel :=
  if decide (0 ≤ x ∧ 0 ≤ y)
  then row ← im_rows i !! Z.to_nat y; row !! Z.to_nat x
  else None.

(** A buffer of all-zero bytes reads as this pixel in each mode. *)
Definition zero_fill (m : mode) : pixel :=
  match m with
  | RGBA => Px 0 0 0 0
  | RGB | L => Px 0 0 0 255
  end.

Definition pixel_or_fill (i : image) (x y : Z) : pixel :=
  default (zero_fill (im_mode i)) (getpixel i x y).

(** [pixels = img.load(); pixels[x, y]]: a negative index counts from the
    far edge, an index out of range raises. *)
Definition pixel_access (i : image) (x y : Z) : result pixel :=
  let x' := if decide (x < 0) then width i + x else x in
  let y' := if decide (y < 0) then height i + y else y in
  of_option IndexError (getpixel i x' y').

(** ** Construction *)

Definition tabulate (w h : nat) (f : Z → Z → pixel) : list (list pixel) :=
  (λ y, (λ x, f (Z.of_nat x) (Z.of_nat y)) <$> seq 0 w) <$> seq 0 h.

Definition make (m : mode) (w h : Z) (f : Z → Z → pixel) : image :=
  Image m (Z.to_nat w) (Z.to_nat h) (tabulate (Z.to_nat w) (Z.to_nat h) f).

(** [Image.new(mode, (w, h), color)]. *)
Definition Image_new (m : mode) (sz : Z * Z) (color : pixel) : result image :=
  if decide (sz.1 < 0 ∨ sz.2 < 0) then Raise ValueError
  else Ok (make m sz.1 sz.2 (λ _ _, color)).

(** ** Conversion *)

(** Pillow's luma: (19595 R + 38470 G + 7471 B + 0x8000) >> 16. *)
Definition luma (p : pixel) : Z :=
  Z.shiftr (red p * 19595 + green p * 38470 + blue p * 7471 + 32768) 16.

Definition to_mode (m : mode) (p : pixel) : pixel :=
  match m with
  | RGBA => p
  | RGB => Px (red p) (green p) (blue p) 255
  | L => Px (luma p) (luma p) (luma p) 255
  end.

(** [img.convert(mode)]. *)
Definition convert (i : image) (m : mode) : image :=
  make m (width i) (height i) (λ x y, to_mode m (pixel_or_fill i x y)).

(** ** Crop *)

(** [img.crop((left, upper, right, lower))]: the part of the box outside
    the image is zero-filled. *)
Definition crop (i : image) (b : box) : result image :=
  if decide (b_right b < b_left b ∨ b_lower b < b_upper b) then Raise ValueError
  else Ok (make (im_mode i) (b_right b - b_left b) (b_lower b - b_upper b)
             (λ x y, pixel_or_fill i (b_left b + x) (b_upper b + y))).

(** ** Paste with a mask *)

(** Pillow's DIV255: division by 255 done with two shifts. *)
Definition div255 (a : Z) : Z :=
  let tmp := a + 128 in Z.shiftr (Z.shiftr tmp 8 + tmp) 8.

(** BLEND8(mask, in1, in2). *)
Definition blend8 (mask in1 in2 : Z) : Z :=
  div255 (in1 * (255 - mask) + in2 * mask).

Definition blend (mask : Z) (dst src : pixel) : pixel :=
  Px (blend8 mask (red dst) (red src)) (blend8 mask (green dst) (green src))
     (blend8 mask (blue dst) (blue src)) (blend8 mask (alpha dst) (alpha src)).

(** The band of a mask image that weighs the paste; an RGB image has none
    and is refused ("bad transparency mask"). *)
Definition mask_band (msk : image) : result (pixel → Z) :=
  match im_mode msk with
  | RGBA => Ok alpha
  | L => Ok red
  | RGB => Raise ValueError
  end.

(** [dst.paste(im, (x, y), mask)]: when the modes differ the source is
    converted to the destination's mode, the region is clipped to the
    destination, and every covered pixel is blended by the mask. *)
Definition paste (dst im : image) (xy : Z * Z) (msk : image) : result image :=
  let im' := if decide (im_mode dst = im_mode im) then im
             else convert im (im_mode dst) in
  if decide (size msk = size im) then
    weight ← mask_band msk;
    Ok (make (im_mode dst) (width dst) (height dst) (λ x y,
          match getpixel im' (x - xy.1) (y - xy.2) with
          | Some s =>
              blend (weight (pixel_or_fill msk (x - xy.1) (y - xy.2)))
                    (pixel_or_fill dst x y) s
          | None => pixel_or_fill dst x y
          end))
  else Raise ValueError.

(** A box that lies inside an image. *)
Definition box_in (i : image) (b : box) : Prop :=
  0 ≤ b_left b ≤ b_right b ∧ b_right b ≤ width i ∧
  0 ≤ b_upper b ≤ b_lower b ∧ b_lower b ≤ height i.

Definition box_width (b : box) : Z := b_right b - b_left b.
Definition box_height (b : box) : Z := b_lower b - b_upper b.

(** The box that covers a whole image. *)
Definition full_box (i : image) : box := Box 0 0 (width i) (height i).

(** ** Decidability of the invariant *)

#[global] Instance band_dec v : Decision (band v).
Proof. unfold band. apply _. Defined.
#[global] Instance pixel_wf_dec p : Decision (pixel_wf p).
Proof. unfold pixel_wf. apply _. Defined.
#[global] Instance mode_ok_dec m p : Decision (mode_ok m p).
Proof. destruct m; simpl; apply _. Defined.
#[global] Instance image_wf_dec i : Decision (image_wf i).
Proof. unfold image_wf. apply _. Defined.
#[global] Instance in_bounds_dec i x y : Decision (in_bounds i x y).
Proof. unfold in_bounds. apply _. Defined.
#[global] Instance box_in_dec i b : Decision (box_in i b).
Proof. unfold box_in. apply _. Defined.

(** ** Reading a built image back *)

Lemma width_make m w h f : width (make m w h f) = Z.max 0 w.
Proof. unfold width, make; simpl. lia. Qed.

Lemma height_make m w h f : height (make m w h f) = Z.max 0 h.
Proof. unfold height, make; simpl. lia. Qed.

Lemma mode_make m w h f : im_mode (make m w h f) = m.
Proof. reflexivity. Qed.

Lemma tabulate_lookup (w h : nat) f (x y : nat) :
  (x < w)%nat → (y < h)%nat →
  (tabulate w h f !! y) ≫= (.!! x) = Some (f (Z.of_nat x) (Z.of_nat y)).
Proof.
  intros Hx Hy. unfold tabulate.
  rewrite list_lookup_fmap, lookup_seq_lt by done. simpl.
  rewrite list_lookup_fmap, lookup_seq_lt by done. reflexivity.
Qed.

Lemma tabulate_lookup_None (w h : nat) f (x y : nat) :
  ¬ ((x < w)%nat ∧ (y < h)%nat) →
  (tabulate w h f !! y) ≫= (.!! x) = None.
Proof.
  intros Hxy. unfold tabulate. rewrite list_lookup_fmap.
  destruct (decide (y < h)%nat) as [Hy|Hy].
  - rewrite lookup_seq_lt by done. simpl. rewrite list_lookup_fmap.
    rewrite lookup_seq_ge by lia. reflexivity.
  - rewrite lookup_seq_ge by lia. reflexivity.
Qed.

Lemma getpixel_make m w h f x y :
  0 ≤ x < w → 0 ≤ y < h → getpixel (make m w h f) x y = Some (f x y).
Proof.
  intros Hx Hy. unfold getpixel, make; simpl.
  rewrite decide_True by lia. rewrite tabulate_lookup by lia.
  by rewrite !Z2Nat.id by lia.
Qed.

Lemma getpixel_make_None m w h f x y :
  ¬ (0 ≤ x < w ∧ 0 ≤ y < h) → getpixel (make m w h f) x y = None.
Proof.
  intros Hxy. unfold getpixel, make; simpl.
  case_decide; [|done]. apply tabulate_lookup_None. lia.
Qed.

Lemma getpixel_make_dec m w h f x y :
  getpixel (make m w h f) x y =
    if decide (0 ≤ x < w ∧ 0 ≤ y < h) then Some (f x y) else None.
Proof.
  case_decide as Hxy.
  - destruct Hxy. by apply getpixel_make.
  - by apply getpixel_make_None.
Qed.

(** ** Reading a well-formed image *)

Lemma getpixel_is_Some i x y :
  image_wf i → in_bounds i x y → is_Some (getpixel i x y).
Proof.
  intros [Hh Hrows] [Hx Hy]. unfold getpixel, width, height in *.
  rewrite decide_True by lia.
  destruct (lookup_lt_is_Some_2 (im_rows i) (Z.to_nat y)) as [row Hrow]; [lia|].
  rewrite Hrow. simpl.
  eapply Forall_lookup_1 in Hrows as [Hlen _]; [|done].
  apply lookup_lt_is_Some_2. lia.
Qed.

Lemma getpixel_Some_in_bounds i x y p :
  image_wf i → getpixel i x y = Some p → in_bounds i x y.
Proof.
  intros [Hh Hrows]. unfold getpixel, in_bounds, width, height.
  case_decide as Hxy; [|done].
  destruct (im_rows i !! Z.to_nat y) as [row|] eqn:Hrow; [|done]. simpl.
  intros Hp. apply lookup_lt_Some in Hrow as Hy, Hp as Hx.
  eapply Forall_lookup_1 in Hrows as [Hlen _]; [|done]. lia.
Qed.

Lemma getpixel_None_iff i x y :
  image_wf i → getpixel i x y = None ↔ ¬ in_bounds i x y.
Proof.
  intros Hwf. split.
  - intros Hn Hb. destruct (getpixel_is_Some i x y Hwf Hb) as [p Hp]. congruence.
  - intros Hb. destruct (getpixel i x y) as [p|] eqn:Hp; [|done].
    destruct Hb. by eapply getpixel_Some_in_bounds.
Qed.

Lemma getpixel_wf i x y p :
  image_wf i → getpixel i x y = Some p → pixel_wf p ∧ mode_ok (im_mode i) p.
Proof.
  intros [Hh Hrows]. unfold getpixel. case_decide; [|done].
  destruct (im_rows i !! Z.to_nat y) as [row|] eqn:Hrow; [|done]. simpl.
  intros Hp. eapply Forall_lookup_1 in Hrows as [_ Hpx]; [|done].
  by eapply Forall_lookup_1 in Hpx.
Qed.

Lemma pixel_or_fill_in i x y p :
  getpixel i x y = Some p → pixel_or_fill i x y = p.
Proof. unfold pixel_or_fill. by intros ->. Qed.

Lemma pixel_or_fill_out i x y :
  getpixel i x y = None → pixel_or_fill i x y = zero_fill (im_mode i).
Proof. unfold pixel_or_fill. by intros ->. Qed.

Lemma getpixel_pixel_or_fill i x y :
  image_wf i → in_bounds i x y → getpixel i x y = Some (pixel_or_fill i x y).
Proof.
  intros Hwf Hb. destruct (getpixel_is_Some i x y Hwf Hb) as [p Hp].
  by rewrite (pixel_or_fill_in _ _ _ _ Hp).
Qed.

Lemma zero_fill_wf m : pixel_wf (zero_fill m) ∧ mode_ok m (zero_fill m).
Proof. destruct m; unfold pixel_wf, band; simpl; lia. Qed.

Lemma pixel_or_fill_wf i x y :
  image_wf i → pixel_wf (pixel_or_fill i x y) ∧ mode_ok (im_mode i) (pixel_or_fill i x y).
Proof.
  intros Hwf. unfold pixel_or_fill.
  destruct (getpixel i x y) as [p|] eqn:Hp; simpl.
  - by eapply getpixel_wf.
  - apply zero_fill_wf.
Qed.

Lemma make_wf m w h f :
  (∀ x y, 0 ≤ x < w → 0 ≤ y < h → pixel_wf (f x y) ∧ mode_ok m (f x y)) →
  image_wf (make m w h f).
Proof.
  intros Hf. unfold image_wf, make, tabulate; simpl. split.
  - by rewrite length_fmap, length_seq.
  - apply Forall_fmap, Forall_seq. intros y Hy. simpl. split.
    + by rewrite length_fmap, length_seq.
    + apply Forall_fmap, Forall_seq. intros x Hx. simpl. apply Hf; lia.
Qed.

(** Two well-formed images with the same mode, size and pixels are equal. *)
Lemma image_ext i1 i2 :
  image_wf i1 → image_wf i2 → im_mode i1 = im_mode i2 → size i1 = size i2 →
  (∀ x y, in_bounds i1 x y → getpixel i1 x y = getpixel i2 x y) → i1 = i2.
Proof.
  destruct i1 as [m1 w1 h1 r1], i2 as [m2 w2 h2 r2].
  unfold in_bounds, size, width, height, getpixel; simpl.
  intros [Hh1 Hr1] [Hh2 Hr2] -> [= Hw Hh] Hpx; simpl in *.
  apply Nat2Z.inj in Hw, Hh. destruct Hw, Hh. f_equal.
  apply list_eq_same_length with h1; [done|done|].
  intros y ra rb Hy Ha Hb.
  destruct (Forall_lookup_1 _ _ _ _ Hr1 Ha) as [Hla _].
  destruct (Forall_lookup_1 _ _ _ _ Hr2 Hb) as [Hlb _].
  apply list_eq_same_length with w1; [done..|].
  intros x pa pb Hx Hpa Hpb.
  specialize (Hpx (Z.of_nat x) (Z.of_nat y) ltac:(lia)).
  rewrite !decide_True, !Nat2Z.id, Ha, Hb in Hpx by lia. simpl in Hpx.
  rewrite Hpa, Hpb in Hpx. congruence.
Qed.

(** ** The integer blend *)

Lemma div255_round a : 0 ≤ a ≤ 65025 → div255 a = (2 * a + 255) // 510.
Proof.
  intros Ha. unfold div255. rewrite !Z.shiftr_div_pow2 by lia.
  change (2 ^ 8) with 256. zdiv.
Qed.

Lemma blend8_arg_bound m a b :
  band m → band a → band b → 0 ≤ a * (255 - m) + b * m ≤ 65025.
Proof. unfold band. intros Hm Ha Hb. nia. Qed.

Lemma blend8_band m a b : band m → band a → band b → band (blend8 m a b).
Proof.
  intros Hm Ha Hb. pose proof (blend8_arg_bound m a b Hm Ha Hb) as Hab.
  unfold blend8. rewrite div255_round by done. unfold band. zdiv.
Qed.

Lemma blend8_mask_0 a b : band a → blend8 0 a b = a.
Proof.
  intros Ha. unfold blend8, band in *. rewrite div255_round by lia. zdiv.
Qed.

Lemma blend8_mask_255 a b : band b → blend8 255 a b = b.
Proof.
  intros Hb. unfold blend8, band in *. rewrite div255_round by lia. zdiv.
Qed.

(** Blending a band with itself changes nothing, whatever the mask. *)
Lemma blend8_same m a : band m → band a → blend8 m a a = a.
Proof.
  intros Hm Ha. unfold blend8.
  replace (a * (255 - m) + a * m) with (a * 255) by lia.
  unfold band in *. rewrite div255_round by lia. zdiv.
Qed.

(** On a fully transparent destination the blend scales the source. *)
Lemma blend8_onto_0 m b : blend8 m 0 b = div255 (b * m).
Proof. unfold blend8. by rewrite Z.mul_0_l, Z.add_0_l. Qed.

Lemma blend_wf m d s : band m → pixel_wf d → pixel_wf s → pixel_wf (blend m d s).
Proof.
  intros Hm (?&?&?&?) (?&?&?&?). unfold pixel_wf, blend; simpl.
  auto using blend8_band.
Qed.

Lemma blend_mode_ok md m d s :
  band m → pixel_wf d → pixel_wf s → mode_ok md d → mode_ok md s →
  mode_ok md (blend m d s).
Proof.
  intros Hm (?&?&?&Hd) (?&?&?&Hs). destruct md; simpl; [done|..].
  - intros -> ->. by apply blend8_same.
  - intros (-> & -> & ->) (-> & -> & ->). by rewrite blend8_same.
Qed.

Lemma blend_mask_0 d s : pixel_wf d → blend 0 d s = d.
Proof.
  intros (?&?&?&?). destruct d. unfold blend; simpl in *.
  by rewrite !blend8_mask_0.
Qed.

Lemma blend_mask_255 d s : pixel_wf s → blend 255 d s = s.
Proof.
  intros (?&?&?&?). destruct s. unfold blend; simpl in *.
  by rewrite !blend8_mask_255.
Qed.

Lemma luma_band p : pixel_wf p → band (luma p).
Proof.
  intros (?&?&?&?). unfold luma, band in *.
  rewrite Z.shiftr_div_pow2 by lia. change (2 ^ 16) with 65536. zdiv.
Qed.

Lemma to_mode_wf m p : pixel_wf p → pixel_wf (to_mode m p) ∧ mode_ok m (to_mode m p).
Proof.
  intros Hp. pose proof (luma_band p Hp). destruct Hp as (?&?&?&?).
  destruct m; unfold pixel_wf, band in *; simpl; lia.
Qed.

(** Converting to the mode an image already has, or giving an alpha band
    to an image that has none, keeps the pixels. *)
Lemma to_mode_RGBA p : to_mode RGBA p = p.
Proof. reflexivity. Qed.

(** ** Every operation preserves the invariant *)

Lemma Image_new_wf m sz c i :
  pixel_wf c → mode_ok m c → Image_new m sz c = Ok i → image_wf i.
Proof.
  unfold Image_new. intros Hc Hm. case_decide; [done|].
  intros [= <-]. by apply make_wf.
Qed.

Lemma convert_wf i m : image_wf i → image_wf (convert i m).
Proof.
  intros Hwf. apply make_wf. intros x y _ _.
  apply to_mode_wf, pixel_or_fill_wf, Hwf.
Qed.

Lemma crop_wf i b i' : image_wf i → crop i b = Ok i' → image_wf i'.
Proof.
  unfold crop. intros Hwf. case_decide; [done|]. intros [= <-].
  apply make_wf. intros x y _ _. by apply pixel_or_fill_wf.
Qed.

Lemma mask_band_band msk w x y :
  image_wf msk → mask_band msk = Ok w → band (w (pixel_or_fill msk x y)).
Proof.
  intros Hwf. destruct (pixel_or_fill_wf msk x y Hwf) as [(?&?&?&?) _].
  unfold mask_band. destruct (im_mode msk); intros [= <-]; done.
Qed.

Lemma paste_source_wf dst im :
  image_wf im →
  image_wf (if decide (im_mode dst = im_mode im) then im
            else convert im (im_mode dst)).
Proof. intros Hwf. case_decide; [done|]. by apply convert_wf. Qed.

Lemma paste_source_mode dst im :
  im_mode (if decide (im_mode dst = im_mode im) then im
           else convert im (im_mode dst)) = im_mode dst.
Proof. by case_decide. Qed.

Lemma paste_wf dst im xy msk r :
  image_wf dst → image_wf im → image_wf msk →
  paste dst im xy msk = Ok r → image_wf r.
Proof.
  intros Hd Hi Hm. unfold paste. case_decide; [|done].
  destruct (mask_band msk) as [w|] eqn:Hw; [|done]. simpl. intros [= <-].
  apply make_wf. intros x y _ _.
  destruct (pixel_or_fill_wf dst x y Hd) as [Hdw Hdm].
  destruct (getpixel _ _ _) as [s|] eqn:Hs; [|done].
  eapply getpixel_wf in Hs as [Hsw Hsm]; [|by apply paste_source_wf].
  rewrite paste_source_mode in Hsm.
  split; [apply blend_wf|apply blend_mode_ok]; eauto using mask_band_band.
Qed.

(** ** What each operation returns *)

Lemma width_nonneg i : 0 ≤ width i.
Proof. unfold width. lia. Qed.

Lemma height_nonneg i : 0 ≤ height i.
Proof. unfold height. lia. Qed.

Lemma Image_new_ok m w h c :
  0 ≤ w → 0 ≤ h → Image_new m (w, h) c = Ok (make m w h (λ _ _, c)).
Proof. intros Hw Hh. unfold Image_new; simpl. by rewrite decide_False by lia. Qed.

Lemma Image_new_raise m w h c :
  w < 0 ∨ h < 0 → Image_new m (w, h) c = Raise ValueError.
Proof. intros Hwh. unfold Image_new; simpl. by rewrite decide_True. Qed.

Lemma size_make m w h f : 0 ≤ w → 0 ≤ h → size (make m w h f) = (w, h).
Proof. intros. unfold size. rewrite width_make, height_make. f_equal; lia. Qed.

Lemma in_bounds_make m w h f x y :
  in_bounds (make m w h f) x y ↔ 0 ≤ x < w ∧ 0 ≤ y < h.
Proof. unfold in_bounds. rewrite width_make, height_make. lia. Qed.

Lemma crop_ok i b :
  b_left b ≤ b_right b → b_upper b ≤ b_lower b →
  crop i b = Ok (make (im_mode i) (box_width b) (box_height b)
                   (λ x y, pixel_or_fill i (b_left b + x) (b_upper b + y))).
Proof. intros. unfold crop. by rewrite decide_False by lia. Qed.

Lemma crop_raise i b :
  b_right b < b_left b ∨ b_lower b < b_upper b → crop i b = Raise ValueError.
Proof. intros. unfold crop. by rewrite decide_True. Qed.

Lemma crop_inv i b i' :
  crop i b = Ok i' →
  b_left b ≤ b_right b ∧ b_upper b ≤ b_lower b ∧
  i' = make (im_mode i) (box_width b) (box_height b)
         (λ x y, pixel_or_fill i (b_left b + x) (b_upper b + y)).
Proof.
  unfold crop. case_decide; [done|]. intros [= <-]. repeat split; lia.
Qed.

Lemma crop_size i b i' :
  crop i b = Ok i' → size i' = (box_width b, box_height b).
Proof.
  intros (? & ? & ->)%crop_inv. apply size_make; unfold box_width, box_height; lia.
Qed.

Lemma crop_mode i b i' : crop i b = Ok i' → im_mode i' = im_mode i.
Proof. by intros (? & ? & ->)%crop_inv. Qed.

(** A pixel of the crop is the pixel of the source at the box's offset. *)
Lemma getpixel_crop i b i' x y :
  image_wf i → box_in i b → crop i b = Ok i' → in_bounds i' x y →
  getpixel i' x y = getpixel i (b_left b + x) (b_upper b + y).
Proof.
  intros Hwf (Hl & Hr & Hu & Hd) (_ & _ & ->)%crop_inv Hxy.
  rewrite in_bounds_make in Hxy. unfold box_width, box_height in *.
  rewrite getpixel_make by lia.
  symmetry. apply getpixel_pixel_or_fill; [done|]. unfold in_bounds. lia.
Qed.

(** Cropping an image to its own extent gives the image back. *)
Lemma crop_full i : image_wf i → crop i (full_box i) = Ok i.
Proof.
  intros Hwf. pose proof (width_nonneg i). pose proof (height_nonneg i).
  rewrite crop_ok by (simpl; lia). f_equal.
  unfold box_width, box_height; simpl. rewrite !Z.sub_0_r.
  apply image_ext; [by apply make_wf; intros; apply pixel_or_fill_wf|done|done|..].
  - by apply size_make.
  - intros x y Hxy. rewrite in_bounds_make in Hxy. rewrite getpixel_make by lia.
    rewrite !Z.add_0_l. symmetry. by apply getpixel_pixel_or_fill.
Qed.

Lemma convert_size i m : size (convert i m) = size i.
Proof. apply size_make; [apply width_nonneg|apply height_nonneg]. Qed.

Lemma getpixel_convert i m x y :
  image_wf i → getpixel (convert i m) x y = to_mode m <$> getpixel i x y.
Proof.
  intros Hwf. unfold convert. rewrite getpixel_make_dec. case_decide as Hxy.
  - rewrite (getpixel_pixel_or_fill i x y) by done. done.
  - symmetry. apply fmap_None. by apply getpixel_None_iff.
Qed.

Lemma to_mode_id m p : pixel_wf p → mode_ok m p → to_mode m p = p.
Proof.
  destruct p as [r g b a]. intros (Hr & _). destruct m; simpl.
  - done.
  - by intros ->.
  - intros (-> & -> & ->). unfold luma; simpl. f_equal.
    all: rewrite Z.shiftr_div_pow2 by lia; change (2 ^ 16) with 65536;
      unfold band in Hr; simpl in Hr; zdiv.
Qed.

(** Converting an image to the mode it has is the identity. *)
Lemma convert_id i : image_wf i → convert i (im_mode i) = i.
Proof.
  intros Hwf. apply image_ext; [by apply convert_wf|done|done|..].
  - apply convert_size.
  - intros x y Hxy. rewrite getpixel_convert by done.
    destruct (getpixel i x y) as [p|] eqn:Hp; [|done]. simpl. f_equal.
    destruct (getpixel_wf i x y p Hwf Hp). by apply to_mode_id.
Qed.

Lemma mask_band_ok msk :
  im_mode msk ≠ RGB →
  mask_band msk = Ok (match im_mode msk with L => red | _ => alpha end).
Proof. unfold mask_band. by destruct (im_mode msk). Qed.

Lemma paste_raise_mask dst im xy msk :
  im_mode msk = RGB → paste dst im xy msk = Raise ValueError.
Proof.
  intros Hm. unfold paste, mask_band. rewrite Hm. by case_decide.
Qed.

Lemma paste_raise_size dst im xy msk :
  size msk ≠ size im → paste dst im xy msk = Raise ValueError.
Proof. intros Hs. unfold paste. by rewrite decide_False. Qed.

Lemma paste_inv dst im xy msk r :
  paste dst im xy msk = Ok r →
  size msk = size im ∧ ∃ w, mask_band msk = Ok w ∧
  r = make (im_mode dst) (width dst) (height dst) (λ x y,
        match getpixel (if decide (im_mode dst = im_mode im) then im
                        else convert im (im_mode dst)) (x - xy.1) (y - xy.2)
        with
        | Some s => blend (w (pixel_or_fill msk (x - xy.1) (y - xy.2)))
                          (pixel_or_fill dst x y) s
        | None => pixel_or_fill dst x y
        end).
Proof.
  unfold paste. case_decide; [|done].
  destruct (mask_band msk) as [w|]; [|done]. simpl. intros [= <-]. eauto.
Qed.

Lemma paste_size dst im xy msk r :
  paste dst im xy msk = Ok r → size r = size dst.
Proof.
  intros (_ & w & _ & ->)%paste_inv.
  apply size_make; [apply width_nonneg|apply height_nonneg].
Qed.

Lemma paste_mode dst im xy msk r :
  paste dst im xy msk = Ok r → im_mode r = im_mode dst.
Proof. by intros (_ & w & _ & ->)%paste_inv. Qed.

(** Outside the pasted region the destination is untouched. *)
Lemma getpixel_paste_outside dst im xy msk r x y :
  image_wf dst → image_wf im → paste dst im xy msk = Ok r →
  ¬ in_bounds im (x - xy.1) (y - xy.2) →
  getpixel r x y = getpixel dst x y.
Proof.
  intros Hd Hi (_ & w & _ & ->)%paste_inv Hout.
  assert (getpixel (if decide (im_mode dst = im_mode im) then im
                    else convert im (im_mode dst)) (x - xy.1) (y - xy.2) = None)
    as Hsrc.
  { case_decide; [|rewrite getpixel_convert by done; apply fmap_None];
      by apply getpixel_None_iff. }
  rewrite getpixel_make_dec, Hsrc. clear Hsrc.
  destruct (decide (0 ≤ x < width dst ∧ 0 ≤ y < height dst)) as [Hxy|Hxy].
  - symmetry. by apply getpixel_pixel_or_fill.
  - symmetry. by apply getpixel_None_iff.
Qed.

(** Inside it, the source is blended over the destination by the mask. *)
Lemma getpixel_paste_inside dst im xy msk r x y s m :
  image_wf dst → image_wf im → image_wf msk → paste dst im xy msk = Ok r →
  in_bounds dst x y →
  getpixel im (x - xy.1) (y - xy.2) = Some s →
  getpixel msk (x - xy.1) (y - xy.2) = Some m →
  getpixel r x y =
    Some (blend (match im_mode msk with L => red m | _ => alpha m end)
                (pixel_or_fill dst x y) (to_mode (im_mode dst) s)).
Proof.
  intros Hd Hi Hm (_ & w & Hw & ->)%paste_inv Hxy Hs Hmk.
  assert (getpixel (if decide (im_mode dst = im_mode im) then im
                    else convert im (im_mode dst)) (x - xy.1) (y - xy.2)
          = Some (to_mode (im_mode dst) s)) as Hsrc.
  { case_decide as Hmode.
    - rewrite Hs. f_equal. symmetry. rewrite Hmode.
      destruct (getpixel_wf im _ _ s Hi Hs). by apply to_mode_id.
    - rewrite getpixel_convert, Hs by done. done. }
  rewrite getpixel_make by (destruct Hxy; lia). rewrite Hsrc.
  rewrite (pixel_or_fill_in _ _ _ _ Hmk). do 2 f_equal.
  unfold mask_band in Hw. by destruct (im_mode msk); simplify_eq.
Qed.

(** ** Pixel access *)

Lemma pixel_access_in_bounds i x y :
  image_wf i → in_bounds i x y → pixel_access i x y = Ok (pixel_or_fill i x y).
Proof.
  intros Hwf Hxy. unfold pixel_access.
  destruct Hxy as [Hx Hy]. rewrite !decide_False by lia.
  by rewrite (getpixel_pixel_or_fill i x y).
Qed.

Lemma pixel_access_raise i x y :
  image_wf i → width i ≤ x ∨ height i ≤ y ∨ x < - width i ∨ y < - height i →
  pixel_access i x y = Raise IndexError.
Proof.
  intros Hwf Hxy. unfold pixel_access.
  pose proof (width_nonneg i). pose proof (height_nonneg i).
  match goal with |- of_option _ ?o = _ => assert (o = None) as -> end; [|done].
  apply getpixel_None_iff; [done|]. unfold in_bounds.
  repeat case_decide; lia.
Qed.

#[export] Hint Resolve make_wf convert_wf crop_wf paste_wf pixel_or_fill_wf
  width_nonneg height_nonneg : img.
#[export] Hint Rewrite width_make height_make mode_make : imgrw.
