(* ===== verification/BBox.v ===== *)
(** * BBox: the bounding box of the content of a sprite

    Two routines of the repository find the box that encloses the pixels
    that are not transparent: Pillow's [getbbox], called by
    src/crop_goblin_tight.py and the two extract scripts, and the nested
    loop that src/crop_goblin_sprites.py writes by hand.  Both are folds
    over the content points of the image in row-major order, and both are
    proved here against one specification, [is_bbox].  [BBoxFinder] is the
    interface the cropping code is verified against; [getbbox] and the
    hand-written scan behind its guard are its two instances. *)

From Stdlib Require Import ZArith Lia.
From stdpp Require Import base tactics option list numbers.
From S2P Require Import Prelude Image.

(** ** Specification *)

Section content.
Context (sel : pixel → bool).

(** The pixel at (x, y) exists and is selected. *)
Definition content (i : image) (x y : Z) : Prop :=
  ∃ p, getpixel i x y = Some p ∧ sel p = true.

Definition blank (i : image) : Prop := ∀ x y, ¬ content i x y.

(** [b] encloses the content and each of its four edges touches it. *)
Definition is_bbox (i : image) (b : box) : Prop :=
  (∀ x y, content i x y → b_left b ≤ x < b_right b ∧ b_upper b ≤ y < b_lower b) ∧
  (∃ y, content i (b_left b) y) ∧
  (∃ y, content i (b_right b - 1) y) ∧
  (∃ x, content i x (b_upper b)) ∧
  (∃ x, content i x (b_lower b - 1)).

(** The selected points of one row, and of the image row by row, in the
    order a [for y ...: for x ...:] loop visits them. *)
Definition row_points (i : image) (y : Z) : list (Z * Z) :=
  x ← range (width i); if sel (pixel_or_fill i x y) then [(x, y)] else [].

Definition points (i : image) : list (Z * Z) :=
  y ← range (height i); row_points i y.

(** The hull of a list of points, from the initial values
    (width, height, 0, 0) that both routines start with. *)
Definition hull (i : image) (pts : list (Z * Z)) : box :=
  Box (run_min fst (width i) pts) (run_min snd (height i) pts)
      (run_max fst 0 pts + 1) (run_max snd 0 pts + 1).

End content.

(** ** Pillow's [getbbox] *)

(** What [getbbox] counts as data: the alpha band when the mode has one,
    any non-zero band otherwise.  This is the behaviour of the default
    argument [alpha_only=True] of current Pillow, which the scripts
    rely on when they call [getbbox()] on an RGBA image. *)
Definition has_data (m : mode) (p : pixel) : bool :=
  match m with
  | RGBA => bool_decide (alpha p ≠ 0)
  | RGB | L => bool_decide (red p ≠ 0 ∨ green p ≠ 0 ∨ blue p ≠ 0)
  end.

(** [img.getbbox()]: the box of the data, [None] for an empty image. *)
Definition getbbox (i : image) : option box :=
  let pts := points (has_data (im_mode i)) i in
  if decide (pts = []) then None else Some (hull i pts).

(** ** The scan of src/crop_goblin_sprites.py *)

(** [a > 0], the test of the script. *)
Definition opaque (p : pixel) : bool := bool_decide (alpha p > 0).

Record bounds : Set := Bounds { min_x : Z; min_y : Z; max_x : Z; max_y : Z }.

#[global] Instance bounds_eq_dec : EqDecision bounds.
Proof. solve_decision. Defined.

(** The four assignments under [if a > 0]. *)
Definition extend (s : bounds) (x y : Z) : bounds :=
  Bounds (Z.min (min_x s) x) (Z.min (min_y s) y)
         (Z.max (max_x s) x) (Z.max (max_y s) y).

(** The body of the inner loop: read [pixels[x, y]], test its alpha. *)
Definition scan_pixel (i : image) (y : Z) (s : bounds) (x : Z) : result bounds :=
  p ← pixel_access i x y;
  Ok (if opaque p then extend s x y else s).

(** [for x in range(width)]. *)
Definition scan_row (i : image) (s : bounds) (y : Z) : result bounds :=
  for_each (scan_pixel i y) s (range (width i)).

(** [min_x, min_y = width, height; max_x, max_y = 0, 0] and
    [for y in range(height)]. *)
Definition scan_bounds (i : image) : result bounds :=
  for_each (scan_row i) (Bounds (width i) (height i) 0 0) (range (height i)).

(** [if max_x > min_x and max_y > min_y], the script's test for "we found
    content". *)
Definition found_content (s : bounds) : bool :=
  bool_decide (max_x s > min_x s ∧ max_y s > min_y s).

(** The box of the bounds, with Pillow's excluded right and lower edge. *)
Definition bounds_box (s : bounds) : box :=
  Box (min_x s) (min_y s) (max_x s + 1) (max_y s + 1).

(** The scan seen as a box finder: the box when the guard passes. *)
Definition scan_box (i : image) : option box :=
  match scan_bounds i with
  | Ok s => if found_content s then Some (bounds_box s) else None
  | Raise _ => None
  end.

(** ** The interface of a box finder *)

(** A finder may decline, but a box it returns on an RGBA image is the
    bounding box of the pixels with positive alpha. *)
Class BBoxFinder (find : image → option box) : Prop := {
  find_sound i b :
    image_wf i → im_mode i = RGBA → find i = Some b → is_bbox opaque i b
}.

(** A complete finder declines only on a blank image. *)
Class BBoxComplete (find : image → option box) : Prop := {
  find_none i :
    image_wf i → im_mode i = RGBA → find i = None → blank opaque i
}.

(** ** Points and content *)

Section content_lemmas.
Context (sel : pixel → bool).

Lemma elem_of_row_points i x y y' :
  (x, y) ∈ row_points sel i y' ↔
  y = y' ∧ 0 ≤ x < width i ∧ sel (pixel_or_fill i x y) = true.
Proof.
  unfold row_points. rewrite list_elem_of_bind. split.
  - intros (x' & Hin & Hx'%elem_of_range).
    destruct (sel (pixel_or_fill i x' y')) eqn:Hsel; [|by inversion Hin].
    apply list_elem_of_singleton in Hin as [= -> ->]. done.
  - intros (-> & Hx & Hsel). exists x. rewrite Hsel, elem_of_range.
    split; [by apply list_elem_of_singleton|done].
Qed.

Lemma elem_of_points_raw i x y :
  (x, y) ∈ points sel i ↔
  in_bounds i x y ∧ sel (pixel_or_fill i x y) = true.
Proof.
  unfold points, in_bounds. rewrite list_elem_of_bind. split.
  - intros (y' & (-> & Hx & Hsel)%elem_of_row_points & Hy%elem_of_range). done.
  - intros ((Hx & Hy) & Hsel). exists y.
    rewrite elem_of_row_points, elem_of_range. done.
Qed.

Lemma content_iff i x y :
  image_wf i →
  content sel i x y ↔ in_bounds i x y ∧ sel (pixel_or_fill i x y) = true.
Proof.
  intros Hwf. unfold content. split.
  - intros (p & Hp & Hsel). rewrite (pixel_or_fill_in _ _ _ _ Hp).
    split; [by eapply getpixel_Some_in_bounds|done].
  - intros (Hxy & Hsel). eexists. split; [|done].
    by apply getpixel_pixel_or_fill.
Qed.

Lemma elem_of_points i x y :
  image_wf i → (x, y) ∈ points sel i ↔ content sel i x y.
Proof. intros Hwf. by rewrite elem_of_points_raw, content_iff. Qed.

Lemma points_nil_blank i : image_wf i → points sel i = [] ↔ blank sel i.
Proof.
  intros Hwf. unfold blank. split.
  - intros Hnil x y Hc%elem_of_points; [|done]. rewrite Hnil in Hc. by inversion Hc.
  - intros Hb. destruct (points sel i) as [|[x y] pts] eqn:Hpts; [done|].
    destruct (Hb x y). apply elem_of_points; [done|]. rewrite Hpts. left.
Qed.

(** The hull of a non-empty list of points of the image is its box. *)
Lemma hull_is_bbox i :
  image_wf i → points sel i ≠ [] → is_bbox sel i (hull i (points sel i)).
Proof.
  intros Hwf Hne. set (pts := points sel i) in *.
  assert (∀ x y, content sel i x y ↔ (x, y) ∈ pts) as Hc
    by (intros; symmetry; by apply elem_of_points).
  assert (∀ x y, (x, y) ∈ pts → in_bounds i x y) as Hb
    by (intros x y Hin; by apply elem_of_points_raw in Hin as [? _]).
  destruct pts as [|[px py] pts'] eqn:Hpts; [done|]. rewrite <- Hpts in *.
  assert ((px, py) ∈ pts) as Hp by (rewrite Hpts; left).
  destruct (Hb _ _ Hp) as [Hpx Hpy].
  unfold is_bbox, hull; simpl. split; [|split; [|split; [|split]]].
  - intros x y Hxy%Hc.
    pose proof (run_min_lower fst (width i) _ _ Hxy).
    pose proof (run_min_lower snd (height i) _ _ Hxy).
    pose proof (run_max_upper fst 0 _ _ Hxy).
    pose proof (run_max_upper snd 0 _ _ Hxy). simpl in *. lia.
  - destruct (run_min_attained fst (width i) pts) as [He|([x y] & Hin & ->)].
    + pose proof (run_min_lower fst (width i) _ _ Hp). simpl in *. lia.
    + exists y. by apply Hc.
  - destruct (run_max_attained fst 0 pts) as [He|([x y] & Hin & ->)].
    + pose proof (run_max_upper fst 0 _ _ Hp). simpl in *.
      exists py. apply Hc. by replace (run_max fst 0 pts + 1 - 1) with px by lia.
    + exists y. apply Hc. simpl. by rewrite Z.add_simpl_r.
  - destruct (run_min_attained snd (height i) pts) as [He|([x y] & Hin & ->)].
    + pose proof (run_min_lower snd (height i) _ _ Hp). simpl in *. lia.
    + exists x. by apply Hc.
  - destruct (run_max_attained snd 0 pts) as [He|([x y] & Hin & ->)].
    + pose proof (run_max_upper snd 0 _ _ Hp). simpl in *.
      exists px. apply Hc. by replace (run_max snd 0 pts + 1 - 1) with py by lia.
    + exists x. apply Hc. simpl. by rewrite Z.add_simpl_r.
Qed.

(** An image has at most one bounding box. *)
Lemma is_bbox_unique i b1 b2 : is_bbox sel i b1 → is_bbox sel i b2 → b1 = b2.
Proof.
  destruct b1 as [l1 u1 r1 d1], b2 as [l2 u2 r2 d2]. unfold is_bbox; simpl.
  intros (H1 & [? Hl1] & [? Hr1] & [? Hu1] & [? Hd1])
         (H2 & [? Hl2] & [? Hr2] & [? Hu2] & [? Hd2]).
  apply H2 in Hl1, Hr1, Hu1, Hd1. apply H1 in Hl2, Hr2, Hu2, Hd2.
  f_equal; lia.
Qed.

Lemma is_bbox_not_blank i b : is_bbox sel i b → ¬ blank sel i.
Proof. intros (_ & [y Hy] & _) Hb. exact (Hb _ _ Hy). Qed.

(** The bounding box of a well-formed image lies inside it and is not
    empty. *)
Lemma is_bbox_box_in i b :
  image_wf i → is_bbox sel i b →
  box_in i b ∧ b_left b < b_right b ∧ b_upper b < b_lower b.
Proof.
  intros Hwf (Hall & [yl Hl] & [yr Hr] & [xu Hu] & [xd Hd]).
  pose proof (proj1 (Hall _ _ Hl)). pose proof (proj2 (Hall _ _ Hu)).
  apply content_iff in Hl as [[? ?] _], Hr as [[? ?] _]; [|done..].
  apply content_iff in Hu as [[? ?] _], Hd as [[? ?] _]; [|done..].
  unfold box_in. lia.
Qed.

End content_lemmas.

(** ** [getbbox] meets the specification *)

Lemma has_data_RGBA p : pixel_wf p → has_data RGBA p = opaque p.
Proof.
  intros (_ & _ & _ & Ha). unfold has_data, opaque, band in *.
  apply bool_decide_ext. lia.
Qed.

Lemma row_points_ext sel1 sel2 i y :
  image_wf i → (∀ p, pixel_wf p → sel1 p = sel2 p) →
  row_points sel1 i y = row_points sel2 i y.
Proof.
  intros Hwf Hsel. unfold row_points.
  induction (range (width i)) as [|x l IH]; [done|].
  rewrite !bind_cons, IH. f_equal. rewrite Hsel; [done|].
  by apply pixel_or_fill_wf.
Qed.

Lemma points_ext sel1 sel2 i :
  image_wf i → (∀ p, pixel_wf p → sel1 p = sel2 p) →
  points sel1 i = points sel2 i.
Proof.
  intros Hwf Hsel. unfold points.
  induction (range (height i)) as [|y l IH]; [done|].
  by rewrite !bind_cons, IH, (row_points_ext sel1 sel2).
Qed.

Lemma getbbox_Some i b :
  image_wf i → getbbox i = Some b → is_bbox (has_data (im_mode i)) i b.
Proof.
  intros Hwf. unfold getbbox. case_decide as Hpts; [done|].
  intros [= <-]. by apply hull_is_bbox.
Qed.

Lemma getbbox_None i :
  image_wf i → getbbox i = None ↔ blank (has_data (im_mode i)) i.
Proof.
  intros Hwf. rewrite <- points_nil_blank by done.
  unfold getbbox. case_decide; naive_solver.
Qed.

(** [getbbox] finds the bounding box whenever there is one. *)
Lemma getbbox_complete i b :
  image_wf i → is_bbox (has_data (im_mode i)) i b → getbbox i = Some b.
Proof.
  intros Hwf Hb. destruct (getbbox i) as [b'|] eqn:Hg.
  - f_equal. eapply is_bbox_unique; [|done]. by apply getbbox_Some.
  - apply getbbox_None in Hg; [|done]. by apply is_bbox_not_blank in Hb.
Qed.

Lemma getbbox_points_RGBA i :
  image_wf i → im_mode i = RGBA →
  points (has_data (im_mode i)) i = points opaque i.
Proof. intros Hwf ->. apply points_ext; [done|]. apply has_data_RGBA. Qed.

#[global] Instance getbbox_finder : BBoxFinder getbbox.
Proof.
  split. intros i b Hwf Hm. unfold getbbox.
  rewrite getbbox_points_RGBA by done. case_decide; [done|].
  intros [= <-]. by apply hull_is_bbox.
Qed.

#[global] Instance getbbox_finder_complete : BBoxComplete getbbox.
Proof.
  split. intros i Hwf Hm. unfold getbbox.
  rewrite getbbox_points_RGBA by done. case_decide; [|done].
  intros _. by apply points_nil_blank.
Qed.

(** ** The hand-written scan *)

Lemma scan_pixel_pure i y s x :
  image_wf i → in_bounds i x y →
  scan_pixel i y s x =
    Ok (if opaque (pixel_or_fill i x y) then extend s x y else s).
Proof.
  intros Hwf Hxy. unfold scan_pixel.
  by rewrite pixel_access_in_bounds by done.
Qed.

Lemma scan_row_pure i s y :
  image_wf i → 0 ≤ y < height i →
  scan_row i s y =
    Ok (foldl (λ s p, extend s p.1 p.2) s (row_points opaque i y)).
Proof.
  intros Hwf Hy. unfold scan_row, row_points.
  rewrite (foldl_bind_if (λ s p, extend s p.1 p.2)
             (λ x, opaque (pixel_or_fill i x y)) (λ x, (x, y))).
  apply for_each_pure_in. intros x s' Hx%elem_of_range.
  by apply scan_pixel_pure.
Qed.

Lemma foldl_extend a b c d pts :
  foldl (λ s p, extend s p.1 p.2) (Bounds a b c d) pts =
    Bounds (run_min fst a pts) (run_min snd b pts)
           (run_max fst c pts) (run_max snd d pts).
Proof.
  revert a b c d. induction pts as [|p pts IH]; intros a b c d; [done|].
  simpl. unfold extend at 2; simpl. apply IH.
Qed.

(** The scan never raises, and its result is the hull of the opaque points. *)
Lemma scan_bounds_pure i :
  image_wf i →
  scan_bounds i =
    Ok (Bounds (run_min fst (width i) (points opaque i))
               (run_min snd (height i) (points opaque i))
               (run_max fst 0 (points opaque i))
               (run_max snd 0 (points opaque i))).
Proof.
  intros Hwf. unfold scan_bounds.
  rewrite <- foldl_extend. unfold points. rewrite foldl_bind.
  apply for_each_pure_in. intros y s' Hy%elem_of_range.
  by apply scan_row_pure.
Qed.

Lemma scan_bounds_box i s :
  image_wf i → scan_bounds i = Ok s → bounds_box s = hull i (points opaque i).
Proof. intros Hwf. rewrite scan_bounds_pure by done. by intros [= <-]. Qed.

Lemma scan_bounds_blank i :
  image_wf i → blank opaque i →
  scan_bounds i = Ok (Bounds (width i) (height i) 0 0).
Proof.
  intros Hwf Hb%points_nil_blank; [|done].
  rewrite scan_bounds_pure by done. by rewrite Hb.
Qed.

Lemma scan_bounds_is_bbox i s :
  image_wf i → ¬ blank opaque i → scan_bounds i = Ok s →
  is_bbox opaque i (bounds_box s).
Proof.
  intros Hwf Hnb Hs. rewrite (scan_bounds_box i s) by done.
  apply hull_is_bbox; [done|]. by rewrite points_nil_blank.
Qed.

Lemma found_content_not_blank i s :
  image_wf i → scan_bounds i = Ok s → found_content s = true → ¬ blank opaque i.
Proof.
  intros Hwf Hs Hf Hb. rewrite scan_bounds_blank in Hs by done.
  injection Hs as <-. unfold found_content in Hf. simpl in Hf.
  pose proof (width_nonneg i). case_bool_decide; [lia|done].
Qed.

#[global] Instance scan_box_finder : BBoxFinder scan_box.
Proof.
  split. intros i b Hwf _. unfold scan_box.
  destruct (scan_bounds i) as [s|] eqn:Hs; [|done].
  destruct (found_content s) eqn:Hf; [|done]. intros [= <-].
  apply scan_bounds_is_bbox; [done| |done]. by eapply found_content_not_blank.
Qed.

Lemma found_content_box s :
  found_content s = true ↔
  1 < box_width (bounds_box s) ∧ 1 < box_height (bounds_box s).
Proof.
  unfold found_content, box_width, box_height, bounds_box; simpl.
  rewrite bool_decide_eq_true. lia.
Qed.

Lemma scan_box_Some i b :
  image_wf i → scan_box i = Some b →
  is_bbox opaque i b ∧ 1 < box_width b ∧ 1 < box_height b.
Proof.
  intros Hwf. unfold scan_box.
  destruct (scan_bounds i) as [s|] eqn:Hs; [|done].
  destruct (found_content s) eqn:Hf; [|done]. intros [= <-].
  split; [|by apply found_content_box].
  apply scan_bounds_is_bbox; [done| |done]. by eapply found_content_not_blank.
Qed.

Lemma scan_box_of_bbox i b :
  image_wf i → is_bbox opaque i b →
  scan_box i =
    if bool_decide (1 < box_width b ∧ 1 < box_height b) then Some b else None.
Proof.
  intros Hwf Hb. unfold scan_box.
  destruct (scan_bounds i) as [s|] eqn:Hs;
    [|by rewrite scan_bounds_pure in Hs by done].
  assert (bounds_box s = b) as Hbox.
  { eapply is_bbox_unique; [|done]. apply scan_bounds_is_bbox; [done| |done].
    by eapply is_bbox_not_blank. }
  destruct (found_content s) eqn:Hf.
  - rewrite bool_decide_eq_true_2; [by rewrite Hbox|].
    rewrite <- Hbox. by apply found_content_box.
  - rewrite bool_decide_eq_false_2; [done|].
    rewrite <- Hbox, <- found_content_box. by rewrite Hf.
Qed.

(** ** Sample sprites *)

Definition px_clear : pixel := Px 0 0 0 0.
Definition px_solid : pixel := Px 200 40 40 255.
Definition px_soft : pixel := Px 200 40 40 128.

(** A 4 x 3 sprite whose content is the 2 x 2 block at columns 1-2,
    rows 0-1. *)
Definition sprite_block : image :=
  Image RGBA 4 3 [ [px_clear; px_solid; px_soft; px_clear];
                   [px_clear; px_soft; px_solid; px_clear];
                   [px_clear; px_clear; px_clear; px_clear] ].

(** A 3 x 3 sprite whose content is the middle column. *)
Definition sprite_column : image :=
  Image RGBA 3 3 [ [px_clear; px_solid; px_clear];
                   [px_clear; px_solid; px_clear];
                   [px_clear; px_solid; px_clear] ].

Definition sprite_blank : image :=
  Image RGBA 2 2 [ [px_clear; px_clear]; [px_clear; px_clear] ].

Lemma sprite_block_wf : image_wf sprite_block.
Proof. apply (bool_decide_unpack _). by vm_compute. Qed.

Lemma sprite_column_wf : image_wf sprite_column.
Proof. apply (bool_decide_unpack _). by vm_compute. Qed.

Lemma sprite_blank_wf : image_wf sprite_blank.
Proof. apply (bool_decide_unpack _). by vm_compute. Qed.

(** ** Properties *)

(** On a well-formed image, Pillow's [getbbox] returns a box exactly
    when that box is the bounding box of the image's data. *)
Lemma getbbox_iff i b :
  image_wf i → getbbox i = Some b ↔ is_bbox (has_data (im_mode i)) i b.
Proof.
  intros Hwf. split; [by apply getbbox_Some|by apply getbbox_complete].
Qed.

(** The nested loop of crop_goblin_sprites.py reads only pixels that
    exist: on a well-formed image it never raises, and it ends with the
    running minima and maxima of the coordinates of the opaque pixels,
    started from (width, height, 0, 0). *)
Theorem scan_bounds_total i :
  image_wf i →
  scan_bounds i =
    Ok (Bounds (run_min fst (width i) (points opaque i))
               (run_min snd (height i) (points opaque i))
               (run_max fst 0 (points opaque i))
               (run_max snd 0 (points opaque i))).
Proof. apply scan_bounds_pure. Qed.

Lemma scan_bounds_total_witness : scan_bounds sprite_block = Ok (Bounds 1 0 2 1).
Proof. apply (scan_bounds_total sprite_block), sprite_block_wf. Defined.

(** C4. On an RGBA image the hand-written scan and Pillow's [getbbox]
    agree: when [getbbox] returns a box, the scan ends with the bounds of
    that very box (its right and lower edge one less, being included). *)
Theorem scan_agrees_with_getbbox i b :
  image_wf i → im_mode i = RGBA → getbbox i = Some b →
  ∃ s, scan_bounds i = Ok s ∧ bounds_box s = b.
Proof.
  intros Hwf Hm Hg. eexists. split; [by apply scan_bounds_pure|].
  apply (find_sound (find := getbbox)) in Hg; [|done..].
  eapply is_bbox_unique; [|done]. unfold bounds_box; simpl.
  apply hull_is_bbox; [done|]. rewrite points_nil_blank by done.
  by eapply is_bbox_not_blank.
Qed.

Lemma scan_agrees_with_getbbox_witness :
  ∃ s, scan_bounds sprite_block = Ok s ∧ bounds_box s = Box 1 0 3 2.
Proof.
  apply (scan_agrees_with_getbbox sprite_block (Box 1 0 3 2));
    [apply sprite_block_wf|reflexivity|by vm_compute].
Defined.

(** C5. The guard [max_x > min_x and max_y > min_y] of
    crop_goblin_sprites.py accepts the bounding box only when it is more
    than one pixel wide and more than one pixel high: a sprite whose
    content is a single column or a single row is reported as "No content
    found" although it has content. *)
Theorem scan_box_guard i b :
  image_wf i → is_bbox opaque i b →
  scan_box i =
    if bool_decide (1 < box_width b ∧ 1 < box_height b) then Some b else None.
Proof. apply scan_box_of_bbox. Qed.

Lemma scan_box_guard_witness :
  scan_box sprite_column = None ∧ getbbox sprite_column = Some (Box 1 0 2 3).
Proof.
  split; [|by vm_compute].
  rewrite (scan_box_guard sprite_column (Box 1 0 2 3)); [done|apply sprite_column_wf|].
  apply (find_sound (find := getbbox));
    [apply sprite_column_wf|reflexivity|by vm_compute].
Defined.
