(* ===== verification/Crop.v ===== *)
(** * Crop: cropping a sprite to its content

    The per-sprite bodies of src/crop_goblin_tight.py (Pillow's [getbbox],
    no padding) and src/crop_goblin_sprites.py (the hand-written scan, two
    pixels of padding clamped to the image).  The theorems on the tight
    crop are proved once, for any box finder that meets [BBoxFinder].
    The classes [BodyTyped], [BodyTotal] and [BodyIdempotent] say what a
    loop may rely on of the body it runs. *)

From Stdlib Require Import ZArith Lia.
From stdpp Require Import base tactics option list numbers.
From S2P Require Import Prelude Image BBox.

(** ** Definitions *)

(** [if img.mode != 'RGBA': img = img.convert('RGBA')]. *)
Definition ensure_rgba (img : image) : image :=
  if decide (im_mode img ≠ RGBA) then convert img RGBA else img.

(** What a script does with one sprite: it writes a new image, or skips
    the sprite and leaves the file alone. *)
Inductive outcome : Set :=
  | Written (img : image)
  | Skipped.

#[global] Instance outcome_eq_dec : EqDecision outcome.
Proof. solve_decision. Defined.

(** A body that always writes, as a body that writes or skips. *)
Definition written (body : image → result image) (img : image) : result outcome :=
  new ← body img; Ok (Written new).

(** What the loop of a script needs to know of the body of its [try]:
    that what it writes is a well-formed RGBA image, that it returns on
    every decodable sprite, that it writes its own result again. *)
Class BodyTyped (body : image → result outcome) : Prop :=
  body_typed : ∀ img out,
    image_wf img → body img = Ok (Written out) →
    image_wf out ∧ im_mode out = RGBA.

Class BodyTotal (body : image → result outcome) : Prop :=
  body_total : ∀ img, image_wf img → is_ok (body img).

Class BodyIdempotent (body : image → result outcome) : Prop :=
  body_again : ∀ img out,
    image_wf img → body img = Ok (Written out) → body out = Ok (Written out).

(** Crop to the box a finder returns, skip when it returns none. *)
Definition crop_to_content (find : image → option box) (img : image)
  : result outcome :=
  match find img with
  | Some bbox => cropped ← crop img bbox; Ok (Written cropped)
  | None => Ok Skipped
  end.

(** src/crop_goblin_tight.py, the body of the [try] without the file
    access: convert, [getbbox], crop when there is a box. *)
Definition crop_tight (img : image) : result outcome :=
  let img := ensure_rgba img in
  match getbbox img with
  | Some bbox => cropped ← crop img bbox; Ok (Written cropped)
  | None => Ok Skipped
  end.

(** [padding = 2]. *)
Definition padding : Z := 2.

(** The four clamped assignments of src/crop_goblin_sprites.py. *)
Definition pad_bounds (w h : Z) (s : bounds) : bounds :=
  Bounds (Z.max 0 (min_x s - padding)) (Z.max 0 (min_y s - padding))
         (Z.min (w - 1) (max_x s + padding)) (Z.min (h - 1) (max_y s + padding)).

(** src/crop_goblin_sprites.py, the body of the [try] without the file
    access: convert, scan, and crop to the padded bounds when the guard
    passes. *)
Definition crop_padded (img : image) : result outcome :=
  let img := ensure_rgba img in
  let '(w, h) := size img in
  s ← scan_bounds img;
  if found_content s then
    let s' := pad_bounds w h s in
    cropped ← crop img (bounds_box s');
    Ok (Written cropped)
  else Ok Skipped.

(** Moving a box by an offset. *)
Definition shift_box (dx dy : Z) (b : box) : box :=
  Box (b_left b + dx) (b_upper b + dy) (b_right b + dx) (b_lower b + dy).

(** [inner] lies inside [outer]. *)
Definition box_le (inner outer : box) : Prop :=
  b_left outer ≤ b_left inner ∧ b_right inner ≤ b_right outer ∧
  b_upper outer ≤ b_upper inner ∧ b_lower inner ≤ b_lower outer.

(** ** Conversion to RGBA *)

Lemma ensure_rgba_wf img : image_wf img → image_wf (ensure_rgba img).
Proof. intros Hwf. unfold ensure_rgba. case_decide; [by apply convert_wf|done]. Qed.

Lemma ensure_rgba_mode img : im_mode (ensure_rgba img) = RGBA.
Proof.
  unfold ensure_rgba. case_decide as Hm; [done|].
  by destruct (decide (im_mode img = RGBA)).
Qed.

Lemma ensure_rgba_size img : size (ensure_rgba img) = size img.
Proof. unfold ensure_rgba. case_decide; [apply convert_size|done]. Qed.

(** Converting gives an alpha band to an image that has none and changes
    no pixel. *)
Lemma getpixel_ensure_rgba img x y :
  image_wf img → getpixel (ensure_rgba img) x y = getpixel img x y.
Proof.
  intros Hwf. unfold ensure_rgba. case_decide; [|done].
  rewrite getpixel_convert by done. by destruct (getpixel img x y).
Qed.

Lemma ensure_rgba_id img : im_mode img = RGBA → ensure_rgba img = img.
Proof. intros Hm. unfold ensure_rgba. by rewrite decide_False by auto. Qed.

(** ** Content under a crop *)

Section crop_content.
Context (sel : pixel → bool).

Lemma content_crop img c img' x y :
  image_wf img → box_in img c → crop img c = Ok img' →
  content sel img' x y ↔
  content sel img (b_left c + x) (b_upper c + y) ∧
  0 ≤ x < box_width c ∧ 0 ≤ y < box_height c.
Proof.
  intros Hwf Hc Hcrop.
  assert (image_wf img') as Hwf' by by eapply crop_wf.
  pose proof (crop_size _ _ _ Hcrop) as [= Hw Hh].
  split.
  - intros (p & Hp & Hsel).
    pose proof (getpixel_Some_in_bounds _ _ _ _ Hwf' Hp) as Hxy.
    rewrite (getpixel_crop img c img') in Hp by done.
    split; [by exists p|]. unfold in_bounds in Hxy. lia.
  - intros ((p & Hp & Hsel) & Hx & Hy). exists p. split; [|done].
    rewrite (getpixel_crop img c img'); [done..|]. unfold in_bounds. lia.
Qed.

(** Cropping to a box that contains the bounding box moves the bounding
    box by the corner of the crop. *)
Lemma is_bbox_crop img c img' b :
  image_wf img → box_in img c → crop img c = Ok img' →
  is_bbox sel img b → box_le b c →
  is_bbox sel img' (shift_box (- b_left c) (- b_upper c) b).
Proof.
  intros Hwf Hc Hcrop Hb (Hl & Hr & Hu & Hd).
  pose proof (content_crop img c img' ) as Hcc.
  destruct Hb as (Hall & [yl Hyl] & [yr Hyr] & [xu Hxu] & [xd Hxd]).
  pose proof (Hall _ _ Hyl). pose proof (Hall _ _ Hyr).
  pose proof (Hall _ _ Hxu). pose proof (Hall _ _ Hxd).
  unfold is_bbox, shift_box, box_width, box_height in *; simpl.
  split; [|split; [|split; [|split]]].
  - intros x y (Hxy%Hall & _)%Hcc; [lia|done..].
  - exists (yl - b_upper c). apply Hcc; [done..|].
    split; [|lia]. by replace (b_left c + _) with (b_left b) by lia;
      replace (b_upper c + _) with yl by lia.
  - exists (yr - b_upper c). apply Hcc; [done..|].
    split; [|lia]. by replace (b_left c + _) with (b_right b - 1) by lia;
      replace (b_upper c + _) with yr by lia.
  - exists (xu - b_left c). apply Hcc; [done..|].
    split; [|lia]. by replace (b_left c + _) with xu by lia;
      replace (b_upper c + _) with (b_upper b) by lia.
  - exists (xd - b_left c). apply Hcc; [done..|].
    split; [|lia]. by replace (b_left c + _) with xd by lia;
      replace (b_upper c + _) with (b_lower b - 1) by lia.
Qed.

(** After a crop to the bounding box itself, the box is the whole image. *)
Lemma is_bbox_crop_tight img b img' :
  image_wf img → is_bbox sel img b → crop img b = Ok img' →
  is_bbox sel img' (full_box img').
Proof.
  intros Hwf Hb Hcrop.
  destruct (is_bbox_box_in sel img b Hwf Hb) as (Hin & ? & ?).
  pose proof (crop_size _ _ _ Hcrop) as [= Hw Hh].
  replace (full_box img') with (shift_box (- b_left b) (- b_upper b) b).
  - eapply is_bbox_crop; [done..|]. unfold box_le. lia.
  - unfold full_box, shift_box, box_width, box_height in *.
    rewrite Hw, Hh. f_equal; lia.
Qed.

End crop_content.

(** ** The tight crop, for any box finder *)

Section finder.
Context (find : image → option box) `{!BBoxFinder find}.

Lemma crop_to_content_Written img out :
  image_wf img → im_mode img = RGBA →
  crop_to_content find img = Ok (Written out) →
  ∃ b, find img = Some b ∧ is_bbox opaque img b ∧ crop img b = Ok out.
Proof.
  intros Hwf Hm. unfold crop_to_content.
  destruct (find img) as [b|] eqn:Hf; [|done].
  destruct (crop img b) as [c|] eqn:Hc; [|done]. simpl. intros [= <-].
  exists b. split_and!; [done| |done]. by apply find_sound.
Qed.

Lemma crop_to_content_found img b :
  image_wf img → im_mode img = RGBA → find img = Some b →
  ∃ out, crop_to_content find img = Ok (Written out) ∧ crop img b = Ok out.
Proof.
  intros Hwf Hm Hf. unfold crop_to_content. rewrite Hf.
  pose proof (find_sound _ _ Hwf Hm Hf) as Hb.
  destruct (is_bbox_box_in _ _ _ Hwf Hb) as (_ & ? & ?).
  rewrite crop_ok by lia. eauto.
Qed.

Lemma crop_to_content_wf img out :
  image_wf img → crop_to_content find img = Ok (Written out) → image_wf out.
Proof.
  intros Hwf. unfold crop_to_content. destruct (find img) as [b|]; [|done].
  destruct (crop img b) as [c|] eqn:Hc; [|done]. simpl. intros [= <-].
  by eapply crop_wf.
Qed.

Lemma crop_to_content_mode img out :
  crop_to_content find img = Ok (Written out) → im_mode out = im_mode img.
Proof.
  unfold crop_to_content. destruct (find img) as [b|]; [|done].
  destruct (crop img b) as [c|] eqn:Hc; [|done]. simpl. intros [= <-].
  by eapply crop_mode.
Qed.

(** The finder's box is in range, so the crop cannot raise. *)
Lemma crop_to_content_total img :
  image_wf img → im_mode img = RGBA → is_ok (crop_to_content find img).
Proof.
  intros Hwf Hm. destruct (find img) as [b|] eqn:Hf.
  - destruct (crop_to_content_found img b) as (out & -> & _); done.
  - unfold crop_to_content. by rewrite Hf.
Qed.

(** Every opaque pixel of the sprite is in the crop, unchanged, at its
    position relative to the corner of the box. *)
Lemma crop_to_content_keeps img b out x y p :
  image_wf img → im_mode img = RGBA → find img = Some b →
  crop_to_content find img = Ok (Written out) →
  getpixel img x y = Some p → opaque p = true →
  getpixel out (x - b_left b) (y - b_upper b) = Some p.
Proof.
  intros Hwf Hm Hf Hout Hp Hop.
  destruct (crop_to_content_found img b) as (out' & Hout' & Hcrop); [done..|].
  assert (out' = out) as -> by congruence.
  pose proof (find_sound _ _ Hwf Hm Hf) as Hb.
  destruct (is_bbox_box_in _ _ _ Hwf Hb) as (Hin & _).
  destruct Hb as (Hall & _). destruct (Hall x y) as [Hx Hy]; [by exists p|].
  pose proof (crop_size _ _ _ Hcrop) as [= Hw Hh].
  rewrite (getpixel_crop img b out); [|done..|].
  - rewrite <- Hp. f_equal; lia.
  - unfold in_bounds, box_width, box_height in *. lia.
Qed.

(** All four edges of the crop hold an opaque pixel. *)
Lemma crop_to_content_edges img out :
  image_wf img → im_mode img = RGBA →
  crop_to_content find img = Ok (Written out) →
  is_bbox opaque out (full_box out).
Proof.
  intros Hwf Hm (b & _ & Hb & Hcrop)%crop_to_content_Written; [|done..].
  by eapply is_bbox_crop_tight.
Qed.

(** A second pass over a cropped sprite either declines or writes the
    same image again. *)
Lemma crop_to_content_again img out r :
  image_wf img → im_mode img = RGBA →
  crop_to_content find img = Ok (Written out) →
  crop_to_content find out = Ok r → r = Skipped ∨ r = Written out.
Proof.
  intros Hwf Hm Hout.
  pose proof (crop_to_content_edges _ _ Hwf Hm Hout) as Hfull.
  pose proof (crop_to_content_wf _ _ Hwf Hout) as Hwf'.
  pose proof (crop_to_content_mode _ _ Hout) as Hm'. rewrite Hm in Hm'.
  unfold crop_to_content at 1. destruct (find out) as [b'|] eqn:Hf'.
  - apply find_sound in Hf'; [|done..].
    rewrite (is_bbox_unique _ _ _ _ Hf' Hfull), crop_full by done.
    simpl. intros [= <-]. by right.
  - intros [= <-]. by left.
Qed.

(** With a complete finder the second pass writes the same image. *)
Lemma crop_to_content_idempotent `{!BBoxComplete find} img out :
  image_wf img → im_mode img = RGBA →
  crop_to_content find img = Ok (Written out) →
  crop_to_content find out = Ok (Written out).
Proof.
  intros Hwf Hm Hout.
  pose proof (crop_to_content_edges _ _ Hwf Hm Hout) as Hfull.
  pose proof (crop_to_content_wf _ _ Hwf Hout) as Hwf'.
  pose proof (crop_to_content_mode _ _ Hout) as Hm'. rewrite Hm in Hm'.
  pose proof (crop_to_content_total out Hwf' Hm') as [r Hr]%is_ok_Ok.
  destruct (crop_to_content_again _ _ _ Hwf Hm Hout Hr) as [->| ->]; [|done].
  unfold crop_to_content in Hr. destruct (find out) as [b'|] eqn:Hf'.
  - by destruct (crop out b').
  - apply find_none in Hf'; [|done..]. by apply is_bbox_not_blank in Hfull.
Qed.

End finder.

(** ** The tight crop of src/crop_goblin_tight.py *)

Lemma crop_tight_unfold img :
  crop_tight img = crop_to_content getbbox (ensure_rgba img).
Proof. reflexivity. Qed.

Lemma crop_tight_wf img out :
  image_wf img → crop_tight img = Ok (Written out) →
  image_wf out ∧ im_mode out = RGBA.
Proof.
  intros Hwf Hout. rewrite crop_tight_unfold in Hout. split.
  - eapply crop_to_content_wf; [|done]. by apply ensure_rgba_wf.
  - rewrite (crop_to_content_mode _ _ _ Hout). apply ensure_rgba_mode.
Qed.

Lemma crop_tight_again img out :
  image_wf img → crop_tight img = Ok (Written out) →
  crop_tight out = Ok (Written out).
Proof.
  intros Hwf Hout. destruct (crop_tight_wf _ _ Hwf Hout) as [Hwf' Hm'].
  rewrite crop_tight_unfold in *. rewrite (ensure_rgba_id out Hm').
  apply (crop_to_content_idempotent getbbox (ensure_rgba img));
    [by apply ensure_rgba_wf|apply ensure_rgba_mode|done].
Qed.

(** ** The padded crop of src/crop_goblin_sprites.py *)

Lemma pad_bounds_box img s :
  image_wf img → is_bbox opaque img (bounds_box s) →
  let c := bounds_box (pad_bounds (width img) (height img) s) in
  box_in img c ∧ box_le (bounds_box s) c ∧
  b_left (bounds_box s) - b_left c ≤ 2 ∧ b_right c - b_right (bounds_box s) ≤ 2 ∧
  b_upper (bounds_box s) - b_upper c ≤ 2 ∧ b_lower c - b_lower (bounds_box s) ≤ 2.
Proof.
  intros Hwf Hb. destruct (is_bbox_box_in _ _ _ Hwf Hb) as (Hin & ? & ?).
  unfold box_in, box_le, bounds_box, pad_bounds, padding in *; simpl in *. lia.
Qed.

Lemma crop_padded_unfold img :
  crop_padded img =
    (s ← scan_bounds (ensure_rgba img);
     if found_content s then
       cropped ← crop (ensure_rgba img)
                   (bounds_box (pad_bounds (width (ensure_rgba img))
                                           (height (ensure_rgba img)) s));
       Ok (Written cropped)
     else Ok Skipped).
Proof. reflexivity. Qed.

(** What a written result of the padded crop is made of. *)
Lemma crop_padded_Written img out :
  image_wf img → crop_padded img = Ok (Written out) →
  ∃ s, scan_bounds (ensure_rgba img) = Ok s ∧ found_content s = true ∧
       is_bbox opaque (ensure_rgba img) (bounds_box s) ∧
       crop (ensure_rgba img)
         (bounds_box (pad_bounds (width (ensure_rgba img))
                                 (height (ensure_rgba img)) s)) = Ok out.
Proof.
  intros Hwf%ensure_rgba_wf. rewrite crop_padded_unfold.
  destruct (scan_bounds _) as [s|] eqn:Hs; [|done]. simpl.
  destruct (found_content s) eqn:Hf; [|done].
  destruct (crop _ _) as [c|] eqn:Hc; [|done]. simpl. intros [= <-].
  exists s. split_and!; [done..| |done].
  apply scan_bounds_is_bbox; [done| |done]. by eapply found_content_not_blank.
Qed.

Lemma crop_padded_found img s :
  image_wf img → scan_bounds (ensure_rgba img) = Ok s → found_content s = true →
  ∃ out, crop_padded img = Ok (Written out).
Proof.
  intros Hwf%ensure_rgba_wf Hs Hf. rewrite crop_padded_unfold, Hs. simpl.
  rewrite Hf.
  assert (is_bbox opaque (ensure_rgba img) (bounds_box s)) as Hb.
  { apply scan_bounds_is_bbox; [done| |done]. by eapply found_content_not_blank. }
  destruct (pad_bounds_box _ _ Hwf Hb) as ((? & ? & ? & ?) & _).
  rewrite crop_ok by lia. simpl. eauto.
Qed.

Lemma crop_padded_wf img out :
  image_wf img → crop_padded img = Ok (Written out) →
  image_wf out ∧ im_mode out = RGBA.
Proof.
  intros Hwf (s & _ & _ & _ & Hc)%crop_padded_Written; [|done]. split.
  - eapply crop_wf; [|done]. by apply ensure_rgba_wf.
  - rewrite (crop_mode _ _ _ Hc). apply ensure_rgba_mode.
Qed.

(** The bounding box of the padded crop: the content's box moved by the
    padded corner, at most two pixels from every edge of the result. *)
Lemma crop_padded_bbox img out :
  image_wf img → crop_padded img = Ok (Written out) →
  ∃ b, is_bbox opaque out b ∧ 1 < box_width b ∧ 1 < box_height b ∧
       0 ≤ b_left b ≤ 2 ∧ 0 ≤ b_upper b ≤ 2 ∧
       0 ≤ width out - b_right b ≤ 2 ∧ 0 ≤ height out - b_lower b ≤ 2.
Proof.
  intros Hwf (s & Hs & Hf & Hb & Hc)%crop_padded_Written; [|done].
  apply ensure_rgba_wf in Hwf.
  destruct (pad_bounds_box _ _ Hwf Hb) as (Hin & Hle & Hm).
  pose proof (is_bbox_crop opaque _ _ _ _ Hwf Hin Hc Hb Hle) as Hb'.
  pose proof (crop_size _ _ _ Hc) as [= Hw Hh].
  apply found_content_box in Hf.
  eexists. split; [exact Hb'|]. destruct Hle as (? & ? & ? & ?).
  unfold shift_box, box_width, box_height in *; simpl in *. lia.
Qed.

(** Bounds that are within two pixels of every edge pad to the whole
    image. *)
Lemma pad_bounds_full img s :
  0 ≤ min_x s ≤ 2 → 0 ≤ min_y s ≤ 2 →
  0 ≤ width img - (max_x s + 1) ≤ 2 → 0 ≤ height img - (max_y s + 1) ≤ 2 →
  bounds_box (pad_bounds (width img) (height img) s) = full_box img.
Proof.
  intros. unfold bounds_box, pad_bounds, full_box, padding; simpl.
  f_equal; lia.
Qed.

Lemma crop_padded_again img out :
  image_wf img → crop_padded img = Ok (Written out) →
  crop_padded out = Ok (Written out).
Proof.
  intros Hwf Hout. destruct (crop_padded_wf _ _ Hwf Hout) as [Hwf' Hm'].
  destruct (crop_padded_bbox _ _ Hwf Hout) as (b & Hb & Hw & Hh & Hmargin).
  rewrite crop_padded_unfold, (ensure_rgba_id out Hm').
  rewrite scan_bounds_pure by done. simpl.
  set (s := Bounds _ _ _ _).
  assert (bounds_box s = b) as Hs.
  { eapply is_bbox_unique; [|done]. apply hull_is_bbox; [done|].
    rewrite points_nil_blank by done. by eapply is_bbox_not_blank. }
  assert (found_content s = true) as -> by (apply found_content_box; by rewrite Hs).
  rewrite pad_bounds_full, crop_full; [done..| | | |];
    destruct b; unfold bounds_box in Hs; simpl in *; simplify_eq; lia.
Qed.

(** crop_goblin_tight.py never fails on a decodable sprite: after the
    conversion to RGBA the box that [getbbox] returns is a valid crop box,
    so the body of the [try] returns, with a cropped image or with
    "skipped". *)
Lemma crop_tight_total img : image_wf img → is_ok (crop_tight img).
Proof.
  intros Hwf. rewrite crop_tight_unfold.
  apply (crop_to_content_total getbbox);
    [by apply ensure_rgba_wf|apply ensure_rgba_mode].
Qed.

(** On a decodable sprite the body of crop_goblin_sprites.py never
    raises: the scan stays inside the image and the padded box is clamped
    to it. *)
Lemma crop_padded_total img : image_wf img → is_ok (crop_padded img).
Proof.
  intros Hwf. pose proof (ensure_rgba_wf _ Hwf) as Hwf'.
  destruct (scan_bounds (ensure_rgba img)) as [s|] eqn:Hs;
    [|by rewrite scan_bounds_pure in Hs by done].
  destruct (found_content s) eqn:Hf.
  - by destruct (crop_padded_found img s) as [out ->].
  - rewrite crop_padded_unfold, Hs. simpl. by rewrite Hf.
Qed.

(** ** The bodies meet the interface of the loops *)

#[global] Instance crop_tight_typed : BodyTyped crop_tight.
Proof. exact crop_tight_wf. Qed.

#[global] Instance crop_tight_body_total : BodyTotal crop_tight.
Proof. exact crop_tight_total. Qed.

#[global] Instance crop_tight_idem : BodyIdempotent crop_tight.
Proof. exact crop_tight_again. Qed.

#[global] Instance crop_padded_typed : BodyTyped crop_padded.
Proof. exact crop_padded_wf. Qed.

#[global] Instance crop_padded_body_total : BodyTotal crop_padded.
Proof. exact crop_padded_total. Qed.

#[global] Instance crop_padded_idem : BodyIdempotent crop_padded.
Proof. exact crop_padded_again. Qed.

Lemma written_Written body img out :
  written body img = Ok (Written out) ↔ body img = Ok out.
Proof.
  unfold written. destruct (body img) as [r|e]; simpl; [|done].
  split; by intros [= ->].
Qed.

(** ** Properties *)

(** C1. The tight crop does not alter the content: every pixel of the
    sprite with positive alpha is found in the cropped image with the
    same four bands, at its position relative to the corner of the
    bounding box. *)
Theorem crop_tight_keeps_content img b out x y p :
  image_wf img → getbbox (ensure_rgba img) = Some b →
  crop_tight img = Ok (Written out) →
  getpixel img x y = Some p → alpha p > 0 →
  getpixel out (x - b_left b) (y - b_upper b) = Some p.
Proof.
  intros Hwf Hb Hout Hp Ha. rewrite crop_tight_unfold in Hout.
  eapply (crop_to_content_keeps getbbox (ensure_rgba img));
    [by apply ensure_rgba_wf|apply ensure_rgba_mode|done..| |].
  - by rewrite getpixel_ensure_rgba.
  - unfold opaque. by apply bool_decide_eq_true_2.
Qed.

Lemma crop_tight_keeps_content_witness :
  getpixel (Image RGBA 2 2 [[px_solid; px_soft]; [px_soft; px_solid]])
    (2 - 1) (0 - 0) = Some px_soft.
Proof.
  apply (crop_tight_keeps_content sprite_block (Box 1 0 3 2) _ 2 0 px_soft);
    [apply sprite_block_wf|by vm_compute..].
Defined.

(** C33. Each of the four edges of a tightly cropped sprite holds a pixel
    with positive alpha: the bounding box of the result is the whole
    result. *)
Theorem crop_tight_touches_edges img out :
  image_wf img → crop_tight img = Ok (Written out) →
  is_bbox opaque out (full_box out).
Proof.
  intros Hwf Hout. rewrite crop_tight_unfold in Hout.
  apply (crop_to_content_edges getbbox (ensure_rgba img));
    [by apply ensure_rgba_wf|apply ensure_rgba_mode|done].
Qed.

Lemma crop_tight_touches_edges_witness :
  is_bbox opaque (Image RGBA 2 2 [[px_solid; px_soft]; [px_soft; px_solid]])
    (Box 0 0 2 2).
Proof.
  apply (crop_tight_touches_edges sprite_block);
    [apply sprite_block_wf|by vm_compute].
Defined.

(** C2. The tight crop is idempotent: running crop_goblin_tight.py on a
    sprite it has already cropped writes the same image again. *)
Theorem crop_tight_idempotent img out :
  image_wf img → crop_tight img = Ok (Written out) →
  crop_tight out = Ok (Written out).
Proof. apply crop_tight_again. Qed.

Lemma crop_tight_idempotent_witness :
  crop_tight (Image RGBA 2 2 [[px_solid; px_soft]; [px_soft; px_solid]]) =
    Ok (Written (Image RGBA 2 2 [[px_solid; px_soft]; [px_soft; px_solid]])).
Proof.
  apply (crop_tight_idempotent sprite_block);
    [apply sprite_block_wf|by vm_compute].
Defined.

(** crop_goblin_tight.py skips a sprite exactly when it has no pixel
    with positive alpha. *)
Theorem crop_tight_skips_blank img :
  image_wf img →
  crop_tight img = Ok Skipped ↔ blank opaque (ensure_rgba img).
Proof.
  intros Hwf%ensure_rgba_wf. pose proof (ensure_rgba_mode img) as Hm.
  rewrite crop_tight_unfold. unfold crop_to_content. split.
  - destruct (getbbox _) as [b|] eqn:Hg; [by destruct (crop _ b)|].
    intros _. by apply (find_none (find := getbbox)).
  - intros Hb. destruct (getbbox _) as [b|] eqn:Hg; [|done].
    apply (find_sound (find := getbbox)) in Hg; [|done..].
    by apply is_bbox_not_blank in Hg.
Qed.

Lemma crop_tight_skips_blank_witness :
  crop_tight sprite_blank = Ok Skipped ↔ blank opaque (ensure_rgba sprite_blank).
Proof. apply (crop_tight_skips_blank sprite_blank), sprite_blank_wf. Defined.

(** The padded crop of crop_goblin_sprites.py leaves the content's
    bounding box at most two pixels away from every edge of the result,
    and that box is more than one pixel wide and high. *)
Theorem crop_padded_margin img out :
  image_wf img → crop_padded img = Ok (Written out) →
  ∃ b, is_bbox opaque out b ∧ 1 < box_width b ∧ 1 < box_height b ∧
       0 ≤ b_left b ≤ 2 ∧ 0 ≤ b_upper b ≤ 2 ∧
       0 ≤ width out - b_right b ≤ 2 ∧ 0 ≤ height out - b_lower b ≤ 2.
Proof. apply crop_padded_bbox. Qed.

Lemma crop_padded_margin_witness :
  ∃ b, is_bbox opaque sprite_block b ∧ 1 < box_width b ∧ 1 < box_height b ∧
       0 ≤ b_left b ≤ 2 ∧ 0 ≤ b_upper b ≤ 2 ∧
       0 ≤ width sprite_block - b_right b ≤ 2 ∧
       0 ≤ height sprite_block - b_lower b ≤ 2.
Proof.
  apply (crop_padded_margin sprite_block);
    [apply sprite_block_wf|by vm_compute].
Defined.

(** The padded crop is idempotent: a sprite that
    crop_goblin_sprites.py has cropped is written back unchanged by a
    second run, because its content is already within the padding of
    every edge. *)
Theorem crop_padded_idempotent img out :
  image_wf img → crop_padded img = Ok (Written out) →
  crop_padded out = Ok (Written out).
Proof. apply crop_padded_again. Qed.

Lemma crop_padded_idempotent_witness :
  crop_padded sprite_block = Ok (Written sprite_block).
Proof.
  apply (crop_padded_idempotent sprite_block);
    [apply sprite_block_wf|by vm_compute].
Defined.

(** The two cropping scripts disagree on thin content: a sprite whose
    content is one pixel wide or one pixel high is cropped by
    crop_goblin_tight.py and skipped, as if empty, by
    crop_goblin_sprites.py. *)
Theorem crop_padded_skips_thin img b :
  image_wf img → getbbox (ensure_rgba img) = Some b →
  box_width b = 1 ∨ box_height b = 1 →
  crop_padded img = Ok Skipped ∧ ∃ out, crop_tight img = Ok (Written out).
Proof.
  intros Hwf Hg Hthin. pose proof (ensure_rgba_wf _ Hwf) as Hwf'.
  pose proof (ensure_rgba_mode img) as Hm. split.
  - pose proof (find_sound _ _ Hwf' Hm Hg) as Hb.
    pose proof (scan_box_of_bbox _ _ Hwf' Hb) as Hsb.
    rewrite bool_decide_eq_false_2 in Hsb by lia.
    rewrite crop_padded_unfold. unfold scan_box in Hsb.
    destruct (scan_bounds _) as [s|] eqn:Hs;
      [|by rewrite scan_bounds_pure in Hs by done].
    simpl. by destruct (found_content s).
  - rewrite crop_tight_unfold.
    destruct (crop_to_content_found getbbox _ b Hwf' Hm Hg) as (out & ? & _).
    eauto.
Qed.

Lemma crop_padded_skips_thin_witness :
  crop_padded sprite_column = Ok Skipped ∧
  ∃ out, crop_tight sprite_column = Ok (Written out).
Proof.
  apply (crop_padded_skips_thin sprite_column (Box 1 0 2 3));
    [apply sprite_column_wf|by vm_compute|by left].
Defined.
