(* ===== verification/Canvas.v ===== *)
(** * Canvas: pasting a sprite on a uniform transparent canvas

    Five scripts end the same way: they make a transparent RGBA canvas,
    compute an offset from the sizes, and paste the sprite with itself as
    mask.  They differ in the canvas and in the offset:

    - src/align_goblin_bottom.py: 227 x 227, centred, on the bottom edge;
    - src/resize_goblin_uniform.py: a square of the batch maximum plus 20,
      centred, 10 pixels above the bottom edge;
    - src/uniform_goblin_bottom.py: the batch maximum, centred, on the
      bottom edge;
    - src/extract_goblin_hurt.py and src/extract_goblin_hurt_full.py:
      201 x 201, the sprite first cropped to its content.

    [place] is the common shape; each script's body is proved to be an
    instance of it, and the theorems on placement are proved for [place]. *)

From Stdlib Require Import ZArith Lia.
From stdpp Require Import base tactics option list numbers.
From S2P Require Import Prelude Image BBox Crop.

(** ** Definitions *)

(** The first pass of the three goblin scripts: the running maximum of
    the widths and heights, from (0, 0). *)
Definition max_dimensions (imgs : list image) : Z * Z :=
  foldl (λ m img, (Z.max m.1 (width img), Z.max m.2 (height img))) (0, 0) imgs.

(** A new transparent canvas and the sprite pasted on it with itself as
    mask. *)
Definition place (cw ch x_offset y_offset : Z) (img : image) : result image :=
  canvas ← Image_new RGBA (cw, ch) transparent;
  paste canvas img (x_offset, y_offset) img.

(** src/align_goblin_bottom.py: [canvas_size = 227]. *)
Definition align_canvas_size : Z := 227.

Definition align_bottom (img : image) : result image :=
  let canvas_size := align_canvas_size in
  canvas ← Image_new RGBA (canvas_size, canvas_size) transparent;
  let x_offset := (canvas_size - width img) // 2 in
  let y_offset := canvas_size - height img in
  paste canvas img (x_offset, y_offset) img.

(** src/resize_goblin_uniform.py:
    [canvas_size = max(max_width, max_height) + 20]. *)
Definition resize_canvas_size (max_width max_height : Z) : Z :=
  Z.max max_width max_height + 20.

Definition resize_uniform (canvas_size : Z) (img : image) : result image :=
  canvas ← Image_new RGBA (canvas_size, canvas_size) transparent;
  let x_offset := (canvas_size - width img) // 2 in
  let y_offset := canvas_size - height img - 10 in
  paste canvas img (x_offset, y_offset) img.

(** src/uniform_goblin_bottom.py. *)
Definition uniform_bottom (max_width max_height : Z) (img : image)
  : result image :=
  canvas ← Image_new RGBA (max_width, max_height) transparent;
  let x_offset := (max_width - width img) // 2 in
  let y_offset := max_height - height img in
  paste canvas img (x_offset, y_offset) img.

(** src/extract_goblin_hurt.py and src/extract_goblin_hurt_full.py:
    [max_width = 201; max_height = 201], and the body of the [try]
    without the file access. *)
Definition hurt_canvas : Z * Z := (201, 201).

Definition hurt_frame (img : image) : result outcome :=
  let img := ensure_rgba img in
  match getbbox img with
  | Some bbox =>
      cropped ← crop img bbox;
      let '(max_width, max_height) := hurt_canvas in
      canvas ← Image_new RGBA (max_width, max_height) transparent;
      let x_offset := (max_width - width cropped) // 2 in
      let y_offset := max_height - height cropped in
      r ← paste canvas cropped (x_offset, y_offset) cropped;
      Ok (Written r)
  | None => Ok Skipped
  end.

(** The weight the sprite gives to its own pixel when it is its own mask. *)
Definition self_weight (m : mode) (p : pixel) : Z :=
  match m with
  | L => red p
  | RGBA | RGB => alpha p
  end.

(** A pixel pasted over a transparent one with weight [w]: every band is
    scaled by [w / 255]. *)
Definition scaled (w : Z) (p : pixel) : pixel :=
  Px (div255 (red p * w)) (div255 (green p * w))
     (div255 (blue p * w)) (div255 (alpha p * w)).

(** The pixel of the placed sprite that lands on (x, y) of the canvas. *)
Definition placed_pixel (x_offset y_offset : Z) (img : image) (x y : Z)
  : pixel :=
  match getpixel img (x - x_offset) (y - y_offset) with
  | Some p => scaled (self_weight (im_mode img) p) p
  | None => transparent
  end.

(** An image without half-transparent pixels. *)
Definition binary_alpha (img : image) : Prop :=
  ∀ x y p, getpixel img x y = Some p → alpha p = 0 ∨ alpha p = 255.

(** An image whose pixels are all fully opaque or the colour (0, 0, 0, 0). *)
Definition crisp (img : image) : Prop :=
  ∀ x y p, getpixel img x y = Some p → p = transparent ∨ alpha p = 255.

(** Sample sprites: one in mode RGB, one with binary alpha. *)
Definition sprite_rgb : image := Image RGB 2 1 [ [Px 10 20 30 255; Px 0 0 0 255] ].

(** A sprite of one column and 228 rows, opaque at the top only. *)
Definition sprite_tall : image :=
  make RGBA 1 228 (λ _ y, if decide (y = 0) then Px 200 40 40 255 else transparent).

Definition sprite_crisp : image :=
  Image RGBA 2 2 [ [Px 9 9 9 0; Px 200 40 40 255];
                   [Px 200 40 40 255; Px 200 40 40 255] ].

(** ** The scaled pixel *)

Lemma transparent_wf : pixel_wf transparent ∧ mode_ok RGBA transparent.
Proof. unfold pixel_wf, band; simpl. lia. Qed.

Lemma blend_onto_transparent w p : blend w transparent p = scaled w p.
Proof. unfold blend, scaled; simpl. by rewrite !blend8_onto_0. Qed.

Lemma div255_mul_255 a : band a → div255 (a * 255) = a.
Proof. unfold band. intros Ha. rewrite div255_round by lia. zdiv. Qed.

Lemma div255_mul_0 a : div255 (a * 0) = 0.
Proof. by rewrite Z.mul_0_r. Qed.

(** A fully opaque weight keeps the pixel, a zero weight erases it. *)
Lemma scaled_255 p : pixel_wf p → scaled 255 p = p.
Proof.
  intros (?&?&?&?). destruct p. unfold scaled; simpl in *.
  by rewrite !div255_mul_255.
Qed.

Lemma scaled_0 p : scaled 0 p = transparent.
Proof. unfold scaled. by rewrite !div255_mul_0. Qed.

Lemma div255_square_lt a : 0 < a < 255 → div255 (a * a) < a.
Proof.
  intros Ha. rewrite div255_round by nia.
  apply Z.div_lt_upper_bound; nia.
Qed.

Lemma div255_square_pos a : band a → 0 < div255 (a * a) ↔ 12 ≤ a.
Proof.
  unfold band. intros Ha. rewrite div255_round by nia. split.
  - intros Hpos. destruct (decide (12 ≤ a)) as [|Hlt]; [done|].
    assert (a * a ≤ 121) by nia. zdiv.
  - intros Hge. assert (144 ≤ a * a) by nia. zdiv.
Qed.

(** ** What [place] returns *)

Lemma canvas_wf cw ch : image_wf (make RGBA cw ch (λ _ _, transparent)).
Proof. apply make_wf. intros. apply transparent_wf. Qed.

Lemma place_unfold cw ch xo yo img :
  0 ≤ cw → 0 ≤ ch →
  place cw ch xo yo img =
    paste (make RGBA cw ch (λ _ _, transparent)) img (xo, yo) img.
Proof. intros. unfold place. by rewrite Image_new_ok by done. Qed.

Lemma place_raise_size cw ch xo yo img :
  cw < 0 ∨ ch < 0 → place cw ch xo yo img = Raise ValueError.
Proof. intros. unfold place. by rewrite Image_new_raise. Qed.

Lemma place_inv cw ch xo yo img r :
  place cw ch xo yo img = Ok r →
  0 ≤ cw ∧ 0 ≤ ch ∧
  paste (make RGBA cw ch (λ _ _, transparent)) img (xo, yo) img = Ok r.
Proof.
  intros Hr. destruct (decide (cw < 0 ∨ ch < 0)) as [Hneg|Hpos].
  - by rewrite place_raise_size in Hr.
  - rewrite place_unfold in Hr by lia. split_and!; [lia..|done].
Qed.

Lemma place_raise_RGB cw ch xo yo img :
  im_mode img = RGB → place cw ch xo yo img = Raise ValueError.
Proof.
  intros Hm. destruct (decide (cw < 0 ∨ ch < 0)) as [Hneg|Hpos].
  - by apply place_raise_size.
  - rewrite place_unfold by lia. by apply paste_raise_mask.
Qed.

Lemma place_ok cw ch xo yo img :
  0 ≤ cw → 0 ≤ ch → im_mode img ≠ RGB → is_ok (place cw ch xo yo img).
Proof.
  intros Hw Hh Hm. rewrite place_unfold by done. unfold paste.
  rewrite decide_True by done. rewrite mask_band_ok by done. done.
Qed.

Lemma place_size cw ch xo yo img r :
  place cw ch xo yo img = Ok r → size r = (cw, ch).
Proof.
  intros (Hw & Hh & Hp)%place_inv.
  rewrite (paste_size _ _ _ _ _ Hp). by apply size_make.
Qed.

Lemma place_mode cw ch xo yo img r :
  place cw ch xo yo img = Ok r → im_mode r = RGBA.
Proof. intros (_ & _ & Hp)%place_inv. by rewrite (paste_mode _ _ _ _ _ Hp). Qed.

Lemma place_wf cw ch xo yo img r :
  image_wf img → place cw ch xo yo img = Ok r → image_wf r.
Proof.
  intros Hwf (_ & _ & Hp)%place_inv.
  eapply paste_wf; [apply canvas_wf|done|done|done].
Qed.

(** Every pixel of the canvas after the paste. *)
Lemma getpixel_place cw ch xo yo img r x y :
  image_wf img → place cw ch xo yo img = Ok r →
  0 ≤ x < cw → 0 ≤ y < ch →
  getpixel r x y = Some (placed_pixel xo yo img x y).
Proof.
  intros Hwf (Hw & Hh & Hp)%place_inv Hx Hy. unfold placed_pixel.
  pose proof (canvas_wf cw ch) as Hc.
  assert (getpixel (make RGBA cw ch (λ _ _, transparent)) x y = Some transparent)
    as Hcan by by rewrite getpixel_make.
  destruct (getpixel img (x - xo) (y - yo)) as [p|] eqn:Hsrc.
  - rewrite (getpixel_paste_inside _ _ _ _ _ _ _ p p Hc Hwf Hwf Hp);
      [|by apply in_bounds_make|done..].
    rewrite (pixel_or_fill_in _ _ _ _ Hcan), mode_make, to_mode_RGBA.
    rewrite blend_onto_transparent. unfold self_weight.
    by destruct (im_mode img).
  - rewrite (getpixel_paste_outside _ _ _ _ _ _ _ Hc Hwf Hp); [done|].
    by apply getpixel_None_iff.
Qed.

Lemma place_spec cw ch xo yo img :
  image_wf img → im_mode img ≠ RGB → 0 ≤ cw → 0 ≤ ch →
  ∃ r, place cw ch xo yo img = Ok r ∧ image_wf r ∧ im_mode r = RGBA ∧
       size r = (cw, ch) ∧
       ∀ x y, 0 ≤ x < cw → 0 ≤ y < ch →
              getpixel r x y = Some (placed_pixel xo yo img x y).
Proof.
  intros Hwf Hm Hw Hh.
  pose proof (place_ok cw ch xo yo img Hw Hh Hm) as [r Hr]%is_ok_Ok.
  exists r. split_and!; [done|by eapply place_wf|by eapply place_mode|
                         by eapply place_size|].
  intros x y Hx Hy. by eapply getpixel_place.
Qed.

(** ** The placed pixel *)

Lemma placed_pixel_outside xo yo img x y :
  image_wf img → ¬ in_bounds img (x - xo) (y - yo) →
  placed_pixel xo yo img x y = transparent.
Proof.
  intros Hwf Hout. unfold placed_pixel.
  by rewrite (proj2 (getpixel_None_iff _ _ _ Hwf) Hout).
Qed.

Lemma placed_pixel_at xo yo img sx sy p :
  getpixel img sx sy = Some p →
  placed_pixel xo yo img (sx + xo) (sy + yo) =
    scaled (self_weight (im_mode img) p) p.
Proof.
  intros Hp. unfold placed_pixel.
  by replace (sx + xo - xo) with sx by lia;
     replace (sy + yo - yo) with sy by lia; rewrite Hp.
Qed.

Lemma placed_pixel_opaque xo yo img sx sy p :
  image_wf img → im_mode img ≠ L →
  getpixel img sx sy = Some p → alpha p = 255 →
  placed_pixel xo yo img (sx + xo) (sy + yo) = p.
Proof.
  intros Hwf Hm Hp Ha. rewrite (placed_pixel_at _ _ _ _ _ _ Hp).
  destruct (getpixel_wf _ _ _ _ Hwf Hp) as [Hpw _].
  replace (self_weight (im_mode img) p) with 255
    by (unfold self_weight; by destruct (im_mode img)).
  by apply scaled_255.
Qed.

Lemma placed_pixel_clear xo yo img sx sy p :
  im_mode img ≠ L → getpixel img sx sy = Some p → alpha p = 0 →
  placed_pixel xo yo img (sx + xo) (sy + yo) = transparent.
Proof.
  intros Hm Hp Ha. rewrite (placed_pixel_at _ _ _ _ _ _ Hp).
  replace (self_weight (im_mode img) p) with 0
    by (unfold self_weight; by destruct (im_mode img)).
  apply scaled_0.
Qed.

Lemma placed_pixel_soft xo yo img sx sy p :
  im_mode img ≠ L → getpixel img sx sy = Some p → 0 < alpha p < 255 →
  alpha (placed_pixel xo yo img (sx + xo) (sy + yo)) < alpha p.
Proof.
  intros Hm Hp Ha. rewrite (placed_pixel_at _ _ _ _ _ _ Hp).
  replace (self_weight (im_mode img) p) with (alpha p)
    by (unfold self_weight; by destruct (im_mode img)).
  simpl. by apply div255_square_lt.
Qed.

Lemma placed_pixel_wf xo yo img x y :
  image_wf img → pixel_wf (placed_pixel xo yo img x y).
Proof.
  intros Hwf. unfold placed_pixel.
  destruct (getpixel _ _ _) as [p|] eqn:Hp; [|apply transparent_wf].
  destruct (getpixel_wf _ _ _ _ Hwf Hp) as [Hpw _].
  rewrite <- blend_onto_transparent. apply blend_wf; [|apply transparent_wf|done].
  destruct Hpw as (?&?&?&?). unfold self_weight. by destruct (im_mode img).
Qed.

(** ** The scripts are instances of [place] *)

Lemma align_bottom_place img :
  align_bottom img =
    place 227 227 ((227 - width img) // 2) (227 - height img) img.
Proof. reflexivity. Qed.

Lemma resize_uniform_place canvas_size img :
  resize_uniform canvas_size img =
    place canvas_size canvas_size ((canvas_size - width img) // 2)
      (canvas_size - height img - 10) img.
Proof. reflexivity. Qed.

Lemma uniform_bottom_place max_width max_height img :
  uniform_bottom max_width max_height img =
    place max_width max_height ((max_width - width img) // 2)
      (max_height - height img) img.
Proof. reflexivity. Qed.

Lemma hurt_frame_place img :
  hurt_frame img =
    match getbbox (ensure_rgba img) with
    | Some bbox =>
        cropped ← crop (ensure_rgba img) bbox;
        r ← place 201 201 ((201 - width cropped) // 2) (201 - height cropped)
              cropped;
        Ok (Written r)
    | None => Ok Skipped
    end.
Proof. reflexivity. Qed.

(** The body of the extract scripts is the tight crop followed by a
    placement. *)
Lemma hurt_frame_crop_tight img :
  hurt_frame img =
    (o ← crop_tight img;
     match o with
     | Written cropped =>
         r ← place 201 201 ((201 - width cropped) // 2) (201 - height cropped)
               cropped;
         Ok (Written r)
     | Skipped => Ok Skipped
     end).
Proof.
  rewrite hurt_frame_place. unfold crop_tight.
  destruct (getbbox _) as [b|]; [|done]. by destruct (crop _ b).
Qed.

(** ** The bodies meet the interface of the loops *)

Lemma written_place_typed body cw ch xo yo :
  (∀ img, body img = place cw ch (xo img) (yo img) img) →
  BodyTyped (written body).
Proof.
  intros Hbody img out Hwf Hout%written_Written. rewrite Hbody in Hout.
  split; [by eapply place_wf|by eapply place_mode].
Qed.

#[global] Instance align_bottom_typed : BodyTyped (written align_bottom).
Proof. by eapply written_place_typed, align_bottom_place. Qed.

#[global] Instance resize_uniform_typed c : BodyTyped (written (resize_uniform c)).
Proof. by eapply written_place_typed, resize_uniform_place. Qed.

#[global] Instance uniform_bottom_typed w h : BodyTyped (written (uniform_bottom w h)).
Proof. by eapply written_place_typed, uniform_bottom_place. Qed.

#[global] Instance hurt_frame_typed : BodyTyped hurt_frame.
Proof.
  intros img out Hwf. rewrite hurt_frame_crop_tight.
  destruct (crop_tight img) as [[cropped|]|e] eqn:Hc; simpl; [|done..].
  destruct (body_typed _ _ Hwf Hc) as [Hwf' Hm'].
  destruct (place _ _ _ _ cropped) as [r|] eqn:Hr; simpl; [|done].
  intros [= <-]. split; [by eapply place_wf|by eapply place_mode].
Qed.

#[global] Instance hurt_frame_body_total : BodyTotal hurt_frame.
Proof.
  intros img Hwf. rewrite hurt_frame_crop_tight.
  pose proof (body_total (body:=crop_tight) img Hwf) as Hok.
  destruct (crop_tight img) as [[cropped|]|e] eqn:Hc; simpl; [|done..].
  destruct (body_typed _ _ Hwf Hc) as [Hwf' Hm'].
  pose proof (place_ok 201 201 ((201 - width cropped) // 2)
                (201 - height cropped) cropped) as [r ->]%is_ok_Ok;
    [done|lia|lia|by rewrite Hm'].
Qed.

(** ** The first pass *)

Lemma max_dimensions_run imgs :
  max_dimensions imgs = (run_max width 0 imgs, run_max height 0 imgs).
Proof.
  unfold max_dimensions, run_max. generalize 0 at 1 3. generalize 0.
  induction imgs as [|img imgs IH]; intros a b; [done|]. simpl. apply IH.
Qed.

Lemma max_dimensions_upper imgs img :
  img ∈ imgs →
  width img ≤ (max_dimensions imgs).1 ∧ height img ≤ (max_dimensions imgs).2.
Proof.
  intros Hin. rewrite max_dimensions_run; simpl.
  split; by apply run_max_upper.
Qed.

Lemma max_dimensions_nonneg imgs :
  0 ≤ (max_dimensions imgs).1 ∧ 0 ≤ (max_dimensions imgs).2.
Proof. rewrite max_dimensions_run; simpl. split; apply run_max_ge_init. Qed.

Lemma max_dimensions_attained imgs :
  imgs ≠ [] →
  (∃ img, img ∈ imgs ∧ width img = (max_dimensions imgs).1) ∧
  (∃ img, img ∈ imgs ∧ height img = (max_dimensions imgs).2).
Proof.
  intros Hne. rewrite max_dimensions_run; simpl.
  destruct imgs as [|i0 imgs']; [done|].
  assert (i0 ∈ i0 :: imgs') as Hi0 by left.
  pose proof (width_nonneg i0). pose proof (height_nonneg i0).
  split.
  - destruct (run_max_attained width 0 (i0 :: imgs')) as [He|(i & ? & ->)]; [|eauto].
    pose proof (run_max_upper width 0 _ _ Hi0). exists i0. split; [done|lia].
  - destruct (run_max_attained height 0 (i0 :: imgs')) as [He|(i & ? & ->)]; [|eauto].
    pose proof (run_max_upper height 0 _ _ Hi0). exists i0. split; [done|lia].
Qed.

(** ** Crisp sprites *)

Lemma place_crisp cw ch xo yo img r :
  image_wf img → im_mode img ≠ L → binary_alpha img →
  place cw ch xo yo img = Ok r → crisp r.
Proof.
  intros Hwf Hm Hbin Hr x y q Hq.
  pose proof (place_wf _ _ _ _ _ _ Hwf Hr) as Hwf'.
  pose proof (getpixel_Some_in_bounds _ _ _ _ Hwf' Hq) as [Hx Hy].
  pose proof (place_size _ _ _ _ _ _ Hr) as [= Hw Hh].
  rewrite (getpixel_place _ _ _ _ _ _ _ _ Hwf Hr) in Hq by lia.
  injection Hq as <-. unfold placed_pixel.
  destruct (getpixel img _ _) as [p|] eqn:Hp; [|by left].
  replace (self_weight (im_mode img) p) with (alpha p)
    by (unfold self_weight; by destruct (im_mode img)).
  destruct (getpixel_wf _ _ _ _ Hwf Hp) as [Hpw _].
  destruct (Hbin _ _ _ Hp) as [Ha|Ha]; rewrite Ha.
  - left. apply scaled_0.
  - right. by rewrite scaled_255.
Qed.

(** Placing a crisp RGBA image at the origin of a canvas of its own size
    gives the image back. *)
Lemma place_crisp_id img :
  image_wf img → im_mode img = RGBA → crisp img →
  place (width img) (height img) 0 0 img = Ok img.
Proof.
  intros Hwf Hm Hc.
  destruct (place_spec (width img) (height img) 0 0 img)
    as (r & Hr & Hwf' & Hm' & Hsz & Hpx);
    [done|by rewrite Hm|apply width_nonneg|apply height_nonneg|].
  rewrite Hr. f_equal. apply image_ext; [done..|congruence|done|].
  intros x y Hxy. unfold in_bounds in Hxy. injection Hsz as Hw Hh.
  rewrite Hpx by lia. unfold placed_pixel. rewrite !Z.sub_0_r.
  destruct (getpixel img x y) as [p|] eqn:Hp.
  - f_equal. rewrite Hm. simpl.
    destruct (getpixel_wf _ _ _ _ Hwf Hp) as [Hpw _].
    destruct (Hc _ _ _ Hp) as [-> |Ha]; [apply scaled_0|].
    rewrite Ha. by apply scaled_255.
  - apply getpixel_None_iff in Hp; [|done]. unfold in_bounds in Hp. lia.
Qed.

Lemma sprite_rgb_wf : image_wf sprite_rgb.
Proof. apply (bool_decide_unpack _). by vm_compute. Qed.

Lemma sprite_tall_wf : image_wf sprite_tall.
Proof.
  apply make_wf. intros x y _ _. case_decide; [|apply transparent_wf].
  by repeat split.
Qed.

Lemma sprite_crisp_wf : image_wf sprite_crisp.
Proof. apply (bool_decide_unpack _). by vm_compute. Qed.

Lemma sprite_crisp_binary : binary_alpha sprite_crisp.
Proof.
  intros x y p Hp.
  pose proof (getpixel_Some_in_bounds _ _ _ _ sprite_crisp_wf Hp) as [Hx Hy].
  unfold width, height in *; simpl in *.
  assert (x = 0 ∨ x = 1) as [-> | ->] by lia;
    (assert (y = 0 ∨ y = 1) as [-> | ->] by lia);
    vm_compute in Hp; injection Hp as <-; simpl; lia.
Qed.

(** The result of align_goblin_bottom.py on one sprite. *)
Lemma align_bottom_placed img :
  image_wf img → im_mode img ≠ RGB →
  ∃ r, align_bottom img = Ok r ∧ image_wf r ∧ im_mode r = RGBA ∧
       size r = (227, 227) ∧
       ∀ x y, 0 ≤ x < 227 → 0 ≤ y < 227 →
         getpixel r x y =
           Some (placed_pixel ((227 - width img) // 2) (227 - height img) img x y).
Proof.
  intros Hwf Hm. rewrite align_bottom_place. by apply place_spec.
Qed.

(** ** Properties *)

(** C3. align_goblin_bottom.py puts a sprite of size W x H on a
    227 x 227 transparent canvas with its corner at x = (227 - W) // 2,
    y = 227 - H: the pixel of the result at (x, y) is the pixel of the
    sprite at (x - x_offset, y - y_offset) scaled by its own alpha, and
    the colour (0, 0, 0, 0) wherever the sprite does not reach. *)
Theorem align_bottom_spec img :
  image_wf img → im_mode img ≠ RGB →
  ∃ r, align_bottom img = Ok r ∧ image_wf r ∧ im_mode r = RGBA ∧
       size r = (227, 227) ∧
       ∀ x y, 0 ≤ x < 227 → 0 ≤ y < 227 →
         getpixel r x y =
           Some (placed_pixel ((227 - width img) // 2) (227 - height img) img x y).
Proof. apply align_bottom_placed. Qed.

Lemma align_bottom_spec_witness :
  ∃ r, align_bottom sprite_block = Ok r ∧ image_wf r ∧ im_mode r = RGBA ∧
       size r = (227, 227) ∧
       ∀ x y, 0 ≤ x < 227 → 0 ≤ y < 227 →
         getpixel r x y =
           Some (placed_pixel ((227 - width sprite_block) // 2)
                   (227 - height sprite_block) sprite_block x y).
Proof. apply (align_bottom_spec sprite_block); [apply sprite_block_wf|done]. Defined.

(** A fully opaque pixel of an RGBA sprite that fits the canvas is
    found unchanged in the result of align_goblin_bottom.py, at its
    position moved by the offset. *)
Theorem align_bottom_keeps_opaque img sx sy p :
  image_wf img → im_mode img = RGBA →
  width img ≤ 227 → height img ≤ 227 →
  getpixel img sx sy = Some p → alpha p = 255 →
  ∃ r, align_bottom img = Ok r ∧
       getpixel r (sx + (227 - width img) // 2) (sy + (227 - height img)) = Some p.
Proof.
  intros Hwf Hm Hw Hh Hp Ha.
  destruct (align_bottom_placed img) as (r & Hr & _ & _ & _ & Hpx);
    [done|by rewrite Hm|].
  exists r. split; [done|].
  pose proof (getpixel_Some_in_bounds _ _ _ _ Hwf Hp) as [Hx Hy].
  rewrite Hpx by zdiv. f_equal.
  apply placed_pixel_opaque; [done|by rewrite Hm|done..].
Qed.

Lemma align_bottom_keeps_opaque_witness :
  ∃ r, align_bottom sprite_block = Ok r ∧
       getpixel r (1 + (227 - width sprite_block) // 2)
                  (0 + (227 - height sprite_block)) = Some px_solid.
Proof.
  apply (align_bottom_keeps_opaque sprite_block 1 0 px_solid);
    [apply sprite_block_wf|done..].
Defined.

(** C34. The paste with the sprite as its own mask does not keep
    half-transparent pixels: a pixel with alpha strictly between 0 and
    255 comes out of align_goblin_bottom.py with a strictly smaller
    alpha, and with alpha 0 when its alpha was below 12. *)
Theorem align_bottom_fades_soft img sx sy p :
  image_wf img → im_mode img = RGBA →
  width img ≤ 227 → height img ≤ 227 →
  getpixel img sx sy = Some p → 0 < alpha p < 255 →
  ∃ r q, align_bottom img = Ok r ∧
         getpixel r (sx + (227 - width img) // 2) (sy + (227 - height img)) = Some q ∧
         alpha q < alpha p ∧ (alpha p < 12 → alpha q = 0).
Proof.
  intros Hwf Hm Hw Hh Hp Ha.
  destruct (align_bottom_placed img) as (r & Hr & _ & _ & _ & Hpx);
    [done|by rewrite Hm|].
  pose proof (getpixel_Some_in_bounds _ _ _ _ Hwf Hp) as [Hx Hy].
  exists r. eexists. split; [done|]. split; [apply Hpx; zdiv|].
  split; [apply placed_pixel_soft; [by rewrite Hm|done..]|].
  intros Hlow. rewrite (placed_pixel_at _ _ _ _ _ _ Hp), Hm. simpl.
  pose proof (proj1 (div255_square_pos (alpha p) ltac:(unfold band; lia))).
  assert (0 ≤ div255 (alpha p * alpha p))
    by (rewrite div255_round by nia; apply Z.div_pos; nia).
  lia.
Qed.

Lemma align_bottom_fades_soft_witness :
  ∃ r q, align_bottom sprite_block = Ok r ∧
         getpixel r (2 + (227 - width sprite_block) // 2)
                    (0 + (227 - height sprite_block)) = Some q ∧
         alpha q < alpha px_soft ∧ (alpha px_soft < 12 → alpha q = 0).
Proof.
  apply (align_bottom_fades_soft sprite_block 2 0 px_soft);
    [apply sprite_block_wf|done..].
Defined.

(** C37. A sprite in mode RGB makes the paste of align_goblin_bottom.py
    raise ("bad transparency mask"): the script does not convert to RGBA
    before it uses the sprite as a mask. *)
Theorem align_bottom_rejects_RGB img :
  im_mode img = RGB → align_bottom img = Raise ValueError.
Proof. intros Hm. rewrite align_bottom_place. by apply place_raise_RGB. Qed.

Lemma align_bottom_rejects_RGB_witness :
  align_bottom sprite_rgb = Raise ValueError.
Proof. by apply (align_bottom_rejects_RGB sprite_rgb). Defined.

(** The first pass computes, from (0, 0), a width and a height that
    no sprite of the batch exceeds and that a sprite of a non-empty batch
    attains. *)
Theorem max_dimensions_spec imgs :
  Forall (λ img, width img ≤ (max_dimensions imgs).1 ∧
                 height img ≤ (max_dimensions imgs).2) imgs ∧
  (imgs ≠ [] →
   (∃ img, img ∈ imgs ∧ width img = (max_dimensions imgs).1) ∧
   (∃ img, img ∈ imgs ∧ height img = (max_dimensions imgs).2)).
Proof.
  split; [|apply max_dimensions_attained].
  apply Forall_forall. intros img Hin%list_elem_of_In.
  by apply max_dimensions_upper.
Qed.

(** With the canvas of the first pass, uniform_goblin_bottom.py
    clips nothing: every pixel of every sprite of the batch lands on the
    canvas, at its position moved by the offset, scaled by its own
    weight. *)
Theorem uniform_bottom_fits imgs img sx sy p :
  image_wf img → im_mode img ≠ RGB → img ∈ imgs →
  getpixel img sx sy = Some p →
  ∃ r, uniform_bottom (max_dimensions imgs).1 (max_dimensions imgs).2 img = Ok r ∧
       size r = max_dimensions imgs ∧
       getpixel r (sx + ((max_dimensions imgs).1 - width img) // 2)
                  (sy + ((max_dimensions imgs).2 - height img)) =
         Some (scaled (self_weight (im_mode img) p) p).
Proof.
  intros Hwf Hm Hin Hp. destruct (max_dimensions_upper imgs img Hin) as [Hw Hh].
  destruct (max_dimensions_nonneg imgs) as [Hw0 Hh0].
  destruct (max_dimensions imgs) as [mw mh] eqn:Hmax. simpl in *.
  rewrite uniform_bottom_place.
  destruct (place_spec mw mh ((mw - width img) // 2) (mh - height img) img)
    as (r & Hr & _ & _ & Hsz & Hpx); [done..|].
  exists r. split_and!; [done..|].
  pose proof (getpixel_Some_in_bounds _ _ _ _ Hwf Hp) as [Hx Hy].
  rewrite Hpx by zdiv. f_equal. by apply placed_pixel_at.
Qed.

Lemma uniform_bottom_fits_witness :
  ∃ r, uniform_bottom (max_dimensions [sprite_block; sprite_column]).1
         (max_dimensions [sprite_block; sprite_column]).2 sprite_column = Ok r ∧
       size r = max_dimensions [sprite_block; sprite_column] ∧
       getpixel r
         (1 + ((max_dimensions [sprite_block; sprite_column]).1
               - width sprite_column) // 2)
         (2 + ((max_dimensions [sprite_block; sprite_column]).2
               - height sprite_column)) =
         Some (scaled (self_weight (im_mode sprite_column) px_solid) px_solid).
Proof.
  apply (uniform_bottom_fits [sprite_block; sprite_column] sprite_column 1 2);
    [apply sprite_column_wf|done|by right; left|done].
Defined.

(** On a sprite without half-transparent pixels
    align_goblin_bottom.py is idempotent: a second run writes the image
    of the first run again. *)
Theorem align_bottom_idempotent_crisp img :
  image_wf img → im_mode img = RGBA → binary_alpha img →
  ∃ r, align_bottom img = Ok r ∧ align_bottom r = Ok r.
Proof.
  intros Hwf Hm Hbin.
  destruct (align_bottom_placed img) as (r & Hr & Hwf' & Hm' & Hsz & _);
    [done|by rewrite Hm|].
  exists r. split; [done|]. injection Hsz as Hw Hh.
  rewrite align_bottom_place, Hw, Hh. change ((227 - 227) // 2) with 0.
  change (227 - 227) with 0. rewrite <- Hw at 1. rewrite <- Hh at 1.
  apply place_crisp_id; [done..|].
  apply (place_crisp 227 227 ((227 - width img) // 2) (227 - height img) img);
    [done|by rewrite Hm|done|by rewrite <- align_bottom_place].
Qed.

Lemma align_bottom_idempotent_crisp_witness :
  ∃ r, align_bottom sprite_crisp = Ok r ∧ align_bottom r = Ok r.
Proof.
  apply (align_bottom_idempotent_crisp sprite_crisp);
    [apply sprite_crisp_wf|done|apply sprite_crisp_binary].
Defined.

(** C19. The body of extract_goblin_hurt.py is the tight crop followed by
    the placement of the crop on a 201 x 201 canvas, centred horizontally
    and aligned to the bottom: it never raises on a decodable frame,
    skips a frame exactly when the tight crop skips it, and otherwise
    writes a 201 x 201 image whose pixels are those of the placed crop. *)
Theorem hurt_frame_spec img :
  image_wf img →
  match crop_tight img with
  | Ok (Written cropped) =>
      ∃ r, hurt_frame img = Ok (Written r) ∧ image_wf r ∧ size r = (201, 201) ∧
           ∀ x y, 0 ≤ x < 201 → 0 ≤ y < 201 →
             getpixel r x y =
               Some (placed_pixel ((201 - width cropped) // 2)
                       (201 - height cropped) cropped x y)
  | Ok Skipped => hurt_frame img = Ok Skipped
  | Raise _ => False
  end.
Proof.
  intros Hwf.
  pose proof (crop_to_content_total getbbox (ensure_rgba img)
                (ensure_rgba_wf _ Hwf) (ensure_rgba_mode _)) as Htot.
  rewrite <- crop_tight_unfold in Htot.
  destruct (crop_tight img) as [[cropped|]|e] eqn:Hc; [| |done].
  - destruct (crop_tight_wf _ _ Hwf Hc) as [Hwf' Hm'].
    destruct (place_spec 201 201 ((201 - width cropped) // 2)
                (201 - height cropped) cropped)
      as (r & Hr & Hwfr & _ & Hsz & Hpx); [done|by rewrite Hm'|lia|lia|].
    exists r. split_and!; [|done..]. rewrite hurt_frame_place.
    unfold crop_tight in Hc. destruct (getbbox _) as [b|]; [|done].
    destruct (crop _ b) as [c|]; [|done]. injection Hc as ->.
    simpl. by rewrite Hr.
  - rewrite hurt_frame_place. unfold crop_tight in Hc.
    destruct (getbbox _) as [b|]; [|done]. by destruct (crop _ b).
Qed.

Lemma hurt_frame_spec_witness :
  match crop_tight sprite_block with
  | Ok (Written cropped) =>
      ∃ r, hurt_frame sprite_block = Ok (Written r) ∧ image_wf r ∧
           size r = (201, 201) ∧
           ∀ x y, 0 ≤ x < 201 → 0 ≤ y < 201 →
             getpixel r x y =
               Some (placed_pixel ((201 - width cropped) // 2)
                       (201 - height cropped) cropped x y)
  | Ok Skipped => hurt_frame sprite_block = Ok Skipped
  | Raise _ => False
  end.
Proof. apply (hurt_frame_spec sprite_block), sprite_block_wf. Defined.

(** C32. align_goblin_bottom.py never uses the maximum it measures: a
    sprite taller than the 227 pixel canvas loses its top rows, the
    result being the one of the sprite cut down to its lowest 227
    rows. *)
Theorem align_bottom_clips img :
  image_wf img → im_mode img ≠ RGB → 227 ≤ height img →
  ∃ c, crop img (Box 0 (height img - 227) (width img) (height img)) = Ok c ∧
       height c = 227 ∧ is_ok (align_bottom img) ∧
       align_bottom img = align_bottom c.
Proof.
  intros Hwf Hm Hh. pose proof (width_nonneg img) as Hw.
  set (b := Box 0 (height img - 227) (width img) (height img)).
  assert (box_in img b) as Hb by (unfold box_in, b; simpl; lia).
  destruct (crop img b) as [c|] eqn:Hc; [|by rewrite crop_ok in Hc by (simpl; lia)].
  pose proof (crop_wf _ _ _ Hwf Hc) as Hwfc.
  pose proof (crop_mode _ _ _ Hc) as Hmc.
  pose proof (crop_size _ _ _ Hc) as [= Hwc Hhc].
  unfold box_width, box_height, b in Hwc, Hhc; simpl in Hwc, Hhc.
  destruct (align_bottom_placed img) as (r & Hr & Hwr & Hmr & Hsr & Hpr); [done..|].
  destruct (align_bottom_placed c) as (r' & Hr' & Hwr' & Hmr' & Hsr' & Hpr');
    [done|by rewrite Hmc|].
  exists c. rewrite Hr, Hr'. split_and!; [done|lia|done|]. f_equal.
  apply image_ext; [done|done|by rewrite Hmr, Hmr'|by rewrite Hsr, Hsr'|].
  intros x y [Hx Hy]. injection Hsr as Hrw Hrh. rewrite Hrw in Hx. rewrite Hrh in Hy.
  rewrite Hpr, Hpr' by done. f_equal. unfold placed_pixel. rewrite Hmc, Hwc, Hhc.
  replace (width img - 0) with (width img) by lia.
  replace (227 - (height img - (height img - 227))) with 0 by lia.
  set (sx := x - (227 - width img) // 2).
  destruct (decide (0 ≤ sx < width img)) as [Hsx|Hsx].
  - rewrite (getpixel_crop img b c) by (done || (unfold in_bounds; lia)).
    simpl. by replace (height img - 227 + (y - 0)) with (y - (227 - height img)) by lia.
  - rewrite (proj2 (getpixel_None_iff img _ _ Hwf)) by (unfold in_bounds; lia).
    by rewrite (proj2 (getpixel_None_iff c _ _ Hwfc)) by (unfold in_bounds; lia).
Qed.

Lemma align_bottom_clips_witness :
  ∃ c, crop sprite_tall (Box 0 (height sprite_tall - 227) (width sprite_tall)
                           (height sprite_tall)) = Ok c ∧
       height c = 227 ∧ is_ok (align_bottom sprite_tall) ∧
       align_bottom sprite_tall = align_bottom c.
Proof.
  apply (align_bottom_clips sprite_tall); [apply sprite_tall_wf|done|by vm_compute].
Defined.
