(* ===== verification/Frames.v ===== *)
(** * Frames: cutting the first frame out of a sprite sheet

    src/prepare_knight_sprites.py divides the width of four sheets by a
    frame count (10, 3, 4, 2) and crops the first frame at full height;
    src/crop_sprite.py crops a fixed 100 x 100 region at the top left
    corner of two sheets.  Neither script converts the sheet, so the mode
    of the sheet is the mode of the frame. *)

From Stdlib Require Import ZArith Lia.
From stdpp Require Import base tactics option list numbers.
From S2P Require Import Prelude Image.

(** ** Definitions *)

(** [frame_width = sheet.width // frames; frame_height = sheet.height;
    sheet.crop((0, 0, frame_width, frame_height))]. *)
Definition first_frame (frames : Z) (sheet : image) : result image :=
  let frame_width := width sheet // frames in
  let frame_height := height sheet in
  crop sheet (Box 0 0 frame_width frame_height).

(** The four sheets of src/prepare_knight_sprites.py. *)
Definition knight_idle_frame (knight_idle : image) : result image :=
  let frame_width := width knight_idle // 10 in
  let frame_height := height knight_idle in
  crop knight_idle (Box 0 0 frame_width frame_height).

Definition knight_hurt_frame (knight_hurt : image) : result image :=
  let hurt_frame_width := width knight_hurt // 3 in
  crop knight_hurt (Box 0 0 hurt_frame_width (height knight_hurt)).

Definition knight_attack_frame (knight_attack : image) : result image :=
  let attack_frame_width := width knight_attack // 4 in
  crop knight_attack (Box 0 0 attack_frame_width (height knight_attack)).

Definition knight_defend_frame (knight_defend : image) : result image :=
  let defend_frame_width := width knight_defend // 2 in
  crop knight_defend (Box 0 0 defend_frame_width (height knight_defend)).

(** src/crop_sprite.py: [sheet.crop((0, 0, 100, 100))], for the soldier
    and for the orc. *)
Definition avatar_crop (sheet : image) : result image :=
  crop sheet (Box 0 0 100 100).

(** A 6 x 1 sheet of two frames of three pixels, and a 7 x 1 sheet whose
    width is not a multiple of the frame count. *)
Definition sheet_six : image :=
  Image RGBA 6 1 [ [Px 1 0 0 255; Px 2 0 0 255; Px 3 0 0 255;
                    Px 4 0 0 255; Px 5 0 0 255; Px 6 0 0 255] ].

Definition sheet_seven : image :=
  Image RGB 7 1 [ [Px 1 0 0 255; Px 2 0 0 255; Px 3 0 0 255; Px 4 0 0 255;
                   Px 5 0 0 255; Px 6 0 0 255; Px 7 0 0 255] ].

(** ** Lemmas *)

Lemma knight_idle_first_frame sheet : knight_idle_frame sheet = first_frame 10 sheet.
Proof. reflexivity. Qed.

Lemma knight_hurt_first_frame sheet : knight_hurt_frame sheet = first_frame 3 sheet.
Proof. reflexivity. Qed.

Lemma knight_attack_first_frame sheet : knight_attack_frame sheet = first_frame 4 sheet.
Proof. reflexivity. Qed.

Lemma knight_defend_first_frame sheet : knight_defend_frame sheet = first_frame 2 sheet.
Proof. reflexivity. Qed.

Lemma frame_width_bounds frames w :
  0 < frames → 0 ≤ w → 0 ≤ w // frames ∧ (w // frames) * frames ≤ w
  ∧ w - (w // frames) * frames < frames.
Proof. intros. Z.div_mod_to_equations. nia. Qed.

Lemma first_frame_box_in frames sheet :
  0 < frames → box_in sheet (Box 0 0 (width sheet // frames) (height sheet)).
Proof.
  intros Hf. pose proof (width_nonneg sheet). pose proof (height_nonneg sheet).
  destruct (frame_width_bounds frames (width sheet)) as (? & ? & ?); [done..|].
  unfold box_in; simpl. nia.
Qed.

(** A pixel of a crop, wherever the box lies. *)
Lemma getpixel_crop_fill i b i' x y :
  crop i b = Ok i' → in_bounds i' x y →
  getpixel i' x y = Some (pixel_or_fill i (b_left b + x) (b_upper b + y)).
Proof.
  intros (? & ? & ->)%crop_inv Hxy. rewrite in_bounds_make in Hxy.
  destruct Hxy. by rewrite getpixel_make.
Qed.

Lemma sheet_six_wf : image_wf sheet_six.
Proof. apply (bool_decide_unpack _). by vm_compute. Qed.

Lemma sheet_seven_wf : image_wf sheet_seven.
Proof. apply (bool_decide_unpack _). by vm_compute. Qed.

(** The cuts return on every sheet. *)
Lemma first_frame_is_ok frames sheet : 0 < frames → is_ok (first_frame frames sheet).
Proof.
  intros Hf. destruct (first_frame_box_in frames sheet Hf) as ([? ?] & ? & [? ?] & ?).
  unfold first_frame. by rewrite crop_ok.
Qed.

Lemma avatar_crop_is_ok sheet : is_ok (avatar_crop sheet).
Proof. unfold avatar_crop. by rewrite crop_ok. Qed.

(** ** Properties *)

(** C12. The first frame that prepare_knight_sprites.py cuts from a sheet
    of width W with F frames is the columns [0, W // F) of the sheet at
    full height, pixel for pixel and in the sheet's mode; the crop never
    raises. *)
Theorem first_frame_spec frames sheet :
  image_wf sheet → 0 < frames →
  ∃ r, first_frame frames sheet = Ok r ∧ image_wf r ∧
       im_mode r = im_mode sheet ∧
       size r = (width sheet // frames, height sheet) ∧
       ∀ x y, 0 ≤ x < width sheet // frames → 0 ≤ y < height sheet →
              getpixel r x y = getpixel sheet x y.
Proof.
  intros Hwf Hf. pose proof (first_frame_box_in frames sheet Hf) as Hin.
  unfold first_frame. set (b := Box 0 0 (width sheet // frames) (height sheet)) in *.
  destruct (crop sheet b) as [r|] eqn:Hcrop;
    [|destruct Hin as ([? ?] & ? & [? ?] & ?); by rewrite crop_ok in Hcrop].
  pose proof (crop_size _ _ _ Hcrop) as Hsz.
  unfold box_width, box_height in Hsz; simpl in Hsz. rewrite !Z.sub_0_r in Hsz.
  exists r. split_and!; [done|by eapply crop_wf|by eapply crop_mode|done|].
  intros x y Hx Hy. rewrite (getpixel_crop sheet b r); [done..|].
  injection Hsz as Hw Hh. unfold in_bounds. lia.
Qed.

Lemma first_frame_spec_witness :
  ∃ r, first_frame 2 sheet_six = Ok r ∧ image_wf r ∧
       im_mode r = im_mode sheet_six ∧
       size r = (width sheet_six // 2, height sheet_six) ∧
       ∀ x y, 0 ≤ x < width sheet_six // 2 → 0 ≤ y < height sheet_six →
              getpixel r x y = getpixel sheet_six x y.
Proof. apply (first_frame_spec 2 sheet_six); [apply sheet_six_wf|lia]. Defined.

(** C40. crop_sprite.py always produces a 100 x 100 image in the mode of
    the sheet: the pixels of the sheet's top left corner where the sheet
    has them, and zero bytes (transparent in RGBA, black otherwise)
    where the sheet is smaller than 100 x 100. *)
Theorem avatar_crop_spec sheet :
  image_wf sheet →
  ∃ r, avatar_crop sheet = Ok r ∧ image_wf r ∧ im_mode r = im_mode sheet ∧
       size r = (100, 100) ∧
       ∀ x y, 0 ≤ x < 100 → 0 ≤ y < 100 →
         getpixel r x y =
           Some (if decide (x < width sheet ∧ y < height sheet)
                 then pixel_or_fill sheet x y else zero_fill (im_mode sheet)).
Proof.
  intros Hwf. unfold avatar_crop. set (b := Box 0 0 100 100).
  destruct (crop sheet b) as [r|] eqn:Hcrop;
    [|by rewrite crop_ok in Hcrop by (simpl; lia)].
  pose proof (crop_size _ _ _ Hcrop) as Hsz.
  exists r. split_and!; [done|by eapply crop_wf|by eapply crop_mode|done|].
  intros x y Hx Hy. rewrite (getpixel_crop_fill sheet b r); [|done|].
  - simpl. rewrite !Z.add_0_l. f_equal. case_decide as Hin; [done|].
    apply pixel_or_fill_out, getpixel_None_iff; [done|].
    unfold in_bounds. lia.
  - injection Hsz as Hw Hh. unfold in_bounds, box_width, box_height in *.
    simpl in *. lia.
Qed.

Lemma avatar_crop_spec_witness :
  ∃ r, avatar_crop sheet_six = Ok r ∧ image_wf r ∧ im_mode r = im_mode sheet_six ∧
       size r = (100, 100) ∧
       ∀ x y, 0 ≤ x < 100 → 0 ≤ y < 100 →
         getpixel r x y =
           Some (if decide (x < width sheet_six ∧ y < height sheet_six)
                 then pixel_or_fill sheet_six x y
                 else zero_fill (im_mode sheet_six)).
Proof. apply (avatar_crop_spec sheet_six), sheet_six_wf. Defined.
