(* ===== verification/Folder.v ===== *)
(** * Folder: the file system the scripts see

    A folder is a finite map from file names to files; a file either
    decodes to an image or does not.  [Image.open] reads the map, [save]
    writes it, [os.remove] deletes from it and [os.listdir] enumerates its
    names, in an order of its own.  The string tests [startswith] and
    [endswith] that the scripts filter the names with are here too.  None
    of this is code of the repository: it is modelled from the
    documentation of Pillow and of Python.  [typed_update] relates a
    folder to what a script may leave of it. *)

From Stdlib Require Import ZArith Lia.
From stdpp Require Import base tactics option list numbers strings gmap.
From S2P Require Import Prelude Image.

(** ** Files and folders *)

Inductive file : Set :=
  | ImageFile (img : image)
  | OtherFile.

#[global] Instance file_eq_dec : EqDecision file.
Proof. solve_decision. Defined.

Abbreviation folder := (gmap string file).

(** [Image.open(path)]: a missing file and a file that is not an image
    both raise a subclass of OSError. *)
Definition Image_open (d : folder) (filename : string) : result image :=
  match d !! filename with
  | Some (ImageFile img) => Ok img
  | Some OtherFile | None => Raise OSError
  end.

(** [img.save(path, 'PNG')]. *)
Definition save (d : folder) (filename : string) (img : image) : folder :=
  <[filename := ImageFile img]> d.

(** [os.listdir(folder)], in the order of the map. *)
Definition listdir (d : folder) : list string := (map_to_list d).*1.

(** [s.startswith(prefix)] and [s.endswith(suffix)]. *)
Definition startswith (s pre : string) : bool := String.prefix pre s.

Definition endswith (s suf : string) : bool :=
  String.prefix (String.rev suf) (String.rev s).

(** [os.remove(path)]. *)
Definition remove (d : folder) (filename : string) : folder := delete filename d.

(** ** The invariant *)

(** Every image of the folder is well formed. *)
Definition file_wf (f : file) : Prop :=
  match f with ImageFile img => image_wf img | OtherFile => True end.

Definition folder_wf (d : folder) : Prop := map_Forall (λ _ f, file_wf f) d.

(** [d'] differs from [d] only by files that were deleted and by
    well-formed RGBA images that were written. *)
Definition typed_update (d d' : folder) : Prop :=
  ∀ name, d' !! name = d !! name ∨ d' !! name = None ∨
          ∃ img, d' !! name = Some (ImageFile img) ∧
                 image_wf img ∧ im_mode img = RGBA.

(** ** Listing *)

Lemma elem_of_listdir (d : folder) name : name ∈ listdir d ↔ is_Some (d !! name).
Proof.
  unfold listdir. rewrite list_elem_of_fmap. split.
  - intros ([n f] & -> & Hin%elem_of_map_to_list). by exists f.
  - intros [f Hf]. exists (name, f). by rewrite elem_of_map_to_list.
Qed.

Lemma NoDup_listdir (d : folder) : NoDup (listdir d).
Proof. apply NoDup_fst_map_to_list. Qed.

(** ** The string tests

    [startswith] and [endswith] say what Python's methods say: the name
    is the prefix followed by something, something followed by the
    suffix. *)

Lemma string_app_cons c s t : String c s +:+ t = String c (s +:+ t).
Proof. reflexivity. Qed.

Lemma string_app_nil_r s : s +:+ "" = s.
Proof. induction s as [|c s IH]; [done|]. by rewrite string_app_cons, IH. Qed.

Lemma string_app_assoc s t u : (s +:+ t) +:+ u = s +:+ t +:+ u.
Proof. induction s as [|c s IH]; [done|]. by rewrite !string_app_cons, IH. Qed.

Lemma rev_app_spec s acc : String.rev_app s acc = String.rev s +:+ acc.
Proof.
  unfold String.rev. revert acc. induction s as [|c s IH]; intros acc; [done|].
  simpl. by rewrite IH, (IH (String c "")), string_app_assoc.
Qed.

Lemma string_rev_app s t : String.rev (s +:+ t) = String.rev t +:+ String.rev s.
Proof.
  induction s as [|c s IH]; [by rewrite string_app_nil_r|].
  rewrite string_app_cons. unfold String.rev at 1 3. simpl.
  by rewrite !rev_app_spec, IH, string_app_assoc.
Qed.

Lemma string_rev_involutive s : String.rev (String.rev s) = s.
Proof.
  induction s as [|c s IH]; [done|]. unfold String.rev at 2. simpl.
  by rewrite rev_app_spec, string_rev_app, IH.
Qed.

Lemma startswith_iff s pre : startswith s pre = true ↔ ∃ t, s = pre +:+ t.
Proof.
  unfold startswith. revert s. induction pre as [|c pre IH]; intros s.
  { split; [by exists s|by destruct s]. }
  destruct s as [|c' s]; simpl; [by split; [|intros [t [=]]]|].
  destruct (Ascii.ascii_dec c c') as [->|Hne]; [rewrite IH|]; split.
  - intros [t ->]. by exists t.
  - intros [t [= ->]]. by exists t.
  - done.
  - by intros [t [= -> _]].
Qed.

Lemma endswith_iff s suf : endswith s suf = true ↔ ∃ t, s = t +:+ suf.
Proof.
  unfold endswith. change (String.prefix ?p ?x) with (startswith x p).
  rewrite startswith_iff. split; intros [t Ht].
  - exists (String.rev t).
    by rewrite <- (string_rev_involutive s), Ht, string_rev_app, string_rev_involutive.
  - exists (String.rev t). by rewrite Ht, string_rev_app.
Qed.

Lemma startswith_app p s : startswith (p +:+ s) p = true.
Proof.
  unfold startswith. induction p as [|c p IH]; [by destruct s|].
  change (String c p +:+ s) with (String c (p +:+ s)). simpl.
  by destruct (Ascii.ascii_dec c c).
Qed.

(** ** Opening a file *)

Lemma Image_open_Ok d name img :
  Image_open d name = Ok img ↔ d !! name = Some (ImageFile img).
Proof.
  unfold Image_open. destruct (d !! name) as [[img'|]|]; naive_solver.
Qed.

Lemma Image_open_Raise d name e :
  Image_open d name = Raise e →
  e = OSError ∧ (d !! name = None ∨ d !! name = Some OtherFile).
Proof.
  unfold Image_open. destruct (d !! name) as [[img'|]|]; naive_solver.
Qed.

Lemma folder_wf_lookup d name img :
  folder_wf d → d !! name = Some (ImageFile img) → image_wf img.
Proof. intros Hd Hf. apply (Hd _ _ Hf). Qed.

(** ** Typed updates *)

#[global] Instance typed_update_preorder : PreOrder typed_update.
Proof.
  split; [by left|]. intros d1 d2 d3 H12 H23 name.
  destruct (H23 name) as [->|H]; [apply H12|by right].
Qed.

Lemma typed_update_wf d d' : typed_update d d' → folder_wf d → folder_wf d'.
Proof.
  intros Hup Hd name f Hf.
  destruct (Hup name) as [Heq|[Hn|(img & Himg & Hwf & _)]].
  - rewrite Heq in Hf. by apply (Hd _ _ Hf).
  - by rewrite Hn in Hf.
  - rewrite Himg in Hf. by injection Hf as <-.
Qed.

Lemma typed_update_save d name img :
  image_wf img → im_mode img = RGBA → typed_update d (save d name img).
Proof.
  intros Hwf Hm k. unfold save. destruct (decide (k = name)) as [->|Hne].
  - right; right. exists img. by rewrite lookup_insert_eq.
  - left. by apply lookup_insert_ne.
Qed.

Lemma typed_update_remove d name : typed_update d (remove d name).
Proof.
  intros k. unfold remove. destruct (decide (k = name)) as [->|Hne].
  - right; left. apply lookup_delete_eq.
  - left. by apply lookup_delete_ne.
Qed.
