(* ===== verification/Batch.v ===== *)
(** * Batch: the goblin scripts as functions on folders

    The loop of a script is a left fold over the names selected before
    the loop starts, and the body of its [try] is one of the per-sprite
    functions of [Crop] and [Canvas]; an exception inside the [try]
    leaves the folder as it is and adds an error line to the log.  The
    first pass of the three align/resize scripts opens the files outside
    any [try], so there an exception ends the script. *)

From Stdlib Require Import ZArith Lia.
From stdpp Require Import base tactics option list numbers strings gmap.
From S2P Require Import Prelude Image BBox Crop Canvas Folder.

(** ** The selection of the files *)

(** [f.startswith('goblin_') and f.endswith('.png')]. *)
Definition is_goblin_png (f : string) : bool :=
  startswith f "goblin_" && endswith f ".png".

(** [goblin_files = [f for f in os.listdir(goblin_folder) if ...]]. *)
Definition goblin_files (d : folder) : list string :=
  filter (λ f, is_goblin_png f) (listdir d).

(** ** The log *)

(** One line per file: written (with the sizes before and after),
    skipped, or error. *)
Inductive line : Set :=
  | Done (filename : string) (before after : Z * Z)
  | Skip (filename : string)
  | Error (filename : string) (e : exn).

#[global] Instance line_eq_dec : EqDecision line.
Proof. solve_decision. Defined.

(** ** One iteration of a loop *)

(** [try: img = Image.open(filepath); ...; new.save(filepath, 'PNG');
    print(...) except Exception as e: print(...)] for a body that
    writes or skips. *)
Definition process (body : image → result outcome)
  (st : folder * list line) (filename : string) : folder * list line :=
  match (img ← Image_open st.1 filename; r ← body img; Ok (img, r)) with
  | Ok (img, Written new) =>
      (save st.1 filename new, st.2 ++ [Done filename (size img) (size new)])
  | Ok (_, Skipped) => (st.1, st.2 ++ [Skip filename])
  | Raise e => (st.1, st.2 ++ [Error filename e])
  end.

(** The same iteration for a body that always writes. *)
Definition process_paste (body : image → result image) :=
  process (written body).

(** The file a body leaves in place of a file. *)
Definition after (body : image → result outcome) (f : file) : file :=
  match f with
  | ImageFile img =>
      match body img with
      | Ok (Written new) => ImageFile new
      | Ok Skipped | Raise _ => f
      end
  | OtherFile => OtherFile
  end.

(** The line one iteration prints, read off the folder it starts from. *)
Definition report (body : image → result outcome) (d : folder) (name : string)
  : line :=
  match (img ← Image_open d name; r ← body img; Ok (img, r)) with
  | Ok (img, Written new) => Done name (size img) (size new)
  | Ok (_, Skipped) => Skip name
  | Raise e => Error name e
  end.

(** ** The scripts *)

(** src/crop_goblin_tight.py. *)
Definition crop_goblin_tight_main (d : folder) : folder * list line :=
  let goblin_files := goblin_files d in
  foldl (process crop_tight) (d, []) goblin_files.

(** src/crop_goblin_sprites.py. *)
Definition crop_goblin_sprites_main (d : folder) : folder * list line :=
  let goblin_files := goblin_files d in
  foldl (process crop_padded) (d, []) goblin_files.

(** The first pass of the align/resize scripts: it opens every file
    outside any [try]. *)
Definition first_pass (d : folder) (files : list string) : result (Z * Z) :=
  for_each (λ m filename,
              img ← Image_open d filename;
              Ok (Z.max m.1 (width img), Z.max m.2 (height img)))
           (0, 0) files.

(** src/align_goblin_bottom.py: the maximum is computed and printed, the
    canvas is 227 x 227 whatever it is. *)
Definition align_goblin_bottom_main (d : folder) : result (folder * list line) :=
  let goblin_files := goblin_files d in
  _ ← first_pass d goblin_files;
  Ok (foldl (process_paste align_bottom) (d, []) goblin_files).

(** src/resize_goblin_uniform.py. *)
Definition resize_goblin_uniform_main (d : folder) : result (folder * list line) :=
  let goblin_files := goblin_files d in
  m ← first_pass d goblin_files;
  let canvas_size := resize_canvas_size m.1 m.2 in
  Ok (foldl (process_paste (resize_uniform canvas_size)) (d, []) goblin_files).

(** src/uniform_goblin_bottom.py. *)
Definition uniform_goblin_bottom_main (d : folder) : result (folder * list line) :=
  let goblin_files := goblin_files d in
  m ← first_pass d goblin_files;
  Ok (foldl (process_paste (uniform_bottom m.1 m.2)) (d, []) goblin_files).

(** ** Specification helpers *)

(** Every file of a list decodes. *)
Definition all_images (d : folder) (files : list string) : Prop :=
  ∀ name, name ∈ files → ∃ img, d !! name = Some (ImageFile img).

(** [v] is the largest value of [key] among the files of a list, and 0
    for no files. *)
Definition is_max_of (key : image → Z) (d : folder) (files : list string)
  (v : Z) : Prop :=
  (∀ name img, name ∈ files → d !! name = Some (ImageFile img) → key img ≤ v) ∧
  (v = 0 ∨ ∃ name img, name ∈ files ∧ d !! name = Some (ImageFile img) ∧
                       key img = v).

Definition is_max_dims (d : folder) (files : list string) (m : Z * Z) : Prop :=
  is_max_of width d files m.1 ∧ is_max_of height d files m.2.

(** The folder a loop leaves: every selected file replaced by what the
    body makes of it. *)
Definition folder_after (body : image → result outcome) (sel : string → bool)
  (d : folder) : folder :=
  map_imap (λ name f, Some (if sel name then after body f else f)) d.

(** Two sample folders: two sprites and an image the filter does not
    select, without and with a file that is not an image. *)
Definition sample_sprites : folder :=
  <["goblin_idle.png" := ImageFile sprite_block]>
  (<["goblin_thin.png" := ImageFile sprite_column]>
  (<["knight.png" := ImageFile sprite_block]> ∅)).

Definition sample_folder : folder :=
  <["goblin_idle.png" := ImageFile sprite_block]>
  (<["goblin_thin.png" := ImageFile sprite_column]>
  (<["goblin_notes.png" := OtherFile]>
  (<["knight.png" := ImageFile sprite_block]> ∅))).

(** ** Names *)

Lemma elem_of_goblin_files (d : folder) name :
  name ∈ goblin_files d ↔ is_Some (d !! name) ∧ is_goblin_png name = true.
Proof.
  unfold goblin_files. rewrite list_elem_of_filter, elem_of_listdir.
  rewrite Is_true_true. tauto.
Qed.

Lemma NoDup_goblin_files (d : folder) : NoDup (goblin_files d).
Proof. apply NoDup_filter, NoDup_listdir. Qed.

Lemma is_goblin_png_iff f :
  is_goblin_png f = true ↔ (∃ t, f = "goblin_" +:+ t) ∧ (∃ t, f = t +:+ ".png").
Proof.
  unfold is_goblin_png. by rewrite andb_true_iff, startswith_iff, endswith_iff.
Qed.

(** ** One iteration *)

(** The folder after one iteration: the file is replaced by what the
    body makes of it. *)
Lemma process_folder body st name :
  (process body st name).1 =
    match st.1 !! name with
    | Some f => <[name := after body f]> st.1
    | None => st.1
    end.
Proof.
  unfold process, Image_open, save.
  destruct (st.1 !! name) as [[img|]|] eqn:Hf; simpl; [|by rewrite insert_id|done].
  destruct (body img) as [[new|]|e]; simpl; [done|by rewrite insert_id..].
Qed.

Lemma process_log body st name :
  (process body st name).2 = st.2 ++ [report body st.1 name].
Proof.
  unfold process, report.
  destruct (Image_open st.1 name ≫= _) as [[img [new|]]|e]; done.
Qed.

Lemma report_ext body d d' name :
  d' !! name = d !! name → report body d' name = report body d name.
Proof. intros Heq. unfold report, Image_open. by rewrite Heq. Qed.

Lemma process_lookup_ne body st name k :
  k ≠ name → (process body st name).1 !! k = st.1 !! k.
Proof.
  intros Hne. rewrite process_folder.
  destruct (st.1 !! name); [by rewrite lookup_insert_ne|done].
Qed.

Lemma process_lookup_eq body st name :
  (process body st name).1 !! name = after body <$> st.1 !! name.
Proof.
  rewrite process_folder.
  destruct (st.1 !! name) as [f|] eqn:Hf; [by rewrite lookup_insert_eq|done].
Qed.

(** ** A whole loop *)

Lemma run_lookup body names :
  NoDup names → ∀ st k,
  (foldl (process body) st names).1 !! k =
    if decide (k ∈ names) then after body <$> st.1 !! k else st.1 !! k.
Proof.
  induction 1 as [|n ns Hn Hns IH]; intros st k; simpl; [done|].
  rewrite IH. destruct (decide (k = n)) as [->|Hne].
  - rewrite decide_False, decide_True by (done || left).
    apply process_lookup_eq.
  - rewrite process_lookup_ne by done.
    destruct (decide (k ∈ ns)) as [Hin|Hout].
    + by rewrite decide_True by by right.
    + rewrite decide_False; [done|]. by intros [?|?]%elem_of_cons.
Qed.

Lemma run_log body names :
  NoDup names → ∀ st,
  (foldl (process body) st names).2 = st.2 ++ (report body st.1 <$> names).
Proof.
  induction 1 as [|n ns Hn Hns IH]; intros st; simpl.
  { by rewrite app_nil_r. }
  rewrite IH, process_log, <- app_assoc. simpl. do 2 f_equal.
  apply list_fmap_ext. intros _ k Hk%list_elem_of_lookup_2.
  apply report_ext, process_lookup_ne. by intros ->.
Qed.

(** The loop over the goblin files of a folder leaves [folder_after]. *)
Lemma run_goblin_files body d :
  (foldl (process body) (d, []) (goblin_files d)).1 =
    folder_after body is_goblin_png d.
Proof.
  apply map_eq. intros k. rewrite run_lookup by apply NoDup_goblin_files.
  unfold folder_after. rewrite map_lookup_imap. simpl.
  destruct (d !! k) as [f|] eqn:Hf; [|by destruct (decide _)]. simpl.
  destruct (is_goblin_png k) eqn:Hg.
  - rewrite decide_True; [done|]. apply elem_of_goblin_files. eauto.
  - rewrite decide_False; [done|]. rewrite elem_of_goblin_files, Hg.
    by intros [_ ?].
Qed.

Lemma run_goblin_files_log body d :
  (foldl (process body) (d, []) (goblin_files d)).2 =
    report body d <$> goblin_files d.
Proof. by rewrite run_log by apply NoDup_goblin_files. Qed.

Lemma lookup_folder_after body sel d name :
  folder_after body sel d !! name =
    (if sel name then after body else id) <$> d !! name.
Proof.
  unfold folder_after. rewrite map_lookup_imap.
  destruct (d !! name); simpl; by destruct (sel name).
Qed.

Lemma goblin_files_folder_after body d name :
  name ∈ goblin_files (folder_after body is_goblin_png d) ↔ name ∈ goblin_files d.
Proof.
  rewrite !elem_of_goblin_files, lookup_folder_after, fmap_is_Some. tauto.
Qed.

(** ** The invariant and idempotence of a loop *)

Lemma sample_folder_wf : folder_wf sample_folder.
Proof.
  unfold sample_folder. repeat apply map_Forall_insert_2;
    [apply sprite_block_wf|apply sprite_column_wf|done|apply sprite_block_wf|].
  apply map_Forall_empty.
Qed.

Section loop.
Context (body : image → result outcome) `{!BodyTyped body}.

Lemma after_wf f : file_wf f → file_wf (after body f).
Proof.
  destruct f as [img|]; [|done]. simpl. intros Hwf.
  destruct (body img) as [[out|]|e] eqn:Hb; simpl; [|done..].
  by destruct (body_typed _ _ Hwf Hb).
Qed.

Lemma folder_after_wf sel d : folder_wf d → folder_wf (folder_after body sel d).
Proof.
  intros Hd name f. rewrite lookup_folder_after.
  destruct (d !! name) as [f0|] eqn:Hf; [|done]. simpl. intros [= <-].
  specialize (Hd _ _ Hf). simpl in Hd. destruct (sel name); [by apply after_wf|done].
Qed.

(** One iteration, and so a whole loop, only writes well-formed RGBA
    images. *)
Lemma process_typed st name :
  folder_wf st.1 → typed_update st.1 (process body st name).1.
Proof.
  intros Hd. unfold process.
  destruct (Image_open st.1 name) as [img|] eqn:Ho; simpl; [|done].
  apply Image_open_Ok in Ho. pose proof (folder_wf_lookup _ _ _ Hd Ho) as Hwf.
  destruct (body img) as [[out|]|e] eqn:Hb; simpl; [|done..].
  destruct (body_typed _ _ Hwf Hb). by apply typed_update_save.
Qed.

Lemma run_typed names : ∀ st,
  folder_wf st.1 → typed_update st.1 (foldl (process body) st names).1.
Proof.
  induction names as [|name names IH]; intros st Hd; [done|]. simpl.
  pose proof (process_typed st name Hd) as Hstep.
  etrans; [done|]. apply IH. by eapply typed_update_wf.
Qed.

Context `{!BodyIdempotent body}.

Lemma after_after f : file_wf f → after body (after body f) = after body f.
Proof.
  destruct f as [img|]; [|done]. simpl. intros Hwf.
  destruct (body img) as [[out|]|e] eqn:Hb; simpl; [|by rewrite Hb..].
  by rewrite (body_again _ _ Hwf Hb).
Qed.

Lemma folder_after_idem sel d :
  folder_wf d →
  folder_after body sel (folder_after body sel d) = folder_after body sel d.
Proof.
  intros Hd. apply map_eq. intros name. rewrite !lookup_folder_after.
  destruct (d !! name) as [f|] eqn:Hf; [|done]. simpl. f_equal.
  destruct (sel name); [|done]. apply after_after, (Hd _ _ Hf).
Qed.

End loop.

(** ** The first pass *)

Lemma first_pass_images (d : folder) files imgs :
  Forall2 (λ name img, d !! name = Some (ImageFile img)) files imgs →
  first_pass d files = Ok (max_dimensions imgs).
Proof.
  intros Hl. unfold first_pass, max_dimensions. generalize (0, 0).
  induction Hl as [|name img files imgs Hf _ IH]; intros m; [done|].
  simpl. rewrite (proj2 (Image_open_Ok d name img) Hf). apply IH.
Qed.

Lemma first_pass_raise (d : folder) files name :
  name ∈ files → (∀ img, d !! name ≠ Some (ImageFile img)) →
  first_pass d files = Raise OSError.
Proof.
  intros Hin Hbad. revert Hin. unfold first_pass. generalize (0, 0).
  induction files as [|x files IH]; intros m Hin; [by apply elem_of_nil in Hin|].
  simpl. destruct (Image_open d x) as [img|e] eqn:Ho; simpl.
  - apply IH. apply elem_of_cons in Hin as [->|Hin]; [|done].
    apply Image_open_Ok in Ho. by destruct (Hbad img).
  - by apply Image_open_Raise in Ho as [-> _].
Qed.

Lemma all_images_list (d : folder) files :
  all_images d files →
  ∃ imgs, Forall2 (λ name img, d !! name = Some (ImageFile img)) files imgs.
Proof.
  induction files as [|x files IH]; intros Hall; [by exists []|].
  destruct (Hall x) as [img Himg]; [left|].
  destruct IH as [imgs Himgs]; [intros name Hin; apply Hall; by right|].
  exists (img :: imgs). by constructor.
Qed.

Lemma Forall2_images_elem (d : folder) files imgs name img :
  Forall2 (λ name img, d !! name = Some (ImageFile img)) files imgs →
  name ∈ files → d !! name = Some (ImageFile img) → img ∈ imgs.
Proof.
  intros Hl [i Hi]%list_elem_of_lookup_1 Hf.
  destruct (Forall2_lookup_l _ _ _ _ _ Hl Hi) as (img' & Hi' & Hf').
  rewrite Hf in Hf'. injection Hf' as ->. by eapply list_elem_of_lookup_2.
Qed.

Lemma Forall2_images_name (d : folder) files imgs img :
  Forall2 (λ name img, d !! name = Some (ImageFile img)) files imgs →
  img ∈ imgs → ∃ name, name ∈ files ∧ d !! name = Some (ImageFile img).
Proof.
  intros Hl [i Hi]%list_elem_of_lookup_1.
  destruct (Forall2_lookup_r _ _ _ _ _ Hl Hi) as (name & Hi' & Hf').
  exists name. split; [by eapply list_elem_of_lookup_2|done].
Qed.

Lemma run_max_is_max key (d : folder) files imgs :
  Forall2 (λ name img, d !! name = Some (ImageFile img)) files imgs →
  is_max_of key d files (run_max key 0 imgs).
Proof.
  intros Hl. split.
  - intros name img Hin Hf. eapply run_max_upper, Forall2_images_elem; done.
  - destruct (run_max_attained key 0 imgs) as [->|(img & Hin & Hv)]; [by left|].
    right. destruct (Forall2_images_name _ _ _ _ Hl Hin) as (name & ? & ?).
    by exists name, img.
Qed.

Lemma is_max_of_unique key (d : folder) files v v' :
  (∀ img, 0 ≤ key img) →
  is_max_of key d files v → is_max_of key d files v' → v = v'.
Proof.
  intros Hkey [Hup Hat] [Hup' Hat'].
  destruct Hat as [->|(name & img & Hin & Hf & <-)];
    destruct Hat' as [->|(name' & img' & Hin' & Hf' & <-)]; [done|..].
  - specialize (Hup _ _ Hin' Hf'). specialize (Hkey img'). lia.
  - specialize (Hup' _ _ Hin Hf). specialize (Hkey img). lia.
  - specialize (Hup _ _ Hin' Hf'). specialize (Hup' _ _ Hin Hf). lia.
Qed.

Lemma is_max_dims_unique (d : folder) files m m' :
  is_max_dims d files m → is_max_dims d files m' → m = m'.
Proof.
  destruct m, m'. intros [Hw Hh] [Hw' Hh']; simpl in *. f_equal.
  - eapply is_max_of_unique; [apply width_nonneg|done..].
  - eapply is_max_of_unique; [apply height_nonneg|done..].
Qed.

Lemma max_dimensions_is_max (d : folder) files imgs :
  Forall2 (λ name img, d !! name = Some (ImageFile img)) files imgs →
  is_max_dims d files (max_dimensions imgs).
Proof.
  intros Hl. rewrite max_dimensions_run. split; by apply run_max_is_max.
Qed.

(** The first pass returns exactly when every file decodes, and then it
    returns the largest width and height. *)
Lemma first_pass_Ok (d : folder) files m :
  first_pass d files = Ok m ↔ all_images d files ∧ is_max_dims d files m.
Proof.
  split.
  - intros Hm. assert (all_images d files) as Hall.
    { intros name Hin. destruct (d !! name) as [[img|]|] eqn:Hf; [by exists img|..];
        rewrite (first_pass_raise d files name) in Hm; try done;
        intros img; by rewrite Hf. }
    split; [done|]. destruct (all_images_list _ _ Hall) as [imgs Hl].
    rewrite (first_pass_images _ _ _ Hl) in Hm. injection Hm as <-.
    by apply max_dimensions_is_max.
  - intros [[imgs Hl]%all_images_list Hmax].
    rewrite (first_pass_images _ _ _ Hl). f_equal.
    eapply is_max_dims_unique; [|done]. by apply max_dimensions_is_max.
Qed.

Lemma first_pass_is_ok (d : folder) files : is_ok (first_pass d files) ↔ all_images d files.
Proof.
  rewrite is_ok_Ok. split.
  - by intros [m [? _]%first_pass_Ok].
  - intros Hall. destruct (all_images_list _ _ Hall) as [imgs Hl].
    exists (max_dimensions imgs). by apply first_pass_images.
Qed.

(** An error line of a loop whose body returns on every well-formed
    image speaks of a file that does not decode. *)
Lemma report_Error body `{!BodyTotal body} (d : folder) n name e :
  folder_wf d →
  n ∈ goblin_files d → report body d n = Error name e →
  name = n ∧ is_goblin_png n = true ∧ d !! n = Some OtherFile ∧ e = OSError.
Proof.
  intros Hd [[f Hf] Hg]%elem_of_goblin_files. unfold report, Image_open.
  rewrite Hf. destruct f as [img|]; simpl; [|by intros [= <- <-]].
  pose proof (body_total img (folder_wf_lookup _ _ _ Hd Hf)) as Hok.
  by destruct (body img) as [[out|]|e'].
Qed.

(** ** The order of a listing

    [os.listdir] returns the names in an order of its own.  The first
    pass and the folder a loop leaves depend on the names listed, not on
    their order. *)

#[global] Instance all_images_Permutation (d : folder) :
  Proper ((≡ₚ) ==> iff) (all_images d).
Proof. intros l l' Hl. unfold all_images. by setoid_rewrite Hl. Qed.

#[global] Instance is_max_of_Permutation key (d : folder) :
  Proper ((≡ₚ) ==> (=) ==> iff) (is_max_of key d).
Proof. intros l l' Hl v ? <-. unfold is_max_of. by setoid_rewrite Hl. Qed.

#[global] Instance is_max_dims_Permutation (d : folder) :
  Proper ((≡ₚ) ==> (=) ==> iff) (is_max_dims d).
Proof. intros l l' Hl m ? <-. unfold is_max_dims. by rewrite Hl. Qed.

Lemma first_pass_Raise (d : folder) files e :
  first_pass d files = Raise e → e = OSError.
Proof.
  unfold first_pass. generalize (0, 0).
  induction files as [|x files IH]; intros m; [done|]. simpl.
  destruct (Image_open d x) as [img|e'] eqn:Ho; simpl; [apply IH|].
  intros [= <-]. by apply Image_open_Raise in Ho as [-> _].
Qed.

#[global] Instance first_pass_Permutation (d : folder) :
  Proper ((≡ₚ) ==> (=)) (first_pass d).
Proof.
  assert (∀ l l' m, l ≡ₚ l' → first_pass d l = Ok m → first_pass d l' = Ok m)
    as Hok.
  { intros l l' m Hl. rewrite !first_pass_Ok. by rewrite Hl. }
  intros l l' Hl. destruct (first_pass d l) as [m|e] eqn:Hm.
  - symmetry. by eapply Hok.
  - destruct (first_pass d l') as [m'|e'] eqn:Hm'.
    + by rewrite (Hok l' l m') in Hm.
    + apply first_pass_Raise in Hm as ->. by apply first_pass_Raise in Hm' as ->.
Qed.

Lemma run_Permutation body names names' st :
  NoDup names → names ≡ₚ names' →
  (foldl (process body) st names').1 = (foldl (process body) st names).1.
Proof.
  intros Hnd Hl. apply map_eq. intros k.
  rewrite !run_lookup by (done || by rewrite <- Hl).
  destruct (decide (k ∈ names')) as [Hin|Hout];
    [rewrite decide_True by (by rewrite Hl)|rewrite decide_False by (by rewrite Hl)];
    done.
Qed.

(** ** Loops that paste *)

Lemma after_written body img :
  after (written body) (ImageFile img) =
    ImageFile (match body img with Ok r => r | Raise _ => img end).
Proof. unfold written. simpl. by destruct (body img). Qed.

Section paste_loop.
Context (body : image → result image) (d : folder).
Context (key : image → Z) (v v' : Z).
Context (body_key : ∀ img r, body img = Ok r → key r = v').

Lemma lookup_paste_loop name img :
  name ∈ goblin_files d → d !! name = Some (ImageFile img) →
  folder_after (written body) is_goblin_png d !! name =
    Some (ImageFile (match body img with Ok r => r | Raise _ => img end)).
Proof.
  intros [_ Hg]%elem_of_goblin_files Hf.
  rewrite lookup_folder_after, Hf, Hg. by rewrite <- after_written.
Qed.

Lemma lookup_paste_loop_inv name img' :
  name ∈ goblin_files d →
  folder_after (written body) is_goblin_png d !! name = Some (ImageFile img') →
  ∃ img, d !! name = Some (ImageFile img) ∧
         img' = match body img with Ok r => r | Raise _ => img end.
Proof.
  intros Hin. pose proof Hin as [[f Hf] Hg]%elem_of_goblin_files.
  rewrite lookup_folder_after, Hf, Hg. destruct f as [img|]; [|done].
  cbn [fmap option_fmap option_map]. rewrite after_written.
  intros [= <-]. by exists img.
Qed.

Lemma paste_loop_all_images :
  all_images d (goblin_files d) →
  all_images (folder_after (written body) is_goblin_png d)
             (goblin_files (folder_after (written body) is_goblin_png d)).
Proof.
  intros Hall name Hin%goblin_files_folder_after.
  destruct (Hall _ Hin) as [img Hf]. eexists. by apply lookup_paste_loop.
Qed.

(** The largest value of a key after the loop, when every written image
    has the value [v'] and [v'] is at least the largest value before. *)
Lemma paste_loop_is_max :
  is_max_of key d (goblin_files d) v → v ≤ v' →
  (v' = v ∨ ∃ name img, name ∈ goblin_files d ∧
                        d !! name = Some (ImageFile img) ∧ is_ok (body img)) →
  is_max_of key (folder_after (written body) is_goblin_png d)
            (goblin_files (folder_after (written body) is_goblin_png d)) v'.
Proof.
  intros [Hup Hat] Hle Hex. split.
  - intros name img' Hin%goblin_files_folder_after Hf.
    destruct (lookup_paste_loop_inv _ _ Hin Hf) as (img & Hd & ->).
    destruct (body img) as [r|e] eqn:Hb; [by rewrite (body_key _ _ Hb)|].
    specialize (Hup _ _ Hin Hd). lia.
  - destruct Hex as [->|(name & img & Hin & Hf & [r Hr]%is_ok_Ok)].
    + destruct Hat as [?|(name & img & Hin & Hf & Hk)]; [by left|]. right.
      exists name. eexists.
      split_and!; [by apply goblin_files_folder_after|by apply lookup_paste_loop|].
      destruct (body img) as [r|e] eqn:Hb; [by apply body_key in Hb|done].
    + right. exists name, r.
      split_and!; [by apply goblin_files_folder_after| |by eapply body_key].
      rewrite (lookup_paste_loop _ _ Hin Hf). by rewrite Hr.
Qed.

End paste_loop.

Lemma is_max_of_nonneg key (d : folder) files v :
  (∀ img, 0 ≤ key img) → is_max_of key d files v → 0 ≤ v.
Proof. intros Hkey [_ [->|(_ & img & _ & _ & <-)]]; [done|apply Hkey]. Qed.

(** The first pass after a loop whose written images all have the size
    [m'], no smaller than the largest size [m] before it. *)
Lemma paste_loop_first_pass body (d : folder) m m' :
  (∀ img r, body img = Ok r → size r = m') →
  first_pass d (goblin_files d) = Ok m → m.1 ≤ m'.1 → m.2 ≤ m'.2 →
  (m' = m ∨ ∃ name img, name ∈ goblin_files d ∧
                        d !! name = Some (ImageFile img) ∧ is_ok (body img)) →
  first_pass (folder_after (written body) is_goblin_png d)
             (goblin_files (folder_after (written body) is_goblin_png d)) = Ok m'.
Proof.
  intros Hsz [Hall [Hw Hh]]%first_pass_Ok Hle1 Hle2 Hex. apply first_pass_Ok.
  split; [by apply paste_loop_all_images|].
  split; (eapply paste_loop_is_max; [|done|done|]);
    try (intros img r Hr%Hsz; by rewrite <- Hr);
    destruct Hex as [->|?]; eauto.
Qed.

Lemma run_paste_goblin_files body (d : folder) :
  foldl (process_paste body) (d, []) (goblin_files d) =
    (folder_after (written body) is_goblin_png d,
     report (written body) d <$> goblin_files d).
Proof.
  unfold process_paste. rewrite <- run_goblin_files, <- run_goblin_files_log.
  by destruct (foldl _ _ _).
Qed.

Lemma first_pass_nonneg (d : folder) files m :
  first_pass d files = Ok m → 0 ≤ m.1 ∧ 0 ≤ m.2.
Proof.
  intros [_ [Hw Hh]]%first_pass_Ok. split.
  - eapply is_max_of_nonneg; [apply width_nonneg|done].
  - eapply is_max_of_nonneg; [apply height_nonneg|done].
Qed.

(** What a loop leaves whose body places the sprite on a canvas of a
    given size. *)
Lemma paste_loop_spec cw ch xo yo body (d : folder) :
  (∀ img, body img = place cw ch (xo img) (yo img) img) →
  0 ≤ cw → 0 ≤ ch → folder_wf d →
  folder_wf (folder_after (written body) is_goblin_png d) ∧
  (∀ name, is_goblin_png name = false →
     folder_after (written body) is_goblin_png d !! name = d !! name) ∧
  ∀ name img, is_goblin_png name = true → d !! name = Some (ImageFile img) →
    if decide (im_mode img = RGB)
    then folder_after (written body) is_goblin_png d !! name = Some (ImageFile img)
    else ∃ r, body img = Ok r ∧ size r = (cw, ch) ∧
              folder_after (written body) is_goblin_png d !! name =
                Some (ImageFile r).
Proof.
  intros Hbody Hcw Hch Hd. split_and!.
  - pose proof (written_place_typed _ _ _ _ _ Hbody). by apply folder_after_wf.
  - intros name Hg. by rewrite lookup_folder_after, Hg, option_fmap_id.
  - intros name img Hg Hf.
    rewrite (lookup_paste_loop _ _ name img) by (by rewrite ?elem_of_goblin_files, ?Hf).
    rewrite Hbody. case_decide as Hmode; [by rewrite place_raise_RGB|].
    pose proof (place_ok cw ch (xo img) (yo img) img Hcw Hch Hmode)
      as [r Hr]%is_ok_Ok.
    rewrite Hr. exists r. split_and!; [done|by apply place_size in Hr|done].
Qed.

Lemma sample_sprites_wf : folder_wf sample_sprites.
Proof.
  unfold sample_sprites. repeat apply map_Forall_insert_2;
    [apply sprite_block_wf|apply sprite_column_wf|apply sprite_block_wf|].
  apply map_Forall_empty.
Qed.

(** ** What the scripts may change *)

Lemma paste_run_typed body cw ch xo yo (d : folder) files :
  (∀ img, body img = place cw ch (xo img) (yo img) img) →
  folder_wf d →
  typed_update d (foldl (process_paste body) (d, []) files).1.
Proof.
  intros Hbody Hd. pose proof (written_place_typed _ _ _ _ _ Hbody).
  by apply (run_typed (written body) files (d, [])).
Qed.

Lemma paste_main_typed body cw ch xo yo (d : folder) {A} (m : result A) r :
  (∀ img, body img = place cw ch (xo img) (yo img) img) →
  folder_wf d →
  (_ ← m; Ok (foldl (process_paste body) (d, []) (goblin_files d))) = Ok r →
  typed_update d r.1.
Proof.
  intros Hbody Hd. destruct m; simpl; [|done]. intros [= <-].
  by eapply paste_run_typed.
Qed.

(** ** Properties of the crop scripts *)

(** C6. After crop_goblin_tight.py and after crop_goblin_sprites.py every
    file whose name starts with goblin_ and ends with .png holds what the
    body of the loop makes of the file the script found there (the crop
    when it writes one, the file itself when it skips or raises), and
    every other file is as it was: a file that fails does not stop the
    loop or change another file. *)
Theorem crop_mains_pointwise d name :
  (crop_goblin_tight_main d).1 !! name =
    (if is_goblin_png name then after crop_tight else id) <$> d !! name ∧
  (crop_goblin_sprites_main d).1 !! name =
    (if is_goblin_png name then after crop_padded else id) <$> d !! name.
Proof.
  unfold crop_goblin_tight_main, crop_goblin_sprites_main.
  by rewrite !run_goblin_files, !lookup_folder_after.
Qed.

(** The two crop scripts print one line per selected file, in the
    order of the listing, and the line of a file is the one its body
    gives on the file as it was before the script started. *)
Theorem crop_mains_log d :
  (crop_goblin_tight_main d).2 = report crop_tight d <$> goblin_files d ∧
  (crop_goblin_sprites_main d).2 = report crop_padded d <$> goblin_files d.
Proof.
  unfold crop_goblin_tight_main, crop_goblin_sprites_main.
  by rewrite !run_goblin_files_log.
Qed.

(** Running crop_goblin_tight.py or crop_goblin_sprites.py a second
    time leaves the folder of the first run as it is. *)
Theorem crop_mains_idempotent d :
  folder_wf d →
  (crop_goblin_tight_main (crop_goblin_tight_main d).1).1 =
    (crop_goblin_tight_main d).1 ∧
  (crop_goblin_sprites_main (crop_goblin_sprites_main d).1).1 =
    (crop_goblin_sprites_main d).1.
Proof.
  intros Hd. unfold crop_goblin_tight_main, crop_goblin_sprites_main.
  rewrite !run_goblin_files.
  split; [apply (folder_after_idem crop_tight)|
          apply (folder_after_idem crop_padded)]; done.
Qed.

Lemma crop_mains_idempotent_witness :
  (crop_goblin_tight_main (crop_goblin_tight_main sample_folder).1).1 =
    (crop_goblin_tight_main sample_folder).1 ∧
  (crop_goblin_sprites_main (crop_goblin_sprites_main sample_folder).1).1 =
    (crop_goblin_sprites_main sample_folder).1.
Proof. apply (crop_mains_idempotent sample_folder), sample_folder_wf. Defined.

(** ** Properties of the align and resize scripts *)

(** C10. A selected file that does not decode ends align_goblin_bottom.py,
    resize_goblin_uniform.py and uniform_goblin_bottom.py in their first
    pass with the exception of [Image.open]: nothing is written and no
    other file is processed. *)
Theorem paste_mains_abort d name :
  is_goblin_png name = true → d !! name = Some OtherFile →
  align_goblin_bottom_main d = Raise OSError ∧
  resize_goblin_uniform_main d = Raise OSError ∧
  uniform_goblin_bottom_main d = Raise OSError.
Proof.
  intros Hg Hf.
  unfold align_goblin_bottom_main, resize_goblin_uniform_main,
    uniform_goblin_bottom_main.
  rewrite (first_pass_raise d (goblin_files d) name); [done| |].
  - apply elem_of_goblin_files. eauto.
  - intros img. by rewrite Hf.
Qed.

Lemma paste_mains_abort_witness :
  align_goblin_bottom_main sample_folder = Raise OSError ∧
  resize_goblin_uniform_main sample_folder = Raise OSError ∧
  uniform_goblin_bottom_main sample_folder = Raise OSError.
Proof.
  apply (paste_mains_abort sample_folder "goblin_notes.png"); by vm_compute.
Defined.

(** C13. When every selected file decodes, uniform_goblin_bottom.py
    returns; the canvas is the largest width by the largest height of the
    selected files; every selected image that is not RGB is replaced by
    its placement on that canvas, every selected RGB image and every
    file that is not selected stays as it was. *)
Theorem uniform_goblin_bottom_main_spec d m :
  folder_wf d → first_pass d (goblin_files d) = Ok m →
  ∃ d' log, uniform_goblin_bottom_main d = Ok (d', log) ∧ folder_wf d' ∧
    is_max_dims d (goblin_files d) m ∧
    (∀ name, is_goblin_png name = false → d' !! name = d !! name) ∧
    ∀ name img, is_goblin_png name = true → d !! name = Some (ImageFile img) →
      if decide (im_mode img = RGB) then d' !! name = Some (ImageFile img)
      else ∃ r, uniform_bottom m.1 m.2 img = Ok r ∧ size r = m ∧
                d' !! name = Some (ImageFile r).
Proof.
  intros Hd Hm. destruct (first_pass_nonneg _ _ _ Hm) as [Hm1 Hm2].
  unfold uniform_goblin_bottom_main. rewrite Hm. simpl.
  rewrite run_paste_goblin_files. eexists _, _. split; [done|].
  destruct (paste_loop_spec m.1 m.2 (λ img, (m.1 - width img) // 2)
              (λ img, m.2 - height img) (uniform_bottom m.1 m.2) d)
    as (Hwf & Hout & Hin); [done..|].
  split_and!; [done|by apply first_pass_Ok in Hm as [_ ?]|done|].
  intros name img Hg Hf. specialize (Hin name img Hg Hf). by destruct m.
Qed.

Lemma uniform_goblin_bottom_main_spec_witness :
  ∃ d' log, uniform_goblin_bottom_main sample_sprites = Ok (d', log) ∧
    folder_wf d' ∧
    is_max_dims sample_sprites (goblin_files sample_sprites) (4, 3) ∧
    (∀ name, is_goblin_png name = false → d' !! name = sample_sprites !! name) ∧
    ∀ name img, is_goblin_png name = true →
      sample_sprites !! name = Some (ImageFile img) →
      if decide (im_mode img = RGB) then d' !! name = Some (ImageFile img)
      else ∃ r, uniform_bottom (4, 3).1 (4, 3).2 img = Ok r ∧ size r = (4, 3) ∧
                d' !! name = Some (ImageFile r).
Proof.
  apply (uniform_goblin_bottom_main_spec sample_sprites (4, 3));
    [apply sample_sprites_wf|by vm_compute].
Defined.

(** C9. A second run of uniform_goblin_bottom.py computes the canvas of
    the first run: the largest width and height of the folder do not
    change when the script has run. *)
Theorem uniform_goblin_bottom_main_stable d :
  is_ok (first_pass d (goblin_files d)) →
  ∃ d' log, uniform_goblin_bottom_main d = Ok (d', log) ∧
    first_pass d' (goblin_files d') = first_pass d (goblin_files d).
Proof.
  intros [m Hm]%is_ok_Ok. unfold uniform_goblin_bottom_main. rewrite Hm. simpl.
  rewrite run_paste_goblin_files. eexists _, _. split; [done|].
  apply (paste_loop_first_pass _ _ m m); [|done|lia|lia|by left].
  intros img r Hr. rewrite uniform_bottom_place in Hr.
  apply place_size in Hr. by destruct m.
Qed.

Lemma uniform_goblin_bottom_main_stable_witness :
  ∃ d' log, uniform_goblin_bottom_main sample_sprites = Ok (d', log) ∧
    first_pass d' (goblin_files d') =
      first_pass sample_sprites (goblin_files sample_sprites).
Proof. apply (uniform_goblin_bottom_main_stable sample_sprites). by vm_compute. Defined.

(** C35. A run of resize_goblin_uniform.py that writes at least one file
    leaves a folder whose largest width and height are both the canvas
    size of that run, the larger of the two maxima plus 20: the next run
    uses a canvas 20 pixels larger again. *)
Theorem resize_goblin_uniform_main_grows d m name img :
  first_pass d (goblin_files d) = Ok m →
  is_goblin_png name = true → d !! name = Some (ImageFile img) →
  im_mode img ≠ RGB →
  ∃ d' log, resize_goblin_uniform_main d = Ok (d', log) ∧
    first_pass d' (goblin_files d') =
      Ok (Z.max m.1 m.2 + 20, Z.max m.1 m.2 + 20).
Proof.
  intros Hm Hg Hf Hmode. destruct (first_pass_nonneg _ _ _ Hm) as [Hm1 Hm2].
  unfold resize_goblin_uniform_main. rewrite Hm. simpl.
  rewrite run_paste_goblin_files. eexists _, _. split; [done|].
  unfold resize_canvas_size.
  apply (paste_loop_first_pass _ _ m); [|done|simpl; lia|simpl; lia|].
  - intros i r Hr. rewrite resize_uniform_place in Hr. by apply place_size in Hr.
  - right. exists name, img. rewrite elem_of_goblin_files, Hf.
    split_and!; [by eexists|done|done|].
    rewrite resize_uniform_place. apply place_ok; [lia|lia|done].
Qed.

Lemma resize_goblin_uniform_main_grows_witness :
  ∃ d' log, resize_goblin_uniform_main sample_sprites = Ok (d', log) ∧
    first_pass d' (goblin_files d') =
      Ok (Z.max (4, 3).1 (4, 3).2 + 20, Z.max (4, 3).1 (4, 3).2 + 20).
Proof.
  apply (resize_goblin_uniform_main_grows sample_sprites (4, 3)
           "goblin_idle.png" sprite_block); by vm_compute.
Defined.

(** When every selected file decodes, align_goblin_bottom.py returns,
    and whatever the first pass measured, every selected image that is
    not RGB is replaced by its placement on a 227 x 227 canvas; every
    selected RGB image and every file that is not selected stays as it
    was. *)
Theorem align_goblin_bottom_main_spec d :
  folder_wf d → is_ok (first_pass d (goblin_files d)) →
  ∃ d' log, align_goblin_bottom_main d = Ok (d', log) ∧ folder_wf d' ∧
    (∀ name, is_goblin_png name = false → d' !! name = d !! name) ∧
    ∀ name img, is_goblin_png name = true → d !! name = Some (ImageFile img) →
      if decide (im_mode img = RGB) then d' !! name = Some (ImageFile img)
      else ∃ r, align_bottom img = Ok r ∧ size r = (227, 227) ∧
                d' !! name = Some (ImageFile r).
Proof.
  intros Hd [m Hm]%is_ok_Ok. unfold align_goblin_bottom_main. rewrite Hm. simpl.
  rewrite run_paste_goblin_files. eexists _, _. split; [done|].
  by apply (paste_loop_spec 227 227 (λ img, (227 - width img) // 2)
              (λ img, 227 - height img) align_bottom d).
Qed.

Lemma align_goblin_bottom_main_spec_witness :
  ∃ d' log, align_goblin_bottom_main sample_sprites = Ok (d', log) ∧
    folder_wf d' ∧
    (∀ name, is_goblin_png name = false → d' !! name = sample_sprites !! name) ∧
    ∀ name img, is_goblin_png name = true →
      sample_sprites !! name = Some (ImageFile img) →
      if decide (im_mode img = RGB) then d' !! name = Some (ImageFile img)
      else ∃ r, align_bottom img = Ok r ∧ size r = (227, 227) ∧
                d' !! name = Some (ImageFile r).
Proof.
  apply (align_goblin_bottom_main_spec sample_sprites);
    [apply sample_sprites_wf|by vm_compute].
Defined.

(** The order in which [os.listdir] returns the names does not
    matter: for every ordering of the selected files the first pass
    computes the same canvas or raises alike, and the loop of a script
    leaves the same folder. *)
Theorem listing_order_irrelevant body d files :
  files ≡ₚ goblin_files d →
  first_pass d files = first_pass d (goblin_files d) ∧
  (foldl (process body) (d, []) files).1 =
    (foldl (process body) (d, []) (goblin_files d)).1.
Proof.
  intros Hl. split; [by rewrite Hl|].
  apply run_Permutation; [apply NoDup_goblin_files|done].
Qed.

Lemma listing_order_irrelevant_witness :
  first_pass sample_sprites (reverse (goblin_files sample_sprites)) =
    first_pass sample_sprites (goblin_files sample_sprites) ∧
  (foldl (process crop_tight) (sample_sprites, [])
     (reverse (goblin_files sample_sprites))).1 =
    (foldl (process crop_tight) (sample_sprites, [])
       (goblin_files sample_sprites)).1.
Proof.
  apply (listing_order_irrelevant crop_tight sample_sprites), reverse_Permutation.
Defined.

(** The files the goblin scripts work on are the names of the folder
    that are goblin_ followed by something and something followed by
    .png, each of them once. *)
Theorem goblin_files_spec d :
  NoDup (goblin_files d) ∧
  ∀ f, f ∈ goblin_files d ↔
       is_Some (d !! f) ∧ (∃ t, f = "goblin_" +:+ t) ∧ (∃ t, f = t +:+ ".png").
Proof.
  split; [apply NoDup_goblin_files|]. intros f.
  by rewrite elem_of_goblin_files, is_goblin_png_iff.
Qed.

(** C36. The crop scripts print an error line only for a selected file
    that does not decode: on every image the body of the [try] returns. *)
Theorem crop_mains_errors d name e :
  folder_wf d →
  Error name e ∈ (crop_goblin_tight_main d).2 ∨
  Error name e ∈ (crop_goblin_sprites_main d).2 →
  is_goblin_png name = true ∧ d !! name = Some OtherFile ∧ e = OSError.
Proof.
  intros Hd. unfold crop_goblin_tight_main, crop_goblin_sprites_main.
  rewrite !run_goblin_files_log.
  intros [(n & Hn & Hin)%list_elem_of_fmap|(n & Hn & Hin)%list_elem_of_fmap];
    symmetry in Hn.
  - by apply (report_Error crop_tight) in Hn as (-> & ? & ? & ?).
  - by apply (report_Error crop_padded) in Hn as (-> & ? & ? & ?).
Qed.

Lemma crop_mains_errors_witness :
  is_goblin_png "goblin_notes.png" = true ∧
  sample_folder !! "goblin_notes.png" = Some OtherFile ∧ OSError = OSError.
Proof.
  apply (crop_mains_errors sample_folder "goblin_notes.png" OSError);
    [apply sample_folder_wf|].
  left. apply (bool_decide_unpack _). by vm_compute.
Defined.
