(* ===== verification/Machine.v ===== *)
(** * Machine: the goblin scripts, statement by statement

    The five goblin scripts share one shape: list the folder and print
    how many files were found, for three of them measure every file
    outside any [try], print the canvas, visit every file inside a
    [try], print the closing line.  [next] runs one statement of that
    shape, [step] is the same as a relation, and [exec] runs a script to
    its end.  The abstract machine [astep] visits the selected files in
    any order; the scripts refine it, and it has one final folder. *)

From Stdlib Require Import ZArith Lia.
From stdpp Require Import base tactics option list numbers strings gmap.
From stdpp Require Import relations.
From S2P Require Import Prelude Image BBox Crop Canvas Folder Batch.

(** ** The console *)

(** What a goblin script prints: the count of the files, the banner of
    crop_goblin_tight.py, the two lines after the first pass, one line
    per file, the closing line. *)
Inductive output : Set :=
  | Found (n : nat)
  | Cropping
  | MaxDimensions (m : Z * Z)
  | UsingCanvas (canvas : Z * Z)
  | PerFile (l : line)
  | AllDone.

#[global] Instance output_eq_dec : EqDecision output.
Proof. solve_decision. Defined.

(** The file a line of the loop speaks of. *)
Definition line_name (l : line) : string :=
  match l with
  | Done filename _ _ | Skip filename | Error filename _ => filename
  end.

(** ** The scripts *)

(** What tells the five scripts apart: whether a banner follows the
    count, whether there is a first pass, the canvas chosen from the
    measured maximum, and the body of the [try]. *)
Record script : Type := Script {
  banner : bool;
  measures : bool;
  canvas_of : Z * Z → Z * Z;
  body_of : Z * Z → image → result outcome }.

Definition crop_goblin_tight_script : script :=
  Script true false (λ m, m) (λ _, crop_tight).

Definition crop_goblin_sprites_script : script :=
  Script false false (λ m, m) (λ _, crop_padded).

Definition align_goblin_bottom_script : script :=
  Script false true (λ _, (align_canvas_size, align_canvas_size))
         (λ _, written align_bottom).

Definition resize_goblin_uniform_script : script :=
  Script false true
         (λ m, let canvas_size := resize_canvas_size m.1 m.2 in
               (canvas_size, canvas_size))
         (λ canvas, written (resize_uniform canvas.1)).

Definition uniform_goblin_bottom_script : script :=
  Script false true (λ m, m) (λ canvas, written (uniform_bottom canvas.1 canvas.2)).

(** ** Configurations *)

(** Where a script is: before the listing, in the first pass with the
    maximum so far and the files still to measure, in the loop with the
    canvas and the files still to visit, at its end, or dead of an
    exception outside a [try]. *)
Inductive phase : Set :=
  | Start
  | Measuring (m : Z * Z) (todo : list string)
  | Working (canvas : Z * Z) (todo : list string)
  | Finished
  | Crashed (e : exn).

#[global] Instance phase_eq_dec : EqDecision phase.
Proof. solve_decision. Defined.

Record config : Type := Config {
  disk : folder;
  listed : list string;
  at_phase : phase;
  console : list output }.

Definition init (d : folder) : config := Config d [] Start [].

(** ** One statement *)

(** The lines printed after the listing. *)
Definition heading (s : script) (goblin_files : list string) : list output :=
  Found (length goblin_files) :: if banner s then [Cropping] else [].

(** The phase after the listing. *)
Definition first_phase (s : script) (goblin_files : list string) : phase :=
  if measures s then Measuring (0, 0) goblin_files
  else Working (canvas_of s (0, 0)) goblin_files.

Definition next (s : script) (c : config) : option config :=
  match at_phase c with
  | Start =>
      let goblin_files := goblin_files (disk c) in
      Some (Config (disk c) goblin_files (first_phase s goblin_files)
              (console c ++ heading s goblin_files))
  | Measuring m [] =>
      let canvas := canvas_of s m in
      Some (Config (disk c) (listed c) (Working canvas (listed c))
              (console c ++ [MaxDimensions m; UsingCanvas canvas]))
  | Measuring m (filename :: rest) =>
      match Image_open (disk c) filename with
      | Ok img =>
          Some (Config (disk c) (listed c)
                  (Measuring (Z.max m.1 (width img), Z.max m.2 (height img)) rest)
                  (console c))
      | Raise e => Some (Config (disk c) (listed c) (Crashed e) (console c))
      end
  | Working canvas [] =>
      Some (Config (disk c) (listed c) Finished (console c ++ [AllDone]))
  | Working canvas (filename :: rest) =>
      let st := process (body_of s canvas) (disk c, []) filename in
      Some (Config st.1 (listed c) (Working canvas rest)
              (console c ++ (PerFile <$> st.2)))
  | Finished | Crashed _ => None
  end.

(** The same as a relation, one rule per statement. *)
Inductive step (s : script) : relation config :=
  | step_list d l out :
      step s (Config d l Start out)
             (Config d (goblin_files d) (first_phase s (goblin_files d))
                (out ++ heading s (goblin_files d)))
  | step_measure d l m filename rest out img :
      Image_open d filename = Ok img →
      step s (Config d l (Measuring m (filename :: rest)) out)
             (Config d l
                (Measuring (Z.max m.1 (width img), Z.max m.2 (height img)) rest)
                out)
  | step_crash d l m filename rest out e :
      Image_open d filename = Raise e →
      step s (Config d l (Measuring m (filename :: rest)) out)
             (Config d l (Crashed e) out)
  | step_canvas d l m out :
      step s (Config d l (Measuring m []) out)
             (Config d l (Working (canvas_of s m) l)
                (out ++ [MaxDimensions m; UsingCanvas (canvas_of s m)]))
  | step_visit d l canvas filename rest out :
      step s (Config d l (Working canvas (filename :: rest)) out)
             (Config (process (body_of s canvas) (d, []) filename).1 l
                (Working canvas rest)
                (out ++ (PerFile <$> (process (body_of s canvas) (d, []) filename).2)))
  | step_done d l canvas out :
      step s (Config d l (Working canvas []) out)
             (Config d l Finished (out ++ [AllDone])).

(** ** Whole runs *)

(** A bound on the statements a configuration has left. *)
Definition weight (c : config) : nat :=
  match at_phase c with
  | Start => 2 * length (goblin_files (disk c)) + 3
  | Measuring _ todo => length todo + length (listed c) + 2
  | Working _ todo => length todo + 1
  | Finished | Crashed _ => 0
  end.

Fixpoint run (s : script) (fuel : nat) (c : config) : config :=
  match fuel with
  | O => c
  | S fuel =>
      match next s c with
      | Some c' => run s fuel c'
      | None => c
      end
  end.

(** A script from its first statement to its last. *)
Definition exec (s : script) (d : folder) : config :=
  run s (weight (init d)) (init d).

(** A configuration no statement follows. *)
Definition halted (c : config) : bool :=
  match at_phase c with
  | Finished | Crashed _ => true
  | _ => false
  end.

(** ** The abstract machine *)

(** The files still to visit, as a set. *)
Definition pending (c : config) : gset string :=
  match at_phase c with
  | Start => list_to_set (goblin_files (disk c))
  | Measuring _ _ | Crashed _ => list_to_set (listed c)
  | Working _ todo => list_to_set todo
  | Finished => ∅
  end.

Definition abstraction (c : config) : folder * gset string :=
  (disk c, pending c).

(** One abstract step visits any file that is still pending and leaves
    in its place what the body makes of it. *)
Inductive astep (body : image → result outcome)
  : relation (folder * gset string) :=
  | astep_visit d todo name :
      name ∈ todo →
      astep body (d, todo) (alter (after body) name d, todo ∖ {[name]}).

(** What the script being at [c] says of the folder [d] it started
    from: nothing is written before the loop, the files were listed
    once, and in the loop the folder is one the abstract machine
    reaches. *)
Definition consistent (s : script) (d : folder) (c : config) : Prop :=
  match at_phase c with
  | Start => disk c = d ∧ console c = []
  | Measuring _ todo =>
      disk c = d ∧ listed c = goblin_files d ∧ measures s = true ∧
      todo `suffix_of` listed c
  | Crashed _ => disk c = d ∧ listed c = goblin_files d ∧ measures s = true
  | Working canvas todo =>
      listed c = goblin_files d ∧ todo `suffix_of` listed c ∧
      rtc (astep (body_of s canvas)) (d, list_to_set (goblin_files d))
          (abstraction c)
  | Finished =>
      ∃ canvas, rtc (astep (body_of s canvas)) (d, list_to_set (goblin_files d))
                    (abstraction c)
  end.

(** The folder in which every file of [todo] has been visited. *)
Definition visited (body : image → result outcome) (todo : gset string)
  (d : folder) : folder :=
  folder_after body (λ name, bool_decide (name ∈ todo)) d.

(** ** What a run amounts to *)

(** The lines of the loop on a console. *)
Definition lines (out : list output) : list line :=
  omap (λ o, match o with PerFile l => Some l | _ => None end) out.

(** A configuration as the result of a script: the exception it died
    of, or its folder and the lines of its loop. *)
Definition result_of (c : config) : result (folder * list line) :=
  match at_phase c with
  | Crashed e => Raise e
  | _ => Ok (disk c, lines (console c))
  end.

(** The first pass from a maximum [m] on. *)
Definition measure_from (d : folder) (m : Z * Z) (todo : list string)
  : result (Z * Z) :=
  for_each (λ m filename,
              img ← Image_open d filename;
              Ok (Z.max m.1 (width img), Z.max m.2 (height img)))
           m todo.

(** The configuration a script ends in, in one go. *)
Definition loop_end (s : script) (canvas : Z * Z) (c : config)
  (todo : list string) : config :=
  let r := foldl (process (body_of s canvas)) (disk c, []) todo in
  Config r.1 (listed c) Finished (console c ++ (PerFile <$> r.2) ++ [AllDone]).

Definition big_step (s : script) (d : folder) : config :=
  let goblin_files := goblin_files d in
  let out := heading s goblin_files in
  if measures s then
    match first_pass d goblin_files with
    | Ok m =>
        let canvas := canvas_of s m in
        loop_end s canvas
          (Config d goblin_files Start
             (out ++ [MaxDimensions m; UsingCanvas canvas]))
          goblin_files
    | Raise e => Config d goblin_files (Crashed e) out
    end
  else loop_end s (canvas_of s (0, 0)) (Config d goblin_files Start out)
         goblin_files.

(** ** [next] and [step] *)

Lemma step_next s c c' : step s c c' ↔ next s c = Some c'.
Proof.
  split.
  - destruct 1; unfold next; simpl; rewrite ?H; done.
  - destruct c as [d l [|m [|filename rest]|canvas [|filename rest]| |e] out];
      unfold next; simpl; try (intros [= <-]; by constructor); [|done..].
    destruct (Image_open d filename) as [img|e] eqn:Ho; intros [= <-];
      by constructor.
Qed.

Lemma step_deterministic s c c1 c2 : step s c c1 → step s c c2 → c1 = c2.
Proof. rewrite !step_next. congruence. Qed.

Lemma next_None s c : next s c = None ↔ halted c = true.
Proof.
  destruct c as [d l [|m [|filename rest]|canvas [|filename rest]| |e] out];
    unfold next, halted; simpl; try done.
  by destruct (Image_open d filename).
Qed.

Lemma halted_nf s c : halted c = true ↔ nf (step s) c.
Proof.
  rewrite <- (next_None s). unfold nf, red. split.
  - intros Hn [c' Hc%step_next]. congruence.
  - intros Hnf. destruct (next s c) as [c'|] eqn:Hc; [|done].
    destruct Hnf. exists c'. by apply step_next.
Qed.

(** ** Termination *)

Lemma step_weight s c c' : step s c c' → (weight c' < weight c)%nat.
Proof.
  destruct 1; unfold weight, first_phase; simpl; try lia.
  destruct (measures s); simpl; lia.
Qed.

Lemma step_sn s c : sn (step s) c.
Proof.
  remember (weight c) as n eqn:Hn. revert c Hn.
  induction (lt_wf n) as [n _ IH]. intros c ->. constructor. intros c' Hc.
  eapply IH; [by apply step_weight in Hc|done].
Qed.

Lemma nsteps_weight s k c c' :
  nsteps (step s) k c c' → (k + weight c' ≤ weight c)%nat.
Proof.
  induction 1 as [|k c c1 c' Hc%step_weight _ IH]; simpl; lia.
Qed.

Lemma weight_halted c : weight c = 0%nat ↔ halted c = true.
Proof. destruct c as [d l [] out]; unfold weight, halted; simpl; split; (lia || done). Qed.

(** ** [run] *)

Lemma run_halted_id s fuel c : halted c = true → run s fuel c = c.
Proof. intros Hc%(next_None s). destruct fuel; simpl; by rewrite ?Hc. Qed.

Lemma run_rtc s fuel : ∀ c, rtc (step s) c (run s fuel c).
Proof.
  induction fuel as [|fuel IH]; intros c; simpl; [done|].
  destruct (next s c) as [c'|] eqn:Hc; [|done].
  eapply rtc_l; [by apply step_next|apply IH].
Qed.

(** Fuel beyond the weight changes nothing. *)
Lemma run_fuel s fuel : ∀ fuel' c,
  (weight c ≤ fuel)%nat → (weight c ≤ fuel')%nat → run s fuel c = run s fuel' c.
Proof.
  induction fuel as [|fuel IH]; intros fuel' c Hf Hf'.
  { rewrite !run_halted_id; [done|apply weight_halted; lia..]. }
  simpl. destruct (next s c) as [c'|] eqn:Hc.
  - pose proof (step_weight s c c' (proj2 (step_next s c c') Hc)).
    destruct fuel' as [|fuel']; [lia|]. simpl. rewrite Hc. apply IH; lia.
  - symmetry. by apply run_halted_id, (next_None s).
Qed.

Lemma run_step s c c' :
  step s c c' → run s (weight c) c = run s (weight c') c'.
Proof.
  intros Hc. pose proof (step_weight _ _ _ Hc). apply step_next in Hc.
  destruct (weight c) as [|n] eqn:Hw; [lia|]. simpl. rewrite Hc.
  apply run_fuel; lia.
Qed.

Lemma run_halted s c : halted (run s (weight c) c) = true.
Proof.
  remember (weight c) as n eqn:Hn. revert c Hn.
  induction (lt_wf n) as [n _ IH]. intros c ->.
  destruct (next s c) as [c'|] eqn:Hc.
  - apply step_next in Hc. rewrite (run_step _ _ _ Hc).
    eapply IH; [by apply step_weight in Hc|done].
  - apply next_None in Hc. by rewrite run_halted_id.
Qed.

(** Every run goes where [run] goes. *)
Lemma rtc_run s c c' :
  rtc (step s) c c' → run s (weight c) c = run s (weight c') c'.
Proof.
  induction 1 as [|c c1 c' Hc _ IH]; [done|]. by rewrite (run_step _ _ _ Hc).
Qed.

(** ** The loop and the first pass in one go *)

Lemma process_console body (d : folder) log name :
  process body (d, log) name =
    ((process body (d, []) name).1, log ++ (process body (d, []) name).2).
Proof.
  unfold process. simpl.
  by destruct (Image_open d name ≫= _) as [[img [new|]]|e].
Qed.

Lemma foldl_process_console body names : ∀ (d : folder) log,
  foldl (process body) (d, log) names =
    ((foldl (process body) (d, []) names).1,
     log ++ (foldl (process body) (d, []) names).2).
Proof.
  induction names as [|x rest IH]; intros d log; simpl.
  { by rewrite app_nil_r. }
  rewrite (process_console _ d log x).
  destruct (process body (d, []) x) as [d1 log1]. simpl.
  rewrite (IH d1 (log ++ log1)), (IH d1 log1). simpl. by rewrite app_assoc.
Qed.

Lemma run_working s canvas todo : ∀ fuel d l out,
  (length todo < fuel)%nat →
  run s fuel (Config d l (Working canvas todo) out) =
    loop_end s canvas (Config d l Start out) todo.
Proof.
  unfold loop_end. simpl.
  induction todo as [|filename rest IH]; intros [|fuel] d l out Hf;
    simpl in *; try lia.
  { by rewrite run_halted_id. }
  unfold next. simpl. rewrite IH by lia.
  destruct (process (body_of s canvas) (d, []) filename) as [d1 log1]. simpl.
  rewrite (foldl_process_console _ rest d1 log1). simpl.
  by rewrite fmap_app, !app_assoc.
Qed.

Lemma run_measuring s todo : ∀ fuel d l m out,
  (length todo + length l + 1 < fuel)%nat →
  run s fuel (Config d l (Measuring m todo) out) =
    match measure_from d m todo with
    | Ok m =>
        loop_end s (canvas_of s m)
          (Config d l Start (out ++ [MaxDimensions m; UsingCanvas (canvas_of s m)]))
          l
    | Raise e => Config d l (Crashed e) out
    end.
Proof.
  unfold measure_from.
  induction todo as [|filename rest IH]; intros [|fuel] d l m out Hf;
    simpl in *; try lia.
  { unfold next. simpl. apply run_working. lia. }
  unfold next. simpl. destruct (Image_open d filename) as [img|e]; simpl.
  - apply IH. lia.
  - by apply run_halted_id.
Qed.

Lemma exec_big_step s d : exec s d = big_step s d.
Proof.
  unfold exec, big_step.
  assert (weight (init d) = S (2 * length (goblin_files d) + 2)) as ->
    by (unfold weight; simpl; lia).
  cbn [run]. unfold next, init, first_phase. cbn [at_phase disk console app].
  destruct (measures s).
  - rewrite run_measuring by lia. done.
  - apply run_working. lia.
Qed.

Lemma lines_PerFile log : lines (PerFile <$> log) = log.
Proof. induction log as [|l log IH]; [done|]. unfold lines in *. simpl. by f_equal. Qed.

Lemma lines_app out out' : lines (out ++ out') = lines out ++ lines out'.
Proof. apply omap_app. Qed.

Lemma result_of_loop_end s canvas c todo :
  lines (console c) = [] →
  result_of (loop_end s canvas c todo) =
    Ok (foldl (process (body_of s canvas)) (disk c, []) todo).
Proof.
  intros Hc. unfold result_of, loop_end. simpl.
  rewrite !lines_app, Hc, lines_PerFile. simpl. rewrite app_nil_r.
  by destruct (foldl _ _ _).
Qed.

(** ** The abstract machine *)

Lemma process_alter body st name :
  (process body st name).1 = alter (after body) name st.1.
Proof.
  rewrite process_folder. apply map_eq. intros k.
  destruct (decide (k = name)) as [->|Hne].
  - rewrite lookup_alter_eq. destruct (st.1 !! name) as [f|] eqn:Hf; [|by rewrite Hf].
    by rewrite lookup_insert_eq.
  - rewrite lookup_alter_ne by done.
    destruct (st.1 !! name); [by rewrite lookup_insert_ne|done].
Qed.

Lemma lookup_visited body todo (d : folder) k :
  visited body todo d !! k =
    if decide (k ∈ todo) then after body <$> d !! k else d !! k.
Proof.
  unfold visited. rewrite lookup_folder_after.
  destruct (decide (k ∈ todo)) as [Hin|Hout].
  - by rewrite bool_decide_true.
  - rewrite bool_decide_false by done. by destruct (d !! k).
Qed.

(** Wherever the abstract machine is, the files that are no longer
    pending have been visited once and the others not at all. *)
Lemma astep_reach body (d : folder) todo a :
  rtc (astep body) (d, todo) a →
  a.2 ⊆ todo ∧ a.1 = visited body (todo ∖ a.2) d.
Proof.
  revert a. apply (rtc_ind_r (λ a, a.2 ⊆ todo ∧ a.1 = visited body (todo ∖ a.2) d));
    [|intros a1 a Ha1 Hs [Hsub Hd]].
  { simpl. split; [done|].
    apply map_eq. intros k. rewrite lookup_visited.
    rewrite decide_False; [done|set_solver]. }
  destruct Hs as [d1 todo1 name Hin].
  simpl in *. subst d1. split; [set_solver|].
  apply map_eq. intros k. rewrite lookup_visited.
  destruct (decide (k = name)) as [->|Hne].
  - rewrite lookup_alter_eq, lookup_visited.
    rewrite decide_False, decide_True; [done|set_solver..].
  - rewrite lookup_alter_ne, lookup_visited by done.
    destruct (decide (k ∈ todo ∖ todo1));
      [rewrite decide_True|rewrite decide_False]; (done || set_solver).
Qed.

Lemma astep_head body (d : folder) name rest :
  name ∉ rest →
  astep body (d, list_to_set (name :: rest))
             (alter (after body) name d, list_to_set rest).
Proof.
  intros Hx.
  assert (list_to_set rest =@{gset string} list_to_set (name :: rest) ∖ {[name]})
    as -> by set_solver.
  constructor. set_solver.
Qed.

Lemma astep_sn body a : sn (astep body) a.
Proof.
  destruct a as [d todo]. revert d.
  induction (set_wf todo) as [todo _ IH]. intros d. constructor.
  intros a' Ha. inversion Ha as [? ? name Hin]; subst.
  apply IH. set_solver.
Qed.

(** ** Reachable configurations *)

Lemma suffix_cons_NoDup {A} (x : A) l k :
  (x :: l) `suffix_of` k → NoDup k → x ∉ l ∧ (l `suffix_of` k).
Proof.
  intros [p ->] [_ [_ Hnd]]%NoDup_app. apply NoDup_cons in Hnd as [Hx _].
  split; [done|]. exists (p ++ [x]). by rewrite <- app_assoc.
Qed.

Lemma step_consistent s d c c' :
  consistent s d c → step s c c' → consistent s d c'.
Proof.
  intros Hc Hs. destruct Hs; unfold consistent, abstraction, pending in *;
    simpl in *.
  - destruct Hc as [-> _]. unfold first_phase.
    destruct (measures s) eqn:Hm; simpl; by rewrite ?Hm.
  - destruct Hc as (-> & Hl & Hm & Hsuf). split_and!; [done..|].
    destruct Hsuf as [p ->]. exists (p ++ [filename]). by rewrite <- app_assoc.
  - by destruct Hc as (-> & Hl & Hm & Hsuf).
  - destruct Hc as (-> & -> & Hm & Hsuf). by split_and!.
  - destruct Hc as (-> & Hsuf & Hr).
    destruct (suffix_cons_NoDup _ _ _ Hsuf (NoDup_goblin_files d)) as [Hx Hsuf'].
    split_and!; [done..|]. eapply rtc_r; [done|].
    rewrite process_alter. by apply astep_head.
  - destruct Hc as (-> & Hsuf & Hr). eauto.
Qed.

Lemma reachable_consistent s d c :
  rtc (step s) (init d) c → consistent s d c.
Proof.
  revert c. apply (rtc_ind_r (consistent s d)); [done|].
  intros c1 c _ Hs IH. by eapply step_consistent.
Qed.

(** ** Properties *)

Lemma lines_heading s l : lines (heading s l) = [].
Proof. unfold heading. by destruct (banner s). Qed.

Lemma line_name_report body (d : folder) name : line_name (report body d name) = name.
Proof.
  unfold report. by destruct (Image_open d name ≫= _) as [[img [new|]]|e].
Qed.

Lemma loop_end_names s canvas (d : folder) out :
  lines out = [] →
  line_name <$> lines (console (loop_end s canvas
                         (Config d (goblin_files d) Start out) (goblin_files d))) =
    goblin_files d.
Proof.
  intros Hout. unfold loop_end. simpl.
  rewrite !lines_app, Hout, lines_PerFile, run_goblin_files_log. simpl.
  rewrite app_nil_r, <- list_fmap_compose.
  rewrite <- (list_fmap_id (goblin_files d)) at 2.
  apply list_fmap_ext. intros _ name _. apply line_name_report.
Qed.

(** C22. Running a goblin script statement by statement gives what the
    script gives as a function on the folder: the same exception when
    the first pass dies, the same folder and the same lines of the loop
    otherwise. *)
Theorem exec_agrees_with_mains d :
  result_of (exec crop_goblin_tight_script d) = Ok (crop_goblin_tight_main d) ∧
  result_of (exec crop_goblin_sprites_script d) = Ok (crop_goblin_sprites_main d) ∧
  result_of (exec align_goblin_bottom_script d) = align_goblin_bottom_main d ∧
  result_of (exec resize_goblin_uniform_script d) = resize_goblin_uniform_main d ∧
  result_of (exec uniform_goblin_bottom_script d) = uniform_goblin_bottom_main d.
Proof.
  rewrite !exec_big_step. unfold big_step. simpl.
  unfold align_goblin_bottom_main, resize_goblin_uniform_main,
    uniform_goblin_bottom_main.
  split_and!; try (by apply result_of_loop_end);
    destruct (first_pass d (goblin_files d)) as [m|e]; simpl; try done;
    by apply result_of_loop_end.
Qed.

(** C7. Wherever a script is, the abstract machine, which visits the
    selected files in any order, can be there too: the files it has not
    visited are as they were, the others are what the body of the loop
    makes of them. *)
Theorem scripts_refine_astep s d c :
  rtc (step s) (init d) c →
  ∃ canvas,
    rtc (astep (body_of s canvas)) (abstraction (init d)) (abstraction c) ∧
    disk c = visited (body_of s canvas) (pending (init d) ∖ pending c) d.
Proof.
  intros Hc%reachable_consistent.
  assert (∃ canvas, rtc (astep (body_of s canvas)) (abstraction (init d))
                        (abstraction c)) as [canvas Hr].
  { destruct c as [d' l [|m todo|canvas todo| |e] out];
      unfold consistent, abstraction, pending in *; simpl in *.
    - destruct Hc as [-> _]. by exists (0, 0).
    - destruct Hc as (-> & -> & _). by exists (0, 0).
    - destruct Hc as (_ & _ & Hr). by exists canvas.
    - done.
    - destruct Hc as (-> & -> & _). by exists (0, 0). }
  exists canvas. split; [done|]. by destruct (astep_reach _ _ _ _ Hr).
Qed.

Lemma scripts_refine_astep_witness :
  ∃ canvas,
    rtc (astep (body_of crop_goblin_tight_script canvas))
        (abstraction (init sample_folder))
        (abstraction (exec crop_goblin_tight_script sample_folder)) ∧
    disk (exec crop_goblin_tight_script sample_folder) =
      visited (body_of crop_goblin_tight_script canvas)
        (pending (init sample_folder) ∖
         pending (exec crop_goblin_tight_script sample_folder)) sample_folder.
Proof.
  apply (scripts_refine_astep crop_goblin_tight_script sample_folder), run_rtc.
Defined.

Lemma astep_run_list body l :
  NoDup l → ∀ d : folder, ∃ d', rtc (astep body) (d, list_to_set l) (d', ∅).
Proof.
  induction 1 as [|x l Hx _ IH]; intros d; [by exists d|].
  destruct (IH (alter (after body) x d)) as [d' Hd']. exists d'.
  eapply rtc_l; [by apply astep_head|done].
Qed.

(** The abstract machine can always visit what is left. *)
Lemma astep_complete body (d : folder) todo :
  rtc (astep body) (d, todo) (visited body todo d, ∅).
Proof.
  destruct (astep_run_list body (elements todo) (NoDup_elements todo) d)
    as [d' Hd'].
  rewrite list_to_set_elements_L in Hd'.
  destruct (astep_reach _ _ _ _ Hd') as [_ Hv]. simpl in Hv.
  rewrite difference_empty_L in Hv. by subst.
Qed.

Lemma visited_visited body (d : folder) todo todo' :
  todo' ⊆ todo →
  visited body todo' (visited body (todo ∖ todo') d) = visited body todo d.
Proof.
  intros Hsub. apply map_eq. intros k. rewrite !lookup_visited.
  destruct (decide (k ∈ todo')) as [Hin|Hout].
  - rewrite decide_False, decide_True; [done|set_solver..].
  - destruct (decide (k ∈ todo ∖ todo'));
      [rewrite decide_True|rewrite decide_False]; (done || set_solver).
Qed.

(** C31. One iteration of a loop is a step of the abstract machine on
    the file it visits, and the order of the visits does not matter: two
    runs of the abstract machine from the same folder can always be
    continued to the same folder, the one in which every selected file
    has been visited once. *)
Theorem astep_confluent body :
  (∀ st name todo, name ∈ todo →
     astep body (st.1, todo) ((process body st name).1, todo ∖ {[name]})) ∧
  confluent (astep body).
Proof.
  split; [intros st name todo Hin; rewrite process_alter; by constructor|].
  intros [d todo] a1 a2 H1 H2. exists (visited body todo d, ∅).
  split; [destruct a1 as [d' t], (astep_reach _ _ _ _ H1) as [Hsub Hd]|
          destruct a2 as [d' t], (astep_reach _ _ _ _ H2) as [Hsub Hd]];
    simpl in *; subst d'; rewrite <- (visited_visited body d todo t) by done;
    apply astep_complete.
Qed.

Lemma reachable_exec s d c :
  rtc (step s) (init d) c → exec s d = run s (weight c) c.
Proof. apply rtc_run. Qed.

Lemma big_step_Finished s d :
  at_phase (big_step s d) = Finished ↔
  measures s = false ∨ all_images d (goblin_files d).
Proof.
  rewrite <- first_pass_is_ok. unfold big_step.
  destruct (measures s); [|by split; [left|]].
  destruct (first_pass d (goblin_files d)) as [m|e]; simpl.
  - split; [by right|done].
  - split; [done|]. by intros [|].
Qed.

Lemma big_step_names s d :
  at_phase (big_step s d) = Finished →
  line_name <$> lines (console (big_step s d)) = goblin_files d.
Proof.
  unfold big_step. destruct (measures s).
  - destruct (first_pass d (goblin_files d)) as [m|e]; [|done]. intros _.
    apply loop_end_names. by rewrite lines_app, lines_heading.
  - intros _. apply loop_end_names, lines_heading.
Qed.

(** C20. Wherever a goblin script is, it goes on to its end, within the
    statements its weight counts; it ends finished unless a file of the
    listing does not decode in the first pass, and a script that ends
    finished has printed one line of the loop for every file of the
    listing, in the order of the listing. *)
Theorem script_reaches_end s d c :
  rtc (step s) (init d) c →
  rtc (step s) c (exec s d) ∧ halted (exec s d) = true ∧
  (weight c ≤ 2 * length (goblin_files d) + 3)%nat ∧
  (at_phase (exec s d) = Finished ↔
     measures s = false ∨ all_images d (goblin_files d)) ∧
  (at_phase (exec s d) = Finished →
     line_name <$> lines (console (exec s d)) = goblin_files d).
Proof.
  intros Hc. split_and!.
  - rewrite (reachable_exec _ _ _ Hc). apply run_rtc.
  - apply run_halted.
  - apply rtc_nsteps in Hc as [k Hk%nsteps_weight].
    unfold weight at 2 in Hk. simpl in Hk. lia.
  - rewrite exec_big_step. apply big_step_Finished.
  - rewrite exec_big_step. apply big_step_names.
Qed.

Lemma script_reaches_end_witness :
  line_name <$> lines (console (exec crop_goblin_tight_script sample_folder)) =
    ["goblin_idle.png"; "goblin_notes.png"; "goblin_thin.png"].
Proof.
  destruct (script_reaches_end crop_goblin_tight_script sample_folder
              (init sample_folder)) as (_ & _ & _ & _ & Hn); [done|].
  by apply Hn.
Defined.

(** A goblin script writes nothing before its loop: while it lists
    and measures the folder is the one it started from, and a script
    that dies does so in its first pass, of a file that does not decode,
    with the folder untouched. *)
Theorem no_write_before_loop s d c :
  rtc (step s) (init d) c →
  match at_phase c with
  | Start | Measuring _ _ => disk c = d
  | Crashed e =>
      disk c = d ∧ measures s = true ∧ e = OSError ∧
      ¬ all_images d (goblin_files d)
  | Working _ _ | Finished => True
  end.
Proof.
  intros Hc. pose proof (reachable_consistent _ _ _ Hc) as Hi.
  pose proof (reachable_exec _ _ _ Hc) as He. rewrite exec_big_step in He.
  destruct c as [d' l [|m todo|canvas todo| |e] out];
    unfold consistent in Hi; simpl in *; try done; [by destruct Hi..|].
  destruct Hi as (-> & -> & Hm). split_and!; [done..| |].
  - unfold big_step in He. rewrite Hm in He.
    destruct (first_pass d (goblin_files d)) as [m|e'] eqn:Hf; [done|].
    apply first_pass_Raise in Hf. congruence.
  - intros Hall. assert (at_phase (big_step s d) = Finished) as Hfin
      by (apply big_step_Finished; by right).
    by rewrite He in Hfin.
Qed.

Lemma no_write_before_loop_witness :
  disk (exec uniform_goblin_bottom_script sample_folder) = sample_folder ∧
  measures uniform_goblin_bottom_script = true ∧ OSError = OSError ∧
  ¬ all_images sample_folder (goblin_files sample_folder).
Proof.
  exact (no_write_before_loop uniform_goblin_bottom_script sample_folder
           (exec uniform_goblin_bottom_script sample_folder) (run_rtc _ _ _)).
Defined.
