(* ===== verification/Extract.v ===== *)
(** * Extract: the hurt animation scripts

    src/extract_goblin_hurt.py takes the first five frames of the attack
    animation, src/extract_goblin_hurt_full.py the frames whose names
    carry a number up to 110, and both write them as
    goblin_hurt_0001.png, goblin_hurt_0002.png, ... into the sprite
    folder after the tight crop and the placement on a 201 x 201 canvas
    ([hurt_frame] of [Canvas]).  The source folder is only read; the
    second script first deletes every file of the sprite folder whose name
    starts with goblin_hurt_.

    [sorted], [enumerate], the format [{i:04d}], [int] and slicing are
    Python's; they are modelled for ASCII strings. *)

From Stdlib Require Import ZArith Lia Ascii String.
From stdpp Require Import base tactics option list numbers strings gmap
  sorting pretty.
From S2P Require Import Prelude Image BBox Crop Canvas Folder Batch.

(** ** Python's list and string functions *)

(** [sorted(names)]: strings compare character by character. *)
Definition sorted (l : list string) : list string := merge_sort String.le l.

(** [enumerate(l, start)]. *)
Definition enumerate (start : Z) (l : list string) : list (Z * string) :=
  imap (λ k x, (start + Z.of_nat k, x)) l.

(** One decimal digit. *)
Definition digit (n : Z) : ascii := pretty_N_char (Z.to_N n).

(** [f"{i:04d}"]: the decimal digits, padded with zeros to four
    characters, the sign included. *)
Definition four_digits (n : Z) : string :=
  String (digit ((n // 1000) `mod` 10)) (String (digit ((n // 100) `mod` 10))
    (String (digit ((n // 10) `mod` 10)) (String (digit (n `mod` 10)) ""))).

Definition three_digits (n : Z) : string :=
  String (digit ((n // 100) `mod` 10))
    (String (digit ((n // 10) `mod` 10)) (String (digit (n `mod` 10)) "")).

Definition format_04d (i : Z) : string :=
  if decide (0 ≤ i) then
    if decide (i < 10000) then four_digits i else pretty i
  else
    if decide (-1000 < i) then String "-" (three_digits (- i)) else pretty i.

(** [str.isspace] on one ASCII character. *)
Definition isspace (c : ascii) : bool :=
  Ascii.is_space c || bool_decide (28 ≤ nat_of_ascii c ≤ 31)%nat.

Fixpoint lstrip (l : list ascii) : list ascii :=
  match l with
  | c :: l' => if isspace c then lstrip l' else l
  | [] => []
  end.

Definition strip (l : list ascii) : list ascii :=
  reverse (lstrip (reverse (lstrip l))).

Definition digit_value (c : ascii) : option Z := Z.of_nat <$> Ascii.is_nat c.

(** The digits after the first one; a single underscore may stand
    between two digits. *)
Fixpoint int_digits (acc : Z) (l : list ascii) : option Z :=
  match l with
  | [] => Some acc
  | c :: l' =>
      match digit_value c with
      | Some v => int_digits (10 * acc + v) l'
      | None =>
          if decide (c = "_"%char) then
            match l' with
            | c' :: l'' =>
                match digit_value c' with
                | Some v => int_digits (10 * acc + v) l''
                | None => None
                end
            | [] => None
            end
          else None
      end
  end.

Definition int_unsigned (l : list ascii) : option Z :=
  match l with
  | c :: l' =>
      match digit_value c with
      | Some v => int_digits v l'
      | None => None
      end
  | [] => None
  end.

(** The digits, and the number a run of digits writes after [acc]. *)
Definition is_digit (c : ascii) : Prop := is_Some (digit_value c).

Definition read_digit (acc : Z) (c : ascii) : Z :=
  10 * acc + default 0 (digit_value c).

(** [int(s)] in base 10: surrounding white space, an optional sign,
    digits with single underscores between them; [ValueError]
    otherwise. *)
Definition int (s : string) : result Z :=
  let l := strip (list_ascii_of_string s) in
  of_option ValueError
    match l with
    | c :: r =>
        if decide (c = "-"%char) then Z.opp <$> int_unsigned r
        else if decide (c = "+"%char) then int_unsigned r
        else int_unsigned l
    | [] => None
    end.

(** [filter] with a test that may raise, as a list comprehension whose
    condition raises. *)
Fixpoint filter_result {X} (p : X → result bool) (l : list X) : result (list X) :=
  match l with
  | [] => Ok []
  | x :: l' =>
      b ← p x;
      r ← filter_result p l';
      Ok (if b : bool then x :: r else r)
  end.

(** ** The scripts *)

(** [[f for f in os.listdir(source_folder) if f.endswith('.png')]]. *)
Definition png_files (source : folder) : list string :=
  filter (λ f, endswith f ".png") (listdir source).

(** [atk2_files = sorted([...])[:5]]. *)
Definition atk2_files (source : folder) : list string :=
  take 5 (sorted (png_files source)).

(** [dest_filename = f"goblin_hurt_{i:04d}.png"]. *)
Definition dest_filename (i : Z) : string :=
  "goblin_hurt_" +:+ format_04d i +:+ ".png".

(** The lines the two scripts print: the two lines before the loops,
    the line of a deleted file and the empty line after the deletions,
    the three lines of the loop over the frames, and the closing line. *)
Inductive hurt_line : Set :=
  | Extracting (n : nat)
  | UniformCanvas (canvas : Z * Z)
  | Deleted (old_file : string)
  | BlankLine
  | Created (dest_filename filename : string)
  | SkippedFrame (filename : string)
  | FrameError (filename : string) (e : exn)
  | DoneCreated (n : nat).

#[global] Instance hurt_line_eq_dec : EqDecision hurt_line.
Proof. solve_decision. Defined.

(** One iteration of [for i, filename in enumerate(files, start=1)]: the
    frame is read from the source folder and the canvas is saved in the
    destination folder under the numbered name. *)
Definition extract_frame (source : folder) (st : folder * list hurt_line)
  (entry : Z * string) : folder * list hurt_line :=
  let '(i, filename) := entry in
  let dest_filename := dest_filename i in
  match (img ← Image_open source filename; hurt_frame img) with
  | Ok (Written canvas) =>
      (save st.1 dest_filename canvas, st.2 ++ [Created dest_filename filename])
  | Ok Skipped => (st.1, st.2 ++ [SkippedFrame filename])
  | Raise e => (st.1, st.2 ++ [FrameError filename e])
  end.

(** src/extract_goblin_hurt.py.  The listing of the sprite folder at
    line 14 is not used by the script; the closing line prints the
    number of frames selected. *)
Definition extract_goblin_hurt_main (source dest : folder)
  : folder * list hurt_line :=
  let atk2_files := atk2_files source in
  let out := [Extracting (length atk2_files)] in
  let goblin_files := goblin_files dest in
  let out := out ++ [UniformCanvas hurt_canvas] in
  let st := foldl (extract_frame source) (dest, out) (enumerate 1 atk2_files) in
  (st.1, st.2 ++ [DoneCreated (length atk2_files)]).

(** [hurt_files = [f for f in all_files
                     if f.startswith('01') and int(f[0:4]) <= 110]]:
    [and] does not evaluate [int] when the name does not start with 01;
    when it does, [int] may raise. *)
Definition hurt_files (source : folder) : result (list string) :=
  let all_files := sorted (png_files source) in
  filter_result
    (λ f, if startswith f "01"
          then n ← int (substring 0 4 f); Ok (bool_decide (n ≤ 110))
          else Ok false)
    all_files.

(** [old_hurt = [f for f in os.listdir(dest_folder)
                   if f.startswith('goblin_hurt_')]] and the loop that
    removes them. *)
Definition old_hurt (dest : folder) : list string :=
  filter (λ f, startswith f "goblin_hurt_") (listdir dest).

Definition remove_old (dest : folder) : folder * list hurt_line :=
  foldl (λ st old_file, (remove st.1 old_file, st.2 ++ [Deleted old_file]))
        (dest, []) (old_hurt dest).

(** src/extract_goblin_hurt_full.py: the selection of the frames can
    raise, and then nothing has been deleted or written. *)
Definition extract_goblin_hurt_full_main (source dest : folder)
  : result (folder * list hurt_line) :=
  hurt_files ← hurt_files source;
  let out := [Extracting (length hurt_files); UniformCanvas hurt_canvas] in
  let st := remove_old dest in
  let st := (st.1, out ++ st.2 ++ [BlankLine]) in
  let st := foldl (extract_frame source) st (enumerate 1 hurt_files) in
  Ok (st.1, st.2 ++ [DoneCreated (length hurt_files)]).

(** ** Specification helpers *)

(** The line an iteration prints for a frame. *)
Definition frame_line (source : folder) (entry : Z * string) : hurt_line :=
  match (img ← Image_open source entry.2; hurt_frame img) with
  | Ok (Written _) => Created (dest_filename entry.1) entry.2
  | Ok Skipped => SkippedFrame entry.2
  | Raise e => FrameError entry.2 e
  end.

(** The number of frames a console says were created, line by line. *)
Definition is_created (l : hurt_line) : bool :=
  match l with Created _ _ => true | _ => false end.

Definition created (log : list hurt_line) : nat :=
  length (filter (λ l, is_created l) log).

(** The file an iteration writes for a frame, if it writes one. *)
Definition frame_file (source : folder) (filename : string) : option file :=
  match (img ← Image_open source filename; hurt_frame img) with
  | Ok (Written canvas) => Some (ImageFile canvas)
  | Ok Skipped | Raise _ => None
  end.

(** Sample folders: three frames of the attack animation, one of them
    blank, and a sprite folder with an old frame 7. *)
Definition sample_source : folder :=
  <["0101.png" := ImageFile sprite_block]>
  (<["0100.png" := ImageFile sprite_column]>
  (<["0120.png" := ImageFile sprite_blank]>
  (<["notes.txt" := OtherFile]> ∅))).

Definition sample_dest : folder :=
  <["goblin_hurt_0007.png" := ImageFile sprite_block]>
  (<["goblin_idle.png" := ImageFile sprite_block]> ∅).

(** A source folder with a name that starts with 01 and carries no
    number. *)
Definition sample_source_bad : folder :=
  <["01ab.png" := ImageFile sprite_block]> sample_source.

(** ** Digits *)

Lemma digit_value_digit x : 0 ≤ x < 10 → digit_value (digit x) = Some x.
Proof.
  intros Hx.
  assert (x = 0 ∨ x = 1 ∨ x = 2 ∨ x = 3 ∨ x = 4 ∨ x = 5 ∨ x = 6 ∨ x = 7 ∨
          x = 8 ∨ x = 9) as Hc by lia.
  by repeat destruct Hc as [->|Hc]; [..|subst x].
Qed.

(** A digit is neither white space nor a sign nor an underscore. *)
Lemma digit_value_Some c v :
  digit_value c = Some v →
  isspace c = false ∧ c ≠ "-"%char ∧ c ≠ "+"%char ∧ c ≠ "_"%char.
Proof.
  destruct c as [[] [] [] [] [] [] [] []]; by vm_compute.
Qed.

Lemma lstrip_digit c l v : digit_value c = Some v → lstrip (c :: l) = c :: l.
Proof. intros [Hs _]%digit_value_Some. simpl. by rewrite Hs. Qed.

Lemma int_digits_digit acc c l v :
  digit_value c = Some v → int_digits acc (c :: l) = int_digits (10 * acc + v) l.
Proof. intros Hc. simpl. by rewrite Hc. Qed.

(** [int] reads four digits as the number they write. *)
Lemma int_four_chars a b c d va vb vc vd :
  digit_value a = Some va → digit_value b = Some vb →
  digit_value c = Some vc → digit_value d = Some vd →
  int (String a (String b (String c (String d "")))) =
    Ok (1000 * va + 100 * vb + 10 * vc + vd).
Proof.
  intros Ha Hb Hc Hd. unfold int, strip. simpl list_ascii_of_string.
  rewrite (lstrip_digit a _ va Ha). change (reverse [a; b; c; d]) with [d; c; b; a].
  rewrite (lstrip_digit d _ vd Hd). change (reverse [d; c; b; a]) with [a; b; c; d].
  destruct (digit_value_Some _ _ Ha) as (_ & Hm & Hp & _).
  rewrite !decide_False by done. unfold int_unsigned. rewrite Ha.
  rewrite (int_digits_digit _ b _ vb Hb), (int_digits_digit _ c _ vc Hc),
    (int_digits_digit _ d _ vd Hd).
  simpl. do 2 f_equal. lia.
Qed.

Lemma int_four_digits n : 0 ≤ n < 10000 → int (four_digits n) = Ok n.
Proof.
  intros Hn. unfold four_digits.
  rewrite (int_four_chars _ _ _ _ ((n // 1000) `mod` 10) ((n // 100) `mod` 10)
             ((n // 10) `mod` 10) (n `mod` 10))
    by (apply digit_value_digit; zdiv).
  f_equal. zdiv.
Qed.

Lemma format_04d_four_digits i : 0 ≤ i < 10000 → format_04d i = four_digits i.
Proof. intros Hi. unfold format_04d. by rewrite !decide_True by lia. Qed.

(** ** Reading back what the format writes *)

(** A run of digits is read digit by digit. *)
Lemma int_digits_app l : ∀ acc r,
  Forall is_digit l → int_digits acc (l ++ r) = int_digits (foldl read_digit acc l) r.
Proof.
  induction l as [|c l IH]; intros acc r Hl; [done|].
  apply Forall_cons in Hl as [[v Hc] Hl]. cbn [app foldl].
  rewrite (int_digits_digit _ _ _ v Hc), IH by done.
  do 2 f_equal. unfold read_digit. by rewrite Hc.
Qed.

Lemma digit_value_pretty_N_char x :
  (x < 10)%N → digit_value (pretty_N_char x) = Some (Z.of_N x).
Proof.
  intros Hx. rewrite <- (N2Z.id x) at 1. apply digit_value_digit. lia.
Qed.

(** The decimal notation of [x] is a run of digits that writes [x]. *)
Lemma pretty_N_go_digits x : ∀ s,
  ∃ l, list_ascii_of_string (pretty_N_go x s) = l ++ list_ascii_of_string s ∧
       Forall is_digit l ∧ foldl read_digit 0 l = Z.of_N x ∧ ((0 < x)%N → l ≠ []).
Proof.
  induction (N.lt_wf_0 x) as [x _ IH]; intros s.
  assert (x = 0 ∨ 0 < x)%N as [->|Hx] by lia.
  { exists []. rewrite pretty_N_go_0. split_and!; [done|constructor|done|lia]. }
  rewrite pretty_N_go_step by done.
  destruct (IH (x `div` 10)%N ltac:(by apply N.div_lt)
              (String (pretty_N_char (x `mod` 10)) s)) as (l & -> & Hl & Hv & _).
  pose proof (digit_value_pretty_N_char (x `mod` 10)%N ltac:(by apply N.mod_lt)) as Hc.
  exists (l ++ [pretty_N_char (x `mod` 10)]). split_and!.
  - by rewrite <- app_assoc.
  - apply Forall_app. split; [done|]. apply Forall_singleton. by eexists.
  - rewrite foldl_app. cbn [foldl]. rewrite Hv. unfold read_digit. rewrite Hc. simpl.
    rewrite (N.div_mod x 10) at 3 by done. lia.
  - intros _. by destruct l.
Qed.

Lemma strip_digits l : l ≠ [] → Forall is_digit l → strip l = l.
Proof.
  intros Hne Hl. unfold strip.
  assert (∀ k, k ≠ [] → Forall is_digit k → lstrip k = k) as Hk.
  { intros [|c k] Hk Hd; [done|]. apply Forall_cons in Hd as [[v Hc] _].
    by eapply lstrip_digit. }
  rewrite (Hk l) by done. rewrite Hk, reverse_involutive; [done| |by apply Forall_reverse].
  intros Hr. apply (f_equal reverse) in Hr. by rewrite reverse_involutive in Hr.
Qed.

Lemma int_unsigned_digits l :
  l ≠ [] → Forall is_digit l → int_unsigned l = Some (foldl read_digit 0 l).
Proof.
  destruct l as [|c l]; [done|]. intros _ [[v Hc] Hl]%Forall_cons.
  unfold int_unsigned. rewrite Hc. rewrite <- (app_nil_r l) at 1.
  rewrite int_digits_app by done. cbn [foldl int_digits].
  do 2 f_equal. unfold read_digit. by rewrite Hc.
Qed.

Lemma int_digits_string s :
  list_ascii_of_string s ≠ [] → Forall is_digit (list_ascii_of_string s) →
  int s = Ok (foldl read_digit 0 (list_ascii_of_string s)).
Proof.
  intros Hne Hl. unfold int. rewrite strip_digits by done.
  destruct (list_ascii_of_string s) as [|c l] eqn:Hs; [done|].
  pose proof Hl as [[v Hc] _]%Forall_cons.
  destruct (digit_value_Some _ _ Hc) as (_ & Hm & Hp & _).
  rewrite !decide_False by done. by rewrite int_unsigned_digits.
Qed.

Lemma int_minus_digits s :
  list_ascii_of_string s ≠ [] → Forall is_digit (list_ascii_of_string s) →
  int (String "-" s) = Ok (- foldl read_digit 0 (list_ascii_of_string s)).
Proof.
  intros Hne Hl. unfold int, strip. cbn [list_ascii_of_string].
  change (lstrip ("-"%char :: ?l)) with ("-"%char :: l).
  rewrite reverse_cons.
  destruct (reverse (list_ascii_of_string s)) as [|c l] eqn:Hr.
  { apply (f_equal reverse) in Hr. by rewrite reverse_involutive in Hr. }
  assert (is_digit c) as [v Hc].
  { apply Forall_reverse in Hl. rewrite Hr in Hl. by apply Forall_cons in Hl as [? _]. }
  cbn [app]. rewrite (lstrip_digit c _ v Hc).
  change (c :: l ++ ["-"%char]) with ((c :: l) ++ ["-"%char]).
  rewrite <- Hr, reverse_app, reverse_involutive. cbn [reverse app].
  change (reverse ["-"%char]) with ["-"%char]. cbn [app].
  rewrite decide_True by done. by rewrite int_unsigned_digits.
Qed.

Lemma int_pretty_N x : int (pretty x) = Ok (Z.of_N x).
Proof.
  unfold pretty, pretty_N. case_decide as Hx; [by subst x|].
  destruct (pretty_N_go_digits x "") as (l & Hs & Hl & Hv & Hne).
  rewrite app_nil_r in Hs. rewrite int_digits_string; rewrite Hs; [by rewrite Hv| |done].
  apply Hne. lia.
Qed.

Lemma int_pretty (i : Z) : int (pretty i) = Ok i.
Proof.
  destruct i as [|p|p]; [done|apply (int_pretty_N (N.pos p))|].
  unfold pretty, pretty_Z, pretty, pretty_positive, pretty, pretty_N.
  rewrite decide_False by done.
  destruct (pretty_N_go_digits (N.pos p) "") as (l & Hs & Hl & Hv & Hne).
  rewrite app_nil_r in Hs. change ("-" +:+ ?s) with (String "-" s).
  rewrite int_minus_digits; rewrite Hs; [by rewrite Hv| |done].
  apply Hne. lia.
Qed.

(** [int] reads back every number the format [04d] writes, whatever
    its sign and its size. *)
Lemma int_format_04d i : int (format_04d i) = Ok i.
Proof.
  unfold format_04d. repeat case_decide; try apply int_pretty.
  - by apply int_four_digits.
  - unfold three_digits.
    assert (∀ a b c, 0 ≤ a < 10 → 0 ≤ b < 10 → 0 ≤ c < 10 →
      int (String "-" (String (digit a) (String (digit b) (String (digit c) "")))) =
        Ok (- (100 * a + 10 * b + c))) as Hint.
    { intros a b c Ha Hb Hc. rewrite int_minus_digits; cbn [list_ascii_of_string].
      - cbn [foldl]. unfold read_digit. rewrite !digit_value_digit by done. simpl.
        f_equal. lia.
      - done.
      - repeat (apply Forall_cons; split; [eexists; by apply digit_value_digit|]).
        by apply Forall_nil. }
    rewrite Hint by zdiv. f_equal. zdiv.
Qed.

Lemma format_04d_inj i j : format_04d i = format_04d j → i = j.
Proof.
  intros Heq. pose proof (int_format_04d i) as Hi.
  rewrite Heq, int_format_04d in Hi. by injection Hi.
Qed.

(** ** Output names *)

Lemma app_inv_tail_string a b s : a +:+ s = b +:+ s → a = b.
Proof.
  intros Heq. apply (f_equal list_ascii_of_string) in Heq.
  assert (∀ x y, list_ascii_of_string (x +:+ y) =
                 list_ascii_of_string x ++ list_ascii_of_string y) as Happ.
  { intros x y. induction x as [|c x IH]; [done|]. simpl. by rewrite IH. }
  rewrite !Happ in Heq. apply app_inv_tail in Heq.
  by rewrite <- (string_of_list_ascii_of_string a), Heq,
    string_of_list_ascii_of_string.
Qed.

Lemma dest_filename_inj i j : dest_filename i = dest_filename j → i = j.
Proof.
  unfold dest_filename. intros Heq%(inj (String.app _)).
  by apply format_04d_inj, (app_inv_tail_string _ _ ".png").
Qed.

Lemma dest_filename_startswith i :
  startswith (dest_filename i) "goblin_hurt_" = true.
Proof. apply startswith_app. Qed.

(** The names the scripts write are names the goblin scripts select and
    names the second script deletes. *)
Lemma dest_filename_selected i :
  startswith (dest_filename i) "goblin_hurt_" = true ∧
  is_goblin_png (dest_filename i) = true.
Proof.
  split; [apply dest_filename_startswith|]. apply andb_true_iff. split.
  - apply startswith_iff. by exists ("hurt_" +:+ format_04d i +:+ ".png").
  - apply endswith_iff. exists ("goblin_hurt_" +:+ format_04d i).
    unfold dest_filename. by rewrite string_app_assoc.
Qed.

(** ** [enumerate] *)

Lemma elem_of_enumerate start l i x :
  (i, x) ∈ enumerate start l ↔ ∃ k, i = start + Z.of_nat k ∧ l !! k = Some x.
Proof.
  unfold enumerate. rewrite elem_of_lookup_imap. split.
  - intros (k & y & [= -> ->] & Hk). by exists k.
  - intros (k & -> & Hk). by exists k, x.
Qed.

Lemma enumerate_keys start l :
  (enumerate start l).*1 = seqZ start (Z.of_nat (length l)).
Proof.
  unfold enumerate. revert start. induction l as [|x l IH]; intros start; [done|].
  cbn [length imap fmap list_fmap]. rewrite Nat2Z.inj_succ, seqZ_cons by lia.
  f_equal; [simpl; lia|]. rewrite Z.pred_succ, <- (IH (Z.succ start)).
  f_equal. apply imap_ext. intros k y _. simpl. f_equal. lia.
Qed.

Lemma NoDup_dest_filenames start l :
  NoDup (dest_filename <$> (enumerate start l).*1).
Proof.
  rewrite enumerate_keys. apply NoDup_fmap_2_strong; [|apply NoDup_seqZ].
  intros i j _ _. apply dest_filename_inj.
Qed.

(** ** [sorted] and the selection of the frames *)

Lemma sorted_Permutation l : sorted l ≡ₚ l.
Proof. apply merge_sort_Permutation. Qed.

Lemma sorted_StronglySorted l : StronglySorted String.le (sorted l).
Proof. apply StronglySorted_merge_sort; apply _. Qed.

Lemma elem_of_sorted l x : x ∈ sorted l ↔ x ∈ l.
Proof. by rewrite sorted_Permutation. Qed.

Lemma elem_of_png_files (source : folder) f :
  f ∈ png_files source ↔ is_Some (source !! f) ∧ endswith f ".png" = true.
Proof.
  unfold png_files. rewrite list_elem_of_filter, elem_of_listdir.
  rewrite Is_true_true. tauto.
Qed.

Lemma NoDup_png_files (source : folder) : NoDup (png_files source).
Proof. apply NoDup_filter, NoDup_listdir. Qed.

Lemma filter_result_pure {X} (p : X → result bool) (q : X → bool) l :
  (∀ x, x ∈ l → p x = Ok (q x)) → filter_result p l = Ok (filter q l).
Proof.
  induction l as [|x l IH]; intros Hp; [done|]. simpl.
  rewrite (Hp x), IH by (by left || (intros; apply Hp; by right)). simpl.
  rewrite filter_cons. by destruct (q x).
Qed.

Lemma filter_result_Ok {X} (p : X → result bool) l r :
  filter_result p l = Ok r →
  (∀ x, x ∈ l → is_ok (p x)) ∧ ∀ x, x ∈ r ↔ x ∈ l ∧ p x = Ok true.
Proof.
  revert r. induction l as [|x l IH]; intros r.
  { intros [= <-]. split; [by intros ? ?%elem_of_nil|].
    intros x. rewrite elem_of_nil. tauto. }
  simpl. destruct (p x) as [b|] eqn:Hx; [|done]. simpl.
  destruct (filter_result p l) as [r'|]; [|done]. simpl. intros [= <-].
  destruct (IH r' eq_refl) as [Hok Hin]. split.
  - intros y [->|Hy]%elem_of_cons; [by rewrite Hx|by apply Hok].
  - intros y. destruct b; rewrite ?elem_of_cons, Hin.
    + split; [intros [->|[? ?]]; split; auto|intros [[->|?] ?]; auto].
    + split; [intros [? ?]; auto|].
      intros [[->|?] Hy]; [by rewrite Hx in Hy|done].
Qed.

Lemma filter_result_Raise {X} (p : X → result bool) l x e :
  x ∈ l → p x = Raise e → (∀ y e', p y = Raise e' → e' = e) →
  filter_result p l = Raise e.
Proof.
  intros Hin Hx Huniq. induction l as [|y l IH]; [by apply elem_of_nil in Hin|].
  simpl. destruct (p y) as [b|e'] eqn:Hy; simpl.
  - apply elem_of_cons in Hin as [->|Hin]; [by rewrite Hx in Hy|].
    by rewrite IH.
  - f_equal. by eapply Huniq.
Qed.

(** The test of the comprehension raises nothing but [ValueError]. *)
Lemma of_option_raises {A} e (o : option A) e' :
  of_option e o = Raise e' → e' = e.
Proof. destruct o; by intros [=]. Qed.

Lemma int_raises s e : int s = Raise e → e = ValueError.
Proof. apply of_option_raises. Qed.

(** ** Deleting the old frames *)

Lemma remove_old_lookup (dest : folder) k :
  (remove_old dest).1 !! k =
    if startswith k "goblin_hurt_" then None else dest !! k.
Proof.
  unfold remove_old.
  assert (∀ l (st : folder * list hurt_line),
    (foldl (λ st old_file, (remove st.1 old_file, st.2 ++ [Deleted old_file]))
       st l).1 !! k = if decide (k ∈ l) then None else st.1 !! k) as Hfold.
  { induction l as [|x l IH]; intros st; simpl; [done|].
    rewrite IH. unfold remove. simpl.
    destruct (decide (k ∈ l)) as [Hin|Hout].
    - by rewrite decide_True by by right.
    - destruct (decide (k = x)) as [->|Hne].
      + rewrite decide_True by left. apply lookup_delete_eq.
      + rewrite decide_False by (by intros [?|?]%elem_of_cons).
        by apply lookup_delete_ne. }
  rewrite Hfold. simpl. unfold old_hurt.
  destruct (startswith k "goblin_hurt_") eqn:Hk.
  - destruct (dest !! k) as [f|] eqn:Hf; [|by destruct (decide _)].
    rewrite decide_True; [done|].
    rewrite list_elem_of_filter, elem_of_listdir, Hk, Hf. by eauto.
  - rewrite decide_False; [done|]. rewrite list_elem_of_filter, Hk. by intros [? _].
Qed.

(** ** The loop over the frames *)

Lemma extract_frame_folder source st i filename :
  (extract_frame source st (i, filename)).1 =
    match frame_file source filename with
    | Some f => <[dest_filename i := f]> st.1
    | None => st.1
    end.
Proof.
  unfold extract_frame, frame_file, save.
  by destruct (Image_open source filename ≫= hurt_frame) as [[canvas|]|e].
Qed.

Lemma extract_lookup_other source entries : ∀ st k,
  (∀ i f, (i, f) ∈ entries → dest_filename i ≠ k) →
  (foldl (extract_frame source) st entries).1 !! k = st.1 !! k.
Proof.
  induction entries as [|[j g] entries IH]; intros st k Hk; [done|].
  cbn [foldl]. rewrite IH by (intros; eapply Hk; by right).
  rewrite extract_frame_folder. destruct (frame_file source g); [|done].
  apply lookup_insert_ne. eapply Hk. left.
Qed.

Lemma extract_lookup_entry source entries : ∀ st i f,
  NoDup (dest_filename <$> entries.*1) → (i, f) ∈ entries →
  (foldl (extract_frame source) st entries).1 !! dest_filename i =
    match frame_file source f with
    | Some x => Some x
    | None => st.1 !! dest_filename i
    end.
Proof.
  induction entries as [|[j g] entries IH]; intros st i f Hnd Hin;
    [by apply elem_of_nil in Hin|].
  cbn [foldl]. rewrite !fmap_cons in Hnd. cbn [fst] in Hnd.
  apply NoDup_cons in Hnd as [Hj Hnd].
  assert (∀ i' f', (i', f') ∈ entries → dest_filename i' ≠ dest_filename j) as Hfresh.
  { intros i' f' Hin' Heq. apply Hj. rewrite <- Heq.
    apply list_elem_of_fmap. exists i'. split; [done|].
    apply list_elem_of_fmap. by exists (i', f'). }
  apply elem_of_cons in Hin as [[= -> ->]|Hin].
  - rewrite extract_lookup_other by done. rewrite extract_frame_folder.
    destruct (frame_file source g); [by rewrite lookup_insert_eq|done].
  - rewrite (IH _ i f) by done. destruct (frame_file source f); [done|].
    rewrite extract_frame_folder. destruct (frame_file source g); [|done].
    apply lookup_insert_ne. intros Heq. by eapply Hfresh.
Qed.

Lemma extract_lookup_inv source entries : ∀ st k x,
  (foldl (extract_frame source) st entries).1 !! k = Some x →
  st.1 !! k = Some x ∨
  ∃ i f, (i, f) ∈ entries ∧ k = dest_filename i ∧ frame_file source f = Some x.
Proof.
  induction entries as [|[j g] entries IH]; intros st k x; [by left|].
  cbn [foldl]. intros [Hst|(i & f & Hin & -> & Hf)]%IH.
  - rewrite extract_frame_folder in Hst.
    destruct (frame_file source g) as [y|] eqn:Hg; [|by left].
    destruct (decide (dest_filename j = k)) as [<-|Hne].
    + rewrite lookup_insert_eq in Hst. injection Hst as ->.
      right. exists j, g. split; [left|done].
    + rewrite lookup_insert_ne in Hst by done. by left.
  - right. exists i, f. split; [by right|done].
Qed.

(** What a frame file is made of. *)
Lemma frame_file_Some source filename x :
  frame_file source filename = Some x ↔
  ∃ img canvas, source !! filename = Some (ImageFile img) ∧
                hurt_frame img = Ok (Written canvas) ∧ x = ImageFile canvas.
Proof.
  unfold frame_file, Image_open.
  destruct (source !! filename) as [[img|]|]; simpl;
    [|split; [done|by intros (? & ? & [=] & _)]..].
  destruct (hurt_frame img) as [[canvas|]|e] eqn:Hh;
    (split; [|intros (? & ? & [= <-] & Hh' & ->); rewrite Hh in Hh'; by simplify_eq]).
  - intros [= <-]. by exists img, canvas.
  - done.
  - done.
Qed.

Lemma filter_result_StronglySorted {X} (R : relation X) (p : X → result bool) l r :
  filter_result p l = Ok r → StronglySorted R l → StronglySorted R r.
Proof.
  intros Hr Hl. revert r Hr.
  induction Hl as [|x l Hl IH Hx]; intros r; [intros [= <-]; constructor|].
  simpl. destruct (p x) as [b|]; [|done]. simpl.
  destruct (filter_result p l) as [r'|] eqn:Hr'; [|done]. simpl. intros [= <-].
  specialize (IH r' eq_refl). destruct b; [|done]. constructor; [done|].
  apply Forall_forall. intros y Hy.
  apply (proj2 (filter_result_Ok _ _ _ Hr')) in Hy as [Hy _].
  rewrite Forall_forall in Hx. by apply Hx.
Qed.

Lemma atk2_files_length source : (length (atk2_files source) ≤ 5)%nat.
Proof. unfold atk2_files. rewrite length_take. lia. Qed.

(** ** The console *)

Lemma extract_frame_console source (d : folder) log entry :
  extract_frame source (d, log) entry =
    ((extract_frame source (d, []) entry).1, log ++ [frame_line source entry]).
Proof.
  destruct entry as [i filename]. unfold extract_frame, frame_line. simpl.
  by destruct (Image_open source filename ≫= hurt_frame) as [[canvas|]|e].
Qed.

Lemma extract_run_console source entries : ∀ (d : folder) log,
  foldl (extract_frame source) (d, log) entries =
    ((foldl (extract_frame source) (d, []) entries).1,
     log ++ (frame_line source <$> entries)).
Proof.
  induction entries as [|entry entries IH]; intros d log; simpl.
  { by rewrite app_nil_r. }
  rewrite (extract_frame_console source d log), (extract_frame_console source d []).
  set (d1 := (extract_frame source (d, []) entry).1).
  rewrite (IH d1 (log ++ _)), (IH d1 ([] ++ _)). simpl. by rewrite <- app_assoc.
Qed.

Lemma remove_run_log l : ∀ st : folder * list hurt_line,
  (foldl (λ st old_file, (remove st.1 old_file, st.2 ++ [Deleted old_file]))
     st l).2 = st.2 ++ (Deleted <$> l).
Proof.
  induction l as [|x l IH]; intros st; simpl; [by rewrite app_nil_r|].
  rewrite IH. simpl. by rewrite <- app_assoc.
Qed.

Lemma remove_old_log (dest : folder) : (remove_old dest).2 = Deleted <$> old_hurt dest.
Proof. unfold remove_old. by rewrite remove_run_log. Qed.

(** The two scripts: the folder of the loop, and the console line by
    line. *)
Lemma extract_goblin_hurt_main_unfold source dest :
  extract_goblin_hurt_main source dest =
    ((foldl (extract_frame source) (dest, []) (enumerate 1 (atk2_files source))).1,
     [Extracting (length (atk2_files source)); UniformCanvas hurt_canvas] ++
     (frame_line source <$> enumerate 1 (atk2_files source)) ++
     [DoneCreated (length (atk2_files source))]).
Proof.
  unfold extract_goblin_hurt_main. cbv zeta.
  rewrite extract_run_console. cbn [fst snd]. by rewrite <- app_assoc.
Qed.

Lemma extract_goblin_hurt_full_main_unfold source dest l :
  hurt_files source = Ok l →
  extract_goblin_hurt_full_main source dest =
    Ok ((foldl (extract_frame source) ((remove_old dest).1, []) (enumerate 1 l)).1,
        [Extracting (length l); UniformCanvas hurt_canvas] ++
        (Deleted <$> old_hurt dest) ++ [BlankLine] ++
        (frame_line source <$> enumerate 1 l) ++ [DoneCreated (length l)]).
Proof.
  intros Hl. unfold extract_goblin_hurt_full_main. rewrite Hl. simpl.
  rewrite extract_run_console, remove_old_log. cbn [fst snd].
  do 2 f_equal. simpl. by rewrite <- !app_assoc.
Qed.

Lemma created_app log log' : created (log ++ log') = (created log + created log')%nat.
Proof. unfold created. by rewrite filter_app, length_app. Qed.

Lemma is_created_frame_line source i f :
  is_created (frame_line source (i, f)) = bool_decide (is_Some (frame_file source f)).
Proof.
  unfold frame_line, frame_file. cbn [fst snd].
  destruct (Image_open source f ≫= hurt_frame) as [[canvas|]|e];
    cbn [is_created]; symmetry;
    [apply bool_decide_eq_true_2; by eexists|
     apply bool_decide_eq_false_2; by intros [? [=]]..].
Qed.

Lemma created_frame_lines source l start :
  created (frame_line source <$> enumerate start l) =
    length (filter (λ f, is_Some (frame_file source f)) l).
Proof.
  unfold created, enumerate. revert start.
  induction l as [|f l IH] using rev_ind; intros start; [done|].
  rewrite imap_app, fmap_app, !filter_app, !length_app, IH. f_equal.
  cbn [imap fmap list_fmap]. rewrite !filter_cons, !filter_nil.
  rewrite is_created_frame_line.
  destruct (decide (is_Some (frame_file source f))) as [Hf|Hf].
  - by rewrite decide_True by by apply bool_decide_pack.
  - rewrite decide_False; [done|]. by intros ?%bool_decide_unpack.
Qed.

(** ** What the extract scripts may change *)

Lemma sample_source_wf : folder_wf sample_source.
Proof.
  unfold sample_source. repeat apply map_Forall_insert_2;
    [apply sprite_block_wf|apply sprite_column_wf|apply sprite_blank_wf|done|].
  apply map_Forall_empty.
Qed.

Lemma sample_dest_wf : folder_wf sample_dest.
Proof.
  unfold sample_dest. repeat apply map_Forall_insert_2;
    [apply sprite_block_wf..|]. apply map_Forall_empty.
Qed.

Lemma remove_old_typed (dest : folder) : typed_update dest (remove_old dest).1.
Proof.
  intros k. rewrite remove_old_lookup.
  destruct (startswith k "goblin_hurt_"); [by right; left|by left].
Qed.

Lemma extract_frame_typed source st entry :
  folder_wf source → typed_update st.1 (extract_frame source st entry).1.
Proof.
  intros Hs. destruct entry as [i filename]. unfold extract_frame.
  destruct (Image_open source filename) as [img|] eqn:Ho; simpl; [|done].
  apply Image_open_Ok in Ho. pose proof (folder_wf_lookup _ _ _ Hs Ho) as Hwf.
  destruct (hurt_frame img) as [[out|]|e] eqn:Hb; simpl; [|done..].
  destruct (body_typed _ _ Hwf Hb). by apply typed_update_save.
Qed.

Lemma extract_run_typed source entries : ∀ st,
  folder_wf source →
  typed_update st.1 (foldl (extract_frame source) st entries).1.
Proof.
  induction entries as [|entry entries IH]; intros st Hs; [done|].
  cbn [foldl]. etrans; [by apply extract_frame_typed|by apply IH].
Qed.

(** ** Properties *)

(** C11. Whatever a script finds, every file of the folder it works on is
    afterwards the file that was there, gone, or a well-formed RGBA
    image: the five goblin scripts on their folder, the two extract
    scripts on their destination. *)
Theorem scripts_typed_update d source :
  folder_wf d → folder_wf source →
  typed_update d (crop_goblin_tight_main d).1 ∧
  typed_update d (crop_goblin_sprites_main d).1 ∧
  (∀ r, align_goblin_bottom_main d = Ok r → typed_update d r.1) ∧
  (∀ r, resize_goblin_uniform_main d = Ok r → typed_update d r.1) ∧
  (∀ r, uniform_goblin_bottom_main d = Ok r → typed_update d r.1) ∧
  typed_update d (extract_goblin_hurt_main source d).1 ∧
  (∀ r, extract_goblin_hurt_full_main source d = Ok r → typed_update d r.1).
Proof.
  intros Hd Hs. split_and!.
  - by apply (run_typed crop_tight _ (d, [])).
  - by apply (run_typed crop_padded _ (d, [])).
  - intros r. by apply paste_main_typed with (1 := align_bottom_place).
  - unfold resize_goblin_uniform_main. intros r.
    destruct (first_pass _ _) as [m|]; simpl; [|done]. intros [= <-].
    by apply paste_run_typed with (1 := resize_uniform_place _).
  - unfold uniform_goblin_bottom_main. intros r.
    destruct (first_pass _ _) as [m|]; simpl; [|done]. intros [= <-].
    by apply paste_run_typed with (1 := uniform_bottom_place _ _).
  - rewrite extract_goblin_hurt_main_unfold.
    by apply (extract_run_typed source _ (d, [])).
  - intros r. destruct (hurt_files source) as [l|] eqn:Hl;
      [|by unfold extract_goblin_hurt_full_main; rewrite Hl].
    rewrite (extract_goblin_hurt_full_main_unfold _ _ l Hl). intros [= <-].
    etrans; [apply remove_old_typed|].
    by apply (extract_run_typed source _ ((remove_old d).1, [])).
Qed.

(** The scripts keep every image of the folder well formed. *)
Lemma scripts_typed_update_witness :
  typed_update sample_dest (extract_goblin_hurt_main sample_source sample_dest).1 ∧
  folder_wf (crop_goblin_tight_main sample_folder).1.
Proof.
  destruct (scripts_typed_update sample_dest sample_source
              sample_dest_wf sample_source_wf) as (_ & _ & _ & _ & _ & He & _).
  destruct (scripts_typed_update sample_folder sample_source
              sample_folder_wf sample_source_wf) as (Ht & _).
  split; [done|]. eapply typed_update_wf; [done|apply sample_folder_wf].
Defined.


(** C26. extract_goblin_hurt.py writes at most five files: the frame with
    the k-th smallest name of the source folder goes to
    goblin_hurt_000k.png when its body writes, and when the body skips
    or raises the file of that name stays as it was; every other file of
    the sprite folder is untouched, among them the frames with a number
    above five that an earlier run has left. *)
Theorem extract_goblin_hurt_main_spec source dest :
  (∀ k filename, atk2_files source !! k = Some filename →
     (extract_goblin_hurt_main source dest).1 !! dest_filename (1 + Z.of_nat k) =
       match frame_file source filename with
       | Some x => Some x
       | None => dest !! dest_filename (1 + Z.of_nat k)
       end) ∧
  (∀ name, (∀ k, (k < length (atk2_files source))%nat →
                 name ≠ dest_filename (1 + Z.of_nat k)) →
     (extract_goblin_hurt_main source dest).1 !! name = dest !! name) ∧
  (∀ j, 5 < j →
     (extract_goblin_hurt_main source dest).1 !! dest_filename j =
       dest !! dest_filename j).
Proof.
  pose proof (atk2_files_length source) as Hlen.
  rewrite extract_goblin_hurt_main_unfold. cbn [fst].
  assert (∀ name, (∀ k, (k < length (atk2_files source))%nat →
                        name ≠ dest_filename (1 + Z.of_nat k)) →
     (foldl (extract_frame source) (dest, []) (enumerate 1 (atk2_files source))).1
       !! name = dest !! name) as Hother.
  { intros name Hname. apply extract_lookup_other.
    intros i f (k & -> & Hk)%elem_of_enumerate Heq.
    apply lookup_lt_Some in Hk. by eapply Hname. }
  split_and!; [|done|].
  - intros k filename Hk.
    rewrite (extract_lookup_entry _ _ _ _ filename); [done| |].
    + apply NoDup_dest_filenames.
    + apply elem_of_enumerate. by exists k.
  - intros j Hj. apply Hother. intros k Hk Heq.
    apply dest_filename_inj in Heq; lia.
Qed.

(** The frames extract_goblin_hurt.py takes are the five smallest
    names ending in .png of the source folder, in increasing order (all
    of them when there are fewer than five). *)
Theorem atk2_files_spec source :
  length (atk2_files source) = min 5 (length (png_files source)) ∧
  StronglySorted String.le (atk2_files source) ∧
  (∀ f, f ∈ atk2_files source → f ∈ png_files source) ∧
  (∀ f g, f ∈ atk2_files source → g ∈ png_files source →
          g ∉ atk2_files source → String.le f g).
Proof.
  unfold atk2_files. set (s := sorted (png_files source)).
  pose proof (sorted_StronglySorted (png_files source)) as Hs. fold s in Hs.
  rewrite <- (take_drop 5 s) in Hs. split_and!.
  - rewrite length_take. unfold s.
    by rewrite (Permutation_length (sorted_Permutation (png_files source))).
  - by eapply StronglySorted_app_1_l.
  - intros f (k & Hk & _)%elem_of_take. apply elem_of_sorted.
    by eapply list_elem_of_lookup_2.
  - intros f g Hf Hg Hout. eapply StronglySorted_app_1_elem_of; [done..|].
    apply elem_of_sorted in Hg. fold s in Hg.
    rewrite <- (take_drop 5 s), elem_of_app in Hg. by destruct Hg.
Qed.

(** The name of frame i is goblin_hurt_ followed by the number as the
    format writes it and by .png: different frames get different names,
    whatever their numbers, every name is one the goblin scripts select
    and one the second script deletes as an old frame, and for i below
    10000 the number is the four characters after the prefix, which
    [int] reads back as i. *)
Theorem dest_filename_spec i j :
  (dest_filename i = dest_filename j → i = j) ∧
  is_goblin_png (dest_filename i) = true ∧
  startswith (dest_filename i) "goblin_hurt_" = true ∧
  int (format_04d i) = Ok i ∧
  (0 ≤ i < 10000 → int (substring 12 4 (dest_filename i)) = Ok i).
Proof.
  destruct (dest_filename_selected i) as [Hs Hg].
  split_and!; [by apply dest_filename_inj|done..|apply int_format_04d|].
  intros Hi. unfold dest_filename. rewrite format_04d_four_digits by done.
  by apply int_four_digits.
Qed.

Lemma dest_filename_spec_witness :
  (dest_filename 7 = dest_filename 12345 → 7 = 12345) ∧
  is_goblin_png (dest_filename 7) = true ∧
  startswith (dest_filename 7) "goblin_hurt_" = true ∧
  int (format_04d 7) = Ok 7 ∧
  (0 ≤ 7 < 10000 → int (substring 12 4 (dest_filename 7)) = Ok 7).
Proof. apply (dest_filename_spec 7 12345). Defined.

(** C27. A name of the source folder that ends in .png and starts with 01
    but whose first four characters are not a number ends
    extract_goblin_hurt_full.py with [ValueError] while it selects the
    frames, outside any [try]: nothing is deleted and nothing is
    written. *)
Theorem extract_goblin_hurt_full_main_raises source dest f e :
  f ∈ png_files source → startswith f "01" = true →
  int (substring 0 4 f) = Raise e →
  extract_goblin_hurt_full_main source dest = Raise ValueError.
Proof.
  intros Hf H01 Hint. unfold extract_goblin_hurt_full_main, hurt_files.
  rewrite (filter_result_Raise _ _ f ValueError); [done|by apply elem_of_sorted| |].
  - rewrite H01, Hint. simpl. f_equal. by eapply int_raises.
  - intros y e'. destruct (startswith y "01"); [|done].
    destruct (int (substring 0 4 y)) as [n|e''] eqn:Hy; simpl; [done|].
    intros [= <-]. by eapply int_raises.
Qed.

Lemma extract_goblin_hurt_full_main_raises_witness :
  extract_goblin_hurt_full_main sample_source_bad sample_dest = Raise ValueError.
Proof.
  apply (extract_goblin_hurt_full_main_raises sample_source_bad sample_dest
           "01ab.png" ValueError); [|done..].
  apply elem_of_png_files. split; [by eexists|by vm_compute].
Defined.

(** C38. When the selection of extract_goblin_hurt_full.py returns, the
    frames are in increasing order of their names, and a name is selected
    exactly when it ends in .png, starts with 01 and its first four
    characters are a number that is at most 110. *)
Theorem hurt_files_spec source l :
  hurt_files source = Ok l →
  StronglySorted String.le l ∧
  ∀ f, f ∈ l ↔ f ∈ png_files source ∧ startswith f "01" = true ∧
               ∃ n, int (substring 0 4 f) = Ok n ∧ n ≤ 110.
Proof.
  unfold hurt_files. intros Hl. split.
  { eapply filter_result_StronglySorted; [done|apply sorted_StronglySorted]. }
  intros f. rewrite (proj2 (filter_result_Ok _ _ _ Hl) f), elem_of_sorted.
  destruct (startswith f "01"); [|by split; [intros [_ [=]]|intros (_ & [=] & _)]].
  destruct (int (substring 0 4 f)) as [n|e]; simpl.
  - split.
    + intros [Hf [= Hn%bool_decide_eq_true_1]]. eauto.
    + intros (Hf & _ & m & [= <-] & Hm). by rewrite bool_decide_eq_true_2.
  - split; [by intros [_ [=]]|by intros (_ & _ & m & [=] & _)].
Qed.

Lemma hurt_files_spec_witness :
  StronglySorted String.le ["0100.png"; "0101.png"] ∧
  ∀ f, f ∈ ["0100.png"; "0101.png"] ↔
       f ∈ png_files sample_source ∧ startswith f "01" = true ∧
       ∃ n, int (substring 0 4 f) = Ok n ∧ n ≤ 110.
Proof. apply (hurt_files_spec sample_source). by vm_compute. Defined.

(** C25. When the selection returns, extract_goblin_hurt_full.py returns;
    afterwards every file of the sprite folder whose name starts with
    goblin_hurt_ is a frame this run has written, numbered by the
    position of its source in the selection, every other file is as it
    was, and the name of the k-th frame, however many frames there are,
    holds what the body writes for the k-th source and is absent when
    the body skips or raises, whatever it held before. *)
Theorem extract_goblin_hurt_full_main_spec source dest l :
  hurt_files source = Ok l →
  ∃ dest' log, extract_goblin_hurt_full_main source dest = Ok (dest', log) ∧
    (∀ name, startswith name "goblin_hurt_" = false →
             dest' !! name = dest !! name) ∧
    (∀ name x, startswith name "goblin_hurt_" = true → dest' !! name = Some x →
       ∃ k f, l !! k = Some f ∧ name = dest_filename (1 + Z.of_nat k) ∧
              frame_file source f = Some x) ∧
    (∀ k f, l !! k = Some f →
       dest' !! dest_filename (1 + Z.of_nat k) = frame_file source f).
Proof.
  intros Hl. rewrite (extract_goblin_hurt_full_main_unfold _ _ l Hl).
  do 2 eexists. split; [done|]. split_and!.
  - intros name Hname. rewrite extract_lookup_other.
    + cbn [fst]. by rewrite remove_old_lookup, Hname.
    + intros i f _ <-. by rewrite dest_filename_startswith in Hname.
  - intros name x Hname [Hold|(i & f & Hin & -> & Hf)]%extract_lookup_inv.
    + cbn [fst] in Hold. by rewrite remove_old_lookup, Hname in Hold.
    + apply elem_of_enumerate in Hin as (k & -> & Hk). by exists k, f.
  - intros k f Hk. rewrite (extract_lookup_entry _ _ _ _ f);
      [|apply NoDup_dest_filenames|apply elem_of_enumerate; by exists k].
    destruct (frame_file source f); [done|]. cbn [fst].
    by rewrite remove_old_lookup, dest_filename_startswith.
Qed.

Lemma extract_goblin_hurt_full_main_spec_witness :
  ∃ dest' log,
    extract_goblin_hurt_full_main sample_source sample_dest = Ok (dest', log) ∧
    (∀ name, startswith name "goblin_hurt_" = false →
             dest' !! name = sample_dest !! name) ∧
    (∀ name x, startswith name "goblin_hurt_" = true → dest' !! name = Some x →
       ∃ k f, ["0100.png"; "0101.png"] !! k = Some f ∧
              name = dest_filename (1 + Z.of_nat k) ∧
              frame_file sample_source f = Some x) ∧
    (∀ k f, ["0100.png"; "0101.png"] !! k = Some f →
       dest' !! dest_filename (1 + Z.of_nat k) = frame_file sample_source f).
Proof.
  apply (extract_goblin_hurt_full_main_spec sample_source sample_dest).
  by vm_compute.
Defined.

(** C28. The console of the two extract scripts, line by line: the number
    of frames selected and the canvas, for the second script the files
    deleted and an empty line, one line per selected frame in the order
    of the selection, and a closing line that gives the number of frames
    selected, whereas the frames created are those whose source decodes
    and has content. *)
Theorem extract_mains_console source dest :
  (extract_goblin_hurt_main source dest).2 =
    [Extracting (length (atk2_files source)); UniformCanvas (201, 201)] ++
    (frame_line source <$> enumerate 1 (atk2_files source)) ++
    [DoneCreated (length (atk2_files source))] ∧
  created (extract_goblin_hurt_main source dest).2 =
    length (filter (λ f, is_Some (frame_file source f)) (atk2_files source)) ∧
  (∀ l, hurt_files source = Ok l →
     ∃ dest', extract_goblin_hurt_full_main source dest =
       Ok (dest',
           [Extracting (length l); UniformCanvas (201, 201)] ++
           (Deleted <$> old_hurt dest) ++ [BlankLine] ++
           (frame_line source <$> enumerate 1 l) ++ [DoneCreated (length l)])).
Proof.
  rewrite extract_goblin_hurt_main_unfold. cbn [snd]. split_and!; [done| |].
  - by rewrite !created_app, created_frame_lines.
  - intros l Hl. rewrite (extract_goblin_hurt_full_main_unfold _ _ l Hl). by eexists.
Qed.

(** On the sample folder, whose third frame is blank, the closing line
    says three frames and two were created. *)
Example extract_done_line_sample :
  last (extract_goblin_hurt_main sample_source sample_dest).2 = Some (DoneCreated 3) ∧
  created (extract_goblin_hurt_main sample_source sample_dest).2 = 2%nat.
Proof. by vm_compute. Qed.
