(* ===== verification/Sheets.v ===== *)
(** * Sheets: the two sheet scripts on a disk

    src/prepare_knight_sprites.py and src/crop_sprite.py open sheets at
    fixed paths, cut one frame out of each and save it at another fixed
    path, with no [try]: a sheet that does not open ends the script, and
    what the script saved and printed before stays.  The two scripts
    are written once, against the class [Runtime] of what they ask of
    the system they run on: to open, to save, to print and to run one
    statement after another.  Here they run on a disk keyed by path: a
    script is a function from the disk and the console to a result and
    the disk and the console it leaves, [io].  The cuts themselves are
    those of [Frames]. *)

From Stdlib Require Import ZArith Lia.
From stdpp Require Import base tactics option list numbers strings gmap.
From S2P Require Import Prelude Image Folder Frames.

(** ** The console *)

(** The lines of the two scripts: the size of a sheet, the size of the
    frame saved from it, the size of a cropped avatar, and the two
    closing lines. *)
Inductive sheet_line : Set :=
  | Original (sheet : string) (sz : Z * Z)
  | FrameSaved (sheet : string) (sz : Z * Z)
  | AllPrepared
  | Cropped (sprite : string) (sz : Z * Z)
  | AllCropped.

#[global] Instance sheet_line_eq_dec : EqDecision sheet_line.
Proof. solve_decision. Defined.

(** ** Scripts with effects *)

(** The disk, keyed by path, and the console. *)
Record world : Type := World {
  w_files : folder;
  w_console : list sheet_line }.

(** A script: what it returns or raises, and the world it leaves. *)
Definition io (A : Type) : Type := world → result A * world.

#[global] Instance io_ret : MRet io := λ A x w, (Ok x, w).

(** An exception ends the script where it is raised; the world stays as
    it was at that point. *)
#[global] Instance io_bind : MBind io := λ A B f m w,
  match m w with
  | (Ok x, w') => f x w'
  | (Raise e, w') => (Raise e, w')
  end.

(** Two scripts are the same when they do the same in every world. *)
#[global] Instance io_equiv {A} : Equiv (io A) := λ m1 m2, ∀ w, m1 w = m2 w.

(** [Image.open(path)]. *)
Definition io_open (path : string) : io image :=
  λ w, (Image_open (w_files w) path, w).

(** [img.save(path)]. *)
Definition io_save (img : image) (path : string) : io unit :=
  λ w, (Ok tt, World (save (w_files w) path img) (w_console w)).

(** [print(...)]. *)
Definition io_print (l : sheet_line) : io unit :=
  λ w, (Ok tt, World (w_files w) (w_console w ++ [l])).

(** A computation without effects, such as [img.crop(box)]. *)
Definition io_lift {A} (r : result A) : io A := λ w, (r, w).

(** A script run on a disk, with an empty console. *)
Definition run_io {A} (m : io A) (d : folder) : result A * world :=
  m (World d []).

(** ** The paths *)

Definition knight_idle_path : string :=
  "d:\QuizBattle\app\src\main\res\drawable\knight-character-sprites-pixel-art\Knight_1\Idle.png".
Definition knight_hurt_path : string :=
  "d:\QuizBattle\app\src\main\res\drawable\knight-character-sprites-pixel-art\Knight_1\Hurt.png".
Definition knight_attack_path : string :=
  "d:\QuizBattle\app\src\main\res\drawable\knight-character-sprites-pixel-art\Knight_1\Attack 1.png".
Definition knight_defend_path : string :=
  "d:\QuizBattle\app\src\main\res\drawable\knight-character-sprites-pixel-art\Knight_1\Defend.png".
Definition soldier_path : string :=
  "d:\QuizBattle\app\src\main\res\drawable\Tiny RPG Character Asset Pack v1.03 -Free Soldier&Orc\Characters(100x100)\Soldier\Soldier\Soldier-Idle.png".
Definition orc_path : string :=
  "d:\QuizBattle\app\src\main\res\drawable\Tiny RPG Character Asset Pack v1.03 -Free Soldier&Orc\Characters(100x100)\Orc\Orc\Orc-Idle.png".

Definition player_avatar_path : string :=
  "d:\QuizBattle\app\src\main\res\drawable\player_avatar.png".
Definition player_hurt_path : string :=
  "d:\QuizBattle\app\src\main\res\drawable\player_hurt.png".
Definition player_attack_path : string :=
  "d:\QuizBattle\app\src\main\res\drawable\player_attack.png".
Definition player_defend_path : string :=
  "d:\QuizBattle\app\src\main\res\drawable\player_defend.png".
Definition bot_avatar_path : string :=
  "d:\QuizBattle\app\src\main\res\drawable\bot_avatar.png".

(** ** The scripts *)

(** What the two scripts ask of the system they run on: [Image.open],
    [save] and [print], the calls without effects, and the sequencing
    of statements. *)
Class Runtime (M : Type → Type) : Type := {
  runtime_ret :: MRet M;
  runtime_bind :: MBind M;
  rt_open : string → M image;
  rt_save : image → string → M unit;
  rt_print : sheet_line → M unit;
  rt_lift : ∀ A, result A → M A }.

Arguments rt_lift {M _ A} _.

#[global] Instance io_runtime : Runtime io := {|
  rt_open := io_open;
  rt_save := io_save;
  rt_print := io_print;
  rt_lift := @io_lift |}.

(** src/prepare_knight_sprites.py. *)
Definition prepare_knight_sprites `{Runtime M} : M unit :=
  knight_idle ← rt_open knight_idle_path;
  rt_print (Original "Knight Idle" (size knight_idle));;
  knight_idle_frame ← rt_lift (knight_idle_frame knight_idle);
  rt_save knight_idle_frame player_avatar_path;;
  rt_print (FrameSaved "Knight Idle" (size knight_idle_frame));;
  knight_hurt ← rt_open knight_hurt_path;
  rt_print (Original "Knight Hurt" (size knight_hurt));;
  knight_hurt_frame ← rt_lift (knight_hurt_frame knight_hurt);
  rt_save knight_hurt_frame player_hurt_path;;
  rt_print (FrameSaved "Knight Hurt" (size knight_hurt_frame));;
  knight_attack ← rt_open knight_attack_path;
  rt_print (Original "Knight Attack" (size knight_attack));;
  knight_attack_frame ← rt_lift (knight_attack_frame knight_attack);
  rt_save knight_attack_frame player_attack_path;;
  rt_print (FrameSaved "Knight Attack" (size knight_attack_frame));;
  knight_defend ← rt_open knight_defend_path;
  rt_print (Original "Knight Defend" (size knight_defend));;
  knight_defend_frame ← rt_lift (knight_defend_frame knight_defend);
  rt_save knight_defend_frame player_defend_path;;
  rt_print (FrameSaved "Knight Defend" (size knight_defend_frame));;
  rt_print AllPrepared.

(** src/crop_sprite.py. *)
Definition crop_sprite `{Runtime M} : M unit :=
  soldier ← rt_open soldier_path;
  soldier_cropped ← rt_lift (avatar_crop soldier);
  rt_save soldier_cropped player_avatar_path;;
  rt_print (Cropped "Soldier" (size soldier_cropped));;
  orc ← rt_open orc_path;
  orc_cropped ← rt_lift (avatar_crop orc);
  rt_save orc_cropped bot_avatar_path;;
  rt_print (Cropped "Orc" (size orc_cropped));;
  rt_print AllCropped.

(** The two scripts on a disk keyed by path. *)
Definition prepare_knight_sprites_main : io unit := prepare_knight_sprites.

Definition crop_sprite_main : io unit := crop_sprite.

(** ** Specification helpers *)

(** One block of a sheet script: the sheet, the cut, the output, and the
    lines printed once the sheet is open and once the frame is saved. *)
Record block : Type := Block {
  b_src : string;
  b_frame : image → result image;
  b_dst : string;
  b_opened : image → list sheet_line;
  b_saved : image → list sheet_line }.

Definition io_prints (ls : list sheet_line) : io unit :=
  λ w, (Ok tt, World (w_files w) (w_console w ++ ls)).

Definition cut (b : block) : io unit :=
  sheet ← io_open (b_src b);
  io_prints (b_opened b sheet);;
  frame ← io_lift (b_frame b sheet);
  io_save frame (b_dst b);;
  io_prints (b_saved b frame).

Fixpoint cuts (bs : list block) : io unit :=
  match bs with
  | [] => mret tt
  | b :: bs => cut b;; cuts bs
  end.

Definition knight_block (label : string) (frame : image → result image)
  (src dst : string) : block :=
  Block src frame dst (λ sheet, [Original label (size sheet)])
        (λ fr, [FrameSaved label (size fr)]).

Definition avatar_block (label : string) (src dst : string) : block :=
  Block src avatar_crop dst (λ _, []) (λ fr, [Cropped label (size fr)]).

Definition idle_block : block :=
  knight_block "Knight Idle" knight_idle_frame knight_idle_path player_avatar_path.
Definition hurt_block : block :=
  knight_block "Knight Hurt" knight_hurt_frame knight_hurt_path player_hurt_path.
Definition attack_block : block :=
  knight_block "Knight Attack" knight_attack_frame knight_attack_path
    player_attack_path.
Definition defend_block : block :=
  knight_block "Knight Defend" knight_defend_frame knight_defend_path
    player_defend_path.
Definition soldier_block : block :=
  avatar_block "Soldier" soldier_path player_avatar_path.
Definition orc_block : block := avatar_block "Orc" orc_path bot_avatar_path.

Definition knight_blocks : list block :=
  [idle_block; hurt_block; attack_block; defend_block].

Definition avatar_blocks : list block := [soldier_block; orc_block].

(** The frame a block cuts on a disk, if its sheet opens and the cut
    returns. *)
Definition frame_of (d : folder) (b : block) : option (image * image) :=
  match Image_open d (b_src b) with
  | Ok sheet =>
      match b_frame b sheet with
      | Ok frame => Some (sheet, frame)
      | Raise _ => None
      end
  | Raise _ => None
  end.

(** What the blocks that cut a frame on [d] leave on a disk [acc] and on
    the console. *)
Definition save_frames (d acc : folder) (bs : list block) : folder :=
  foldl (λ acc b, match frame_of d b with
                  | Some (_, frame) => save acc (b_dst b) frame
                  | None => acc
                  end) acc bs.

Definition frames_printed (d : folder) (bs : list block) : list sheet_line :=
  bs ≫= λ b, match frame_of d b with
             | Some (sheet, frame) => b_opened b sheet ++ b_saved b frame
             | None => []
             end.

(** No block of [bs] writes over a sheet of [bs']. *)
Definition sheets_kept (bs bs' : list block) : Prop :=
  Forall (λ b, Forall (λ b', b_dst b ≠ b_src b') bs') bs.

(** The sheet of every block opens. *)
Definition sheets_open (d : folder) (bs : list block) : Prop :=
  Forall (λ b, is_ok (Image_open d (b_src b))) bs.

(** The cut of every block returns, whatever the sheet. *)
Definition frames_total (bs : list block) : Prop :=
  Forall (λ b, ∀ sheet, is_ok (b_frame b sheet)) bs.

(** A script that died of a sheet that does not open, after the blocks
    [bs] of a disk [d]: their lines are on the console, their frames on
    the disk, and every other path is as it was. *)
Definition stopped_after (d : folder) (bs : list block)
  (r : result unit * world) : Prop :=
  r.1 = Raise OSError ∧
  w_console r.2 = frames_printed d bs ∧
  (∀ b, b ∈ bs → ∃ sheet frame,
     d !! b_src b = Some (ImageFile sheet) ∧ b_frame b sheet = Ok frame ∧
     w_files r.2 !! b_dst b = Some (ImageFile frame)) ∧
  (∀ path, path ∉ b_dst <$> bs → w_files r.2 !! path = d !! path).

(** A disk with the six sheets, and one without the hurt sheet. *)
Definition sample_disk : folder :=
  <[knight_idle_path := ImageFile sheet_six]>
  (<[knight_hurt_path := ImageFile sheet_seven]>
  (<[knight_attack_path := ImageFile sheet_six]>
  (<[knight_defend_path := ImageFile sheet_six]>
  (<[soldier_path := ImageFile sheet_seven]>
  (<[orc_path := ImageFile sheet_six]> ∅))))).

Definition sample_disk_no_hurt : folder := delete knight_hurt_path sample_disk.

(** Unfolds a script down to the calls of [Image_open] and of the cuts. *)
Ltac unfold_io :=
  cbv beta iota fix delta
    [prepare_knight_sprites_main crop_sprite_main prepare_knight_sprites
     crop_sprite io_runtime runtime_ret runtime_bind rt_open rt_save rt_print
     rt_lift cuts cut knight_blocks
     avatar_blocks idle_block hurt_block attack_block defend_block
     soldier_block orc_block knight_block avatar_block b_src b_frame b_dst b_opened
     b_saved mbind io_bind mret io_ret io_open io_lift io_save io_print
     io_prints w_files w_console].

(** Splits on the calls that can raise, outermost first. *)
Ltac io_cases :=
  repeat (cbv beta iota;
          match goal with
          | |- context [match Image_open ?d ?p with Ok _ => _ | Raise _ => _ end] =>
              destruct (Image_open d p)
          | |- context [match ?f ?x with Ok _ => _ | Raise _ => _ end] =>
              destruct (f x)
          end).

(** Two of the fixed paths differ. *)
Ltac path_ne := apply (bool_decide_unpack _); vm_compute; exact I.

(** Looks a path up under the files a script saved. *)
Ltac lookup_inserts :=
  repeat first
    [ rewrite lookup_insert_eq
    | rewrite lookup_insert_ne by (done || path_ne)
    | match goal with
      | |- context [<[?k := _]> _ !! ?p] =>
          destruct (decide (p = k)) as [->|?]
      end ].

(** ** The laws of [io] *)

#[global] Instance io_equiv_equivalence {A} : Equivalence (≡@{io A}).
Proof.
  split; [by intros m w|by intros m1 m2 H w|].
  intros m1 m2 m3 H12 H23 w. by rewrite H12.
Qed.

#[global] Instance io_bind_proper {A B} :
  Proper (pointwise_relation A (≡) ==> (≡) ==> (≡)) (mbind (M := io) (A := A) (B := B)).
Proof.
  intros f g Hfg m1 m2 Hm w. unfold mbind, io_bind. rewrite Hm.
  destruct (m2 w) as [[x|e] w']; [apply Hfg|done].
Qed.

Lemma io_bind_ret_l {A B} (x : A) (f : A → io B) : mret x ≫= f ≡ f x.
Proof. by intros w. Qed.

Lemma io_bind_ret_r {A} (m : io A) : m ≫= mret ≡ m.
Proof. intros w. unfold mbind, io_bind. by destruct (m w) as [[x|e] w']. Qed.

Lemma io_bind_assoc {A B C} (m : io A) (f : A → io B) (g : B → io C) :
  (m ≫= f) ≫= g ≡ m ≫= (λ x, f x ≫= g).
Proof. intros w. unfold mbind, io_bind. by destruct (m w) as [[x|e] w']. Qed.

(** ** Blocks *)

Lemma cut_Some b w sheet frame :
  frame_of (w_files w) b = Some (sheet, frame) →
  cut b w = (Ok tt, World (save (w_files w) (b_dst b) frame)
                      (w_console w ++ b_opened b sheet ++ b_saved b frame)).
Proof.
  unfold frame_of, cut, io_open, io_lift, io_prints, io_save, mbind, io_bind.
  destruct (Image_open _ _) as [sh|]; [|done]. simpl.
  destruct (b_frame b sh) as [fr|]; [|done]. intros [= -> ->]. simpl.
  by rewrite app_assoc.
Qed.

Lemma cut_Raise b w e :
  Image_open (w_files w) (b_src b) = Raise e → cut b w = (Raise e, w).
Proof. intros Ho. unfold cut, io_open, mbind, io_bind. by rewrite Ho. Qed.

Lemma frame_of_agree (d d' : folder) b :
  d' !! b_src b = d !! b_src b → frame_of d' b = frame_of d b.
Proof. intros Heq. unfold frame_of, Image_open. by rewrite Heq. Qed.

Lemma frame_of_Some (d : folder) b :
  is_ok (Image_open d (b_src b)) → (∀ sheet, is_ok (b_frame b sheet)) →
  ∃ sheet frame, frame_of d b = Some (sheet, frame) ∧
                 d !! b_src b = Some (ImageFile sheet) ∧
                 b_frame b sheet = Ok frame.
Proof.
  intros [sheet Ho]%is_ok_Ok Hf. pose proof (Hf sheet) as [frame Hfr]%is_ok_Ok.
  exists sheet, frame. unfold frame_of. rewrite Ho, Hfr.
  by apply Image_open_Ok in Ho.
Qed.

Lemma cuts_app bs1 bs2 : cuts (bs1 ++ bs2) ≡ (cuts bs1;; cuts bs2).
Proof.
  induction bs1 as [|b bs1 IH]; simpl.
  - by rewrite io_bind_ret_l.
  - rewrite io_bind_assoc. by setoid_rewrite IH.
Qed.

Lemma lookup_save_frames (d : folder) bs p : ∀ acc : folder,
  Forall (λ b, b_dst b ≠ p) bs → save_frames d acc bs !! p = acc !! p.
Proof.
  unfold save_frames.
  induction bs as [|b bs IH]; intros acc Hbs; simpl; [done|].
  apply Forall_cons in Hbs as [Hb Hbs]. rewrite IH by done.
  destruct (frame_of d b) as [[sheet frame]|]; [|done].
  by apply lookup_insert_ne.
Qed.

(** Blocks whose sheets open and whose cuts return all run, and leave
    their frames. *)
Lemma cuts_Ok (d : folder) bs : ∀ w,
  sheets_open d bs → frames_total bs → sheets_kept bs bs →
  Forall (λ b, w_files w !! b_src b = d !! b_src b) bs →
  cuts bs w = (Ok tt, World (save_frames d (w_files w) bs)
                        (w_console w ++ frames_printed d bs)).
Proof.
  induction bs as [|b bs IH]; intros w Ho Ht Hk Hw; simpl.
  { destruct w. by rewrite app_nil_r. }
  apply Forall_cons in Ho as [Hob Ho]. apply Forall_cons in Ht as [Htb Ht].
  apply Forall_cons in Hk as [[_ Hkb]%Forall_cons Hk].
  apply Forall_cons in Hw as [Hwb Hw].
  destruct (frame_of_Some d b Hob Htb) as (sheet & frame & Hfr & _).
  unfold mbind at 1, io_bind at 1.
  rewrite (cut_Some b w sheet frame) by by rewrite (frame_of_agree d).
  rewrite IH; simpl; [by rewrite Hfr, !app_assoc|done..| |].
  - eapply Forall_impl; [exact Hk|]. simpl. intros b' Hb'.
    by apply Forall_cons in Hb' as [_ ?].
  - rewrite Forall_forall in Hkb, Hw. apply Forall_forall. intros b' Hb'.
    unfold save. rewrite lookup_insert_ne by by apply Hkb. by apply Hw.
Qed.

(** ** The scripts as lists of blocks *)

Lemma prepare_knight_sprites_main_cuts :
  prepare_knight_sprites_main ≡ (cuts knight_blocks;; io_print AllPrepared).
Proof. intros [d out]. unfold_io. by io_cases. Qed.

Lemma crop_sprite_main_cuts :
  crop_sprite_main ≡ (cuts avatar_blocks;; io_print AllCropped).
Proof. intros [d out]. unfold_io. io_cases; by rewrite ?app_nil_r. Qed.

Lemma knight_blocks_total : frames_total knight_blocks.
Proof.
  repeat constructor; intros sheet;
    by apply (first_frame_is_ok _ sheet).
Qed.

Lemma avatar_blocks_total : frames_total avatar_blocks.
Proof. repeat constructor; intros sheet; apply avatar_crop_is_ok. Qed.

Lemma knight_blocks_kept : sheets_kept (knight_blocks ++ avatar_blocks)
                                       (knight_blocks ++ avatar_blocks).
Proof. apply (bool_decide_unpack _). by vm_compute. Qed.

Lemma sheets_kept_app bs1 bs2 bs1' bs2' :
  sheets_kept (bs1 ++ bs2) (bs1' ++ bs2') ↔
  (sheets_kept bs1 bs1' ∧ sheets_kept bs1 bs2') ∧
  (sheets_kept bs2 bs1' ∧ sheets_kept bs2 bs2').
Proof.
  unfold sheets_kept. rewrite Forall_app.
  assert (∀ bs, Forall (λ b, Forall (λ b', b_dst b ≠ b_src b') (bs1' ++ bs2')) bs ↔
                Forall (λ b, Forall (λ b', b_dst b ≠ b_src b') bs1') bs ∧
                Forall (λ b, Forall (λ b', b_dst b ≠ b_src b') bs2') bs) as Hs.
  { intros bs. rewrite <- Forall_and. apply Forall_iff. intros b.
    apply Forall_app. }
  by rewrite !Hs.
Qed.

(** ** What a block leaves *)

Lemma save_frames_cons (d acc : folder) b bs :
  save_frames d acc (b :: bs) =
    save_frames d (match frame_of d b with
                   | Some (_, frame) => save acc (b_dst b) frame
                   | None => acc
                   end) bs.
Proof. reflexivity. Qed.

Lemma frames_printed_cons (d : folder) b bs :
  frames_printed d (b :: bs) =
    match frame_of d b with
    | Some (sheet, frame) => b_opened b sheet ++ b_saved b frame
    | None => []
    end ++ frames_printed d bs.
Proof. reflexivity. Qed.

Lemma lookup_save_frames_dst (d : folder) bs b sheet frame : ∀ acc : folder,
  NoDup (b_dst <$> bs) → b ∈ bs → frame_of d b = Some (sheet, frame) →
  save_frames d acc bs !! b_dst b = Some (ImageFile frame).
Proof.
  induction bs as [|b0 bs IH]; intros acc Hnd Hin Hfr;
    [by apply elem_of_nil in Hin|].
  rewrite fmap_cons in Hnd. apply NoDup_cons in Hnd as [Hb0 Hnd].
  apply elem_of_cons in Hin as [->|Hin]; [|by apply IH].
  rewrite save_frames_cons, Hfr, (lookup_save_frames d bs (b_dst b0)).
  - apply lookup_insert_eq.
  - apply Forall_forall. intros b' Hb' Heq. apply Hb0.
    rewrite <- Heq. by apply list_elem_of_fmap_2.
Qed.

Lemma sheets_open_agree (d d' : folder) bs :
  Forall (λ b, d' !! b_src b = d !! b_src b) bs →
  sheets_open d bs → sheets_open d' bs.
Proof.
  unfold sheets_open. rewrite !Forall_forall. intros Heq Ho b Hb.
  unfold Image_open. rewrite (Heq b Hb). by apply Ho.
Qed.

Lemma save_frames_agree (d acc : folder) bs bs' :
  sheets_kept bs bs' →
  Forall (λ b', save_frames d acc bs !! b_src b' = acc !! b_src b') bs'.
Proof.
  intros Hk. apply Forall_forall. intros b' Hb'. apply lookup_save_frames.
  eapply Forall_impl; [exact Hk|]. simpl. intros b Hb.
  rewrite Forall_forall in Hb. by apply Hb.
Qed.

Lemma save_frames_ext (d d' acc : folder) bs :
  Forall (λ b, d' !! b_src b = d !! b_src b) bs →
  save_frames d' acc bs = save_frames d acc bs.
Proof.
  unfold save_frames. revert acc.
  induction bs as [|b bs IH]; intros acc Hbs; simpl; [done|].
  apply Forall_cons in Hbs as [Hb Hbs]. rewrite (frame_of_agree d d' b Hb).
  by apply IH.
Qed.

Lemma frames_printed_ext (d d' : folder) bs :
  Forall (λ b, d' !! b_src b = d !! b_src b) bs →
  frames_printed d' bs = frames_printed d bs.
Proof.
  induction bs as [|b bs IH]; intros Hbs; [done|].
  apply Forall_cons in Hbs as [Hb Hbs]. rewrite !frames_printed_cons.
  by rewrite (frame_of_agree d d' b Hb), IH.
Qed.

(** ** A script that is a list of blocks and a closing line *)

Section sheet_script.
Context (main : io unit) (bs : list block) (last : sheet_line).
Context (main_cuts : main ≡ (cuts bs;; io_print last)).
Context (bs_total : frames_total bs) (bs_kept : sheets_kept bs bs).

(** When every sheet opens the script returns, with every frame saved. *)
Lemma sheet_script_Ok w :
  sheets_open (w_files w) bs →
  main w = (Ok tt, World (save_frames (w_files w) (w_files w) bs)
                     (w_console w ++ frames_printed (w_files w) bs ++ [last])).
Proof.
  intros Ho. rewrite main_cuts. unfold mbind at 1, io_bind at 1.
  rewrite (cuts_Ok (w_files w)); [|done..|by apply Forall_true].
  unfold io_print. simpl. by rewrite app_assoc.
Qed.

(** When a sheet does not open the script raises there, with the frames
    of the blocks before it saved and nothing else done. *)
Lemma sheet_script_Raise w bs1 b bs2 :
  bs = bs1 ++ b :: bs2 →
  sheets_open (w_files w) bs1 → ¬ is_ok (Image_open (w_files w) (b_src b)) →
  main w = (Raise OSError, World (save_frames (w_files w) (w_files w) bs1)
                             (w_console w ++ frames_printed (w_files w) bs1)).
Proof.
  intros Hbs Ho Hb. rewrite main_cuts. unfold mbind at 1, io_bind at 1.
  rewrite Hbs in bs_total, bs_kept |- *.
  apply Forall_app in bs_total as [Ht1 _].
  apply (sheets_kept_app bs1 (b :: bs2) bs1 (b :: bs2)) in bs_kept
    as [[Hk1 Hk2] _].
  rewrite cuts_app. unfold mbind at 1, io_bind at 1.
  rewrite (cuts_Ok (w_files w)); [|done..|by apply Forall_true].
  simpl. unfold mbind at 1, io_bind at 1. rewrite (cut_Raise _ _ OSError); [done|].
  simpl. pose proof (save_frames_agree (w_files w) (w_files w) bs1 (b :: bs2) Hk2)
    as [Heq _]%Forall_cons.
  unfold Image_open in *. rewrite Heq.
  by destruct (w_files w !! b_src b) as [[sheet|]|].
Qed.

(** A script that stops leaves the frames of the blocks it ran. *)
Lemma sheet_script_stops d bs1 b bs2 :
  bs = bs1 ++ b :: bs2 → NoDup (b_dst <$> bs) →
  sheets_open d bs1 → ¬ is_ok (Image_open d (b_src b)) →
  stopped_after d bs1 (run_io main d).
Proof.
  intros Hbs Hnd Ho Hb. unfold run_io.
  rewrite (sheet_script_Raise _ bs1 b bs2) by done. simpl.
  rewrite Hbs, fmap_app in Hnd. apply NoDup_app in Hnd as (Hnd & _ & _).
  rewrite Hbs in bs_total. apply Forall_app in bs_total as [Ht1 _].
  unfold sheets_open in Ho. rewrite Forall_forall in Ho, Ht1.
  split_and!; [done..| |].
  - intros b' Hb'.
    destruct (frame_of_Some d b' (Ho b' Hb') (Ht1 b' Hb'))
      as (sheet & frame & Hfr & Hs & Hf).
    exists sheet, frame. split_and!; [done..|].
    by eapply lookup_save_frames_dst.
  - intros path Hp. apply lookup_save_frames, Forall_forall.
    intros b' Hb' <-. apply Hp. by apply list_elem_of_fmap_2.
Qed.

End sheet_script.

Lemma sheets_open_frames (d : folder) bs :
  sheets_open d bs → frames_total bs →
  Forall (λ b, ∃ sheet frame, frame_of d b = Some (sheet, frame) ∧
                 d !! b_src b = Some (ImageFile sheet) ∧
                 b_frame b sheet = Ok frame) bs.
Proof.
  unfold sheets_open, frames_total. rewrite !Forall_forall.
  intros Ho Ht b Hb. apply frame_of_Some; auto.
Qed.

(** ** One script after another *)

Lemma sheets_kept_comm bs1 bs2 :
  sheets_kept (bs1 ++ bs2) (bs1 ++ bs2) → sheets_kept (bs2 ++ bs1) (bs2 ++ bs1).
Proof. rewrite !sheets_kept_app. tauto. Qed.

Section two_scripts.
Context (main1 main2 : io unit) (bs1 bs2 : list block) (last1 last2 : sheet_line).
Context (main1_cuts : main1 ≡ (cuts bs1;; io_print last1)).
Context (main2_cuts : main2 ≡ (cuts bs2;; io_print last2)).
Context (bs1_total : frames_total bs1) (bs2_total : frames_total bs2).
Context (bs_kept : sheets_kept (bs1 ++ bs2) (bs1 ++ bs2)).

Lemma two_scripts_Ok d :
  sheets_open d (bs1 ++ bs2) →
  run_io (main1;; main2) d =
    (Ok tt, World (save_frames d (save_frames d d bs1) bs2)
              (frames_printed d bs1 ++ [last1] ++ frames_printed d bs2 ++ [last2])).
Proof.
  intros [Ho1 Ho2]%Forall_app.
  apply sheets_kept_app in bs_kept as [[Hk11 Hk12] [Hk21 Hk22]].
  unfold run_io, mbind at 1, io_bind at 1.
  rewrite (sheet_script_Ok main1 bs1 last1) by done.
  pose proof (save_frames_agree d d bs1 bs2 Hk12) as Hagree.
  rewrite (sheet_script_Ok main2 bs2 last2); [|done..|]; cbn [w_files w_console].
  - by rewrite (save_frames_ext d (save_frames d d bs1)),
      (frames_printed_ext d (save_frames d d bs1)), <- !app_assoc.
  - by apply (sheets_open_agree d).
Qed.

End two_scripts.

(** ** Properties *)

Lemma frame_of_intro (d : folder) b sheet frame :
  d !! b_src b = Some (ImageFile sheet) → b_frame b sheet = Ok frame →
  frame_of d b = Some (sheet, frame).
Proof. intros Hs Hf. unfold frame_of, Image_open. by rewrite Hs, Hf. Qed.

Lemma knight_blocks_NoDup : NoDup (b_dst <$> knight_blocks).
Proof. apply (bool_decide_unpack _). by vm_compute. Qed.

Lemma avatar_blocks_NoDup : NoDup (b_dst <$> avatar_blocks).
Proof. apply (bool_decide_unpack _). by vm_compute. Qed.

Lemma knight_blocks_kept_self : sheets_kept knight_blocks knight_blocks.
Proof. by destruct (proj1 (sheets_kept_app _ _ _ _) knight_blocks_kept) as [[? _] _]. Qed.

Lemma avatar_blocks_kept_self : sheets_kept avatar_blocks avatar_blocks.
Proof. by destruct (proj1 (sheets_kept_app _ _ _ _) knight_blocks_kept) as [_ [_ ?]]. Qed.

(** C29. When its four sheets open, prepare_knight_sprites.py returns
    with the first frame of each sheet saved under its output path, the
    sheets cut in 10, 3, 4 and 2 frames, and with the sizes of the
    sheets and of the frames printed in the order of the script. *)
Theorem prepare_knight_sprites_main_spec d idle hurt attack defend :
  d !! knight_idle_path = Some (ImageFile idle) →
  d !! knight_hurt_path = Some (ImageFile hurt) →
  d !! knight_attack_path = Some (ImageFile attack) →
  d !! knight_defend_path = Some (ImageFile defend) →
  ∃ f1 f2 f3 f4,
    first_frame 10 idle = Ok f1 ∧ first_frame 3 hurt = Ok f2 ∧
    first_frame 4 attack = Ok f3 ∧ first_frame 2 defend = Ok f4 ∧
    run_io prepare_knight_sprites_main d =
      (Ok tt,
       World (<[player_defend_path := ImageFile f4]>
              (<[player_attack_path := ImageFile f3]>
              (<[player_hurt_path := ImageFile f2]>
              (<[player_avatar_path := ImageFile f1]> d))))
             [Original "Knight Idle" (size idle);
              FrameSaved "Knight Idle" (size f1);
              Original "Knight Hurt" (size hurt);
              FrameSaved "Knight Hurt" (size f2);
              Original "Knight Attack" (size attack);
              FrameSaved "Knight Attack" (size f3);
              Original "Knight Defend" (size defend);
              FrameSaved "Knight Defend" (size f4);
              AllPrepared]).
Proof.
  intros H1 H2 H3 H4.
  pose proof (first_frame_is_ok 10 idle ltac:(lia)) as [f1 Hf1]%is_ok_Ok.
  pose proof (first_frame_is_ok 3 hurt ltac:(lia)) as [f2 Hf2]%is_ok_Ok.
  pose proof (first_frame_is_ok 4 attack ltac:(lia)) as [f3 Hf3]%is_ok_Ok.
  pose proof (first_frame_is_ok 2 defend ltac:(lia)) as [f4 Hf4]%is_ok_Ok.
  exists f1, f2, f3, f4. split_and!; [done..|]. unfold run_io.
  rewrite (sheet_script_Ok _ _ _ prepare_knight_sprites_main_cuts
             knight_blocks_total knight_blocks_kept_self).
  - unfold knight_blocks. rewrite !save_frames_cons, !frames_printed_cons.
    cbn [w_files w_console].
    rewrite (frame_of_intro d idle_block idle f1),
      (frame_of_intro d hurt_block hurt f2),
      (frame_of_intro d attack_block attack f3),
      (frame_of_intro d defend_block defend f4); done.
  - repeat constructor; unfold Image_open; simpl;
      by rewrite ?H1, ?H2, ?H3, ?H4.
Qed.

Lemma prepare_knight_sprites_main_spec_witness :
  ∃ f1 f2 f3 f4,
    first_frame 10 sheet_six = Ok f1 ∧ first_frame 3 sheet_seven = Ok f2 ∧
    first_frame 4 sheet_six = Ok f3 ∧ first_frame 2 sheet_six = Ok f4 ∧
    run_io prepare_knight_sprites_main sample_disk =
      (Ok tt,
       World (<[player_defend_path := ImageFile f4]>
              (<[player_attack_path := ImageFile f3]>
              (<[player_hurt_path := ImageFile f2]>
              (<[player_avatar_path := ImageFile f1]> sample_disk))))
             [Original "Knight Idle" (size sheet_six);
              FrameSaved "Knight Idle" (size f1);
              Original "Knight Hurt" (size sheet_seven);
              FrameSaved "Knight Hurt" (size f2);
              Original "Knight Attack" (size sheet_six);
              FrameSaved "Knight Attack" (size f3);
              Original "Knight Defend" (size sheet_six);
              FrameSaved "Knight Defend" (size f4);
              AllPrepared]).
Proof.
  by apply (prepare_knight_sprites_main_spec sample_disk
              sheet_six sheet_seven sheet_six sheet_six).
Defined.

(** C21. Neither sheet script has a [try]: at the first sheet that does
    not open the script dies of OSError, with the frames of the sheets
    before it saved and their lines printed, and with nothing done for
    the sheets after it. *)
Theorem sheet_scripts_stop d bs1 b bs2 :
  sheets_open d bs1 → ¬ is_ok (Image_open d (b_src b)) →
  (knight_blocks = bs1 ++ b :: bs2 →
   stopped_after d bs1 (run_io prepare_knight_sprites_main d)) ∧
  (avatar_blocks = bs1 ++ b :: bs2 →
   stopped_after d bs1 (run_io crop_sprite_main d)).
Proof.
  intros Ho Hb. split; intros Hbs.
  - by apply (sheet_script_stops _ _ _ prepare_knight_sprites_main_cuts
                knight_blocks_total knight_blocks_kept_self d bs1 b bs2 Hbs
                knight_blocks_NoDup).
  - by apply (sheet_script_stops _ _ _ crop_sprite_main_cuts
                avatar_blocks_total avatar_blocks_kept_self d bs1 b bs2 Hbs
                avatar_blocks_NoDup).
Qed.

Lemma sheet_scripts_stop_witness :
  stopped_after sample_disk_no_hurt [idle_block]
    (run_io prepare_knight_sprites_main sample_disk_no_hurt).
Proof.
  destruct (sheet_scripts_stop sample_disk_no_hurt [idle_block] hurt_block
              [attack_block; defend_block]) as [H _];
    [apply (bool_decide_unpack _); by vm_compute|by vm_compute|
     exact (H eq_refl)].
Defined.

(** C30. Both sheet scripts save player_avatar.png, so the script that
    runs last decides it: when the six sheets open, the disks the two
    orders leave differ in that file and in nothing else, the soldier
    after crop_sprite.py and the knight after prepare_knight_sprites.py. *)
Theorem sheet_scripts_last_wins d :
  sheets_open d (knight_blocks ++ avatar_blocks) →
  ∃ w12 w21 sheet_k knight sheet_s soldier,
    run_io (prepare_knight_sprites_main;; crop_sprite_main) d = (Ok tt, w12) ∧
    run_io (crop_sprite_main;; prepare_knight_sprites_main) d = (Ok tt, w21) ∧
    d !! knight_idle_path = Some (ImageFile sheet_k) ∧
    first_frame 10 sheet_k = Ok knight ∧
    d !! soldier_path = Some (ImageFile sheet_s) ∧
    avatar_crop sheet_s = Ok soldier ∧
    w_files w12 = <[player_avatar_path := ImageFile soldier]> (w_files w21) ∧
    w_files w21 = <[player_avatar_path := ImageFile knight]> (w_files w12).
Proof.
  intros Ho.
  rewrite (two_scripts_Ok _ _ _ _ _ _ prepare_knight_sprites_main_cuts
             crop_sprite_main_cuts knight_blocks_total avatar_blocks_total
             knight_blocks_kept d Ho).
  rewrite (two_scripts_Ok _ _ _ _ _ _ crop_sprite_main_cuts
             prepare_knight_sprites_main_cuts avatar_blocks_total
             knight_blocks_total (sheets_kept_comm _ _ knight_blocks_kept) d)
    by (apply Forall_app; apply Forall_app in Ho; tauto).
  pose proof (sheets_open_frames d _ Ho
                (proj2 (Forall_app _ _ _)
                   (conj knight_blocks_total avatar_blocks_total))) as Hfr.
  unfold knight_blocks, avatar_blocks in Hfr. simpl in Hfr.
  rewrite !Forall_cons in Hfr.
  destruct Hfr as ((sheet_k & knight & Hk & Hk1 & Hk2) & (? & ? & Hh & _) &
    (? & ? & Ha & _) & (? & ? & Hd & _) &
    (sheet_s & soldier & Hs & Hs1 & Hs2) & (? & ? & Hc & _) & _).
  do 2 eexists. exists sheet_k, knight, sheet_s, soldier.
  split_and!; [done..| |];
    unfold knight_blocks, avatar_blocks;
    rewrite !save_frames_cons, Hk, Hh, Ha, Hd, Hs, Hc; simpl;
    apply map_eq; intros p; unfold save; by lookup_inserts.
Qed.

Lemma sheet_scripts_last_wins_witness :
  ∃ w12 w21 sheet_k knight sheet_s soldier,
    run_io (prepare_knight_sprites_main;; crop_sprite_main) sample_disk =
      (Ok tt, w12) ∧
    run_io (crop_sprite_main;; prepare_knight_sprites_main) sample_disk =
      (Ok tt, w21) ∧
    sample_disk !! knight_idle_path = Some (ImageFile sheet_k) ∧
    first_frame 10 sheet_k = Ok knight ∧
    sample_disk !! soldier_path = Some (ImageFile sheet_s) ∧
    avatar_crop sheet_s = Ok soldier ∧
    w_files w12 = <[player_avatar_path := ImageFile soldier]> (w_files w21) ∧
    w_files w21 = <[player_avatar_path := ImageFile knight]> (w_files w12).
Proof.
  apply (sheet_scripts_last_wins sample_disk), (bool_decide_unpack _).
  by vm_compute.
Defined.

(** C39. When its two sheets open, crop_sprite.py returns with the
    100 x 100 corner of the soldier sheet saved as player_avatar.png and
    that of the orc sheet as bot_avatar.png, and prints their sizes. *)
Theorem crop_sprite_main_spec d soldier orc :
  d !! soldier_path = Some (ImageFile soldier) →
  d !! orc_path = Some (ImageFile orc) →
  ∃ soldier_cropped orc_cropped,
    avatar_crop soldier = Ok soldier_cropped ∧ avatar_crop orc = Ok orc_cropped ∧
    size soldier_cropped = (100, 100) ∧ size orc_cropped = (100, 100) ∧
    run_io crop_sprite_main d =
      (Ok tt,
       World (<[bot_avatar_path := ImageFile orc_cropped]>
              (<[player_avatar_path := ImageFile soldier_cropped]> d))
             [Cropped "Soldier" (100, 100); Cropped "Orc" (100, 100); AllCropped]).
Proof.
  intros H1 H2.
  pose proof (avatar_crop_is_ok soldier) as [f1 Hf1]%is_ok_Ok.
  pose proof (avatar_crop_is_ok orc) as [f2 Hf2]%is_ok_Ok.
  pose proof (crop_size _ _ _ Hf1) as Hs1. pose proof (crop_size _ _ _ Hf2) as Hs2.
  exists f1, f2. split_and!; [done..|]. unfold run_io.
  rewrite (sheet_script_Ok _ _ _ crop_sprite_main_cuts
             avatar_blocks_total avatar_blocks_kept_self).
  - unfold avatar_blocks. rewrite !save_frames_cons, !frames_printed_cons.
    cbn [w_files w_console].
    rewrite (frame_of_intro d soldier_block soldier f1),
      (frame_of_intro d orc_block orc f2) by done.
    simpl. by rewrite Hs1, Hs2.
  - repeat constructor; unfold Image_open; simpl; by rewrite ?H1, ?H2.
Qed.

Lemma crop_sprite_main_spec_witness :
  ∃ soldier_cropped orc_cropped,
    avatar_crop sheet_seven = Ok soldier_cropped ∧
    avatar_crop sheet_six = Ok orc_cropped ∧
    size soldier_cropped = (100, 100) ∧ size orc_cropped = (100, 100) ∧
    run_io crop_sprite_main sample_disk =
      (Ok tt,
       World (<[bot_avatar_path := ImageFile orc_cropped]>
              (<[player_avatar_path := ImageFile soldier_cropped]> sample_disk))
             [Cropped "Soldier" (100, 100); Cropped "Orc" (100, 100); AllCropped]).
Proof.
  apply (crop_sprite_main_spec sample_disk sheet_seven sheet_six); by vm_compute.
Defined.
