(* ===== verification/Paths.v ===== *)
(** * Paths: the paths the scripts hand to the file system

    The scripts name their folders by Windows paths, five of them with
    the drive written [D:] and two with [d:], and build the path of a
    file with [os.path.join].  A path is a string; the file system reads
    it as the components between its separators, the folders up to
    case.  [join] is [os.path.join] for a second argument that is a
    relative name, which is what [os.listdir] returns and what the
    scripts write out; [resolve] is what the file system makes of a
    path: the folder, as its components in lower case, and the name of
    the file in it.  None of this is code of the repository: it is
    modelled from the documentation of Python's [ntpath]. *)

From Stdlib Require Import ZArith Lia Ascii String.
From stdpp Require Import base tactics option list numbers strings.
From S2P Require Import Prelude Folder.

(** ** Characters *)

(** The two separators of a Windows path. *)
Definition is_sep (c : ascii) : bool :=
  bool_decide (c = "\"%char) || bool_decide (c = "/"%char).

(** [c.lower()] on one ASCII character. *)
Definition lower (c : ascii) : ascii :=
  let n := Ascii.N_of_ascii c in
  if (65 <=? n)%N && (n <=? 90)%N then Ascii.ascii_of_N (n + 32) else c.

Fixpoint lower_string (s : string) : string :=
  match s with
  | "" => ""
  | String c s => String (lower c) (lower_string s)
  end.

(** ** Components *)

(** The pieces of a path between its separators, the empty ones
    included: a path with [n] separators has [n + 1] pieces. *)
Fixpoint split (path : string) : list string :=
  match path with
  | "" => [""]
  | String c rest =>
      if is_sep c then "" :: split rest
      else match split rest with
           | piece :: pieces => String c piece :: pieces
           | [] => [String c ""]
           end
  end.

(** The components of a path: a separator at the end and two
    separators in a row name no component. *)
Definition components (path : string) : list string :=
  filter (λ piece, piece ≠ "") (split path).

(** The folder a path names, as the file system knows it: the case of
    the letters does not count. *)
Definition dir_key (folder : string) : list string :=
  lower_string <$> components folder.

(** The folder and the name of the file a path leads to. *)
Definition resolve (path : string) : list string * string :=
  match reverse (components path) with
  | name :: folders => (lower_string <$> reverse folders, name)
  | [] => ([], "")
  end.

(** A name as a folder lists it: not empty, and no separator in it. *)
Definition is_name (name : string) : Prop := split name = [name] ∧ name ≠ "".

#[global] Instance is_name_dec name : Decision (is_name name).
Proof. unfold is_name. apply _. Defined.

(** No character of [s] is a separator. *)
Fixpoint no_sep (s : string) : bool :=
  match s with
  | "" => true
  | String c s => negb (is_sep c) && no_sep s
  end.

(** [path] ends with a separator. *)
Definition ends_with_sep (path : string) : bool :=
  endswith path "\" || endswith path "/".

(** [os.path.join(path, name)] for a relative [name]: a separator is
    put between the two unless [path] ends with one. *)
Definition join (path name : string) : string :=
  if ends_with_sep path then path +:+ name else path +:+ "\" +:+ name.

(** Two paths that name one folder. *)
Definition same_folder (a b : string) : Prop := dir_key a = dir_key b.

#[global] Instance same_folder_dec a b : Decision (same_folder a b).
Proof. unfold same_folder. apply _. Defined.

(** ** Characters *)

Lemma is_sep_lower c : is_sep (lower c) = is_sep c.
Proof. by destruct c as [[] [] [] [] [] [] [] []]. Qed.

Lemma lower_lower c : lower (lower c) = lower c.
Proof. by destruct c as [[] [] [] [] [] [] [] []]. Qed.

Lemma lower_string_app s t :
  lower_string (s +:+ t) = lower_string s +:+ lower_string t.
Proof. induction s as [|c s IH]; [done|]. simpl. by rewrite IH. Qed.

Lemma lower_string_idemp s : lower_string (lower_string s) = lower_string s.
Proof. induction s as [|c s IH]; [done|]. simpl. by rewrite lower_lower, IH. Qed.

Lemma lower_string_empty s : lower_string s = "" ↔ s = "".
Proof. by destruct s. Qed.

(** ** Splitting *)

Lemma split_cons path : ∃ piece pieces, split path = piece :: pieces.
Proof.
  induction path as [|c rest (piece & pieces & IH)]; simpl; [by eexists _, _|].
  rewrite IH. destruct (is_sep c); by eexists _, _.
Qed.

(** A separator between two paths splits them apart. *)
Lemma split_app_sep a c b :
  is_sep c = true → split (a +:+ String c b) = split a ++ split b.
Proof.
  intros Hc. induction a as [|c' a IH]; simpl; [by rewrite Hc|].
  rewrite IH. destruct (is_sep c'); [done|].
  by destruct (split_cons a) as (piece & pieces & ->).
Qed.

Lemma split_no_sep s : no_sep s = true → split s = [s].
Proof.
  induction s as [|c s IH]; simpl; [done|].
  intros [Hc Hs]%andb_true_iff. apply negb_true_iff in Hc. by rewrite Hc, IH.
Qed.

Lemma no_sep_app s t : no_sep (s +:+ t) = no_sep s && no_sep t.
Proof.
  induction s as [|c s IH]; simpl; [done|]. by rewrite IH, andb_assoc.
Qed.

Lemma is_name_no_sep s : s ≠ "" → no_sep s = true → is_name s.
Proof. intros Hne Hs. split; [by apply split_no_sep|done]. Qed.

Lemma split_lower path : split (lower_string path) = lower_string <$> split path.
Proof.
  induction path as [|c rest IH]; simpl; [done|].
  rewrite is_sep_lower, IH. destruct (is_sep c); [done|].
  by destruct (split rest).
Qed.

Lemma components_lower path :
  components (lower_string path) = lower_string <$> components path.
Proof.
  unfold components. rewrite split_lower. induction (split path) as [|p l IH];
    [done|].
  rewrite fmap_cons, !filter_cons. destruct (decide (p ≠ "")) as [Hp|Hp].
  - rewrite decide_True by by rewrite lower_string_empty.
    by rewrite fmap_cons, IH.
  - rewrite decide_False by by rewrite lower_string_empty. done.
Qed.

(** ** Joining *)

Lemma components_name name : is_name name → components name = [name].
Proof.
  intros [Hs Hne]. unfold components. rewrite Hs, filter_cons.
  by rewrite decide_True.
Qed.

Lemma components_app_sep a c b :
  is_sep c = true → components (a +:+ String c b) = components a ++ components b.
Proof. intros Hc. unfold components. by rewrite split_app_sep, filter_app. Qed.

Lemma components_sep_end a c :
  is_sep c = true → components (a +:+ String c "") = components a.
Proof.
  intros Hc. rewrite components_app_sep by done. apply app_nil_r.
Qed.

Lemma ends_with_sep_iff path :
  ends_with_sep path = true ↔ ∃ a c, path = a +:+ String c "" ∧ is_sep c = true.
Proof.
  unfold ends_with_sep. rewrite orb_true_iff, !endswith_iff. split.
  - intros [[a ->]|[a ->]]; by eexists _, _.
  - intros (a & c & -> & Hc). unfold is_sep in Hc.
    apply orb_true_iff in Hc as [Hc|Hc]; apply bool_decide_eq_true in Hc as ->;
      [left|right]; by exists a.
Qed.

(** The components of a joined path are those of the folder and the
    name. *)
Lemma components_join path name :
  is_name name → components (join path name) = components path ++ [name].
Proof.
  intros Hn. unfold join. destruct (ends_with_sep path) eqn:He.
  - apply ends_with_sep_iff in He as (a & c & -> & Hc).
    rewrite string_app_assoc. change (String c "" +:+ name) with (String c name).
    rewrite components_app_sep, components_sep_end by done.
    by rewrite (components_name name).
  - change ("\" +:+ name) with (String "\" name).
    rewrite components_app_sep by done. by rewrite (components_name name).
Qed.

Lemma resolve_join_key path name :
  is_name name → resolve (join path name) = (dir_key path, name).
Proof.
  intros Hn. unfold resolve, dir_key. rewrite components_join by done.
  by rewrite reverse_snoc, reverse_involutive.
Qed.

(** ** Folders up to case *)

#[global] Instance same_folder_equivalence : Equivalence same_folder.
Proof.
  unfold same_folder. split; [done|by intros a b|].
  intros a b c Hab Hbc. by rewrite Hab.
Qed.

Lemma same_folder_lower a b : lower_string a = lower_string b → same_folder a b.
Proof.
  intros Heq. unfold same_folder, dir_key.
  by rewrite <- !components_lower, Heq.
Qed.

(** The file system finds one file under two spellings of its folder. *)
Lemma resolve_join_same a b name :
  same_folder a b → is_name name → resolve (join a name) = resolve (join b name).
Proof. intros Hab Hn. rewrite !resolve_join_key by done. by rewrite Hab. Qed.

(** [os.path.join] followed by the resolution of the file system
    gives back the folder and the name: the path joined from a folder
    and a name leads to that name in that folder, and two spellings of
    one folder, in the case of the letters, in the separator used or in
    a separator at the end, lead to one file. *)
Theorem join_resolve path path' name :
  is_name name → same_folder path path' →
  resolve (join path name) = (dir_key path, name) ∧
  resolve (join path' name) = resolve (join path name).
Proof.
  intros Hn Hsame. split; [by apply resolve_join_key|].
  symmetry. by apply resolve_join_same.
Qed.

Lemma join_resolve_witness :
  resolve (join "D:\QuizBattle\app" "goblin_idle.png") =
    (["d:"; "quizbattle"; "app"], "goblin_idle.png") ∧
  resolve (join "d:/quizbattle/APP/" "goblin_idle.png") =
    resolve (join "D:\QuizBattle\app" "goblin_idle.png").
Proof.
  apply (join_resolve "D:\QuizBattle\app" "d:/quizbattle/APP/" "goblin_idle.png");
    apply (bool_decide_unpack _); by vm_compute.
Defined.
