(* ===== verification/FileSystem.v ===== *)
(** * FileSystem: the folders of a disk

    A file system is a finite map from folders, each known by the components of
    its path in lower case, to what [Folder] calls a folder: the files
    of it by name.  [fs_listdir], [fs_open], [fs_save] and
    [fs_remove] are [os.listdir], [Image.open], [img.save] and
    [os.remove] on paths: each resolves its path first, and each raises
    when the folder of the path is not there.  The lemmas of the
    section [one_folder] say that on the paths [os.path.join] builds
    from one folder and the names of it, the four are the operations of
    [Folder] on that folder.  A folder inside a folder is a name of the
    outer one that does not open; names are compared as they are
    written. *)

From Stdlib Require Import ZArith Lia Ascii String.
From stdpp Require Import base tactics option list numbers strings gmap.
From S2P Require Import Prelude Image Folder Paths.

(** ** File systems *)

Abbreviation filesystem := (gmap (list string) folder).

(** [os.listdir(path)]: [FileNotFoundError] when there is no such
    folder. *)
Definition fs_listdir (fs : filesystem) (path : string) : result (list string) :=
  d ← of_option OSError (fs !! dir_key path);
  Ok (listdir d).

(** [Image.open(path)]. *)
Definition fs_open (fs : filesystem) (path : string) : result image :=
  let '(dir, name) := resolve path in
  d ← of_option OSError (fs !! dir);
  Image_open d name.

(** [img.save(path, 'PNG')]: the file is created or replaced; the
    folder is not created. *)
Definition fs_save (fs : filesystem) (path : string) (img : image) : result filesystem :=
  let '(dir, name) := resolve path in
  d ← of_option OSError (fs !! dir);
  Ok (<[dir := save d name img]> fs).

(** [os.remove(path)]: [FileNotFoundError] when there is no such
    file. *)
Definition fs_remove (fs : filesystem) (path : string) : result filesystem :=
  let '(dir, name) := resolve path in
  d ← of_option OSError (fs !! dir);
  if decide (is_Some (d !! name)) then Ok (<[dir := remove d name]> fs)
  else Raise OSError.

(** The file of a name in a folder, and the file a path leads to. *)
Definition fs_file (fs : filesystem) (dir : list string) (name : string)
  : option file :=
  d ← fs !! dir;
  d !! name.

Definition fs_lookup (fs : filesystem) (path : string) : option file :=
  fs_file fs (resolve path).1 (resolve path).2.

(** ** The invariant *)

(** Every name of a folder is a name. *)
Definition names_wf (d : folder) : Prop := map_Forall (λ name _, is_name name) d.

(** Every folder holds well-formed images under names. *)
Definition fs_wf (fs : filesystem) : Prop :=
  map_Forall (λ _ d, folder_wf d ∧ names_wf d) fs.

#[global] Instance fs_wf_dec fs : Decision (fs_wf fs).
Proof.
  unfold fs_wf, folder_wf, names_wf, file_wf.
  apply map_Forall_dec. intros dir d. apply and_dec; [|apply _].
  apply map_Forall_dec. intros name [img|]; apply _.
Defined.

(** ** The footprint *)

(** [fs] has the folders of [fs0], and every file of it is the file of
    [fs0] unless [W] holds of its folder and name: [W] is what a script
    may write. *)
Definition within (W : list string → string → Prop) (fs0 fs : filesystem)
  : Prop :=
  (∀ dir, is_Some (fs !! dir) ↔ is_Some (fs0 !! dir)) ∧
  ∀ dir name, ¬ W dir name → fs_file fs dir name = fs_file fs0 dir name.

(** A well-formed file system that differs from [fs0] within [W]. *)
Definition confined (W : list string → string → Prop) (fs0 fs : filesystem)
  : Prop :=
  fs_wf fs ∧ within W fs0 fs.

(** ** Names *)

Lemma names_wf_lookup (d : folder) name :
  names_wf d → is_Some (d !! name) → is_name name.
Proof. intros Hd [f Hf]. by apply (Hd name f). Qed.

Lemma names_wf_insert (d : folder) name f :
  is_name name → names_wf d → names_wf (<[name := f]> d).
Proof. intros Hn Hd. by apply map_Forall_insert_2. Qed.

Lemma names_wf_delete (d : folder) name : names_wf d → names_wf (delete name d).
Proof. apply map_Forall_delete. Qed.

Lemma names_wf_listdir (d : folder) : names_wf d → Forall is_name (listdir d).
Proof.
  intros Hd. apply List.Forall_forall. intros name Hin%list_elem_of_In.
  by apply (names_wf_lookup d), elem_of_listdir.
Qed.

(** ** Opening and looking up *)

Lemma fs_open_lookup fs path img :
  fs_open fs path = Ok img ↔ fs_lookup fs path = Some (ImageFile img).
Proof.
  unfold fs_open, fs_lookup, fs_file. destruct (resolve path) as [dir name].
  simpl. destruct (fs !! dir) as [d|]; simpl; [apply Image_open_Ok|done].
Qed.

Lemma fs_open_spec fs path :
  fs_open fs path =
    match fs_lookup fs path with
    | Some (ImageFile img) => Ok img
    | Some OtherFile | None => Raise OSError
    end.
Proof.
  unfold fs_open, fs_lookup, fs_file, Image_open.
  destruct (resolve path) as [dir name]. simpl. by destruct (fs !! dir).
Qed.

(** [Image.open] reads nothing but the file of its path. *)
Lemma fs_open_ext fs fs' path :
  fs_lookup fs' path = fs_lookup fs path → fs_open fs' path = fs_open fs path.
Proof.
  unfold fs_open, fs_lookup, fs_file, Image_open.
  destruct (resolve path) as [dir name]. simpl.
  destruct (fs' !! dir) as [d'|], (fs !! dir) as [d|]; simpl; intros Heq;
    by rewrite ?Heq, <- ?Heq.
Qed.

(** ** Saving *)

(** [save] succeeds exactly when the folder of the path is there. *)
Lemma fs_save_is_ok fs path img :
  is_ok (fs_save fs path img) ↔ is_Some (fs !! (resolve path).1).
Proof.
  unfold fs_save. destruct (resolve path) as [dir name]. simpl.
  destruct (fs !! dir); simpl; split; try done; by intros [? ?].
Qed.

(** After [save] the file of the path is the image, and every other
    file and every folder is what it was. *)
Lemma fs_file_save fs path img fs' dir name :
  fs_save fs path img = Ok fs' →
  fs_file fs' dir name =
    if decide ((dir, name) = resolve path) then Some (ImageFile img)
    else fs_file fs dir name.
Proof.
  unfold fs_save, fs_file, save. destruct (resolve path) as [dir' name'].
  destruct (fs !! dir') as [d|] eqn:Hd; [|done]. intros [= <-].
  destruct (decide (dir = dir')) as [->|Hdir].
  - rewrite lookup_insert_eq, Hd. simpl.
    destruct (decide (name = name')) as [->|Hname].
    + by rewrite lookup_insert_eq, decide_True.
    + rewrite lookup_insert_ne by done. by rewrite decide_False by congruence.
  - rewrite lookup_insert_ne by done. by rewrite decide_False by congruence.
Qed.

Lemma fs_save_folders fs path img fs' dir :
  fs_save fs path img = Ok fs' → is_Some (fs' !! dir) ↔ is_Some (fs !! dir).
Proof.
  unfold fs_save. destruct (resolve path) as [dir' name'].
  destruct (fs !! dir') as [d|] eqn:Hd; [|done]. intros [= <-].
  destruct (decide (dir = dir')) as [->|Hdir].
  - rewrite lookup_insert_eq, Hd. split; by eexists.
  - by rewrite lookup_insert_ne.
Qed.

(** ** One folder *)

Section one_folder.
Context (fs : filesystem) (path : string).
Implicit Types (name : string) (img : image).

(** The folder is missing: nothing of it can be listed, read,
    written or removed. *)
Lemma missing_folder name img :
  fs !! dir_key path = None → is_name name →
  fs_listdir fs path = Raise OSError ∧
  fs_open fs (join path name) = Raise OSError ∧
  fs_save fs (join path name) img = Raise OSError ∧
  fs_remove fs (join path name) = Raise OSError.
Proof.
  intros Hd Hn. unfold fs_listdir, fs_open, fs_save, fs_remove.
  by rewrite resolve_join_key, Hd.
Qed.

Context (d : folder) (Hd : fs !! dir_key path = Some d).

Lemma fs_listdir_folder : fs_listdir fs path = Ok (listdir d).
Proof. unfold fs_listdir. by rewrite Hd. Qed.

Lemma fs_open_join name :
  is_name name → fs_open fs (join path name) = Image_open d name.
Proof. intros Hn. unfold fs_open. by rewrite resolve_join_key, Hd. Qed.

Lemma fs_save_join name img :
  is_name name →
  fs_save fs (join path name) img = Ok (<[dir_key path := save d name img]> fs).
Proof. intros Hn. unfold fs_save. by rewrite resolve_join_key, Hd. Qed.

Lemma fs_remove_join name :
  is_name name → is_Some (d !! name) →
  fs_remove fs (join path name) = Ok (<[dir_key path := remove d name]> fs).
Proof.
  intros Hn Hin. unfold fs_remove. rewrite resolve_join_key, Hd by done.
  simpl. by rewrite decide_True.
Qed.

Lemma fs_lookup_join name :
  is_name name → fs_lookup fs (join path name) = d !! name.
Proof.
  intros Hn. unfold fs_lookup, fs_file. rewrite resolve_join_key by done.
  simpl. by rewrite Hd.
Qed.

End one_folder.

(** ** The invariant *)

Lemma fs_wf_insert (fs : filesystem) dir (d : folder) :
  folder_wf d → names_wf d → fs_wf fs → fs_wf (<[dir := d]> fs).
Proof. intros Hw Hn Hdk. by apply map_Forall_insert_2. Qed.

(** A file saved on a well-formed file system leaves it well formed, when the
    path ends with a name. *)
Lemma fs_save_wf fs path img fs' :
  fs_wf fs → image_wf img → is_name (resolve path).2 →
  fs_save fs path img = Ok fs' → fs_wf fs'.
Proof.
  unfold fs_save. destruct (resolve path) as [dir name]. simpl.
  intros Hdk Hi Hn. destruct (fs !! dir) as [d|] eqn:Hd; [|done].
  intros [= <-]. destruct (Hdk dir d Hd) as [Hw Hnames].
  apply fs_wf_insert; [|by apply names_wf_insert|done].
  by apply map_Forall_insert_2.
Qed.

(** ** Removing *)

(** After [os.remove] the file of the path is gone, and every other
    file and every folder is what it was. *)
Lemma fs_file_remove fs path fs' dir name :
  fs_remove fs path = Ok fs' →
  fs_file fs' dir name =
    if decide ((dir, name) = resolve path) then None else fs_file fs dir name.
Proof.
  unfold fs_remove, fs_file, remove. destruct (resolve path) as [dir' name'].
  destruct (fs !! dir') as [d|] eqn:Hd; [|done]. simpl.
  case_decide; [|done]. intros [= <-].
  destruct (decide (dir = dir')) as [->|Hdir].
  - rewrite lookup_insert_eq, Hd. simpl.
    destruct (decide (name = name')) as [->|Hname].
    + by rewrite lookup_delete_eq, decide_True.
    + rewrite lookup_delete_ne by done. by rewrite decide_False by congruence.
  - rewrite lookup_insert_ne by done. by rewrite decide_False by congruence.
Qed.

Lemma fs_remove_folders fs path fs' dir :
  fs_remove fs path = Ok fs' → is_Some (fs' !! dir) ↔ is_Some (fs !! dir).
Proof.
  unfold fs_remove. destruct (resolve path) as [dir' name'].
  destruct (fs !! dir') as [d|] eqn:Hd; [|done]. simpl.
  case_decide; [|done]. intros [= <-].
  destruct (decide (dir = dir')) as [->|Hdir].
  - rewrite lookup_insert_eq, Hd. split; by eexists.
  - by rewrite lookup_insert_ne.
Qed.

Lemma fs_remove_wf fs path fs' :
  fs_wf fs → fs_remove fs path = Ok fs' → fs_wf fs'.
Proof.
  unfold fs_remove. destruct (resolve path) as [dir name]. intros Hfs.
  destruct (fs !! dir) as [d|] eqn:Hd; [|done]. simpl.
  case_decide; [|done]. intros [= <-]. destruct (Hfs _ _ Hd) as [Hwf Hn].
  apply fs_wf_insert; [by apply map_Forall_delete|by apply names_wf_delete|done].
Qed.

(** ** The footprint *)

Section within.
Context (W : list string → string → Prop) (fs0 : filesystem).
Implicit Types (fs : filesystem).

Lemma within_refl : within W fs0 fs0.
Proof. by split. Qed.

(** A change of one file that [W] allows. *)
Lemma within_step fs fs' dir' name' file :
  within W fs0 fs → W dir' name' →
  (∀ dir, is_Some (fs' !! dir) ↔ is_Some (fs !! dir)) →
  (∀ dir name, fs_file fs' dir name =
     if decide ((dir, name) = (dir', name')) then file else fs_file fs dir name) →
  within W fs0 fs'.
Proof.
  intros [Hdirs Hfiles] HW Hdirs' Hfiles'. split.
  - intros dir. by rewrite Hdirs', Hdirs.
  - intros dir name Hout. rewrite Hfiles', decide_False; [by apply Hfiles|].
    by intros [= -> ->].
Qed.

Lemma within_save fs path img fs' :
  within W fs0 fs → W (resolve path).1 (resolve path).2 →
  fs_save fs path img = Ok fs' → within W fs0 fs'.
Proof.
  intros Hin HW Hs.
  apply (within_step fs fs' (resolve path).1 (resolve path).2
           (Some (ImageFile img))); [done..| |].
  - intros dir. by apply (fs_save_folders fs path img).
  - intros dir name. rewrite <- surjective_pairing. by apply fs_file_save.
Qed.

Lemma within_remove fs path fs' :
  within W fs0 fs → W (resolve path).1 (resolve path).2 →
  fs_remove fs path = Ok fs' → within W fs0 fs'.
Proof.
  intros Hin HW Hs.
  apply (within_step fs fs' (resolve path).1 (resolve path).2 None); [done..| |].
  - intros dir. by apply (fs_remove_folders fs path).
  - intros dir name. rewrite <- surjective_pairing. by apply fs_file_remove.
Qed.

(** A folder in which [W] allows nothing is the folder it was. *)
Lemma within_folder fs dir :
  within W fs0 fs → (∀ name, ¬ W dir name) → fs !! dir = fs0 !! dir.
Proof.
  intros [Hdirs Hfiles] Hout. specialize (Hdirs dir).
  pose proof (λ name, Hfiles dir name (Hout name)) as Hdir.
  unfold fs_file in Hdir.
  destruct (fs !! dir) as [d|], (fs0 !! dir) as [d0|]; simpl in Hdir.
  - f_equal. by apply map_eq.
  - destruct Hdirs as [Hdirs _]. destruct Hdirs as [? [=]]. by eexists.
  - destruct Hdirs as [_ Hdirs]. destruct Hdirs as [? [=]]. by eexists.
  - done.
Qed.

End within.
