(* ===== verification/Effects.v ===== *)
(** * Effects: scripts as programs on a file system and a console

    A script reads and writes files by path, prints lines, and ends at
    the first exception that no [try] catches.  [py L A] is such a
    program: a function from the file system and the console, whose
    lines have type [L], to what the program returns or raises and the
    file system and console it leaves.  [py_try] is [try: ... except
    Exception as e: ...] and [py_fold] a [for] loop that threads the
    variables it assigns; what a program did before it raised stays
    done. *)

From Stdlib Require Import ZArith Lia Ascii String.
From stdpp Require Import base tactics option list numbers strings gmap.
From S2P Require Import Prelude Image Folder Paths FileSystem.

(** ** Programs *)

Record system (L : Type) : Type := System {
  sys_files : filesystem;
  sys_console : list L }.

Arguments System {L} _ _.
Arguments sys_files {L} _.
Arguments sys_console {L} _.

Definition py (L A : Type) : Type := system L → result A * system L.

#[global] Instance py_ret {L} : MRet (py L) := λ A x w, (Ok x, w).

#[global] Instance py_bind {L} : MBind (py L) := λ A B f m w,
  match m w with
  | (Ok x, w') => f x w'
  | (Raise e, w') => (Raise e, w')
  end.

(** [os.listdir(path)]. *)
Definition py_listdir {L} (path : string) : py L (list string) :=
  λ w, (fs_listdir (sys_files w) path, w).

(** [Image.open(path)]. *)
Definition py_open {L} (path : string) : py L image :=
  λ w, (fs_open (sys_files w) path, w).

(** [img.save(path, 'PNG')]. *)
Definition py_save {L} (img : image) (path : string) : py L unit :=
  λ w, match fs_save (sys_files w) path img with
       | Ok fs => (Ok tt, System fs (sys_console w))
       | Raise e => (Raise e, w)
       end.

(** [os.remove(path)]. *)
Definition py_remove {L} (path : string) : py L unit :=
  λ w, match fs_remove (sys_files w) path with
       | Ok fs => (Ok tt, System fs (sys_console w))
       | Raise e => (Raise e, w)
       end.

(** [print(...)], once and several times. *)
Definition py_prints {L} (ls : list L) : py L unit :=
  λ w, (Ok tt, System (sys_files w) (sys_console w ++ ls)).

Definition py_print {L} (l : L) : py L unit := py_prints [l].

(** A computation without effects. *)
Definition py_lift {L A} (r : result A) : py L A := λ w, (r, w).

(** [try: m except Exception as e: handler e]. *)
Definition py_try {L A} (m : py L A) (handler : exn → py L A) : py L A :=
  λ w, match m w with
       | (Ok x, w') => (Ok x, w')
       | (Raise e, w') => handler e w'
       end.

(** [for x in l: s = body s x]. *)
Fixpoint py_fold {L S X} (body : S → X → py L S) (s : S) (l : list X)
  : py L S :=
  match l with
  | [] => mret s
  | x :: l => s' ← body s x; py_fold body s' l
  end.

(** [for x in l: body x]. *)
Definition py_for {L X} (l : list X) (body : X → py L unit) : py L unit :=
  py_fold (λ _ x, body x) tt l.

(** A script started on a file system, with an empty console. *)
Definition run_py {L A} (m : py L A) (fs : filesystem)
  : result A * system L :=
  m (System fs []).

(** The file system a script leaves, however it ends. *)
Definition files_after {L} (m : py L unit) (fs : filesystem) : filesystem :=
  sys_files (run_py m fs).2.

(** A program that leaves what was printed in place. *)
Definition appends {L A} (m : py L A) : Prop :=
  ∀ w, sys_console w `prefix_of` sys_console (m w).2.

(** A program that keeps an invariant [I] of the file system, however
    it ends, and returns a value with [Q] when it returns. *)
Definition keeps {L A : Type} (I : filesystem → Prop) (m : py L A) (Q : A → Prop)
  : Prop :=
  ∀ w, I (sys_files w) →
       I (sys_files (m w).2) ∧ ∀ x, (m w).1 = Ok x → Q x.

(** ** Sequencing *)

Lemma py_bind_Ok {L A B} (m : py L A) (f : A → py L B) w x w' :
  m w = (Ok x, w') → (m ≫= f) w = f x w'.
Proof. intros Hm. unfold mbind, py_bind. by rewrite Hm. Qed.

Lemma py_bind_Raise {L A B} (m : py L A) (f : A → py L B) w e w' :
  m w = (Raise e, w') → (m ≫= f) w = (Raise e, w').
Proof. intros Hm. unfold mbind, py_bind. by rewrite Hm. Qed.

Lemma py_fold_cons {L S X} (body : S → X → py L S) s x l w s' w' :
  body s x w = (Ok s', w') → py_fold body s (x :: l) w = py_fold body s' l w'.
Proof.
  intros Hb. simpl. by apply (py_bind_Ok (body s x) (λ s', py_fold body s' l)).
Qed.

Lemma py_for_cons {L X} (body : X → py L unit) x l w w' :
  body x w = (Ok tt, w') → py_for (x :: l) body w = py_for l body w'.
Proof. intros Hb. unfold py_for. by apply (py_fold_cons _ tt x l w tt w'). Qed.

(** A loop over two lists in a row. *)
Lemma py_fold_app {L S X} (body : S → X → py L S) l1 l2 : ∀ s w,
  py_fold body s (l1 ++ l2) w =
    (s' ← py_fold body s l1; py_fold body s' l2) w.
Proof.
  induction l1 as [|x l1 IH]; intros s w; simpl; [done|].
  unfold mbind, py_bind. destruct (body s x w) as [[s'|e] w']; [|done].
  apply IH.
Qed.

(** ** The console only grows *)

Lemma appends_ret {L A} (x : A) : appends (mret x : py L A).
Proof. by intros w. Qed.

Lemma appends_bind {L A B} (m : py L A) (f : A → py L B) :
  appends m → (∀ x, appends (f x)) → appends (m ≫= f).
Proof.
  intros Hm Hf w. specialize (Hm w). unfold mbind, py_bind.
  destruct (m w) as [[x|e] w']; [|done]. by etrans; [|apply Hf].
Qed.

Lemma appends_prints {L} (ls : list L) : appends (py_prints ls).
Proof. intros w. by apply prefix_app_r. Qed.

Lemma appends_open {L} path : appends (py_open (L := L) path).
Proof. by intros w. Qed.

Lemma appends_listdir {L} path : appends (py_listdir (L := L) path).
Proof. by intros w. Qed.

Lemma appends_lift {L A} (r : result A) : appends (py_lift (L := L) r).
Proof. by intros w. Qed.

Lemma appends_save {L} img path : appends (py_save (L := L) img path).
Proof. intros w. unfold py_save. by destruct (fs_save _ _ _). Qed.

Lemma appends_remove {L} path : appends (py_remove (L := L) path).
Proof. intros w. unfold py_remove. by destruct (fs_remove _ _). Qed.

Lemma appends_try {L A} (m : py L A) handler :
  appends m → (∀ e, appends (handler e)) → appends (py_try m handler).
Proof.
  intros Hm Hh w. specialize (Hm w). unfold py_try.
  destruct (m w) as [[x|e] w']; [done|]. by etrans; [|apply Hh].
Qed.

Lemma appends_fold {L S X} (body : S → X → py L S) l :
  (∀ s x, appends (body s x)) → ∀ s, appends (py_fold body s l).
Proof.
  intros Hb. induction l as [|x l IH]; intros s; simpl.
  - apply appends_ret.
  - apply appends_bind; [apply Hb|apply IH].
Qed.

(** ** Invariants of the file system

    One rule per construct: a script keeps an invariant when its
    statements do. *)

Section keeps.
Context {L : Type} (I : filesystem → Prop).
Implicit Types (w : system L).

Lemma keeps_ret {A} (x : A) (Q : A → Prop) : Q x → keeps I (mret x : py L A) Q.
Proof. intros Hx w Hw. split; [done|]. by intros ? [= <-]. Qed.

Lemma keeps_bind {A B} (m : py L A) (f : A → py L B) Q R :
  keeps I m Q → (∀ x, Q x → keeps I (f x) R) → keeps I (m ≫= f) R.
Proof.
  intros Hm Hf w Hw. destruct (Hm w Hw) as [Hw' Hx]. unfold mbind, py_bind.
  destruct (m w) as [[x|e] w']; [by apply (Hf x (Hx x eq_refl))|]. by split.
Qed.

Lemma keeps_weaken {A} (m : py L A) (Q R : A → Prop) :
  keeps I m Q → (∀ x, Q x → R x) → keeps I m R.
Proof. intros Hm HQ w Hw. destruct (Hm w Hw) as [? Hx]. split; auto. Qed.

Lemma keeps_lift {A} (r : result A) (Q : A → Prop) :
  (∀ x, r = Ok x → Q x) → keeps I (py_lift (L := L) r) Q.
Proof. intros Hr w Hw. by split. Qed.

Lemma keeps_prints (ls : list L) Q : Q tt → keeps I (py_prints ls) Q.
Proof. intros HQ w Hw. split; [done|]. by intros []. Qed.

Lemma keeps_try {A} (m : py L A) handler Q :
  keeps I m Q → (∀ e, keeps I (handler e) Q) → keeps I (py_try m handler) Q.
Proof.
  intros Hm Hh w Hw. destruct (Hm w Hw) as [Hw' Hx]. unfold py_try.
  destruct (m w) as [[x|e] w']; [by split|by apply Hh].
Qed.

Lemma keeps_fold {S X} (body : S → X → py L S) l :
  (∀ s x, x ∈ l → keeps I (body s x) (λ _, True)) →
  ∀ s, keeps I (py_fold body s l) (λ _, True).
Proof.
  induction l as [|x l IH]; intros Hb s; simpl; [by apply keeps_ret|].
  eapply keeps_bind; [apply Hb; by left|]. intros s' _. apply IH.
  intros s'' y Hy. apply Hb. by right.
Qed.

Lemma keeps_for {X} l (body : X → py L unit) :
  (∀ x, x ∈ l → keeps I (body x) (λ _, True)) →
  keeps I (py_for l body) (λ _, True).
Proof. intros Hb. apply keeps_fold. intros _ x. apply Hb. Qed.

End keeps.

(** The operations on a well-formed file system that may differ from
    [fs0] within [W]: the names listed are names, the images opened are
    well formed, a well-formed image may be saved under a name that
    [W] allows, and a file that [W] allows may be removed. *)
Section keeps_confined.
Context {L : Type} (W : list string → string → Prop) (fs0 : filesystem).

Lemma keeps_listdir path :
  keeps (confined W fs0) (py_listdir (L := L) path) (Forall is_name).
Proof.
  intros w Hw. split; [done|]. unfold py_listdir, fs_listdir. simpl.
  destruct (sys_files w !! dir_key path) as [d|] eqn:Hd; [|done].
  intros names [= <-]. apply names_wf_listdir. by destruct (proj1 Hw _ _ Hd).
Qed.

Lemma keeps_open path :
  keeps (confined W fs0) (py_open (L := L) path) image_wf.
Proof.
  intros w Hw. split; [done|]. intros img. unfold py_open, fs_open. simpl.
  destruct (resolve path) as [dir name].
  destruct (sys_files w !! dir) as [d|] eqn:Hd; [|done]. simpl.
  intros Ho%Image_open_Ok. destruct (proj1 Hw _ _ Hd) as [Hwf _].
  apply (Hwf name (ImageFile img) Ho).
Qed.

Lemma keeps_save img path :
  image_wf img → is_name (resolve path).2 → W (resolve path).1 (resolve path).2 →
  keeps (confined W fs0) (py_save (L := L) img path) (λ _, True).
Proof.
  intros Hi Hn HW w [Hw Hin]. unfold py_save.
  destruct (fs_save (sys_files w) path img) as [fs'|e] eqn:Hs; [|done].
  split; [|done]. split.
  - by apply (fs_save_wf (sys_files w) path img).
  - by apply (within_save W fs0 (sys_files w) path img).
Qed.

Lemma keeps_remove path :
  W (resolve path).1 (resolve path).2 →
  keeps (confined W fs0) (py_remove (L := L) path) (λ _, True).
Proof.
  intros HW w [Hw Hin]. unfold py_remove.
  destruct (fs_remove (sys_files w) path) as [fs'|e] eqn:Hs; [|done].
  split; [|done]. split.
  - by apply (fs_remove_wf (sys_files w) path).
  - by apply (within_remove W fs0 (sys_files w) path).
Qed.

(** The same on a path joined from a folder and a name. *)
Lemma keeps_save_join img path name :
  image_wf img → is_name name → W (dir_key path) name →
  keeps (confined W fs0) (py_save (L := L) img (join path name)) (λ _, True).
Proof. intros Hi Hn HW. apply keeps_save; by rewrite ?resolve_join_key. Qed.

Lemma keeps_remove_join path name :
  is_name name → W (dir_key path) name →
  keeps (confined W fs0) (py_remove (L := L) (join path name)) (λ _, True).
Proof. intros Hn HW. apply keeps_remove. by rewrite resolve_join_key. Qed.

End keeps_confined.

(** A script that keeps a well-formed file system within [W] of where
    it started leaves the file system it was started on well formed and
    within [W] of it. *)
Lemma keeps_files_after {L} W (m : py L unit) Q fs :
  keeps (confined W fs) m Q → fs_wf fs → confined W fs (files_after m fs).
Proof. intros Hm Hfs. apply (Hm (System fs [])). split; [done|apply within_refl]. Qed.
