(* ===== verification/OnDisk.v ===== *)
(** * OnDisk: the goblin scripts on a file system

    The scripts of [Batch] and [Machine] work on a folder; here they are
    written as the source has them, on the paths [os.path.join] builds
    from [goblin_folder] and the names [os.listdir] returns, as programs
    of [Effects].  A script whose folder is missing ends at the listing;
    one whose folder is there does to it what [Machine.exec] does to the
    folder, prints what it prints, and leaves every other folder of the
    file system as it was. *)

From Stdlib Require Import ZArith Lia Ascii String.
From stdpp Require Import base tactics option list numbers strings gmap.
From S2P Require Import Prelude Image BBox Crop Canvas Folder Batch Machine.
From S2P Require Import Paths FileSystem Effects.

(** ** The scripts *)

(** [goblin_folder = r"D:\QuizBattle\app\src\main\res\drawable"]. *)
Definition goblin_folder : string := "D:\QuizBattle\app\src\main\res\drawable".

(** The first pass: [for filename in goblin_files: filepath = ...;
    img = Image.open(filepath); max_width = max(max_width, img.width);
    max_height = max(max_height, img.height)], outside any [try]. *)
Definition first_pass_py (goblin_folder : string) (goblin_files : list string)
  : py output (Z * Z) :=
  py_fold (λ m filename,
             let filepath := join goblin_folder filename in
             img ← py_open filepath;
             mret (Z.max m.1 (width img), Z.max m.2 (height img)))
          (0, 0) goblin_files.

(** One iteration of the loop: the [try] with the body of the script
    between [Image.open(filepath)] and [save(filepath, 'PNG')], and the
    [except] that prints the error. *)
Definition process_py (body : image → result outcome) (goblin_folder : string)
  (filename : string) : py output unit :=
  let filepath := join goblin_folder filename in
  py_try (img ← py_open filepath;
          r ← py_lift (body img);
          match r with
          | Written new =>
              py_save new filepath;;
              py_print (PerFile (Done filename (size img) (size new)))
          | Skipped => py_print (PerFile (Skip filename))
          end)
         (λ e, py_print (PerFile (Error filename e))).

(** A goblin script from its listing to its closing line. *)
Definition goblin_py (s : script) (goblin_folder : string) : py output unit :=
  names ← py_listdir goblin_folder;
  let goblin_files := filter (λ f, is_goblin_png f) names in
  py_prints (heading s goblin_files);;
  canvas ← (if measures s then
              m ← first_pass_py goblin_folder goblin_files;
              let canvas := canvas_of s m in
              py_prints [MaxDimensions m; UsingCanvas canvas];;
              mret canvas
            else mret (canvas_of s (0, 0)));
  py_for goblin_files (process_py (body_of s canvas) goblin_folder);;
  py_print AllDone.

(** src/crop_goblin_tight.py. *)
Definition crop_goblin_tight_py : py output unit :=
  goblin_py crop_goblin_tight_script goblin_folder.

(** src/crop_goblin_sprites.py. *)
Definition crop_goblin_sprites_py : py output unit :=
  goblin_py crop_goblin_sprites_script goblin_folder.

(** src/align_goblin_bottom.py. *)
Definition align_goblin_bottom_py : py output unit :=
  goblin_py align_goblin_bottom_script goblin_folder.

(** src/resize_goblin_uniform.py. *)
Definition resize_goblin_uniform_py : py output unit :=
  goblin_py resize_goblin_uniform_script goblin_folder.

(** src/uniform_goblin_bottom.py. *)
Definition uniform_goblin_bottom_py : py output unit :=
  goblin_py uniform_goblin_bottom_script goblin_folder.

(** ** Specification helpers *)

(** The files a goblin script may write: the selected names of its
    folder. *)
Definition goblin_writes (dir : list string) (name : string) : Prop :=
  dir = dir_key goblin_folder ∧ is_goblin_png name = true.

(** How a configuration of [Machine] ended. *)
Definition ended (c : config) : result unit :=
  match at_phase c with
  | Crashed e => Raise e
  | _ => Ok tt
  end.

(** The canvas a goblin script settles on, or the exception of its
    first pass. *)
Definition canvas_for (s : script) (d : folder) : result (Z * Z) :=
  if measures s then m ← first_pass d (goblin_files d); Ok (canvas_of s m)
  else Ok (canvas_of s (0, 0)).

(** The folder a goblin script leaves, file by file. *)
Definition goblin_folder_after (s : script) (d : folder) : folder :=
  match canvas_for s d with
  | Ok canvas => folder_after (body_of s canvas) is_goblin_png d
  | Raise _ => d
  end.

(** A file system with the sprite folder of [Batch] and a folder of
    sheets, and one without the sprite folder. *)
Definition sample_fs : filesystem :=
  <[dir_key goblin_folder := sample_folder]>
  (<[dir_key "D:\QuizBattle\sheets" := sample_sprites]> ∅).

Definition sample_fs_no_folder : filesystem :=
  delete (dir_key goblin_folder) sample_fs.

(** ** One iteration *)

Section one_folder.
Context (path : string) (key : list string) (Hkey : key = dir_key path).
Implicit Types (fs : filesystem) (d : folder) (out : list output).

Lemma process_py_folder body fs d out name :
  fs !! key = Some d → is_name name →
  process_py body path name (System fs out) =
    (Ok tt, System (<[key := (process body (d, []) name).1]> fs)
              (out ++ (PerFile <$> (process body (d, []) name).2))).
Proof.
  intros Hd Hn. subst key.
  unfold process_py, process, py_try, py_open, py_lift, py_save, py_print,
    py_prints, mbind, py_bind. simpl.
  rewrite (fs_open_join fs path d Hd name Hn).
  destruct (Image_open d name) as [img|e]; simpl; [|by rewrite insert_id].
  destruct (body img) as [[new|]|e]; simpl; [|by rewrite insert_id..].
  by rewrite (fs_save_join fs path d Hd name new Hn).
Qed.

(** The loop of a script is the loop of [Batch] on the folder. *)
Lemma py_for_process body names : ∀ fs d out,
  fs !! key = Some d → Forall is_name names →
  py_for names (process_py body path) (System fs out) =
    (Ok tt, System (<[key := (foldl (process body) (d, []) names).1]> fs)
              (out ++ (PerFile <$> (foldl (process body) (d, []) names).2))).
Proof.
  induction names as [|name names IH]; intros fs d out Hd Hn.
  { simpl. by rewrite insert_id, app_nil_r. }
  apply Forall_cons in Hn as [Hn Hns].
  rewrite (py_for_cons _ _ _ _ _ (process_py_folder body fs d out name Hd Hn)).
  rewrite (IH _ (process body (d, []) name).1) by (by rewrite ?lookup_insert_eq).
  rewrite insert_insert_eq. cbn [foldl].
  destruct (process body (d, []) name) as [d1 log1] eqn:Hp. simpl.
  rewrite (foldl_process_console body names d1 log1). simpl.
  by rewrite fmap_app, app_assoc.
Qed.

(** The first pass is the first pass of [Batch] on the folder, and
    leaves everything as it was. *)
Lemma first_pass_py_folder names fs d out :
  fs !! key = Some d → Forall is_name names →
  first_pass_py path names (System fs out) = (first_pass d names, System fs out).
Proof.
  intros Hd Hn. subst key. unfold first_pass_py, first_pass.
  generalize (0, 0). induction Hn as [|name names Hn Hns IH]; intros m; [done|].
  simpl. unfold mbind at 1, py_bind at 1, mbind at 1, py_bind at 1, py_open.
  simpl. rewrite (fs_open_join fs path d Hd name Hn).
  destruct (Image_open d name) as [img|e]; simpl; [apply IH|done].
Qed.

End one_folder.

(** ** Whole scripts *)

Lemma goblin_files_names (d : folder) : names_wf d → Forall is_name (goblin_files d).
Proof.
  intros Hd. apply List.Forall_forall. intros name Hin%list_elem_of_In.
  apply elem_of_goblin_files in Hin as [Hin _]. by apply (names_wf_lookup d).
Qed.

Lemma goblin_py_big_step s path fs d :
  fs !! dir_key path = Some d → names_wf d →
  run_py (goblin_py s path) fs =
    (ended (big_step s d),
     System (<[dir_key path := disk (big_step s d)]> fs) (console (big_step s d))).
Proof.
  intros Hd Hn. pose proof (goblin_files_names d Hn) as Hnames.
  unfold run_py, goblin_py, big_step.
  rewrite (py_bind_Ok _ _ _ (listdir d) (System fs [])) by
    (unfold py_listdir; simpl; by rewrite (fs_listdir_folder fs path d Hd)).
  fold (goblin_files d). unfold mbind at 1, py_bind at 1, py_prints at 1.
  cbn [sys_files sys_console app]. destruct (measures s).
  - unfold mbind at 1, py_bind at 1, mbind at 1, py_bind at 1.
    rewrite (first_pass_py_folder path _ eq_refl _ fs d _ Hd Hnames).
    destruct (first_pass d (goblin_files d)) as [m|e]; simpl;
      [|by rewrite insert_id].
    unfold mbind, py_bind.
    rewrite (py_for_process path _ eq_refl _ _ fs d _ Hd Hnames).
    unfold py_print, py_prints. simpl. by rewrite <- !app_assoc.
  - unfold mbind, py_bind. simpl.
    rewrite (py_for_process path _ eq_refl _ _ fs d _ Hd Hnames).
    unfold py_print, py_prints. simpl. by rewrite <- !app_assoc.
Qed.

(** The folder a script leaves, file by file. *)
Lemma big_step_disk s d : disk (big_step s d) = goblin_folder_after s d.
Proof.
  unfold big_step, goblin_folder_after, canvas_for, loop_end.
  destruct (measures s); [|apply run_goblin_files].
  destruct (first_pass d (goblin_files d)) as [m|e]; [|done].
  apply run_goblin_files.
Qed.

Lemma files_after_goblin_py s path fs d :
  fs !! dir_key path = Some d → names_wf d →
  files_after (goblin_py s path) fs = <[dir_key path := goblin_folder_after s d]> fs.
Proof.
  intros Hd Hn. unfold files_after.
  by rewrite (goblin_py_big_step s path fs d Hd Hn), big_step_disk.
Qed.

(** A script whose folder is missing ends at the listing. *)
Lemma goblin_py_no_folder s path fs :
  fs !! dir_key path = None →
  run_py (goblin_py s path) fs = (Raise OSError, System fs []).
Proof.
  intros Hd. unfold run_py, goblin_py, py_listdir, fs_listdir, mbind at 1, py_bind.
  simpl. by rewrite Hd.
Qed.

(** ** The footprint *)

(** A goblin script keeps the file system well formed and writes
    nothing but what [W] allows, when [W] allows the selected names of
    its folder. *)
Section footprint.
Context (W : list string → string → Prop) (fs0 : filesystem) (path : string).
Context (HW : ∀ name, is_goblin_png name = true → W (dir_key path) name).

Lemma process_py_keeps body `{!BodyTyped body} name :
  is_name name → is_goblin_png name = true →
  keeps (confined W fs0) (process_py body path name) (λ _, True).
Proof.
  intros Hn Hg. apply keeps_try; [|intros e; by apply keeps_prints].
  eapply keeps_bind; [apply keeps_open|]. intros img Hi.
  eapply keeps_bind;
    [apply (keeps_lift _ _ (λ r, ∀ new, r = Written new → image_wf new))|].
  { intros r Hr new ->. by destruct (body_typed _ _ Hi Hr). }
  intros [new|] Hr; [|by apply keeps_prints].
  eapply keeps_bind; [apply keeps_save_join; auto|].
  intros _ _. by apply keeps_prints.
Qed.

Lemma first_pass_py_keeps names :
  keeps (confined W fs0) (first_pass_py path names) (λ _, True).
Proof.
  apply keeps_fold. intros m name _.
  eapply keeps_bind; [apply keeps_open|]. intros img _. by apply keeps_ret.
Qed.

Lemma goblin_py_keeps s :
  (∀ canvas, BodyTyped (body_of s canvas)) →
  keeps (confined W fs0) (goblin_py s path) (λ _, True).
Proof.
  intros Hbody. eapply keeps_bind; [apply keeps_listdir|]. intros names Hn.
  eapply keeps_bind; [by apply (keeps_prints _ _ (λ _, True))|]. intros _ _.
  eapply (keeps_bind _ _ _ (λ _, True)).
  { destruct (measures s); [|by apply keeps_ret].
    eapply keeps_bind; [apply first_pass_py_keeps|]. intros m _.
    eapply keeps_bind; [by apply (keeps_prints _ _ (λ _, True))|].
    intros _ _. by apply keeps_ret. }
  intros canvas _. eapply keeps_bind; [|intros _ _; by apply keeps_prints].
  apply keeps_for. intros name [Hg Hin]%list_elem_of_filter.
  apply process_py_keeps; [apply Hbody| |by apply Is_true_true].
  rewrite List.Forall_forall in Hn. by apply Hn, list_elem_of_In.
Qed.

End footprint.

(** A goblin script leaves a well-formed file system well formed, and
    every file but the selected ones of its folder as it was, however
    it ends. *)
Lemma goblin_py_confined s fs :
  (∀ canvas, BodyTyped (body_of s canvas)) → fs_wf fs →
  confined goblin_writes fs (files_after (goblin_py s goblin_folder) fs).
Proof.
  intros Hbody. apply (keeps_files_after _ _ (λ _, True)).
  apply goblin_py_keeps; [|done]. intros name Hg. by split.
Qed.

(** C8. A goblin script run on a file system that has its folder does
    to the folder what the script of [Machine] does, ends as it ends and
    prints what it prints; the other folders stay as they were. *)
Theorem goblin_py_refines s path fs d :
  fs !! dir_key path = Some d → names_wf d →
  run_py (goblin_py s path) fs =
    (ended (exec s d),
     System (<[dir_key path := disk (exec s d)]> fs) (console (exec s d))).
Proof. rewrite exec_big_step. apply goblin_py_big_step. Qed.

Lemma goblin_py_refines_witness :
  run_py crop_goblin_tight_py sample_fs =
    (ended (exec crop_goblin_tight_script sample_folder),
     System (<[dir_key goblin_folder :=
                 disk (exec crop_goblin_tight_script sample_folder)]> sample_fs)
            (console (exec crop_goblin_tight_script sample_folder))).
Proof.
  apply (goblin_py_refines crop_goblin_tight_script goblin_folder sample_fs
           sample_folder).
  - apply lookup_insert_eq.
  - apply (bool_decide_unpack _). by vm_compute.
Defined.

(** C23. A goblin script whose folder is missing ends at the listing:
    nothing is printed and nothing is written. *)
Theorem goblin_py_missing s path fs :
  fs !! dir_key path = None →
  run_py (goblin_py s path) fs = (Raise OSError, System fs []).
Proof. apply goblin_py_no_folder. Qed.

Lemma goblin_py_missing_witness :
  run_py align_goblin_bottom_py sample_fs_no_folder =
    (Raise OSError, System sample_fs_no_folder []).
Proof.
  apply (goblin_py_missing align_goblin_bottom_script goblin_folder).
  apply lookup_delete_eq.
Defined.
