(* ===== verification/HurtOnDisk.v ===== *)
(** * HurtOnDisk: the hurt animation scripts on a file system

    The two scripts of [Extract] read the frames of one folder and write
    the numbered canvases into another.  Here they are programs of
    [Effects] on the paths they build with [os.path.join]: both folders
    are listed before the loop, and a missing one ends the script at
    its listing.  Where the two folders are on the file system and are
    not one folder, the programs do to the destination what the
    functions of [Extract] do, and leave the source as it is. *)

From Stdlib Require Import ZArith Lia Ascii String.
From stdpp Require Import base tactics option list numbers strings gmap
  sorting pretty.
From S2P Require Import Prelude Image BBox Crop Canvas Folder Batch Extract.
From S2P Require Import Paths FileSystem Effects.

(** ** The scripts *)

(** [source_folder] and [dest_folder], lines 5 and 6 of both scripts. *)
Definition source_folder : string :=
  "D:\QuizBattle\app\src\main\res\drawable\Goblin\Atk2".

Definition dest_folder : string := "D:\QuizBattle\app\src\main\res\drawable".

(** One iteration of [for i, filename in enumerate(files, start=1)]. *)
Definition extract_frame_py (source_folder dest_folder : string)
  (entry : Z * string) : py hurt_line unit :=
  let '(i, filename) := entry in
  let source_path := join source_folder filename in
  let dest_filename := dest_filename i in
  let dest_path := join dest_folder dest_filename in
  py_try (img ← py_open source_path;
          r ← py_lift (hurt_frame img);
          match r with
          | Written canvas =>
              py_save canvas dest_path;;
              py_print (Created dest_filename filename)
          | Skipped => py_print (SkippedFrame filename)
          end)
         (λ e, py_print (FrameError filename e)).

(** src/extract_goblin_hurt.py, for any two folders. *)
Definition extract_goblin_hurt_on (source_folder dest_folder : string)
  : py hurt_line unit :=
  names ← py_listdir source_folder;
  let atk2_files := take 5 (sorted (filter (λ f, endswith f ".png") names)) in
  py_print (Extracting (length atk2_files));;
  names ← py_listdir dest_folder;
  let goblin_files := filter (λ f, is_goblin_png f) names in
  py_print (UniformCanvas hurt_canvas);;
  py_for (enumerate 1 atk2_files) (extract_frame_py source_folder dest_folder);;
  py_print (DoneCreated (length atk2_files)).

(** src/extract_goblin_hurt_full.py, for any two folders. *)
Definition extract_goblin_hurt_full_on (source_folder dest_folder : string)
  : py hurt_line unit :=
  names ← py_listdir source_folder;
  let all_files := sorted (filter (λ f, endswith f ".png") names) in
  hurt_files ← py_lift
    (filter_result
       (λ f, if startswith f "01"
             then n ← int (substring 0 4 f); Ok (bool_decide (n ≤ 110))
             else Ok false)
       all_files);
  py_print (Extracting (length hurt_files));;
  py_print (UniformCanvas hurt_canvas);;
  names ← py_listdir dest_folder;
  let old_hurt := filter (λ f, startswith f "goblin_hurt_") names in
  py_for old_hurt (λ old_file,
    py_remove (join dest_folder old_file);;
    py_print (Deleted old_file));;
  py_print BlankLine;;
  py_for (enumerate 1 hurt_files) (extract_frame_py source_folder dest_folder);;
  py_print (DoneCreated (length hurt_files)).

Definition extract_goblin_hurt_py : py hurt_line unit :=
  extract_goblin_hurt_on source_folder dest_folder.

Definition extract_goblin_hurt_full_py : py hurt_line unit :=
  extract_goblin_hurt_full_on source_folder dest_folder.

(** ** Specification helpers *)

(** The files a hurt script may write or delete: the names of the
    sprite folder that start with goblin_hurt_. *)
Definition hurt_writes (dir : list string) (name : string) : Prop :=
  dir = dir_key dest_folder ∧ startswith name "goblin_hurt_" = true.

(** The loop that deletes, on any list of names. *)
Definition remove_old_from (dest : folder) (l : list string)
  : folder * list hurt_line :=
  foldl (λ st old_file, (remove st.1 old_file, st.2 ++ [Deleted old_file]))
        (dest, []) l.

(** A file system with the two sample folders of [Extract]. *)
Definition sample_hurt_fs : filesystem :=
  <[dir_key source_folder := sample_source]>
  (<[dir_key dest_folder := sample_dest]> ∅).

(** ** The names written *)

Lemma no_sep_pretty_N_char x : is_sep (pretty_N_char x) = false.
Proof. unfold pretty_N_char. by repeat case_match. Qed.

Lemma no_sep_pretty_N_go x : ∀ s, no_sep s = true → no_sep (pretty_N_go x s) = true.
Proof.
  induction (N.lt_wf_0 x) as [x _ IH]; intros s Hs.
  assert (x = 0 ∨ 0 < x)%N as [->|Hx] by lia; [by rewrite pretty_N_go_0|].
  rewrite pretty_N_go_step by done. apply IH; [by apply N.div_lt|].
  simpl. by rewrite no_sep_pretty_N_char.
Qed.

Lemma no_sep_pretty_N (x : N) : no_sep (pretty x) = true.
Proof.
  unfold pretty, pretty_N. case_decide; [done|]. by apply no_sep_pretty_N_go.
Qed.

Lemma no_sep_pretty_Z (i : Z) : no_sep (pretty i) = true.
Proof.
  destruct i as [|p|p]; [done|apply no_sep_pretty_N|].
  unfold pretty, pretty_Z. simpl. apply (no_sep_pretty_N (N.pos p)).
Qed.

Lemma no_sep_format_04d i : no_sep (format_04d i) = true.
Proof.
  unfold format_04d, four_digits, three_digits, digit.
  repeat case_decide; try apply no_sep_pretty_Z; simpl;
    by rewrite !no_sep_pretty_N_char.
Qed.

(** Every name the scripts write is a name. *)
Lemma is_name_dest_filename i : is_name (dest_filename i).
Proof.
  apply is_name_no_sep; [done|]. unfold dest_filename.
  by rewrite !no_sep_app, no_sep_format_04d.
Qed.

(** ** The loops *)

Section two_folders.
Context (source_path dest_path : string).
Context (Hne : dir_key source_path ≠ dir_key dest_path).
Implicit Types (fs : filesystem) (source dest : folder) (out : list hurt_line).

Lemma extract_frame_py_folder fs source dest out entry :
  fs !! dir_key source_path = Some source →
  fs !! dir_key dest_path = Some dest → is_name entry.2 →
  extract_frame_py source_path dest_path entry (System fs out) =
    (Ok tt, System (<[dir_key dest_path := (extract_frame source (dest, out) entry).1]> fs)
              (extract_frame source (dest, out) entry).2).
Proof.
  intros Hs Hd Hn. destruct entry as [i filename].
  unfold extract_frame_py, extract_frame, py_try, py_open, py_lift, py_save,
    py_print, py_prints, mbind, py_bind. simpl in *.
  rewrite (fs_open_join fs source_path source Hs filename Hn).
  destruct (Image_open source filename) as [img|e]; simpl; [|by rewrite insert_id].
  destruct (hurt_frame img) as [[canvas|]|e]; simpl; [|by rewrite insert_id..].
  by rewrite (fs_save_join fs dest_path dest Hd _ canvas (is_name_dest_filename i)).
Qed.

Lemma py_for_extract entries : ∀ fs source dest out,
  fs !! dir_key source_path = Some source →
  fs !! dir_key dest_path = Some dest → Forall is_name entries.*2 →
  py_for entries (extract_frame_py source_path dest_path) (System fs out) =
    (Ok tt, System (<[dir_key dest_path := (foldl (extract_frame source) (dest, out) entries).1]> fs)
              (foldl (extract_frame source) (dest, out) entries).2).
Proof.
  induction entries as [|entry entries IH]; intros fs source dest out Hs Hd Hn.
  { simpl. by rewrite insert_id. }
  rewrite fmap_cons in Hn. apply Forall_cons in Hn as [Hn Hns].
  rewrite (py_for_cons _ _ _ _ _
             (extract_frame_py_folder fs source dest out entry Hs Hd Hn)).
  cbn [foldl]. destruct (extract_frame source (dest, out) entry) as [d1 out1].
  rewrite (IH _ source d1 out1);
    [by rewrite insert_insert_eq|by rewrite lookup_insert_ne|
     by rewrite lookup_insert_eq|done].
Qed.

(** The loop that deletes the old frames. *)
Lemma py_for_remove names : ∀ fs dest out,
  fs !! dir_key dest_path = Some dest → Forall is_name names → NoDup names →
  (∀ name, name ∈ names → is_Some (dest !! name)) →
  py_for names (λ old_file, py_remove (join dest_path old_file);;
                            py_print (Deleted old_file)) (System fs out) =
    (Ok tt,
     System (<[dir_key dest_path :=
                 (foldl (λ st old_file, (remove st.1 old_file,
                                         st.2 ++ [Deleted old_file]))
                        (dest, out) names).1]> fs)
            (foldl (λ (st : folder * list hurt_line) old_file,
                      (remove st.1 old_file, st.2 ++ [Deleted old_file]))
                   (dest, out) names).2).
Proof.
  induction names as [|name names IH]; intros fs dest out Hd Hn Hnd Hin.
  { simpl. by rewrite insert_id. }
  apply Forall_cons in Hn as [Hn Hns]. apply NoDup_cons in Hnd as [Hnotin Hnd].
  erewrite py_for_cons; last first.
  { unfold mbind, py_bind, py_remove, py_print, py_prints. simpl.
    rewrite (fs_remove_join fs dest_path dest Hd name Hn)
      by (apply Hin; by left).
    done. }
  cbn [foldl fst snd sys_files sys_console].
  rewrite (IH _ (remove dest name)); [by rewrite insert_insert_eq|
    by rewrite lookup_insert_eq|done..|].
  intros k Hk. unfold remove. rewrite lookup_delete_ne by (by intros ->).
  apply Hin. by right.
Qed.

End two_folders.

(** ** Whole scripts *)

Lemma enumerate_names start l : (enumerate start l).*2 = l.
Proof.
  unfold enumerate. revert start. induction l as [|x l IH]; intros start; [done|].
  cbn [imap fmap list_fmap]. f_equal. rewrite <- (IH (Z.succ start)) at 2.
  f_equal. apply imap_ext. intros k y _. simpl. f_equal. lia.
Qed.

Lemma png_files_names (source : folder) :
  names_wf source → Forall is_name (sorted (png_files source)).
Proof.
  intros Hn. apply List.Forall_forall. intros name Hin%list_elem_of_In.
  apply elem_of_sorted, elem_of_png_files in Hin as [Hin _].
  by apply (names_wf_lookup source).
Qed.

Lemma atk2_files_names (source : folder) :
  names_wf source → Forall is_name (atk2_files source).
Proof. intros Hn. by apply Forall_take, png_files_names. Qed.

Lemma hurt_files_names (source : folder) l :
  names_wf source → hurt_files source = Ok l → Forall is_name l.
Proof.
  intros Hn [_ Hl]%filter_result_Ok. apply List.Forall_forall.
  intros name Hin%list_elem_of_In. apply Hl in Hin as [Hin _].
  pose proof (png_files_names source Hn) as Hall.
  rewrite List.Forall_forall in Hall. by apply Hall, list_elem_of_In.
Qed.

Lemma old_hurt_names (dest : folder) : names_wf dest → Forall is_name (old_hurt dest).
Proof.
  intros Hn. apply List.Forall_forall. intros name Hin%list_elem_of_In.
  apply list_elem_of_filter in Hin as [_ Hin%elem_of_listdir].
  by apply (names_wf_lookup dest).
Qed.

Lemma elem_of_old_hurt (dest : folder) name :
  name ∈ old_hurt dest → is_Some (dest !! name).
Proof. intros [_ Hin]%list_elem_of_filter. by apply elem_of_listdir. Qed.

Lemma NoDup_old_hurt (dest : folder) : NoDup (old_hurt dest).
Proof. apply NoDup_filter, NoDup_listdir. Qed.

(** The folder the deletions leave does not depend on the console. *)
Lemma remove_run_folder l : ∀ (dest : folder) (out : list hurt_line),
  (foldl (λ st old_file, (remove st.1 old_file, st.2 ++ [Deleted old_file]))
         (dest, out) l).1 = (remove_old_from dest l).1.
Proof.
  unfold remove_old_from.
  induction l as [|x l IH]; intros dest out; [done|]. simpl.
  by rewrite IH, (IH _ [Deleted x]).
Qed.

Section two_folders_scripts.
Context (source_path dest_path : string) (fs : filesystem) (source : folder).
Context (Hne : dir_key source_path ≠ dir_key dest_path).
Context (Hs : fs !! dir_key source_path = Some source) (Hsn : names_wf source).

Lemma extract_goblin_hurt_on_folder dest :
  fs !! dir_key dest_path = Some dest →
  run_py (extract_goblin_hurt_on source_path dest_path) fs =
    (Ok tt,
     System (<[dir_key dest_path := (extract_goblin_hurt_main source dest).1]> fs)
            (extract_goblin_hurt_main source dest).2).
Proof.
  intros Hd. unfold run_py, extract_goblin_hurt_on, extract_goblin_hurt_main.
  rewrite (py_bind_Ok _ _ _ (listdir source) (System fs [])) by
    (unfold py_listdir; simpl; by rewrite (fs_listdir_folder fs _ source Hs)).
  fold (png_files source). fold (atk2_files source).
  unfold mbind at 1, py_bind at 1, py_print at 1, py_prints at 1.
  cbn [sys_files sys_console app].
  erewrite py_bind_Ok by
    (unfold py_listdir; simpl; by rewrite (fs_listdir_folder fs _ dest Hd)).
  unfold mbind at 1, py_bind at 1, py_print at 1, py_prints at 1.
  cbn [sys_files sys_console app]. unfold mbind, py_bind.
  rewrite (py_for_extract source_path dest_path Hne _ fs source dest)
    by (rewrite ?enumerate_names; auto using atk2_files_names).
  done.
Qed.

Lemma extract_goblin_hurt_full_on_folder dest :
  fs !! dir_key dest_path = Some dest → names_wf dest →
  run_py (extract_goblin_hurt_full_on source_path dest_path) fs =
    match extract_goblin_hurt_full_main source dest with
    | Ok r => (Ok tt, System (<[dir_key dest_path := r.1]> fs) r.2)
    | Raise e => (Raise e, System fs [])
    end.
Proof.
  intros Hd Hdn.
  unfold run_py, extract_goblin_hurt_full_on, extract_goblin_hurt_full_main.
  rewrite (py_bind_Ok _ _ _ (listdir source) (System fs [])) by
    (unfold py_listdir; simpl; by rewrite (fs_listdir_folder fs _ source Hs)).
  fold (png_files source). fold (hurt_files source).
  unfold mbind at 1, py_bind at 1, py_lift.
  destruct (hurt_files source) as [l|e] eqn:Hl; simpl; [|done].
  unfold mbind at 1, py_bind at 1, mbind at 1, py_bind at 1, py_print at 1 2,
    py_prints at 1 2. cbn [sys_files sys_console app].
  erewrite py_bind_Ok by
    (unfold py_listdir; simpl; by rewrite (fs_listdir_folder fs _ dest Hd)).
  fold (old_hurt dest). unfold mbind at 1, py_bind at 1.
  rewrite (py_for_remove dest_path _ fs dest) by
    auto using old_hurt_names, NoDup_old_hurt, elem_of_old_hurt.
  unfold mbind at 1, py_bind at 1, py_print at 1, py_prints at 1.
  cbn [sys_files sys_console]. unfold mbind, py_bind.
  rewrite (remove_run_log (old_hurt dest) (dest, _)). cbn [fst snd].
  unfold remove_old. rewrite (remove_run_log (old_hurt dest) (dest, [])).
  cbn [fst snd app].
  erewrite (py_for_extract source_path dest_path Hne _ _ source);
    [|by rewrite lookup_insert_ne|by rewrite lookup_insert_eq|
     rewrite enumerate_names; exact (hurt_files_names source l Hsn Hl)].
  unfold py_print, py_prints. cbn [sys_files sys_console].
  rewrite insert_insert_eq, (remove_run_folder (old_hurt dest) dest [_; _]).
  done.
Qed.

End two_folders_scripts.

(** ** The footprint *)

(** A hurt script keeps the file system well formed and writes nothing
    but what [W] allows, when [W] allows the names of the sprite folder
    that start with goblin_hurt_. *)
Section footprint.
Context (W : list string → string → Prop) (fs0 : filesystem).
Context (source_path dest_path : string).
Context (HW : ∀ name, startswith name "goblin_hurt_" = true →
                      W (dir_key dest_path) name).

Lemma extract_frame_py_keeps entry :
  keeps (confined W fs0) (extract_frame_py source_path dest_path entry) (λ _, True).
Proof.
  destruct entry as [i filename].
  apply keeps_try; [|intros e; by apply keeps_prints].
  eapply keeps_bind; [apply keeps_open|]. intros img Hi.
  eapply keeps_bind;
    [apply (keeps_lift _ _ (λ r, ∀ new, r = Written new → image_wf new))|].
  { intros r Hr new ->. by destruct (body_typed _ _ Hi Hr). }
  intros [canvas|] Hr; [|by apply keeps_prints].
  eapply keeps_bind; [|intros _ _; by apply keeps_prints].
  apply keeps_save_join;
    [by apply Hr|apply is_name_dest_filename|apply HW, dest_filename_startswith].
Qed.

Lemma py_for_extract_keeps start l :
  keeps (confined W fs0)
    (py_for (enumerate start l) (extract_frame_py source_path dest_path))
    (λ _, True).
Proof. apply keeps_for. intros entry _. apply extract_frame_py_keeps. Qed.

Lemma extract_goblin_hurt_on_keeps :
  keeps (confined W fs0) (extract_goblin_hurt_on source_path dest_path)
    (λ _, True).
Proof.
  eapply keeps_bind; [apply keeps_listdir|]. intros names _.
  eapply keeps_bind; [by apply (keeps_prints _ _ (λ _, True))|]. intros _ _.
  eapply keeps_bind; [apply keeps_listdir|]. intros names' _.
  eapply keeps_bind; [by apply (keeps_prints _ _ (λ _, True))|]. intros _ _.
  eapply keeps_bind; [|intros _ _; by apply keeps_prints].
  apply py_for_extract_keeps.
Qed.

Lemma extract_goblin_hurt_full_on_keeps :
  keeps (confined W fs0) (extract_goblin_hurt_full_on source_path dest_path)
    (λ _, True).
Proof.
  eapply keeps_bind; [apply keeps_listdir|]. intros names _.
  eapply keeps_bind; [by apply (keeps_lift _ _ (λ _, True))|]. intros hurt_files _.
  eapply keeps_bind; [by apply (keeps_prints _ _ (λ _, True))|]. intros _ _.
  eapply keeps_bind; [by apply (keeps_prints _ _ (λ _, True))|]. intros _ _.
  eapply keeps_bind; [apply keeps_listdir|]. intros names' Hn.
  eapply (keeps_bind _ _ _ (λ _, True)).
  { apply keeps_for. intros old_file [Hold Hin]%list_elem_of_filter.
    eapply keeps_bind; [|intros _ _; by apply keeps_prints].
    apply keeps_remove_join; [|by apply HW, Is_true_true].
    rewrite List.Forall_forall in Hn. by apply Hn, list_elem_of_In. }
  intros _ _. eapply keeps_bind; [by apply (keeps_prints _ _ (λ _, True))|].
  intros _ _. eapply keeps_bind; [|intros _ _; by apply keeps_prints].
  apply py_for_extract_keeps.
Qed.

End footprint.

(** The hurt scripts leave a well-formed file system well formed, and
    every file but the hurt frames of the sprite folder as it was,
    however they end. *)
Lemma hurt_py_confined fs :
  fs_wf fs →
  confined hurt_writes fs (files_after extract_goblin_hurt_py fs) ∧
  confined hurt_writes fs (files_after extract_goblin_hurt_full_py fs).
Proof.
  intros Hfs.
  split; apply (keeps_files_after _ _ (λ _, True)); try done;
    [apply extract_goblin_hurt_on_keeps|apply extract_goblin_hurt_full_on_keeps];
    intros name Hn; by split.
Qed.

(** ** The two scripts on their folders *)

(** The frames are read from a folder that is not the sprite folder. *)
Lemma source_not_dest : dir_key source_folder ≠ dir_key dest_folder.
Proof. apply (bool_decide_unpack _). by vm_compute. Qed.

(** So the folder of the frames is only read. *)
Lemma hurt_py_reads_source fs :
  fs_wf fs →
  files_after extract_goblin_hurt_py fs !! dir_key source_folder =
    fs !! dir_key source_folder ∧
  files_after extract_goblin_hurt_full_py fs !! dir_key source_folder =
    fs !! dir_key source_folder.
Proof.
  intros Hfs. destruct (hurt_py_confined fs Hfs) as [[_ H1] [_ H2]].
  split; (eapply within_folder; [eassumption|]); intros name [Hd _];
    by apply source_not_dest.
Qed.

Lemma hurt_py_no_source source_path dest_path fs :
  fs !! dir_key source_path = None →
  run_py (extract_goblin_hurt_on source_path dest_path) fs =
    (Raise OSError, System fs []) ∧
  run_py (extract_goblin_hurt_full_on source_path dest_path) fs =
    (Raise OSError, System fs []).
Proof.
  intros Hs. unfold run_py.
  split; apply py_bind_Raise; unfold py_listdir, fs_listdir; simpl;
    by rewrite Hs.
Qed.

(** C14. On a file system that has the folder of the frames and the
    sprite folder, the two hurt scripts do to the sprite folder what
    the functions of [Extract] do and print what they print; the long
    script whose selection raises ends there with nothing printed. *)
Theorem hurt_py_refine fs source dest :
  fs !! dir_key source_folder = Some source →
  fs !! dir_key dest_folder = Some dest →
  names_wf source → names_wf dest →
  run_py extract_goblin_hurt_py fs =
    (Ok tt,
     System (<[dir_key dest_folder := (extract_goblin_hurt_main source dest).1]> fs)
            (extract_goblin_hurt_main source dest).2) ∧
  run_py extract_goblin_hurt_full_py fs =
    match extract_goblin_hurt_full_main source dest with
    | Ok r => (Ok tt, System (<[dir_key dest_folder := r.1]> fs) r.2)
    | Raise e => (Raise e, System fs [])
    end.
Proof.
  intros Hs Hd Hsn Hdn. split.
  - exact (extract_goblin_hurt_on_folder _ _ fs source source_not_dest Hs Hsn
             dest Hd).
  - exact (extract_goblin_hurt_full_on_folder _ _ fs source source_not_dest Hs
             Hsn dest Hd Hdn).
Qed.

Lemma hurt_py_refine_witness :
  run_py extract_goblin_hurt_py sample_hurt_fs =
    (Ok tt,
     System (<[dir_key dest_folder :=
                 (extract_goblin_hurt_main sample_source sample_dest).1]>
               sample_hurt_fs)
            (extract_goblin_hurt_main sample_source sample_dest).2) ∧
  run_py extract_goblin_hurt_full_py sample_hurt_fs =
    match extract_goblin_hurt_full_main sample_source sample_dest with
    | Ok r => (Ok tt, System (<[dir_key dest_folder := r.1]> sample_hurt_fs) r.2)
    | Raise e => (Raise e, System sample_hurt_fs [])
    end.
Proof.
  apply (hurt_py_refine sample_hurt_fs sample_source sample_dest).
  - apply lookup_insert_eq.
  - apply (bool_decide_unpack _). by vm_compute.
  - apply (bool_decide_unpack _). by vm_compute.
  - apply (bool_decide_unpack _). by vm_compute.
Defined.

(** A hurt script whose folder of frames is missing ends at its
    first listing: nothing is printed, deleted or written. *)
Theorem hurt_py_missing fs :
  fs !! dir_key source_folder = None →
  run_py extract_goblin_hurt_py fs = (Raise OSError, System fs []) ∧
  run_py extract_goblin_hurt_full_py fs = (Raise OSError, System fs []).
Proof. apply hurt_py_no_source. Qed.

Lemma hurt_py_missing_witness :
  run_py extract_goblin_hurt_py ∅ = (Raise OSError, System ∅ []) ∧
  run_py extract_goblin_hurt_full_py ∅ = (Raise OSError, System ∅ []).
Proof. apply (hurt_py_missing ∅). apply lookup_empty. Defined.
