(* ===== verification/SheetsOnDisk.v ===== *)
(** * SheetsOnDisk: the two sheet scripts on a file system

    [Sheets] runs the two sheet scripts on a disk keyed by the paths as
    the scripts write them.  Here the same two scripts run on the file
    system of [FileSystem], which resolves the paths: the five outputs
    land in the folder the goblin scripts list, whose path the goblin
    scripts write with another case of the drive letter.  [agree] is
    the simulation between the two: the files of the eleven paths and
    the console are the same, and nothing else of the file system
    changes. *)

From Stdlib Require Import ZArith Lia Ascii String.
From stdpp Require Import base tactics option list numbers strings gmap.
From S2P Require Import Prelude Image Folder Batch Frames Sheets.
From S2P Require Import Paths FileSystem Effects OnDisk.

(** ** The scripts *)

#[global] Instance py_runtime : Runtime (py sheet_line) := {|
  rt_open := py_open;
  rt_save := py_save;
  rt_print := py_print;
  rt_lift := @py_lift sheet_line |}.

(** src/prepare_knight_sprites.py and src/crop_sprite.py on a file
    system. *)
Definition prepare_knight_sprites_py : py sheet_line unit :=
  prepare_knight_sprites.

Definition crop_sprite_py : py sheet_line unit := crop_sprite.

(** ** Specification helpers *)

(** The paths the two scripts write, and all the paths they name. *)
Definition sheet_outputs : list string :=
  [player_avatar_path; player_hurt_path; player_attack_path;
   player_defend_path; bot_avatar_path].

Definition sheet_paths : list string :=
  [knight_idle_path; knight_hurt_path; knight_attack_path; knight_defend_path;
   soldier_path; orc_path] ++ sheet_outputs.

(** The files a sheet script may write: its five outputs, in the sprite
    folder. *)
Definition sheet_writes (dir : list string) (name : string) : Prop :=
  dir = dir_key goblin_folder ∧
  name ∈ ["player_avatar.png"; "player_hurt.png"; "player_attack.png";
          "player_defend.png"; "bot_avatar.png"].

(** The disk of [Sheets] that a file system amounts to on some paths:
    under each path, the file the path leads to. *)
Definition path_view (paths : list string) (fs : filesystem) : folder :=
  list_to_map (omap (λ p, (p,.) <$> fs_lookup fs p) paths).

(** A disk of [Sheets] and a file system that started as [fs0] agree:
    the consoles are the same, each path leads to the file the disk has
    under it, the folders of the outputs are there, and the file system
    differs from [fs0] only by the files of the outputs. *)
Record agree (fs0 : filesystem) (paths outputs : list string)
  (w : world) (sy : system sheet_line) : Prop := Agree {
  agree_console : w_console w = sys_console sy;
  agree_files : ∀ p, p ∈ paths → w_files w !! p = fs_lookup (sys_files sy) p;
  agree_outputs : ∀ p, p ∈ outputs → is_Some (sys_files sy !! (resolve p).1);
  agree_folders : ∀ dir, is_Some (sys_files sy !! dir) ↔ is_Some (fs0 !! dir);
  agree_frame : ∀ dir name,
    (dir, name) ∉ resolve <$> outputs →
    fs_file (sys_files sy) dir name = fs_file fs0 dir name }.

(** A script of [Sheets] and a program on the file system that do the
    same, from worlds that agree to worlds that agree. *)
Definition sim (fs0 : filesystem) (paths outputs : list string) {A}
  (m : io A) (m' : py sheet_line A) : Prop :=
  ∀ w sy, agree fs0 paths outputs w sy →
          (m w).1 = (m' sy).1 ∧ agree fs0 paths outputs (m w).2 (m' sy).2.

(** A file system with the six sheets, each in its folder, and the
    sprite folder of [Batch]. *)
Definition sample_sheets_fs : filesystem :=
  <[(resolve knight_idle_path).1 :=
      <["Idle.png" := ImageFile sheet_six]>
      (<["Hurt.png" := ImageFile sheet_seven]>
      (<["Attack 1.png" := ImageFile sheet_six]>
      (<["Defend.png" := ImageFile sheet_six]> ∅)))]>
  (<[(resolve soldier_path).1 := <["Soldier-Idle.png" := ImageFile sheet_seven]> ∅]>
  (<[(resolve orc_path).1 := <["Orc-Idle.png" := ImageFile sheet_six]> ∅]>
  (<[dir_key goblin_folder := sample_folder]> ∅))).

(** Solves [p ∈ l] and [p ∉ l] for closed lists of paths. *)
Ltac path_in := apply (bool_decide_unpack _); vm_compute; exact I.

(** ** The view *)

Lemma path_view_cons q paths fs :
  path_view (q :: paths) fs =
    match fs_lookup fs q with
    | Some f => <[q := f]> (path_view paths fs)
    | None => path_view paths fs
    end.
Proof. unfold path_view. simpl. by destruct (fs_lookup fs q). Qed.

Lemma lookup_path_view paths fs p :
  path_view paths fs !! p = if decide (p ∈ paths) then fs_lookup fs p else None.
Proof.
  induction paths as [|q paths IH].
  { rewrite decide_False by apply not_elem_of_nil. apply lookup_empty. }
  rewrite path_view_cons. destruct (decide (p = q)) as [->|Hne].
  - rewrite decide_True by by left.
    destruct (fs_lookup fs q) as [f|] eqn:Hq; [by rewrite lookup_insert_eq|].
    rewrite IH. by case_decide.
  - rewrite (decide_ext (p ∈ q :: paths) (p ∈ paths))
      by (rewrite elem_of_cons; naive_solver).
    destruct (fs_lookup fs q) as [f|]; [|done]. by rewrite lookup_insert_ne.
Qed.

(** ** The simulation *)

Section simulation.
Context (fs0 : filesystem) (paths outputs : list string).
Context (Hinj : ∀ p q, p ∈ paths → q ∈ paths → resolve p = resolve q → p = q).
Context (Hsub : ∀ p, p ∈ outputs → p ∈ paths).

Local Abbreviation sim := (sim fs0 paths outputs).
Local Abbreviation agree := (agree fs0 paths outputs).

Lemma sim_ret {A} (x : A) : sim (mret x) (mret x).
Proof. by intros w sy Ha. Qed.

Lemma sim_bind {A B} (m : io A) m' (f : A → io B) f' :
  sim m m' → (∀ x, sim (f x) (f' x)) → sim (m ≫= f) (m' ≫= f').
Proof.
  intros Hm Hf w sy Ha. destruct (Hm w sy Ha) as [Hr Ha'].
  unfold mbind, io_bind, py_bind.
  destruct (m w) as [[x|e] w'], (m' sy) as [[x'|e'] sy']; simplify_eq/=;
    [by apply Hf|done].
Qed.

Lemma sim_lift {A} (r : result A) : sim (io_lift r) (py_lift r).
Proof. by intros w sy Ha. Qed.

Lemma sim_print l : sim (io_print l) (py_print l).
Proof.
  intros w sy [Hc Hf Ho Hd Hfr]. split; [done|].
  split; simpl; [by rewrite Hc|done..].
Qed.

Lemma sim_open p : p ∈ paths → sim (io_open p) (py_open p).
Proof.
  intros Hp w sy Ha. split; [|done]. unfold io_open, py_open. simpl.
  rewrite fs_open_spec, <- (agree_files _ _ _ _ _ Ha p Hp). done.
Qed.

Lemma sim_save img p : p ∈ outputs → sim (io_save img p) (py_save img p).
Proof.
  intros Hp w sy [Hc Hf Ho Hd Hfr]. unfold io_save, py_save. simpl.
  destruct (fs_save (sys_files sy) p img) as [fs'|e] eqn:Hs.
  2:{ apply Ho, (fs_save_is_ok _ _ img) in Hp. by rewrite Hs in Hp. }
  split; [done|]. split; simpl; [done|..].
  - intros q Hq. unfold fs_lookup, save. rewrite (fs_file_save _ _ _ _ _ _ Hs).
    destruct (decide (q = p)) as [->|Hne].
    { by rewrite lookup_insert_eq, decide_True by by destruct (resolve p). }
    rewrite lookup_insert_ne by done. rewrite decide_False; [by apply Hf|].
    intros Heq. apply Hne, Hinj; auto. by destruct (resolve q), (resolve p).
  - intros q Hq. by rewrite (fs_save_folders _ _ _ _ _ Hs); auto.
  - intros dir. by rewrite (fs_save_folders _ _ _ _ _ Hs).
  - intros dir name Hout. rewrite (fs_file_save _ _ _ _ _ _ Hs).
    rewrite decide_False; [by apply Hfr|]. intros Heq. apply Hout.
    rewrite Heq. by apply list_elem_of_fmap_2.
Qed.

End simulation.

(** ** The two scripts *)

(** Runs a script and its program side by side. *)
Ltac sim_script :=
  repeat first
    [ apply sim_bind; [|intros ?]
    | apply sim_open; path_in
    | apply sim_save; [assumption|assumption|path_in]
    | apply sim_print
    | apply sim_lift
    | apply sim_ret ].

Lemma NoDup_fmap_inj {A B} (f : A → B) l x y :
  NoDup (f <$> l) → x ∈ l → y ∈ l → f x = f y → x = y.
Proof.
  induction l as [|z l IH]; [by intros _ ?%elem_of_nil|].
  rewrite fmap_cons, NoDup_cons, list_elem_of_fmap.
  intros [Hz Hnd] [->|Hx]%elem_of_cons [->|Hy]%elem_of_cons Heq; auto.
  - destruct Hz. by exists y.
  - destruct Hz. by exists x.
Qed.

(** The eleven paths lead to eleven files. *)
Lemma sheet_paths_inj p q :
  p ∈ sheet_paths → q ∈ sheet_paths → resolve p = resolve q → p = q.
Proof. apply NoDup_fmap_inj, (bool_decide_unpack _). by vm_compute. Qed.

Lemma sheet_outputs_paths p : p ∈ sheet_outputs → p ∈ sheet_paths.
Proof. unfold sheet_paths. set_solver. Qed.

Lemma prepare_knight_sprites_sim fs0 :
  sim fs0 sheet_paths sheet_outputs prepare_knight_sprites_main
      prepare_knight_sprites_py.
Proof.
  pose proof sheet_paths_inj as Hinj. pose proof sheet_outputs_paths as Hsub.
  unfold prepare_knight_sprites_main, prepare_knight_sprites_py,
    prepare_knight_sprites.
  cbv [runtime_ret runtime_bind rt_open rt_save rt_print rt_lift io_runtime
       py_runtime].
  sim_script.
Qed.

Lemma crop_sprite_sim fs0 :
  sim fs0 sheet_paths sheet_outputs crop_sprite_main crop_sprite_py.
Proof.
  pose proof sheet_paths_inj as Hinj. pose proof sheet_outputs_paths as Hsub.
  unfold crop_sprite_main, crop_sprite_py, crop_sprite.
  cbv [runtime_ret runtime_bind rt_open rt_save rt_print rt_lift io_runtime
       py_runtime].
  sim_script.
Qed.

(** A file system and its view agree, once the folders of the outputs
    are there. *)
Lemma agree_view fs paths outputs :
  (∀ p, p ∈ outputs → is_Some (fs !! (resolve p).1)) →
  agree fs paths outputs (World (path_view paths fs) []) (System fs []).
Proof.
  intros Hd. split; cbn [w_files w_console sys_files sys_console]; try done.
  intros p Hp. by rewrite lookup_path_view, decide_True.
Qed.

(** The five outputs are saved in the folder the goblin scripts list. *)
Lemma sheet_outputs_folder p :
  p ∈ sheet_outputs → (resolve p).1 = dir_key goblin_folder.
Proof. revert p. apply Forall_forall, (bool_decide_unpack _). by vm_compute. Qed.

Lemma agree_path_view fs :
  is_Some (fs !! dir_key goblin_folder) →
  agree fs sheet_paths sheet_outputs
    (World (path_view sheet_paths fs) []) (System fs []).
Proof.
  intros Hd. apply agree_view. intros p Hp. by rewrite sheet_outputs_folder.
Qed.

(** ** The footprint *)

(** The five outputs are saved under names. *)
Lemma sheet_outputs_names p : p ∈ sheet_outputs → is_name (resolve p).2.
Proof. revert p. apply Forall_forall, (bool_decide_unpack _). by vm_compute. Qed.

(** A sheet script keeps the file system well formed and writes
    nothing but what [W] allows, when [W] allows the five outputs. *)
Section footprint.
Context (W : list string → string → Prop) (fs0 : filesystem).
Context (HW : ∀ p, p ∈ sheet_outputs → W (resolve p).1 (resolve p).2).

(** One block of a script: open, cut, save. *)
Lemma cut_keeps (frame : image → result image) box dst
    (then_ : image → py sheet_line unit) :
  (∀ sheet, frame sheet = crop sheet (box sheet)) → dst ∈ sheet_outputs →
  (∀ fr, keeps (confined W fs0) (then_ fr) (λ _, True)) →
  ∀ sheet, image_wf sheet →
    keeps (confined W fs0) (fr ← py_lift (frame sheet); py_save fr dst;; then_ fr)
          (λ _, True).
Proof.
  intros Hframe Hdst Hthen sheet Hs.
  eapply keeps_bind; [apply (keeps_lift _ _ image_wf)|].
  { intros fr. rewrite Hframe. by apply crop_wf. }
  intros fr Hfr. eapply keeps_bind; [|intros _ _; apply Hthen].
  apply keeps_save; [done|by apply sheet_outputs_names|by apply HW].
Qed.

(** Steps through a sheet script, block by block. *)
Ltac keeps_script :=
  repeat first
    [ by apply keeps_prints
    | eapply keeps_bind; [by apply (keeps_prints _ _ (λ _, True))|intros _ _]
    | eapply keeps_bind; [apply keeps_open|intros ? ?]
    | eapply (cut_keeps _ (λ sheet, Box 0 0 _ _));
        [done|path_in| |eassumption]; intros ? ].

Lemma prepare_knight_sprites_py_keeps :
  keeps (confined W fs0) prepare_knight_sprites_py (λ _, True).
Proof.
  unfold prepare_knight_sprites_py, prepare_knight_sprites.
  cbv [runtime_ret runtime_bind rt_open rt_save rt_print rt_lift py_runtime].
  keeps_script.
Qed.

Lemma crop_sprite_py_keeps :
  keeps (confined W fs0) crop_sprite_py (λ _, True).
Proof.
  unfold crop_sprite_py, crop_sprite.
  cbv [runtime_ret runtime_bind rt_open rt_save rt_print rt_lift py_runtime].
  keeps_script.
Qed.

End footprint.

(** The paths of the five outputs lead to the five names of the sprite
    folder. *)
Lemma sheet_outputs_writes p :
  p ∈ sheet_outputs → sheet_writes (resolve p).1 (resolve p).2.
Proof.
  revert p. unfold sheet_writes.
  apply Forall_forall, (bool_decide_unpack _). by vm_compute.
Qed.

(** The sheet scripts leave a well-formed file system well formed, and
    every file but their five outputs as it was, however they end. *)
Lemma sheet_py_confined fs :
  fs_wf fs →
  confined sheet_writes fs (files_after prepare_knight_sprites_py fs) ∧
  confined sheet_writes fs (files_after crop_sprite_py fs).
Proof.
  intros Hfs.
  split; apply (keeps_files_after _ _ (λ _, True)); try done;
    [apply prepare_knight_sprites_py_keeps|apply crop_sprite_py_keeps];
    apply sheet_outputs_writes.
Qed.

(** C18. On a file system that has the sprite folder, the two sheet
    scripts end as they end on the disk of [Sheets] that holds the file
    of each of their paths, print the same, and leave under each path
    the file they leave there; every file but the five outputs and
    every folder stays as it was. *)
Theorem sheet_scripts_on_disk fs :
  is_Some (fs !! dir_key goblin_folder) →
  let view := path_view sheet_paths fs in
  ((run_py prepare_knight_sprites_py fs).1 =
     (run_io prepare_knight_sprites_main view).1 ∧
   agree fs sheet_paths sheet_outputs
     (run_io prepare_knight_sprites_main view).2
     (run_py prepare_knight_sprites_py fs).2) ∧
  ((run_py crop_sprite_py fs).1 = (run_io crop_sprite_main view).1 ∧
   agree fs sheet_paths sheet_outputs
     (run_io crop_sprite_main view).2 (run_py crop_sprite_py fs).2).
Proof.
  intros Ha%agree_path_view view. unfold run_py, run_io. split.
  - by destruct (prepare_knight_sprites_sim fs _ _ Ha) as [Heq ?].
  - by destruct (crop_sprite_sim fs _ _ Ha) as [Heq ?].
Qed.

Lemma sheet_scripts_on_disk_witness :
  (run_py prepare_knight_sprites_py sample_sheets_fs).1 = Ok tt ∧
  (run_py crop_sprite_py sample_sheets_fs).1 = Ok tt.
Proof.
  destruct (sheet_scripts_on_disk sample_sheets_fs) as [[H1 _] [H2 _]].
  { apply (bool_decide_unpack _). by vm_compute. }
  split; [rewrite H1|rewrite H2]; by vm_compute.
Defined.
