(* ===== verification/Pipeline.v ===== *)
(** * Pipeline: the scripts one after another

    The nine scripts work on one folder of one disk: the goblin scripts
    list it, the two hurt scripts write into it from a folder below it,
    and the two sheet scripts save their frames in it under paths that
    spell the drive in lower case.  This file runs one script on the
    file system another has left: the long hurt script undoes what the
    short one wrote, the frames the hurt scripts create are files the
    goblin scripts visit next, a sheet script and a goblin script
    leave the same file system in either order, and no script writes a
    file that is not its own. *)

From Stdlib Require Import ZArith Lia Ascii String.
From stdpp Require Import base tactics option list numbers strings gmap.
From S2P Require Import Prelude Image BBox Crop Canvas Folder Batch Machine.
From S2P Require Import Extract Frames Sheets.
From S2P Require Import Paths FileSystem Effects OnDisk HurtOnDisk SheetsOnDisk.

(** ** The folders of the scripts *)

(** The goblin scripts and the hurt scripts name one folder, the sheet
    scripts save into it, and the frames and the sheets are read from
    other folders. *)
Lemma one_sprite_folder :
  same_folder goblin_folder dest_folder ∧
  dir_key source_folder ≠ dir_key dest_folder ∧
  Forall (λ p, (resolve p).1 = dir_key goblin_folder ∧
               is_name (resolve p).2 ∧ is_goblin_png (resolve p).2 = false)
         sheet_outputs ∧
  Forall (λ p, p ∈ sheet_outputs ∨ (resolve p).1 ≠ dir_key goblin_folder)
         sheet_paths.
Proof. repeat split; apply (bool_decide_unpack _); by vm_compute. Qed.

(** ** The long hurt script after the short one *)

Lemma extract_names_wf source entries : ∀ st : folder * list hurt_line,
  names_wf st.1 → names_wf (foldl (extract_frame source) st entries).1.
Proof.
  induction entries as [|[i f] entries IH]; intros st Hst; [done|].
  cbn [foldl]. apply IH. rewrite extract_frame_folder.
  destruct (frame_file source f); [|done].
  apply names_wf_insert; [apply is_name_dest_filename|done].
Qed.

(** The deletions leave one folder from two folders that differ only by
    hurt frames. *)
Lemma remove_old_ext (dest dest' : folder) :
  (∀ k, startswith k "goblin_hurt_" = false → dest' !! k = dest !! k) →
  (remove_old dest').1 = (remove_old dest).1.
Proof.
  intros Hext. apply map_eq. intros k. rewrite !remove_old_lookup.
  destruct (startswith k "goblin_hurt_") eqn:Hk; [done|by apply Hext].
Qed.

Lemma short_writes_hurt_frames source (dest : folder) k :
  startswith k "goblin_hurt_" = false →
  (extract_goblin_hurt_main source dest).1 !! k = dest !! k.
Proof.
  intros Hk. rewrite extract_goblin_hurt_main_unfold. cbn [fst].
  rewrite extract_lookup_other; [done|]. intros i f _ <-.
  by rewrite dest_filename_startswith in Hk.
Qed.

Lemma full_after_short_on source_path dest_path fs source dest l :
  dir_key source_path ≠ dir_key dest_path →
  fs !! dir_key source_path = Some source →
  fs !! dir_key dest_path = Some dest →
  names_wf source → names_wf dest → hurt_files source = Ok l →
  files_after (extract_goblin_hurt_full_on source_path dest_path)
    (files_after (extract_goblin_hurt_on source_path dest_path) fs) =
    files_after (extract_goblin_hurt_full_on source_path dest_path) fs.
Proof.
  intros Hne Hs Hd Hsn Hdn Hl. unfold files_after.
  rewrite (extract_goblin_hurt_on_folder _ _ fs source Hne Hs Hsn dest Hd).
  cbn [snd sys_files].
  set (dest' := (extract_goblin_hurt_main source dest).1).
  assert (names_wf dest') as Hdn'.
  { unfold dest'. rewrite extract_goblin_hurt_main_unfold.
    by apply extract_names_wf. }
  assert (<[dir_key dest_path := dest']> fs !! dir_key source_path = Some source)
    as Hs' by (rewrite lookup_insert_ne; [exact Hs|by apply not_eq_sym]).
  rewrite (extract_goblin_hurt_full_on_folder _ _ fs source Hne Hs Hsn dest Hd Hdn).
  rewrite (extract_goblin_hurt_full_on_folder _ _ _ source Hne Hs' Hsn dest'
             (lookup_insert_eq _ _ _) Hdn').
  rewrite !(extract_goblin_hurt_full_main_unfold source _ l Hl).
  cbn [snd sys_files fst]. rewrite insert_insert_eq. f_equal.
  rewrite (remove_old_ext dest dest'); [done|].
  intros k Hk. by apply short_writes_hurt_frames.
Qed.

(** C17. The long hurt script run after the short one leaves the file
    system it leaves when run alone: it deletes every frame the short
    one wrote before it writes its own. *)
Theorem full_after_short fs source dest :
  fs !! dir_key source_folder = Some source →
  fs !! dir_key dest_folder = Some dest →
  names_wf source → names_wf dest → is_ok (hurt_files source) →
  files_after extract_goblin_hurt_full_py (files_after extract_goblin_hurt_py fs) =
    files_after extract_goblin_hurt_full_py fs.
Proof.
  intros Hs Hd Hsn Hdn [l Hl]%is_ok_Ok.
  destruct one_sprite_folder as (_ & Hne & _).
  exact (full_after_short_on _ _ fs source dest l Hne Hs Hd Hsn Hdn Hl).
Qed.

Lemma full_after_short_witness :
  files_after extract_goblin_hurt_full_py
    (files_after extract_goblin_hurt_py sample_hurt_fs) =
    files_after extract_goblin_hurt_full_py sample_hurt_fs.
Proof.
  apply (full_after_short sample_hurt_fs sample_source sample_dest).
  - apply lookup_insert_eq.
  - apply (bool_decide_unpack _). by vm_compute.
  - apply (bool_decide_unpack _). by vm_compute.
  - apply (bool_decide_unpack _). by vm_compute.
  - apply (bool_decide_unpack _). by vm_compute.
Defined.

(** ** What a goblin script leaves *)

(** The first pass sees the goblin sprites and nothing else. *)
Lemma first_pass_ext (d d' : folder) :
  (∀ name, is_goblin_png name = true → d' !! name = d !! name) →
  first_pass d' (goblin_files d') = first_pass d (goblin_files d).
Proof.
  assert (∀ d d' : folder,
    (∀ name, is_goblin_png name = true → d' !! name = d !! name) →
    ∀ m, first_pass d (goblin_files d) = Ok m →
         first_pass d' (goblin_files d') = Ok m) as Hok.
  { clear. intros d d' Hext m. rewrite !first_pass_Ok.
    assert (∀ name, name ∈ goblin_files d' ↔ name ∈ goblin_files d) as Hin.
    { intros name. rewrite !elem_of_goblin_files.
      split; intros [Hf Hg]; (split; [|done]); [rewrite <- Hext|rewrite Hext];
        done. }
    assert (∀ name, name ∈ goblin_files d' → d' !! name = d !! name) as Hf.
    { intros name [_ Hg]%elem_of_goblin_files. by apply Hext. }
    intros [Hall [Hw Hh]]. split.
    - intros name Hn. rewrite (Hf name Hn). by apply Hall, Hin.
    - split; (split;
        [intros name img Hn; rewrite (Hf name Hn); apply Hin in Hn; revert Hn;
         first [apply Hw|apply Hh]|]).
      + destruct Hw as [_ [?|(name & img & Hn & Himg & Hv)]]; [by left|right].
        exists name, img. apply Hin in Hn. by rewrite (Hf name Hn).
      + destruct Hh as [_ [?|(name & img & Hn & Himg & Hv)]]; [by left|right].
        exists name, img. apply Hin in Hn. by rewrite (Hf name Hn). }
  intros Hext.
  destruct (first_pass d (goblin_files d)) as [m|e] eqn:Hd; [by apply (Hok d)|].
  destruct (first_pass d' (goblin_files d')) as [m'|e'] eqn:Hd'.
  - apply (Hok d' d) in Hd'; [congruence|]. intros name Hg. by rewrite Hext.
  - apply first_pass_Raise in Hd as ->. by apply first_pass_Raise in Hd' as ->.
Qed.

Lemma canvas_for_ext s (d d' : folder) :
  (∀ name, is_goblin_png name = true → d' !! name = d !! name) →
  canvas_for s d' = canvas_for s d.
Proof. intros Hext. unfold canvas_for. by rewrite (first_pass_ext d d'). Qed.

Lemma lookup_goblin_folder_after s (d : folder) name :
  is_goblin_png name = false → goblin_folder_after s d !! name = d !! name.
Proof.
  intros Hg. unfold goblin_folder_after. destruct (canvas_for s d); [|done].
  rewrite lookup_folder_after, Hg. by destruct (d !! name).
Qed.

(** What a goblin script leaves of a file depends on the file and on
    the goblin sprites of the folder. *)
Lemma goblin_folder_after_ext s (d d' : folder) name :
  (∀ name, is_goblin_png name = true → d' !! name = d !! name) →
  d' !! name = d !! name →
  goblin_folder_after s d' !! name = goblin_folder_after s d !! name.
Proof.
  intros Hext Hname. unfold goblin_folder_after.
  rewrite (canvas_for_ext s d d' Hext). destruct (canvas_for s d); [|done].
  by rewrite !lookup_folder_after, Hname.
Qed.

(** ** File systems file by file *)

Lemma fs_ext (fs fs' : filesystem) :
  (∀ dir, is_Some (fs !! dir) ↔ is_Some (fs' !! dir)) →
  (∀ dir name, fs_file fs dir name = fs_file fs' dir name) →
  fs = fs'.
Proof.
  intros Hdom Hfile. apply map_eq. intros dir.
  specialize (Hdom dir). specialize (Hfile dir). unfold fs_file in Hfile.
  destruct (fs !! dir) as [d|], (fs' !! dir) as [d'|]; simpl in *.
  - f_equal. by apply map_eq.
  - by destruct Hdom as [[? ?] _].
  - by destruct Hdom as [_ [? ?]].
  - done.
Qed.

Lemma fs_file_insert (fs : filesystem) dir (d : folder) dir' name :
  fs_file (<[dir := d]> fs) dir' name =
    if decide (dir' = dir) then d !! name else fs_file fs dir' name.
Proof.
  unfold fs_file. case_decide as Hdir.
  - subst. by rewrite lookup_insert_eq.
  - by rewrite lookup_insert_ne.
Qed.

(** ** A goblin script after a hurt script *)

Lemma created_frame_line source (entries : list (Z * string)) dn f :
  Created dn f ∈ frame_line source <$> entries →
  ∃ i x, (i, f) ∈ entries ∧ dn = dest_filename i ∧ frame_file source f = Some x.
Proof.
  intros ([i g] & Hl & Hin)%list_elem_of_fmap.
  unfold frame_line in Hl. cbn [fst snd] in Hl.
  destruct (Image_open source g ≫= hurt_frame) as [[canvas|]|e] eqn:Hg;
    try done.
  injection Hl as Hdn Hf. subst dn g. exists i, (ImageFile canvas).
  change (Image_open source f ≫= hurt_frame)
    with (img ← Image_open source f; hurt_frame img) in Hg.
  unfold frame_file. by rewrite Hg.
Qed.

Section hurt_then_goblin.
Context (source_path dest_path : string) (fs : filesystem) (source dest : folder).
Context (Hne : dir_key source_path ≠ dir_key dest_path).
Context (Hs : fs !! dir_key source_path = Some source) (Hsn : names_wf source).
Context (Hd : fs !! dir_key dest_path = Some dest) (Hdn : names_wf dest).
Context (s : script) (Hm : measures s = false).

(** A frame the short hurt script says it created is a file the goblin
    script finds in the folder and prints a line for. *)
Lemma created_frame_visited dn f :
  Created dn f ∈ sys_console (run_py (extract_goblin_hurt_on source_path dest_path) fs).2 →
  dn ∈ line_name <$> lines (sys_console
         (run_py (goblin_py s dest_path)
            (files_after (extract_goblin_hurt_on source_path dest_path) fs)).2).
Proof.
  unfold files_after.
  rewrite (extract_goblin_hurt_on_folder _ _ fs source Hne Hs Hsn dest Hd).
  cbn [snd sys_files sys_console]. rewrite extract_goblin_hurt_main_unfold.
  cbn [fst snd]. set (entries := enumerate 1 (atk2_files source)).
  set (dest' := (foldl (extract_frame source) (dest, []) entries).1).
  rewrite !elem_of_app.
  intros [Hin|[Hin|Hin]];
    [repeat (apply elem_of_cons in Hin as [[=]|Hin]); by apply elem_of_nil in Hin| |
     repeat (apply elem_of_cons in Hin as [[=]|Hin]); by apply elem_of_nil in Hin].
  apply created_frame_line in Hin as (i & x & Hin & -> & Hx).
  rewrite (goblin_py_big_step s dest_path _ dest' (lookup_insert_eq _ _ _))
    by apply (extract_names_wf source entries (dest, [])), Hdn.
  cbn [snd sys_console]. rewrite big_step_names by (apply big_step_Finished; auto).
  apply elem_of_goblin_files. split; [|apply dest_filename_selected].
  unfold dest'. rewrite (extract_lookup_entry source entries _ i f), Hx; [done| |done].
  apply NoDup_dest_filenames.
Qed.

End hurt_then_goblin.

(** C24. Every frame extract_goblin_hurt.py says it created is a file
    the two crop scripts select: run next, each prints a line for it,
    and so crops the canvas the frame was placed on. *)
Theorem hurt_frames_visited_next fs source dest dn f :
  fs !! dir_key source_folder = Some source →
  fs !! dir_key dest_folder = Some dest →
  names_wf source → names_wf dest →
  Created dn f ∈ sys_console (run_py extract_goblin_hurt_py fs).2 →
  Forall (λ prog, dn ∈ line_name <$> lines (sys_console
            (run_py prog (files_after extract_goblin_hurt_py fs)).2))
         [crop_goblin_tight_py; crop_goblin_sprites_py].
Proof.
  intros Hs Hd Hsn Hdn Hin. destruct one_sprite_folder as (_ & Hne & _).
  repeat constructor.
  - exact (created_frame_visited _ _ fs source dest Hne Hs Hsn Hd Hdn
             crop_goblin_tight_script eq_refl dn f Hin).
  - exact (created_frame_visited _ _ fs source dest Hne Hs Hsn Hd Hdn
             crop_goblin_sprites_script eq_refl dn f Hin).
Qed.

Lemma hurt_frames_visited_next_witness :
  Forall (λ prog, "goblin_hurt_0001.png" ∈ line_name <$> lines (sys_console
            (run_py prog (files_after extract_goblin_hurt_py sample_hurt_fs)).2))
         [crop_goblin_tight_py; crop_goblin_sprites_py].
Proof.
  apply (hurt_frames_visited_next sample_hurt_fs sample_source sample_dest
           "goblin_hurt_0001.png" "0100.png").
  - apply lookup_insert_eq.
  - apply (bool_decide_unpack _). by vm_compute.
  - apply (bool_decide_unpack _). by vm_compute.
  - apply (bool_decide_unpack _). by vm_compute.
  - apply (bool_decide_unpack _). by vm_compute.
Defined.

(** ** A sheet script and a goblin script *)

(** A script that names [paths] and writes [outputs], next to a goblin
    script on the folder [path]: the outputs are files of that folder
    that are not goblin sprites, and nothing else the script names is
    in that folder. *)
Section sheet_and_goblin.
Context (main : io unit) (prog : py sheet_line unit).
Context (paths outputs : list string) (path : string).
Context (Hsim : ∀ fs0, sim fs0 paths outputs main prog).
Context (Hsub : ∀ p, p ∈ outputs → p ∈ paths).
Context (Hout : ∀ p, p ∈ outputs →
                     (resolve p).1 = dir_key path ∧ is_name (resolve p).2 ∧
                     is_goblin_png (resolve p).2 = false).
Context (Hpaths : ∀ p, p ∈ paths → p ∈ outputs ∨ (resolve p).1 ≠ dir_key path).
Context (s : script) (fs : filesystem) (d : folder).
Context (Hd : fs !! dir_key path = Some d) (Hn : names_wf d).

Local Abbreviation key := (dir_key path).
Local Abbreviation written := (resolve <$> outputs).

(** What the sheet script leaves, from a file system [fs0]. *)
Lemma sheet_script_agree fs0 :
  is_Some (fs0 !! key) →
  agree fs0 paths outputs
    (run_io main (path_view paths fs0)).2
    (System (files_after prog fs0) (sys_console (run_py prog fs0).2)).
Proof.
  intros Hk. assert (agree fs0 paths outputs
    (World (path_view paths fs0) []) (System fs0 [])) as Ha.
  { apply agree_view. intros p [-> _]%Hout. exact Hk. }
  destruct (Hsim fs0 _ _ Ha) as [_ Hag]. unfold files_after, run_py, run_io.
  by destruct (prog (System fs0 [])) as [r [f c]].
Qed.

Lemma written_outputs dir name :
  (dir, name) ∈ written →
  dir = key ∧ is_name name ∧ is_goblin_png name = false ∧
  ∃ p, p ∈ paths ∧ resolve p = (dir, name).
Proof.
  intros (p & Hp & Hin)%list_elem_of_fmap.
  destruct (Hout p Hin) as (Hk & Hname & Hg). rewrite <- Hp in Hk, Hname, Hg.
  split_and!; try done. exists p. by auto.
Qed.

(** The goblin script changes no file the sheet script names. *)
Lemma path_view_goblin :
  path_view paths (files_after (goblin_py s path) fs) = path_view paths fs.
Proof.
  rewrite (files_after_goblin_py s _ fs d Hd Hn). apply map_eq. intros p.
  rewrite !lookup_path_view. case_decide as Hp; [|done].
  unfold fs_lookup. rewrite fs_file_insert. case_decide as Hk; [|done].
  destruct (Hpaths p Hp) as [(_ & _ & Hg)%Hout|?]; [|done].
  rewrite lookup_goblin_folder_after by done. unfold fs_file.
  by rewrite Hk, Hd.
Qed.

(** The folder the sheet script leaves: its names are names, and the
    files the script does not write are those of [d]. *)
Lemma sheet_script_folder :
  ∃ d', files_after prog fs !! key = Some d' ∧ names_wf d' ∧
        ∀ name, (key, name) ∉ written → d' !! name = d !! name.
Proof.
  pose proof (sheet_script_agree fs (mk_is_Some _ _ Hd)) as [_ _ _ Hdom Hfr].
  cbn [sys_files] in Hdom, Hfr.
  destruct (proj2 (Hdom key) (mk_is_Some _ _ Hd)) as [d' Hd'].
  assert (∀ name, (key, name) ∉ written → d' !! name = d !! name) as Hsame.
  { intros name Hw. specialize (Hfr key name Hw). unfold fs_file in Hfr.
    by rewrite Hd', Hd in Hfr. }
  exists d'. split_and!; [done| |done]. intros name f Hf.
  destruct (decide ((key, name) ∈ written)) as [Hw|Hw].
  - by apply written_outputs in Hw as (_ & ? & _).
  - apply (names_wf_lookup d); [done|]. rewrite <- Hsame by done. by eexists.
Qed.

(** The two orders leave the same folders. *)
Lemma commute_folders d' dir :
  files_after prog fs !! key = Some d' →
  is_Some (<[key := goblin_folder_after s d']> (files_after prog fs) !! dir) ↔
  is_Some (fs !! dir).
Proof.
  intros Hd'.
  pose proof (sheet_script_agree fs (mk_is_Some _ _ Hd)) as [_ _ _ Hdom _].
  cbn [sys_files] in Hdom. destruct (decide (dir = key)) as [->|Hne].
  - rewrite lookup_insert_eq, Hd. split; by eexists.
  - rewrite lookup_insert_ne by done. apply Hdom.
Qed.

(** The goblin script after the sheet script, file by file. *)
Lemma commute_file d' dir name :
  files_after prog fs !! key = Some d' →
  (∀ name, (key, name) ∉ written → d' !! name = d !! name) →
  fs_file (<[key := goblin_folder_after s d']> (files_after prog fs)) dir name =
    if decide ((dir, name) ∈ written)
    then fs_file (files_after prog fs) dir name
    else fs_file (<[key := goblin_folder_after s d]> fs) dir name.
Proof.
  intros Hd' Hsame. rewrite !fs_file_insert.
  pose proof (sheet_script_agree fs (mk_is_Some _ _ Hd)) as [_ _ _ _ Hfr].
  cbn [sys_files] in Hfr. destruct (decide ((dir, name) ∈ written)) as [Hw|Hw].
  - apply written_outputs in Hw as (-> & _ & Hg & _).
    rewrite decide_True, lookup_goblin_folder_after by done. unfold fs_file.
    by rewrite Hd'.
  - destruct (decide (dir = key)) as [->|Hk]; [|by apply Hfr].
    apply goblin_folder_after_ext; [|by apply Hsame].
    intros k Hg. apply Hsame. intros (_ & _ & Hg' & _)%written_outputs.
    congruence.
Qed.

Lemma sheet_then_goblin_commute :
  files_after (goblin_py s path) (files_after prog fs) =
    files_after prog (files_after (goblin_py s path) fs).
Proof.
  destruct sheet_script_folder as (d' & Hd' & Hn' & Hsame).
  pose proof (sheet_script_agree fs (mk_is_Some _ _ Hd)) as [_ Hfs _ _ _].
  pose proof (sheet_script_agree (files_after (goblin_py s path) fs)) as Hag.
  rewrite path_view_goblin in Hag.
  rewrite (files_after_goblin_py s _ _ d' Hd' Hn').
  rewrite (files_after_goblin_py s _ fs d Hd Hn) in Hag |- *.
  destruct Hag as [_ Hfg _ Hdomg Hfrg]; [by rewrite lookup_insert_eq|].
  cbn [sys_files w_files] in Hfs, Hfg, Hdomg, Hfrg. apply fs_ext.
  - intros dir. rewrite Hdomg, (commute_folders d' dir Hd').
    destruct (decide (dir = key)) as [->|Hne].
    + rewrite lookup_insert_eq, Hd. split; by eexists.
    + by rewrite lookup_insert_ne.
  - intros dir name. rewrite (commute_file d' dir name Hd' Hsame).
    destruct (decide ((dir, name) ∈ written)) as [Hw|Hw];
      [|by rewrite (Hfrg dir name Hw)].
    apply written_outputs in Hw as (_ & _ & _ & p & Hp & Hr).
    specialize (Hfs p Hp). specialize (Hfg p Hp). unfold fs_lookup in Hfs, Hfg.
    rewrite Hr in Hfs, Hfg. cbn [fst snd] in Hfs, Hfg. congruence.
Qed.

End sheet_and_goblin.

(** The facts of [one_sprite_folder], path by path. *)
Lemma sheet_outputs_facts p :
  p ∈ sheet_outputs →
  (resolve p).1 = dir_key goblin_folder ∧ is_name (resolve p).2 ∧
  is_goblin_png (resolve p).2 = false.
Proof.
  destruct one_sprite_folder as (_ & _ & Hout & _).
  rewrite Forall_forall in Hout. apply Hout.
Qed.

Lemma sheet_paths_facts p :
  p ∈ sheet_paths →
  p ∈ sheet_outputs ∨ (resolve p).1 ≠ dir_key goblin_folder.
Proof.
  destruct one_sprite_folder as (_ & _ & _ & Hpaths).
  rewrite Forall_forall in Hpaths. apply Hpaths.
Qed.

(** C16. A goblin script and a sheet script leave the same file system
    in either order: the sheets are not in the sprite folder, and the
    frames saved into it are not goblin sprites. *)
Theorem sheet_and_goblin_scripts_commute s fs d :
  fs !! dir_key goblin_folder = Some d → names_wf d →
  Forall (λ prog,
            files_after (goblin_py s goblin_folder) (files_after prog fs) =
              files_after prog (files_after (goblin_py s goblin_folder) fs))
         [prepare_knight_sprites_py; crop_sprite_py].
Proof.
  intros Hd Hn. repeat constructor.
  - exact (sheet_then_goblin_commute _ _ _ _ _ prepare_knight_sprites_sim
             sheet_outputs_paths sheet_outputs_facts sheet_paths_facts
             s fs d Hd Hn).
  - exact (sheet_then_goblin_commute _ _ _ _ _ crop_sprite_sim
             sheet_outputs_paths sheet_outputs_facts sheet_paths_facts
             s fs d Hd Hn).
Qed.

Lemma sheet_and_goblin_scripts_commute_witness :
  Forall (λ prog,
            files_after (goblin_py crop_goblin_tight_script goblin_folder)
              (files_after prog sample_sheets_fs) =
              files_after prog
                (files_after (goblin_py crop_goblin_tight_script goblin_folder)
                   sample_sheets_fs))
         [prepare_knight_sprites_py; crop_sprite_py].
Proof.
  apply (sheet_and_goblin_scripts_commute crop_goblin_tight_script
           sample_sheets_fs sample_folder);
    apply (bool_decide_unpack _); by vm_compute.
Defined.

(** ** The footprint *)

(** C15. Each of the nine scripts writes its own files and no other,
    however it ends: started on a well-formed file system, it leaves a
    well-formed file system with the same folders, in which every file
    is the file that was there, but for the names goblin_... .png of
    the sprite folder after a goblin script, the names goblin_hurt_...
    of the sprite folder after a hurt script, and the five outputs in
    the sprite folder after a sheet script.  This holds also of a
    script that died of a missing folder, of a file that does not open
    or of a name that is not a number. *)
Theorem scripts_write_own_files fs :
  fs_wf fs →
  Forall (λ prog : py output unit, confined goblin_writes fs (files_after prog fs))
    [crop_goblin_tight_py; crop_goblin_sprites_py; align_goblin_bottom_py;
     resize_goblin_uniform_py; uniform_goblin_bottom_py] ∧
  Forall (λ prog : py hurt_line unit, confined hurt_writes fs (files_after prog fs))
    [extract_goblin_hurt_py; extract_goblin_hurt_full_py] ∧
  Forall (λ prog : py sheet_line unit, confined sheet_writes fs (files_after prog fs))
    [prepare_knight_sprites_py; crop_sprite_py].
Proof.
  intros Hfs. destruct (hurt_py_confined fs Hfs) as [Hh1 Hh2].
  destruct (sheet_py_confined fs Hfs) as [Hs1 Hs2].
  split_and!; repeat (apply List.Forall_cons); try apply List.Forall_nil;
    try done; (apply goblin_py_confined; [|done]); intros canvas; simpl; apply _.
Qed.

Lemma sample_fs_wf :
  fs_wf sample_fs ∧ fs_wf sample_hurt_fs ∧ fs_wf sample_sheets_fs.
Proof. split_and!; apply (bool_decide_unpack _); by vm_compute. Qed.

Lemma scripts_write_own_files_witness :
  confined goblin_writes sample_fs (files_after crop_goblin_tight_py sample_fs) ∧
  confined hurt_writes sample_hurt_fs
    (files_after extract_goblin_hurt_full_py sample_hurt_fs) ∧
  confined sheet_writes sample_sheets_fs
    (files_after crop_sprite_py sample_sheets_fs).
Proof.
  destruct sample_fs_wf as (Hfs & Hhurt & Hsheets).
  destruct (scripts_write_own_files sample_fs Hfs) as (Hg & _).
  destruct (scripts_write_own_files sample_hurt_fs Hhurt) as (_ & Hh & _).
  destruct (scripts_write_own_files sample_sheets_fs Hsheets) as (_ & _ & Hs).
  split_and!.
  - by apply Forall_cons in Hg as [Hg _].
  - by apply Forall_cons in Hh as [_ Hh]; apply Forall_cons in Hh as [Hh _].
  - by apply Forall_cons in Hs as [_ Hs]; apply Forall_cons in Hs as [Hs _].
Defined.
